(** * librdp: a shallow embedding of rdp.c and the properties checked on it

    The C code is embedded function by function.  Integers are [Z] with the
    wrap-around of their C type written out, one-bit fields are [bool],
    pointers to heap objects are [option] values ([None] is NULL), arrays
    are lists.  A failed [assert] aborts the program: functions that can
    reach one return an [outcome]. *)

From Stdlib Require Import ZArith Lia Bool List.
From stdpp Require Import base option list gmap.

Local Open Scope Z_scope.

(** ** Machine integers *)

Definition uint8_t (z : Z) : Z := z mod 2 ^ 8.
Definition uint16_t (z : Z) : Z := z mod 2 ^ 16.
Definition uint32_t (z : Z) : Z := z mod 2 ^ 32.
Definition uint64_t (z : Z) : Z := z mod 2 ^ 64.
Definition size_t (z : Z) : Z := z mod 2 ^ 64.
(** [unsigned int : 31] bit-field of [struct packetWrap]. *)
Definition uint31 (z : Z) : Z := z mod 2 ^ 31.
(** Conversions to signed types keep the low bits (two's complement). *)
Definition int16_t (z : Z) : Z := (z + 2 ^ 15) mod 2 ^ 16 - 2 ^ 15.
Definition int (z : Z) : Z := (z + 2 ^ 31) mod 2 ^ 32 - 2 ^ 31.

(** ** Constants of rdp.c *)

Definition RDP_QUEUE_SIZE_MAX : Z := 16 * 1024.
Definition RDP_BUFFER_SIZE_MAX : Z := 16 * 1024 * 1024.
Definition RDP_WINDOW_SIZE_MAX : Z := RDP_BUFFER_SIZE_MAX.
Definition RDP_WINDOW_SIZE_DEFAULT : Z := RDP_BUFFER_SIZE_MAX / 4.
Definition RDP_WINDOW_SHRINK_FACTOR : Z := 2.
Definition RDP_WINDOW_EXPAND_FACTOR : Z := 2.
Definition RDP_MAX_CONNS_PER_RDPSOCKET : Z := 1024.
Definition RDP_RETRANSMIT_TIMEOUT_MIN : Z := 200.
Definition RDP_RETRANSMIT_TIMEOUT_MAX : Z := 1000.
Definition RDP_RETRANSMIT_TIMEOUT_DEFAULT : Z := 500.
Definition RDP_KEEPALIVE_INTERVAL : Z := 29000.
Definition RDP_WAIT_SYN_RECV : Z := 10000.
Definition RDP_WAIT_FIN_SENT : Z := 10000.
Definition RDP_MAX_VEC : Z := 1024.
Definition RDP_ACK_NR_RECV_BEHIND_ALLOWED : Z := 10.
Definition SIXTEEN_MASK : Z := 0xFFFF.
Definition RDP_SEQ_NR_MASK : Z := SIXTEEN_MASK.
Definition RDP_ACK_NR_MASK : Z := SIXTEEN_MASK.

Definition ETHERNET_MTU : Z := 1500.
Definition IPV4_HEADER_SIZE : Z := 20.
Definition IPV6_HEADER_SIZE : Z := 40.
Definition UDP_HEADER_SIZE : Z := 8.
Definition GRE_HEADER_SIZE : Z := 24.
Definition PPPOE_HEADER_SIZE : Z := 8.
Definition MPPE_HEADER_SIZE : Z := 2.
Definition FUDGE_HEADER_SIZE : Z := 36.
Definition UDP_IPV4_MTU : Z :=
  ETHERNET_MTU - IPV4_HEADER_SIZE - UDP_HEADER_SIZE - GRE_HEADER_SIZE -
  PPPOE_HEADER_SIZE - MPPE_HEADER_SIZE - FUDGE_HEADER_SIZE.
Definition UDP_IPV6_MTU : Z :=
  ETHERNET_MTU - IPV6_HEADER_SIZE - UDP_HEADER_SIZE - GRE_HEADER_SIZE -
  PPPOE_HEADER_SIZE - MPPE_HEADER_SIZE - FUDGE_HEADER_SIZE.

Definition EINVAL : Z := 22.
Definition EAGAIN : Z := 11.

Inductive connState : Type :=
| CS_UNINITIALIZED
| CS_SYN_SENT
| CS_SYN_RECV
| CS_CONNECTED
| CS_CONNECTED_FULL
| CS_FIN_SENT
| CS_DESTROY.

Definition connState_eqb (a b : connState) : bool :=
  match a, b with
  | CS_UNINITIALIZED, CS_UNINITIALIZED
  | CS_SYN_SENT, CS_SYN_SENT
  | CS_SYN_RECV, CS_SYN_RECV
  | CS_CONNECTED, CS_CONNECTED
  | CS_CONNECTED_FULL, CS_CONNECTED_FULL
  | CS_FIN_SENT, CS_FIN_SENT
  | CS_DESTROY, CS_DESTROY => true
  | _, _ => false
  end.

Definition ST_DATA : Z := 0.
Definition ST_FIN : Z := 1.
Definition ST_STATE : Z := 2.
Definition ST_RESET : Z := 3.
Definition ST_SYN : Z := 4.

(** ** Outcomes: a call returns, dies on an [assert], or loops for ever *)

Inductive outcome (A : Type) : Type :=
| Done (a : A)
| AssertFailed
| OutOfFuel.
Arguments Done {A} a.
Arguments AssertFailed {A}.
Arguments OutOfFuel {A}.

#[global] Instance outcome_ret : MRet outcome := fun _ a => Done a.
#[global] Instance outcome_bind : MBind outcome := fun _ _ f m =>
  match m with
  | Done a => f a
  | AssertFailed => AssertFailed
  | OutOfFuel => OutOfFuel
  end.

(** [assert(e)] of <assert.h>. *)
Definition assert (b : bool) : outcome unit :=
  if b then Done tt else AssertFailed.

(** ** struct packet and its accessors *)

(** The fields [seqnr] and [acknr] carry a prefix here: the unprefixed
    names are those of [struct rdpConn]. *)
Record packet : Type := mkPacket {
  versionAndType : Z;
  reserve : Z;
  connId : Z;
  window : Z;
  p_seqnr : Z;
  p_acknr : Z
}.

(** sizeof(struct packet), packed: 1 + 1 + 2 + 4 + 2 + 2. *)
Definition sizeof_packet : Z := 12.
(** sizeof(struct packetWithSAck), packed: the header, next, len, mask[1]. *)
Definition sizeof_packetWithSAck : Z := sizeof_packet + 3.

Definition set_versionAndType (p : packet) (v : Z) : packet :=
  mkPacket v (reserve p) (connId p) (window p) (p_seqnr p) (p_acknr p).
Definition set_reserve (p : packet) (v : Z) : packet :=
  mkPacket (versionAndType p) v (connId p) (window p) (p_seqnr p) (p_acknr p).
Definition set_connId (p : packet) (v : Z) : packet :=
  mkPacket (versionAndType p) (reserve p) v (window p) (p_seqnr p) (p_acknr p).
Definition set_window (p : packet) (v : Z) : packet :=
  mkPacket (versionAndType p) (reserve p) (connId p) v (p_seqnr p) (p_acknr p).
Definition set_p_seqnr (p : packet) (v : Z) : packet :=
  mkPacket (versionAndType p) (reserve p) (connId p) (window p) v (p_acknr p).
Definition set_p_acknr (p : packet) (v : Z) : packet :=
  mkPacket (versionAndType p) (reserve p) (connId p) (window p) (p_seqnr p) v.

(** memset(p, 0, sizeof(struct packet)) *)
Definition packet_zero : packet := mkPacket 0 0 0 0 0 0.

Definition packetGetVersion (p : packet) : Z :=
  Z.land (versionAndType p) 0x0f.

Definition packetGetType (p : packet) : Z :=
  uint8_t (Z.shiftr (versionAndType p) 4).

Definition packetSetVersion (p : packet) (v : Z) : packet :=
  set_versionAndType p
    (uint8_t (Z.lor (Z.land (versionAndType p) 0xf0) (Z.land v 0x0f))).

Definition packetSetType (p : packet) (t : Z) : packet :=
  set_versionAndType p
    (uint8_t (Z.lor (Z.land (versionAndType p) 0x0f) (Z.shiftl t 4))).

(** ** size_t helpers *)

Definition max (a b : Z) : Z := if a <? b then b else a.
Definition min (a b : Z) : Z := if a <? b then a else b.

(** ** Ring buffer *)

Section Rbuffer.
Context {A : Type}.

(** [elements] is the calloc'ed array of [mask + 1] pointers. *)
Record rbuffer : Type := mkRbuffer {
  mask : Z;
  elements : list (option A)
}.

Definition rbufferInit : rbuffer :=
  mkRbuffer 63 (replicate 64 None).

(** The slot the index [i] (a size_t) selects. *)
Definition rbufferSlot (m : Z) (i : Z) : nat :=
  Z.to_nat (Z.land (size_t i) m).

Definition rbufferGet (buf : rbuffer) (i : Z) : option A :=
  match elements buf !! rbufferSlot (mask buf) i with
  | Some e => e
  | None => None
  end.

Definition rbufferPut (buf : rbuffer) (i : Z) (data : option A) : rbuffer :=
  mkRbuffer (mask buf) (<[rbufferSlot (mask buf) i := data]> (elements buf)).

(** do size *= 2; while (index >= size);  in size_t arithmetic.  Once
    [size] has wrapped to 0 it stays 0, so 65 rounds decide the loop. *)
Fixpoint rbufferGrowSize (fuel : nat) (size index : Z) : outcome Z :=
  match fuel with
  | O => OutOfFuel
  | S fuel' =>
      let size' := size_t (size * 2) in
      if index >=? size' then rbufferGrowSize fuel' size' index
      else Done size'
  end.

(** The first [n] rounds of the copy loop, i = 0 .. n - 1. *)
Fixpoint rbufferGrowCopy (buf : rbuffer) (item index newmask : Z)
    (n : nat) (newElements : list (option A)) : list (option A) :=
  match n with
  | O => newElements
  | S n' =>
      let i := Z.of_nat n' in
      <[rbufferSlot newmask (item - index + i) :=
          rbufferGet buf (item - index + i)]>
        (rbufferGrowCopy buf item index newmask n' newElements)
  end.

Definition rbufferGrow (buf : rbuffer) (item index : Z) : outcome rbuffer :=
  size ← rbufferGrowSize 65 (size_t (mask buf + 1)) index;
  let newElements := replicate (Z.to_nat size) None in
  let size := size_t (size - 1) in
  mret (mkRbuffer size
          (rbufferGrowCopy buf item index size
             (Z.to_nat (mask buf + 1)) newElements)).

Definition rbufferEnsureSize (buf : rbuffer) (item index : Z)
    : outcome rbuffer :=
  if index >? mask buf then rbufferGrow buf item index else mret buf.

(** The shape calloc and rbufferGrow give a buffer: [2 ^ k] slots. *)
Definition rbuffer_wf (buf : rbuffer) : Prop :=
  exists k : Z, 0 <= k /\ mask buf = 2 ^ k - 1 /\
    Z.of_nat (length (elements buf)) = 2 ^ k.

End Rbuffer.
Arguments rbuffer A : clear implicits.

(** ** struct packetWrap, struct rdpSocket, struct rdpConn *)

(** [data] is split in two: [pw_hdr] is the [struct packet] at data[0..12),
    [pw_body] the payload bytes behind it. *)
Record packetWrap : Type := mkPacketWrap {
  pw_payload : Z;
  pw_sentTime : Z;
  pw_transmissions : Z;
  pw_needResend : bool;
  pw_hdr : packet;
  pw_body : list Z
}.

Definition set_pw_payload (pw : packetWrap) (v : Z) : packetWrap :=
  mkPacketWrap v (pw_sentTime pw) (pw_transmissions pw) (pw_needResend pw)
    (pw_hdr pw) (pw_body pw).
Definition set_pw_sentTime (pw : packetWrap) (v : Z) : packetWrap :=
  mkPacketWrap (pw_payload pw) v (pw_transmissions pw) (pw_needResend pw)
    (pw_hdr pw) (pw_body pw).
Definition set_pw_transmissions (pw : packetWrap) (v : Z) : packetWrap :=
  mkPacketWrap (pw_payload pw) (pw_sentTime pw) v (pw_needResend pw)
    (pw_hdr pw) (pw_body pw).
Definition set_pw_needResend (pw : packetWrap) (v : bool) : packetWrap :=
  mkPacketWrap (pw_payload pw) (pw_sentTime pw) (pw_transmissions pw) v
    (pw_hdr pw) (pw_body pw).
Definition set_pw_hdr (pw : packetWrap) (v : packet) : packetWrap :=
  mkPacketWrap (pw_payload pw) (pw_sentTime pw) (pw_transmissions pw)
    (pw_needResend pw) v (pw_body pw).
Definition set_pw_body (pw : packetWrap) (v : list Z) : packetWrap :=
  mkPacketWrap (pw_payload pw) (pw_sentTime pw) (pw_transmissions pw)
    (pw_needResend pw) (pw_hdr pw) v.

(** A buffer handed to sendto(): the header and the bytes behind it. *)
Record datagram : Type := mkDatagram {
  dg_hdr : packet;
  dg_tail : list Z
}.

(** [conns] lists the registered connections, head first, by address. *)
Record rdpSocket : Type := mkRdpSocket {
  conns : list nat;
  mstime : Z;
  lastCheck : Z;
  sendBufferSize : Z;
  recvBufferSize : Z;
  nextCheckTimeout : Z;
  fd : Z;
  verbosity : Z
}.

Definition set_conns (s : rdpSocket) (v : list nat) : rdpSocket :=
  mkRdpSocket v (mstime s) (lastCheck s) (sendBufferSize s)
    (recvBufferSize s) (nextCheckTimeout s) (fd s) (verbosity s).
Definition set_mstime (s : rdpSocket) (v : Z) : rdpSocket :=
  mkRdpSocket (conns s) v (lastCheck s) (sendBufferSize s)
    (recvBufferSize s) (nextCheckTimeout s) (fd s) (verbosity s).
Definition set_nextCheckTimeout (s : rdpSocket) (v : Z) : rdpSocket :=
  mkRdpSocket (conns s) (mstime s) (lastCheck s) (sendBufferSize s)
    (recvBufferSize s) v (fd s) (verbosity s).

(** The [rdpSocket] back pointer of the C struct is not a field here: every
    function that follows it takes the socket as an argument.  A slot of
    [inbuf] holds the payload of a buffered packet (its length is the
    [uint] prefix of the C block), a slot of [outbuf] a [packetWrap]. *)
Record rdpConn : Type := mkRdpConn {
  inbuf : rbuffer (list Z);
  outbuf : rbuffer packetWrap;
  userData : Z;
  lastReceivedPacket : Z;
  lastSentPacket : Z;
  rtt : Z;
  rttVar : Z;
  nextRetransmitTimeout : Z;
  retransmitTimeout : Z;
  retransmitTicker : Z;
  state : connState;
  flightWindow : Z;
  flightWindowLimit : Z;
  recvWindowPeer : Z;
  recvWindowSelf : Z;
  oldestResent : Z;
  idSeed : Z;
  recvId : Z;
  sendId : Z;
  queue : Z;
  outOfOrderCnt : Z;
  seqnr : Z;
  acknr : Z;
  eofseqnr : Z;
  receivedFinCompleted : bool;
  receivedFin : bool;
  needSendAck : bool;
  addrlen : Z;
  addr : list Z
}.

Definition set_inbuf (c : rdpConn) (v : rbuffer (list Z)) : rdpConn :=
  mkRdpConn v (outbuf c) (userData c) (lastReceivedPacket c)
    (lastSentPacket c) (rtt c) (rttVar c) (nextRetransmitTimeout c)
    (retransmitTimeout c) (retransmitTicker c) (state c) (flightWindow c)
    (flightWindowLimit c) (recvWindowPeer c) (recvWindowSelf c)
    (oldestResent c) (idSeed c) (recvId c) (sendId c) (queue c)
    (outOfOrderCnt c) (seqnr c) (acknr c) (eofseqnr c)
    (receivedFinCompleted c) (receivedFin c) (needSendAck c) (addrlen c)
    (addr c).
Definition set_outbuf (c : rdpConn) (v : rbuffer packetWrap) : rdpConn :=
  mkRdpConn (inbuf c) v (userData c) (lastReceivedPacket c) (lastSentPacket c)
    (rtt c) (rttVar c) (nextRetransmitTimeout c) (retransmitTimeout c)
    (retransmitTicker c) (state c) (flightWindow c) (flightWindowLimit c)
    (recvWindowPeer c) (recvWindowSelf c) (oldestResent c) (idSeed c)
    (recvId c) (sendId c) (queue c) (outOfOrderCnt c) (seqnr c) (acknr c)
    (eofseqnr c) (receivedFinCompleted c) (receivedFin c) (needSendAck c)
    (addrlen c) (addr c).
Definition set_userData (c : rdpConn) (v : Z) : rdpConn :=
  mkRdpConn (inbuf c) (outbuf c) v (lastReceivedPacket c) (lastSentPacket c)
    (rtt c) (rttVar c) (nextRetransmitTimeout c) (retransmitTimeout c)
    (retransmitTicker c) (state c) (flightWindow c) (flightWindowLimit c)
    (recvWindowPeer c) (recvWindowSelf c) (oldestResent c) (idSeed c)
    (recvId c) (sendId c) (queue c) (outOfOrderCnt c) (seqnr c) (acknr c)
    (eofseqnr c) (receivedFinCompleted c) (receivedFin c) (needSendAck c)
    (addrlen c) (addr c).
Definition set_lastReceivedPacket (c : rdpConn) (v : Z) : rdpConn :=
  mkRdpConn (inbuf c) (outbuf c) (userData c) v (lastSentPacket c) (rtt c)
    (rttVar c) (nextRetransmitTimeout c) (retransmitTimeout c)
    (retransmitTicker c) (state c) (flightWindow c) (flightWindowLimit c)
    (recvWindowPeer c) (recvWindowSelf c) (oldestResent c) (idSeed c)
    (recvId c) (sendId c) (queue c) (outOfOrderCnt c) (seqnr c) (acknr c)
    (eofseqnr c) (receivedFinCompleted c) (receivedFin c) (needSendAck c)
    (addrlen c) (addr c).
Definition set_lastSentPacket (c : rdpConn) (v : Z) : rdpConn :=
  mkRdpConn (inbuf c) (outbuf c) (userData c) (lastReceivedPacket c) v (rtt c)
    (rttVar c) (nextRetransmitTimeout c) (retransmitTimeout c)
    (retransmitTicker c) (state c) (flightWindow c) (flightWindowLimit c)
    (recvWindowPeer c) (recvWindowSelf c) (oldestResent c) (idSeed c)
    (recvId c) (sendId c) (queue c) (outOfOrderCnt c) (seqnr c) (acknr c)
    (eofseqnr c) (receivedFinCompleted c) (receivedFin c) (needSendAck c)
    (addrlen c) (addr c).
Definition set_rtt (c : rdpConn) (v : Z) : rdpConn :=
  mkRdpConn (inbuf c) (outbuf c) (userData c) (lastReceivedPacket c)
    (lastSentPacket c) v (rttVar c) (nextRetransmitTimeout c)
    (retransmitTimeout c) (retransmitTicker c) (state c) (flightWindow c)
    (flightWindowLimit c) (recvWindowPeer c) (recvWindowSelf c)
    (oldestResent c) (idSeed c) (recvId c) (sendId c) (queue c)
    (outOfOrderCnt c) (seqnr c) (acknr c) (eofseqnr c)
    (receivedFinCompleted c) (receivedFin c) (needSendAck c) (addrlen c)
    (addr c).
Definition set_rttVar (c : rdpConn) (v : Z) : rdpConn :=
  mkRdpConn (inbuf c) (outbuf c) (userData c) (lastReceivedPacket c)
    (lastSentPacket c) (rtt c) v (nextRetransmitTimeout c)
    (retransmitTimeout c) (retransmitTicker c) (state c) (flightWindow c)
    (flightWindowLimit c) (recvWindowPeer c) (recvWindowSelf c)
    (oldestResent c) (idSeed c) (recvId c) (sendId c) (queue c)
    (outOfOrderCnt c) (seqnr c) (acknr c) (eofseqnr c)
    (receivedFinCompleted c) (receivedFin c) (needSendAck c) (addrlen c)
    (addr c).
Definition set_nextRetransmitTimeout (c : rdpConn) (v : Z) : rdpConn :=
  mkRdpConn (inbuf c) (outbuf c) (userData c) (lastReceivedPacket c)
    (lastSentPacket c) (rtt c) (rttVar c) v (retransmitTimeout c)
    (retransmitTicker c) (state c) (flightWindow c) (flightWindowLimit c)
    (recvWindowPeer c) (recvWindowSelf c) (oldestResent c) (idSeed c)
    (recvId c) (sendId c) (queue c) (outOfOrderCnt c) (seqnr c) (acknr c)
    (eofseqnr c) (receivedFinCompleted c) (receivedFin c) (needSendAck c)
    (addrlen c) (addr c).
Definition set_retransmitTimeout (c : rdpConn) (v : Z) : rdpConn :=
  mkRdpConn (inbuf c) (outbuf c) (userData c) (lastReceivedPacket c)
    (lastSentPacket c) (rtt c) (rttVar c) (nextRetransmitTimeout c) v
    (retransmitTicker c) (state c) (flightWindow c) (flightWindowLimit c)
    (recvWindowPeer c) (recvWindowSelf c) (oldestResent c) (idSeed c)
    (recvId c) (sendId c) (queue c) (outOfOrderCnt c) (seqnr c) (acknr c)
    (eofseqnr c) (receivedFinCompleted c) (receivedFin c) (needSendAck c)
    (addrlen c) (addr c).
Definition set_retransmitTicker (c : rdpConn) (v : Z) : rdpConn :=
  mkRdpConn (inbuf c) (outbuf c) (userData c) (lastReceivedPacket c)
    (lastSentPacket c) (rtt c) (rttVar c) (nextRetransmitTimeout c)
    (retransmitTimeout c) v (state c) (flightWindow c) (flightWindowLimit c)
    (recvWindowPeer c) (recvWindowSelf c) (oldestResent c) (idSeed c)
    (recvId c) (sendId c) (queue c) (outOfOrderCnt c) (seqnr c) (acknr c)
    (eofseqnr c) (receivedFinCompleted c) (receivedFin c) (needSendAck c)
    (addrlen c) (addr c).
Definition set_state (c : rdpConn) (v : connState) : rdpConn :=
  mkRdpConn (inbuf c) (outbuf c) (userData c) (lastReceivedPacket c)
    (lastSentPacket c) (rtt c) (rttVar c) (nextRetransmitTimeout c)
    (retransmitTimeout c) (retransmitTicker c) v (flightWindow c)
    (flightWindowLimit c) (recvWindowPeer c) (recvWindowSelf c)
    (oldestResent c) (idSeed c) (recvId c) (sendId c) (queue c)
    (outOfOrderCnt c) (seqnr c) (acknr c) (eofseqnr c)
    (receivedFinCompleted c) (receivedFin c) (needSendAck c) (addrlen c)
    (addr c).
Definition set_flightWindow (c : rdpConn) (v : Z) : rdpConn :=
  mkRdpConn (inbuf c) (outbuf c) (userData c) (lastReceivedPacket c)
    (lastSentPacket c) (rtt c) (rttVar c) (nextRetransmitTimeout c)
    (retransmitTimeout c) (retransmitTicker c) (state c) v
    (flightWindowLimit c) (recvWindowPeer c) (recvWindowSelf c)
    (oldestResent c) (idSeed c) (recvId c) (sendId c) (queue c)
    (outOfOrderCnt c) (seqnr c) (acknr c) (eofseqnr c)
    (receivedFinCompleted c) (receivedFin c) (needSendAck c) (addrlen c)
    (addr c).
Definition set_flightWindowLimit (c : rdpConn) (v : Z) : rdpConn :=
  mkRdpConn (inbuf c) (outbuf c) (userData c) (lastReceivedPacket c)
    (lastSentPacket c) (rtt c) (rttVar c) (nextRetransmitTimeout c)
    (retransmitTimeout c) (retransmitTicker c) (state c) (flightWindow c) v
    (recvWindowPeer c) (recvWindowSelf c) (oldestResent c) (idSeed c)
    (recvId c) (sendId c) (queue c) (outOfOrderCnt c) (seqnr c) (acknr c)
    (eofseqnr c) (receivedFinCompleted c) (receivedFin c) (needSendAck c)
    (addrlen c) (addr c).
Definition set_recvWindowPeer (c : rdpConn) (v : Z) : rdpConn :=
  mkRdpConn (inbuf c) (outbuf c) (userData c) (lastReceivedPacket c)
    (lastSentPacket c) (rtt c) (rttVar c) (nextRetransmitTimeout c)
    (retransmitTimeout c) (retransmitTicker c) (state c) (flightWindow c)
    (flightWindowLimit c) v (recvWindowSelf c) (oldestResent c) (idSeed c)
    (recvId c) (sendId c) (queue c) (outOfOrderCnt c) (seqnr c) (acknr c)
    (eofseqnr c) (receivedFinCompleted c) (receivedFin c) (needSendAck c)
    (addrlen c) (addr c).
Definition set_recvWindowSelf (c : rdpConn) (v : Z) : rdpConn :=
  mkRdpConn (inbuf c) (outbuf c) (userData c) (lastReceivedPacket c)
    (lastSentPacket c) (rtt c) (rttVar c) (nextRetransmitTimeout c)
    (retransmitTimeout c) (retransmitTicker c) (state c) (flightWindow c)
    (flightWindowLimit c) (recvWindowPeer c) v (oldestResent c) (idSeed c)
    (recvId c) (sendId c) (queue c) (outOfOrderCnt c) (seqnr c) (acknr c)
    (eofseqnr c) (receivedFinCompleted c) (receivedFin c) (needSendAck c)
    (addrlen c) (addr c).
Definition set_oldestResent (c : rdpConn) (v : Z) : rdpConn :=
  mkRdpConn (inbuf c) (outbuf c) (userData c) (lastReceivedPacket c)
    (lastSentPacket c) (rtt c) (rttVar c) (nextRetransmitTimeout c)
    (retransmitTimeout c) (retransmitTicker c) (state c) (flightWindow c)
    (flightWindowLimit c) (recvWindowPeer c) (recvWindowSelf c) v (idSeed c)
    (recvId c) (sendId c) (queue c) (outOfOrderCnt c) (seqnr c) (acknr c)
    (eofseqnr c) (receivedFinCompleted c) (receivedFin c) (needSendAck c)
    (addrlen c) (addr c).
Definition set_idSeed (c : rdpConn) (v : Z) : rdpConn :=
  mkRdpConn (inbuf c) (outbuf c) (userData c) (lastReceivedPacket c)
    (lastSentPacket c) (rtt c) (rttVar c) (nextRetransmitTimeout c)
    (retransmitTimeout c) (retransmitTicker c) (state c) (flightWindow c)
    (flightWindowLimit c) (recvWindowPeer c) (recvWindowSelf c)
    (oldestResent c) v (recvId c) (sendId c) (queue c) (outOfOrderCnt c)
    (seqnr c) (acknr c) (eofseqnr c) (receivedFinCompleted c) (receivedFin c)
    (needSendAck c) (addrlen c) (addr c).
Definition set_recvId (c : rdpConn) (v : Z) : rdpConn :=
  mkRdpConn (inbuf c) (outbuf c) (userData c) (lastReceivedPacket c)
    (lastSentPacket c) (rtt c) (rttVar c) (nextRetransmitTimeout c)
    (retransmitTimeout c) (retransmitTicker c) (state c) (flightWindow c)
    (flightWindowLimit c) (recvWindowPeer c) (recvWindowSelf c)
    (oldestResent c) (idSeed c) v (sendId c) (queue c) (outOfOrderCnt c)
    (seqnr c) (acknr c) (eofseqnr c) (receivedFinCompleted c) (receivedFin c)
    (needSendAck c) (addrlen c) (addr c).
Definition set_sendId (c : rdpConn) (v : Z) : rdpConn :=
  mkRdpConn (inbuf c) (outbuf c) (userData c) (lastReceivedPacket c)
    (lastSentPacket c) (rtt c) (rttVar c) (nextRetransmitTimeout c)
    (retransmitTimeout c) (retransmitTicker c) (state c) (flightWindow c)
    (flightWindowLimit c) (recvWindowPeer c) (recvWindowSelf c)
    (oldestResent c) (idSeed c) (recvId c) v (queue c) (outOfOrderCnt c)
    (seqnr c) (acknr c) (eofseqnr c) (receivedFinCompleted c) (receivedFin c)
    (needSendAck c) (addrlen c) (addr c).
Definition set_queue (c : rdpConn) (v : Z) : rdpConn :=
  mkRdpConn (inbuf c) (outbuf c) (userData c) (lastReceivedPacket c)
    (lastSentPacket c) (rtt c) (rttVar c) (nextRetransmitTimeout c)
    (retransmitTimeout c) (retransmitTicker c) (state c) (flightWindow c)
    (flightWindowLimit c) (recvWindowPeer c) (recvWindowSelf c)
    (oldestResent c) (idSeed c) (recvId c) (sendId c) v (outOfOrderCnt c)
    (seqnr c) (acknr c) (eofseqnr c) (receivedFinCompleted c) (receivedFin c)
    (needSendAck c) (addrlen c) (addr c).
Definition set_outOfOrderCnt (c : rdpConn) (v : Z) : rdpConn :=
  mkRdpConn (inbuf c) (outbuf c) (userData c) (lastReceivedPacket c)
    (lastSentPacket c) (rtt c) (rttVar c) (nextRetransmitTimeout c)
    (retransmitTimeout c) (retransmitTicker c) (state c) (flightWindow c)
    (flightWindowLimit c) (recvWindowPeer c) (recvWindowSelf c)
    (oldestResent c) (idSeed c) (recvId c) (sendId c) (queue c) v (seqnr c)
    (acknr c) (eofseqnr c) (receivedFinCompleted c) (receivedFin c)
    (needSendAck c) (addrlen c) (addr c).
Definition set_seqnr (c : rdpConn) (v : Z) : rdpConn :=
  mkRdpConn (inbuf c) (outbuf c) (userData c) (lastReceivedPacket c)
    (lastSentPacket c) (rtt c) (rttVar c) (nextRetransmitTimeout c)
    (retransmitTimeout c) (retransmitTicker c) (state c) (flightWindow c)
    (flightWindowLimit c) (recvWindowPeer c) (recvWindowSelf c)
    (oldestResent c) (idSeed c) (recvId c) (sendId c) (queue c)
    (outOfOrderCnt c) v (acknr c) (eofseqnr c) (receivedFinCompleted c)
    (receivedFin c) (needSendAck c) (addrlen c) (addr c).
Definition set_acknr (c : rdpConn) (v : Z) : rdpConn :=
  mkRdpConn (inbuf c) (outbuf c) (userData c) (lastReceivedPacket c)
    (lastSentPacket c) (rtt c) (rttVar c) (nextRetransmitTimeout c)
    (retransmitTimeout c) (retransmitTicker c) (state c) (flightWindow c)
    (flightWindowLimit c) (recvWindowPeer c) (recvWindowSelf c)
    (oldestResent c) (idSeed c) (recvId c) (sendId c) (queue c)
    (outOfOrderCnt c) (seqnr c) v (eofseqnr c) (receivedFinCompleted c)
    (receivedFin c) (needSendAck c) (addrlen c) (addr c).
Definition set_eofseqnr (c : rdpConn) (v : Z) : rdpConn :=
  mkRdpConn (inbuf c) (outbuf c) (userData c) (lastReceivedPacket c)
    (lastSentPacket c) (rtt c) (rttVar c) (nextRetransmitTimeout c)
    (retransmitTimeout c) (retransmitTicker c) (state c) (flightWindow c)
    (flightWindowLimit c) (recvWindowPeer c) (recvWindowSelf c)
    (oldestResent c) (idSeed c) (recvId c) (sendId c) (queue c)
    (outOfOrderCnt c) (seqnr c) (acknr c) v (receivedFinCompleted c)
    (receivedFin c) (needSendAck c) (addrlen c) (addr c).
Definition set_receivedFinCompleted (c : rdpConn) (v : bool) : rdpConn :=
  mkRdpConn (inbuf c) (outbuf c) (userData c) (lastReceivedPacket c)
    (lastSentPacket c) (rtt c) (rttVar c) (nextRetransmitTimeout c)
    (retransmitTimeout c) (retransmitTicker c) (state c) (flightWindow c)
    (flightWindowLimit c) (recvWindowPeer c) (recvWindowSelf c)
    (oldestResent c) (idSeed c) (recvId c) (sendId c) (queue c)
    (outOfOrderCnt c) (seqnr c) (acknr c) (eofseqnr c) v (receivedFin c)
    (needSendAck c) (addrlen c) (addr c).
Definition set_receivedFin (c : rdpConn) (v : bool) : rdpConn :=
  mkRdpConn (inbuf c) (outbuf c) (userData c) (lastReceivedPacket c)
    (lastSentPacket c) (rtt c) (rttVar c) (nextRetransmitTimeout c)
    (retransmitTimeout c) (retransmitTicker c) (state c) (flightWindow c)
    (flightWindowLimit c) (recvWindowPeer c) (recvWindowSelf c)
    (oldestResent c) (idSeed c) (recvId c) (sendId c) (queue c)
    (outOfOrderCnt c) (seqnr c) (acknr c) (eofseqnr c)
    (receivedFinCompleted c) v (needSendAck c) (addrlen c) (addr c).
Definition set_needSendAck (c : rdpConn) (v : bool) : rdpConn :=
  mkRdpConn (inbuf c) (outbuf c) (userData c) (lastReceivedPacket c)
    (lastSentPacket c) (rtt c) (rttVar c) (nextRetransmitTimeout c)
    (retransmitTimeout c) (retransmitTicker c) (state c) (flightWindow c)
    (flightWindowLimit c) (recvWindowPeer c) (recvWindowSelf c)
    (oldestResent c) (idSeed c) (recvId c) (sendId c) (queue c)
    (outOfOrderCnt c) (seqnr c) (acknr c) (eofseqnr c)
    (receivedFinCompleted c) (receivedFin c) v (addrlen c) (addr c).
Definition set_addrlen (c : rdpConn) (v : Z) : rdpConn :=
  mkRdpConn (inbuf c) (outbuf c) (userData c) (lastReceivedPacket c)
    (lastSentPacket c) (rtt c) (rttVar c) (nextRetransmitTimeout c)
    (retransmitTimeout c) (retransmitTicker c) (state c) (flightWindow c)
    (flightWindowLimit c) (recvWindowPeer c) (recvWindowSelf c)
    (oldestResent c) (idSeed c) (recvId c) (sendId c) (queue c)
    (outOfOrderCnt c) (seqnr c) (acknr c) (eofseqnr c)
    (receivedFinCompleted c) (receivedFin c) (needSendAck c) v (addr c).
Definition set_addr (c : rdpConn) (v : list Z) : rdpConn :=
  mkRdpConn (inbuf c) (outbuf c) (userData c) (lastReceivedPacket c)
    (lastSentPacket c) (rtt c) (rttVar c) (nextRetransmitTimeout c)
    (retransmitTimeout c) (retransmitTicker c) (state c) (flightWindow c)
    (flightWindowLimit c) (recvWindowPeer c) (recvWindowSelf c)
    (oldestResent c) (idSeed c) (recvId c) (sendId c) (queue c)
    (outOfOrderCnt c) (seqnr c) (acknr c) (eofseqnr c)
    (receivedFinCompleted c) (receivedFin c) (needSendAck c) (addrlen c) v.

(** ** Sizes and limits *)

Definition getUdpMtu : Z := UDP_IPV4_MTU.

Definition getPacketHeaderSize : Z := sizeof_packet.

Definition getPacketWithSAckHeaderSize : Z := sizeof_packetWithSAck.

Definition getMaxPacketPayloadSize : Z :=
  size_t (getUdpMtu - getPacketHeaderSize).

Definition limitedRetransmitTimeout (t : Z) : Z :=
  if t >? 0 then
    uint32_t (min RDP_RETRANSMIT_TIMEOUT_MAX (max RDP_RETRANSMIT_TIMEOUT_MIN t))
  else RDP_RETRANSMIT_TIMEOUT_DEFAULT.

Definition limitedWindow (t : Z) : Z :=
  if t >? 0 then
    uint32_t (min RDP_WINDOW_SIZE_MAX (max getMaxPacketPayloadSize t))
  else RDP_WINDOW_SIZE_DEFAULT.

(** ** Sending *)

(** sendData: stamps [lastSentPacket]; the datagram goes to sendto(), whose
    result no caller in this file looks at. *)
Definition sendData (s : rdpSocket) (c : rdpConn) (buf : datagram)
    : rdpConn * list datagram :=
  (set_lastSentPacket c (mstime s), [buf]).

(** sendPacketWrap works on the object [pw] points to: it returns the
    updated [packetWrap], which the caller keeps where the pointer lives. *)
Definition sendPacketWrap (s : rdpSocket) (c : rdpConn) (pw : packetWrap)
    : outcome (rdpConn * packetWrap * list datagram) :=
  _ ← assert ((pw_transmissions pw =? 0) || pw_needResend pw);
  let c := set_flightWindow c (uint32_t (flightWindow c + pw_payload pw)) in
  let pw := set_pw_needResend pw false in
  let pw := set_pw_hdr pw (set_p_acknr (pw_hdr pw) (acknr c)) in
  let pw := set_pw_sentTime pw (mstime s) in
  let pw := set_pw_transmissions pw (uint31 (pw_transmissions pw + 1)) in
  let '(c, out) :=
    sendData s c
      (mkDatagram (pw_hdr pw) (take (Z.to_nat (pw_payload pw)) (pw_body pw))) in
  mret (c, pw, out).

(** sixteenAfter(a, b): both parameters are uint16_t. *)
Definition sixteenAfter (a b : Z) : bool :=
  int16_t (int16_t (uint16_t a) - int16_t (uint16_t b)) <? 0.

Definition rdpConnFlightWindowFull (c : rdpConn) : bool :=
  uint32_t (flightWindow c + uint32_t getMaxPacketPayloadSize) >?
  uint32_t (min (flightWindowLimit c) (recvWindowPeer c)).

(** ackPacket(c, i): [i] is a uint16_t parameter. *)
Definition ackPacket (s : rdpSocket) (c : rdpConn) (i : Z)
    : outcome (rdpConn * Z) :=
  let i := uint16_t i in
  match rbufferGet (outbuf c) i with
  | None => mret (c, -1)
  | Some pw =>
      if pw_transmissions pw =? 0 then mret (c, -1)
      else
        let c := set_outbuf c (rbufferPut (outbuf c) i None) in
        let c :=
          if pw_transmissions pw =? 1 then
            let packetRtt := uint32_t (uint64_t (mstime s - pw_sentTime pw)) in
            let c :=
              if rtt c =? 0 then
                let c := set_rtt c packetRtt in
                set_rttVar c (packetRtt / 2)
              else
                let c :=
                  set_rttVar c
                    (uint32_t
                       (rttVar c +
                        Z.quot
                          (int (int (Z.abs (int (int (rtt c) - int packetRtt)))
                                - int (rttVar c)))
                          4)) in
                set_rtt c
                  (uint32_t
                     (rtt c + Z.quot (int (int packetRtt - int (rtt c))) 8)) in
            set_nextRetransmitTimeout c
              (limitedRetransmitTimeout (uint32_t (rtt c + rttVar c * 4)))
          else c in
        c ← (if negb (pw_needResend pw) then
               _ ← assert (flightWindow c >=? pw_payload pw);
               mret (set_flightWindow c
                       (uint32_t (flightWindow c - pw_payload pw)))
             else mret c);
        mret (c, 0)
  end.

(** ** Acknowledgements going out *)

(** The inner loop of sendAck, rounds i = 0 .. n - 1:
    if (rbufferGet(&c->inbuf, c->acknr + i + 2 + group * 32)) m |= 1 << i; *)
Fixpoint sendAckGroup (c : rdpConn) (group : Z) (n : nat) : Z :=
  match n with
  | O => 0
  | S n' =>
      let i := Z.of_nat n' in
      let m := sendAckGroup c group n' in
      match rbufferGet (inbuf c) (acknr c + i + 2 + group * 32) with
      | Some _ => Z.lor m (uint32_t (Z.shiftl 1 i))
      | None => m
      end
  end.

(** The outer loop of sendAck: the mask bytes it writes, four a group.
    for (group = 0; group < sackSize / 4 && len > 0; len -= 32, group++) *)
Fixpoint sendAckMask (c : rdpConn) (groups : nat) (group len : Z) : list Z :=
  match groups with
  | O => []
  | S groups' =>
      if len >? 0 then
        let m := sendAckGroup c group (Z.to_nat (min 32 len)) in
        [uint8_t m; uint8_t (Z.shiftr m 8); uint8_t (Z.shiftr m 16);
         uint8_t (Z.shiftr m 24)]
        ++ sendAckMask c groups' (group + 1) (size_t (len - 32))
      else []
  end.

Definition sendAck (s : rdpSocket) (c : rdpConn)
    : outcome (rdpConn * list datagram) :=
  '(p, tail) ←
    (if negb (outOfOrderCnt c =? 0) && negb (connState_eqb (state c) CS_SYN_RECV)
        && negb (receivedFinCompleted c) then
       let sackSize :=
         outOfOrderCnt c / 8 + 1 + 3 - ((outOfOrderCnt c / 8 + 1 + 3) mod 4) in
       _ ← assert (match rbufferGet (inbuf c) (acknr c + 1) with
                   | None => true
                   | Some _ => false
                   end);
       let p := set_reserve packet_zero 1 in
       let len := min (sackSize * 8) (mask (inbuf c)) in
       let written := sendAckMask c (Z.to_nat (sackSize / 4)) 0 len in
       let msk :=
         written ++ replicate (Z.to_nat sackSize - length written)%nat 0 in
       mret (p, [0; uint8_t sackSize] ++ msk)
     else
       mret (set_reserve packet_zero 0, []));
  let p := packetSetVersion p 1 in
  let p := packetSetType p ST_STATE in
  let p := set_connId p (sendId c) in
  let p := set_p_acknr p (acknr c) in
  let p := set_p_seqnr p (seqnr c) in
  let p := set_window p (recvWindowSelf c) in
  let '(c, out) := sendData s c (mkDatagram p tail) in
  let c := set_needSendAck c false in
  mret (c, out).

(** Use ack packet as keep alive probe. *)
Definition rdpConnKeepAlive (s : rdpSocket) (c : rdpConn)
    : outcome (rdpConn * list datagram) :=
  let c := set_acknr c (uint16_t (acknr c - 1)) in
  '(c, out) ← sendAck s c;
  let c := set_acknr c (uint16_t (acknr c + 1)) in
  mret (c, out).

(** ** The send queue *)

(** for (uint16_t i = c->seqnr - c->queue; i != c->seqnr; i++): [n] rounds
    are left, [i] is the current index.  The result is -1 when the window
    filled up. *)
Fixpoint rdpConnFlushPacketsLoop (s : rdpSocket) (n : nat) (i : Z)
    (c : rdpConn) (out : list datagram)
    : outcome (rdpConn * list datagram * Z) :=
  match n with
  | O => mret (c, out, 0)
  | S n' =>
      match rbufferGet (outbuf c) i with
      | None => rdpConnFlushPacketsLoop s n' (uint16_t (i + 1)) c out
      | Some pw =>
          if (pw_transmissions pw >? 0) && negb (pw_needResend pw) then
            rdpConnFlushPacketsLoop s n' (uint16_t (i + 1)) c out
          else if rdpConnFlightWindowFull c then mret (c, out, -1)
          else
            '(c, pw, o) ← sendPacketWrap s c pw;
            let c := set_outbuf c (rbufferPut (outbuf c) i (Some pw)) in
            rdpConnFlushPacketsLoop s n' (uint16_t (i + 1)) c (out ++ o)
      end
  end.

(** The number of rounds of a loop that counts a uint16_t up from
    [seqnr - queue] until it equals [seqnr]. *)
Definition queueRounds (c : rdpConn) : nat :=
  Z.to_nat (uint16_t (seqnr c - uint16_t (seqnr c - queue c))).

Definition rdpConnFlushPackets (s : rdpSocket) (c : rdpConn)
    : outcome (rdpConn * list datagram * Z) :=
  rdpConnFlushPacketsLoop s (queueRounds c) (uint16_t (seqnr c - queue c)) c [].

(** An entry of a [struct rdpVec] array: the [len] bytes at [base]. *)
Definition rdpVec : Type := list Z.

Definition vec_len (v : rdpVec) : Z := Z.of_nat (length v).

(** The copy loop of buildSendPacket:
    for (i = 0; i < vecCnt && needed; i++).  Returns the bytes copied, the
    array with its entries advanced, and what is still needed. *)
Fixpoint buildSendPacketCopy (vec : list rdpVec) (needed : Z)
    : list Z * list rdpVec * Z :=
  match vec with
  | [] => ([], [], needed)
  | v :: rest =>
      if needed =? 0 then ([], vec, needed)
      else if vec_len v =? 0 then
        let '(bytes, rest', needed') := buildSendPacketCopy rest needed in
        (bytes, v :: rest', needed')
      else
        let num := min needed (vec_len v) in
        let '(bytes, rest', needed') :=
          buildSendPacketCopy rest (needed - num) in
        (take (Z.to_nat num) v ++ bytes, drop (Z.to_nat num) v :: rest',
         needed')
  end.

(** The do-while loop of buildSendPacket.  A packetWrap fresh from malloc
    is taken as zeroed: every field of it that is read was written before. *)
Fixpoint buildSendPacketLoop (fuel : nat) (c : rdpConn) (payload type : Z)
    (vec : list rdpVec) : outcome (rdpConn * list rdpVec) :=
  match fuel with
  | O => OutOfFuel
  | S fuel' =>
      _ ← assert (queue c <? RDP_QUEUE_SIZE_MAX);
      let maxPacketPayloadSize := getMaxPacketPayloadSize in
      let pw :=
        if queue c >? 0 then rbufferGet (outbuf c) (seqnr c - 1) else None in
      let '(pw, roundPayload, appendQueue, c) :=
        match pw with
        | Some pw0 =>
            if negb (payload =? 0) && (pw_transmissions pw0 =? 0)
               && (pw_payload pw0 <? maxPacketPayloadSize) then
              (pw0,
               size_t (min (size_t (payload + pw_payload pw0))
                         maxPacketPayloadSize - pw_payload pw0),
               false, c)
            else
              (mkPacketWrap 0 0 0 false packet_zero [], payload, true, c)
        | None => (mkPacketWrap 0 0 0 false packet_zero [], payload, true, c)
        end in
      '(pw, vec) ←
        (if negb (roundPayload =? 0) then
           _ ← assert (type =? ST_DATA);
           let '(bytes, vec', needed) :=
             buildSendPacketCopy vec roundPayload in
           _ ← assert (needed =? 0);
           mret (set_pw_body pw
                   (take (Z.to_nat (pw_payload pw)) (pw_body pw) ++ bytes),
                 vec')
         else mret (pw, vec));
      let pw := set_pw_payload pw (size_t (pw_payload pw + roundPayload)) in
      let p := pw_hdr pw in
      let p := packetSetVersion p 1 in
      let p := packetSetType p type in
      let p := set_reserve p 0 in
      let p := set_connId p (sendId c) in
      let p := set_window p (recvWindowSelf c) in
      let p := set_p_acknr p (acknr c) in
      c ←
        (if appendQueue then
           ob ← rbufferEnsureSize (outbuf c) (seqnr c) (queue c);
           let p := set_p_seqnr p (seqnr c) in
           let ob := rbufferPut ob (seqnr c) (Some (set_pw_hdr pw p)) in
           let c := set_outbuf c ob in
           let c := set_seqnr c (uint16_t (seqnr c + 1)) in
           mret (set_queue c (uint16_t (queue c + 1)))
         else
           mret (set_outbuf c
                   (rbufferPut (outbuf c) (seqnr c - 1)
                      (Some (set_pw_hdr pw p)))));
      let payload := size_t (payload - roundPayload) in
      if negb (payload =? 0) then buildSendPacketLoop fuel' c payload type vec
      else mret (c, vec)
  end.

(** The loop runs while [payload] is not zero, and every round that does
    not end it takes at least one byte off: [payload + 1] rounds suffice. *)
Definition buildSendPacket (c : rdpConn) (payload type : Z)
    (vec : list rdpVec) : outcome (rdpConn * list rdpVec) :=
  _ ← assert ((queue c >? 0) || ((queue c =? 0) && (flightWindow c =? 0)));
  let maxPacketPayloadSize := getMaxPacketPayloadSize in
  _ ← assert (payload <=? maxPacketPayloadSize);
  buildSendPacketLoop (S (Z.to_nat payload)) c payload type vec.

(** ** rdpWriteVec *)

(** What a call of rdpWriteVec leaves behind: its return value, errno when
    it was set, the socket, the connection, the array and the datagrams
    handed to sendto(), oldest first. *)
Record writeResult : Type := mkWriteResult {
  wr_ret : Z;
  wr_errno : option Z;
  wr_sock : rdpSocket;
  wr_conn : option rdpConn;
  wr_vec : option (list rdpVec);
  wr_out : list datagram
}.

(** for (i = 0; i < vecCnt; i++) total += vec[i].len; *)
Definition vecTotal (vec : list rdpVec) : Z :=
  foldl (fun total v => total + vec_len v) 0 vec.

(** The while loop of rdpWriteVec; [validSend] is its value on entry of
    the round.  Returns the connection, the array, [total] and [sent]. *)
Fixpoint rdpWriteVecLoop (fuel : nat) (c : rdpConn) (vec : list rdpVec)
    (total sent validSend : Z) : outcome (rdpConn * list rdpVec * Z * Z) :=
  match fuel with
  | O => OutOfFuel
  | S fuel' =>
      if queue c <? RDP_QUEUE_SIZE_MAX - 1 then
        let total := size_t (total - validSend) in
        let sent := size_t (sent + validSend) in
        '(c, vec) ← buildSendPacket c validSend ST_DATA vec;
        let validSend := min total getMaxPacketPayloadSize in
        if validSend =? 0 then mret (c, vec, total, sent)
        else rdpWriteVecLoop fuel' c vec total sent validSend
      else mret (c, vec, total, sent)
  end.

(** [now] is what mstime() returns during the call.  Every round of the
    loop but the first takes at least one byte off [total]. *)
Definition rdpWriteVec (s : rdpSocket) (c : option rdpConn)
    (vec : option (list rdpVec)) (now : Z) : outcome writeResult :=
  match c with
  | None => mret (mkWriteResult (-1) (Some EINVAL) s c vec [])
  | Some c0 =>
  match vec with
  | None => mret (mkWriteResult (-1) (Some EINVAL) s c vec [])
  | Some vec0 =>
      let vecCnt := Z.of_nat (length vec0) in
      if vecCnt =? 0 then mret (mkWriteResult (-1) (Some EINVAL) s c vec [])
      else if vecCnt >? RDP_MAX_VEC then
        mret (mkWriteResult (-1) (Some EINVAL) s c vec [])
      else
        match state c0 with
        | CS_UNINITIALIZED | CS_SYN_RECV | CS_DESTROY | CS_FIN_SENT =>
            mret (mkWriteResult (-1) (Some EINVAL) s c vec [])
        | CS_SYN_SENT | CS_CONNECTED_FULL =>
            mret (mkWriteResult (-1) (Some EAGAIN) s c vec [])
        | CS_CONNECTED =>
            let total := vecTotal vec0 in
            let sent := 0 in
            if rdpConnFlightWindowFull c0 then
              mret (mkWriteResult (-1) (Some EAGAIN) s
                      (Some (set_state c0 CS_CONNECTED_FULL)) vec [])
            else
              let s := set_mstime s now in
              let maxPacketPayloadSize := getMaxPacketPayloadSize in
              let validSend := min total maxPacketPayloadSize in
              '(c1, vec1, total, sent) ←
                rdpWriteVecLoop (S (Z.to_nat total)) c0 vec0 total sent
                  validSend;
              '(c2, out, r) ← rdpConnFlushPackets s c1;
              let c3 := if r =? -1 then set_state c2 CS_CONNECTED_FULL
                        else c2 in
              if sent =? 0 then
                if total =? 0 then
                  mret (mkWriteResult 0 None s (Some c3) (Some vec1) out)
                else
                  mret (mkWriteResult (-1) (Some EAGAIN) s (Some c3)
                          (Some vec1) out)
              else mret (mkWriteResult sent None s (Some c3) (Some vec1) out)
        end
  end
  end.

(** ** Selective acknowledgement *)

(** What selectiveAck does besides changing the connection: the bytes of
    its [mask] it reads and the calls of ackPacket it makes. *)
Inductive sackEvent : Type :=
| ReadMask (byteIndex : Z)
| CallAckPacket (v : Z).

(** The do-while loop of selectiveAck.  [n] is [offset + 2]: the loop is
    left when --offset drops below -1.  [sackMask j] is the byte mask[j]
    of the C parameter [mask]. *)
Fixpoint selectiveAckLoop (s : rdpSocket) (n : nat) (c : rdpConn)
    (startSeqnr : Z) (sackMask : Z -> Z) (trace : list sackEvent)
    : outcome (rdpConn * list sackEvent) :=
  match n with
  | O => mret (c, trace)
  | S n' =>
      let offset := Z.of_nat n' - 1 in
      let v := uint32_t (startSeqnr + offset) in
      if Z.land (uint32_t (seqnr c - v - 1)) RDP_ACK_NR_MASK
           >=? uint16_t (queue c - 1) then
        selectiveAckLoop s n' c startSeqnr sackMask trace
      else
        let '(b, trace) :=
          if offset >=? 0 then
            (negb (Z.land (sackMask (Z.shiftr offset 3))
                     (Z.shiftl 1 (Z.land offset 7)) =? 0),
             trace ++ [ReadMask (Z.shiftr offset 3)])
          else (false, trace) in
        match rbufferGet (outbuf c) v with
        | None => selectiveAckLoop s n' c startSeqnr sackMask trace
        | Some pw =>
            if pw_transmissions pw =? 0 then AssertFailed
            else if b then
              _ ← assert (negb (Z.land (size_t v) (mask (outbuf c))
                                =? Z.land (size_t (seqnr c - queue c))
                                     (mask (outbuf c))));
              '(c, _) ← ackPacket s c v;
              selectiveAckLoop s n' c startSeqnr sackMask
                (trace ++ [CallAckPacket v])
            else selectiveAckLoop s n' c startSeqnr sackMask trace
        end
  end.

(** selectiveAck(c, startSeqnr, mask, len): [len] is a uint8_t. *)
Definition selectiveAck (s : rdpSocket) (c : rdpConn) (startSeqnr : Z)
    (sackMask : Z -> Z) (len : Z) : outcome (rdpConn * list sackEvent * Z) :=
  let offset := uint8_t len * 8 - 1 in
  '(c, trace) ←
    selectiveAckLoop s (Z.to_nat (offset + 2)) c (uint32_t startSeqnr) sackMask
      [];
  mret (c, trace, 0).

(** ** The periodic check *)

Definition resizeWindow (c : rdpConn) : outcome (rdpConn * Z) :=
  let pw := rbufferGet (outbuf c) (seqnr c - queue c) in
  _ ← assert (match pw with Some _ => true | None => false end);
  if oldestResent c =? -1 then
    mret (set_oldestResent c (seqnr c - queue c), 0)
  else if oldestResent c =? seqnr c - queue c then
    mret (set_flightWindowLimit c
            (limitedWindow
               (uint32_t (flightWindowLimit c / RDP_WINDOW_SHRINK_FACTOR))),
          0)
  else
    let c :=
      set_flightWindowLimit c
        (limitedWindow
           (uint32_t (flightWindowLimit c * RDP_WINDOW_EXPAND_FACTOR))) in
    mret (set_oldestResent c (seqnr c - queue c), 0).

(** [retransmitTimeout] is unsigned: the test [< 0] of the C code never
    holds and is left out. *)
Definition updateRetransmitTimeout (s : rdpSocket) (c : rdpConn)
    : outcome (rdpConn * Z) :=
  afterLastSent ←
    (if negb (queue c =? 0) then
       match rbufferGet (outbuf c) (seqnr c - queue c) with
       | None => AssertFailed
       | Some pw =>
           _ ← assert (negb (pw_transmissions pw =? 0));
           _ ← assert (negb (pw_sentTime pw =? 0));
           mret (uint32_t (uint64_t (mstime s - pw_sentTime pw)))
       end
     else mret 0);
  let c :=
    set_retransmitTimeout c
      (uint32_t (nextRetransmitTimeout c - afterLastSent)) in
  let c :=
    set_retransmitTicker c (uint64_t (mstime s + retransmitTimeout c)) in
  mret (c, 0).

(** "Prepare to retransmit": the for loop of rdpConnCheck over the queue. *)
Fixpoint rdpConnCheckMark (s : rdpSocket) (n : nat) (i : Z) (c : rdpConn)
    : outcome rdpConn :=
  match n with
  | O => mret c
  | S n' =>
      match rbufferGet (outbuf c) i with
      | None => rdpConnCheckMark s n' (uint16_t (i + 1)) c
      | Some pw =>
          if (pw_transmissions pw =? 0) || pw_needResend pw
             || (mstime s <? uint64_t (pw_sentTime pw + retransmitTimeout c))
          then rdpConnCheckMark s n' (uint16_t (i + 1)) c
          else
            let pw := set_pw_needResend pw true in
            let c := set_outbuf c (rbufferPut (outbuf c) i (Some pw)) in
            _ ← assert (flightWindow c >=? pw_payload pw);
            let c :=
              set_flightWindow c (uint32_t (flightWindow c - pw_payload pw)) in
            rdpConnCheckMark s n' (uint16_t (i + 1)) c
      end
  end.

Section Header.
(** rdp.h is not among the sources: the constants it defines are left
    open. *)
Variables RDP_SOCKET_CHECK_TIMEOUT_MIN RDP_SOCKET_CHECK_TIMEOUT_MAX : Z.
Variables RDP_CONTINUE RDP_ACCEPT RDP_CONNECTED RDP_POLLOUT : Z.

(** The retransmission stage of rdpConnCheck: the block guarded by
    [mstime >= retransmitTicker].  The flag is true when the stage ended
    the check by [return 0]. *)
Definition rdpConnCheckTimeout (s : rdpSocket) (c : rdpConn)
    : outcome (rdpConn * list datagram * bool) :=
  if mstime s >=? retransmitTicker c then
    if connState_eqb (state c) CS_FIN_SENT
       && (mstime s >=? uint64_t (lastReceivedPacket c + RDP_WAIT_FIN_SENT))
    then mret (set_state c CS_DESTROY, [], true)
    else if connState_eqb (state c) CS_SYN_RECV
       && (mstime s >=? uint64_t (lastReceivedPacket c + RDP_WAIT_SYN_RECV))
    then mret (set_state c CS_DESTROY, [], true)
    else
      '(c, out) ←
        (if queue c >? 0 then
           c ← rdpConnCheckMark s (queueRounds c)
                 (uint16_t (seqnr c - queue c)) c;
           '(c, _) ← resizeWindow c;
           '(c, out, _) ← rdpConnFlushPackets s c;
           mret (c, out)
         else mret (c, []));
      '(c, _) ← updateRetransmitTimeout s c;
      mret (c, out, false)
  else mret (c, [], false).

(** The keepalive stage of rdpConnCheck. *)
Definition rdpConnCheckKeepAlive (s : rdpSocket) (c : rdpConn)
    : outcome (rdpConn * list datagram) :=
  if connState_eqb (state c) CS_CONNECTED
     || connState_eqb (state c) CS_CONNECTED_FULL then
    if mstime s >=? uint64_t (lastSentPacket c + RDP_KEEPALIVE_INTERVAL) then
      rdpConnKeepAlive s c
    else mret (c, [])
  else mret (c, []).

(** rdpConnCheck: returns the socket, the connection and the datagrams
    sent.  The C function ends without a return statement. *)
Definition rdpConnCheck (s : rdpSocket) (c : rdpConn)
    : outcome (rdpSocket * rdpConn * list datagram) :=
  _ ← assert ((queue c =? 0)
              || match rbufferGet (outbuf c) (seqnr c - queue c) with
                 | Some _ => true
                 | None => false
                 end);
  match state c with
  | CS_SYN_SENT | CS_SYN_RECV | CS_CONNECTED_FULL | CS_CONNECTED
  | CS_FIN_SENT =>
      '(c, out1, returned) ← rdpConnCheckTimeout s c;
      if (returned : bool) then mret (s, c, out1)
      else
        '(c, out2) ← rdpConnCheckKeepAlive s c;
        _ ← assert (uint64_t (retransmitTicker c - mstime s) >=? 0);
        mret (set_nextCheckTimeout s
                (int (min (size_t RDP_SOCKET_CHECK_TIMEOUT_MAX)
                        (max (size_t RDP_SOCKET_CHECK_TIMEOUT_MIN)
                           (min (size_t (nextCheckTimeout s))
                              (uint64_t (retransmitTicker c - mstime s)))))),
              c, out1 ++ out2)
  | CS_UNINITIALIZED | CS_DESTROY =>
      _ ← assert (uint64_t (retransmitTicker c - mstime s) >=? 0);
      mret (set_nextCheckTimeout s
              (int (min (size_t RDP_SOCKET_CHECK_TIMEOUT_MAX)
                      (max (size_t RDP_SOCKET_CHECK_TIMEOUT_MIN)
                         (min (size_t (nextCheckTimeout s))
                            (uint64_t (retransmitTicker c - mstime s)))))),
            c, [])
  end.

(** ** rdpReadPoll: a STATE, DATA or FIN packet at its connection *)

(** buf[12 + i], for the bytes behind the header; a read past the end of
    the caller's buffer yields 0 here. *)
Definition byteAt (tail : list Z) (i : Z) : Z :=
  if i <? 0 then 0 else nth (Z.to_nat i) tail 0.

(** The walk along the extension chain.  [payloadStart] and [payloadEnd]
    are offsets behind the header; the result is the final [payloadStart]
    and [sackMask].  Every round moves [payloadStart] by two at least and
    the assertion keeps it below [payloadEnd]. *)
Fixpoint rdpReadPollExtensions (fuel : nat) (tail : list Z)
    (payloadStart payloadEnd extension : Z) (sackMask : option Z)
    : outcome (Z * option Z) :=
  match fuel with
  | O => OutOfFuel
  | S fuel' =>
      let payloadStart := payloadStart + 2 in
      _ ← assert (payloadEnd - payloadStart >=? byteAt tail (payloadStart - 1));
      let sackMask := if extension =? 1 then Some payloadStart else sackMask in
      let extension := byteAt tail (payloadStart - 2) in
      let payloadStart := payloadStart + byteAt tail (payloadStart - 1) in
      if negb (extension =? 0) then
        rdpReadPollExtensions fuel' tail payloadStart payloadEnd extension
          sackMask
      else mret (payloadStart, sackMask)
  end.

(** The test "Ignore packets with invalid acknr" of rdpReadPoll. *)
Definition rdpReadPollAcknrInvalid (c : rdpConn) (packnr : Z) : bool :=
  sixteenAfter (seqnr c - 1) packnr
  || sixteenAfter packnr
       (seqnr c - 1 - queue c - RDP_ACK_NR_RECV_BEHIND_ALLOWED).

(** for (int i = 0; i < ackCnt; ++i) { ackPacket(c, c->seqnr - c->queue);
    c->queue--; } *)
Fixpoint rdpReadPollAckLoop (s : rdpSocket) (ackCnt : nat) (c : rdpConn)
    : outcome rdpConn :=
  match ackCnt with
  | O => mret c
  | S ackCnt' =>
      '(c, _) ← ackPacket s c (seqnr c - queue c);
      rdpReadPollAckLoop s ackCnt' (set_queue c (uint16_t (queue c - 1)))
  end.

(** How far rdpReadPoll got with a packet. *)
Record pollResult : Type := mkPollResult {
  pr_conn : rdpConn;
  pr_events : Z;
  (** [Some r]: rdpReadPoll returned [r]; [None]: it goes on to deliver the
      payload. *)
  pr_ret : option Z;
  pr_sack : list sackEvent
}.

(** The branch [type == ST_STATE || type == ST_DATA || type == ST_FIN] of
    rdpReadPoll from the connection found ([c]) to the end of the
    processing of acknowledgements.  [p] is the header of the datagram,
    [tail] the caller's buffer behind it, [rawRead] what recvfrom()
    returned; [*events] is RDP_CONTINUE on entry and [s] has the new
    [mstime]. *)
Definition rdpReadPollAck (s : rdpSocket) (c : rdpConn) (p : packet)
    (tail : list Z) (rawRead : Z) : outcome pollResult :=
  let events := RDP_CONTINUE in
  let type := packetGetType p in
  let pseqnr := p_seqnr p in
  let packnr := p_acknr p in
  if connState_eqb (state c) CS_DESTROY then
    mret (mkPollResult c events (Some (-1)) [])
  else if rdpReadPollAcknrInvalid c packnr then
    mret (mkPollResult c events (Some (-1)) [])
  else
    let extension := reserve p in
    let payloadStart := 0 in
    let payloadEnd := rawRead - getPacketHeaderSize in
    '(payloadStart, sackMask) ←
      (if negb (extension =? 0) then
         rdpReadPollExtensions (S (Z.to_nat payloadEnd)) tail payloadStart
           payloadEnd extension None
       else mret (payloadStart, None));
    let c :=
      if connState_eqb (state c) CS_SYN_SENT then
        set_acknr c (uint16_t (Z.land (pseqnr - 1) RDP_SEQ_NR_MASK))
      else c in
    let seqCnt := uint32_t (Z.land (pseqnr - acknr c - 1) RDP_SEQ_NR_MASK) in
    if seqCnt >=? RDP_QUEUE_SIZE_MAX then
      if (seqCnt >=? (RDP_SEQ_NR_MASK + 1) - RDP_QUEUE_SIZE_MAX)
         && negb (type =? ST_STATE) then
        mret (mkPollResult (set_needSendAck c true) events (Some (-1)) [])
      else mret (mkPollResult c events (Some (-1)) [])
    else
      let c := set_lastReceivedPacket c (mstime s) in
      let ackCnt :=
        uint16_t (Z.land (packnr - (seqnr c - queue c) + 1) RDP_ACK_NR_MASK) in
      let ackCnt := if ackCnt >? queue c then 0 else ackCnt in
      let c := set_recvWindowPeer c (window p) in
      let '(c, events) :=
        if (type =? ST_DATA) && connState_eqb (state c) CS_SYN_RECV then
          (set_state c CS_CONNECTED, RDP_ACCEPT)
        else (c, events) in
      let '(c, events) :=
        if (type =? ST_STATE) && connState_eqb (state c) CS_SYN_SENT then
          (set_state c CS_CONNECTED, RDP_CONNECTED)
        else (c, events) in
      let c :=
        if connState_eqb (state c) CS_FIN_SENT && (queue c =? ackCnt) then
          set_state c CS_DESTROY
        else c in
      c ← rdpReadPollAckLoop s (Z.to_nat ackCnt) c;
      _ ← assert (negb ((queue c >? 0)
                        && match rbufferGet (outbuf c) (seqnr c - queue c) with
                           | None => true
                           | Some _ => false
                           end));
      '(c, trace) ←
        match sackMask with
        | Some m =>
            if queue c >? 0 then
              '(c, trace, _) ←
                selectiveAck s c (packnr + 2) (fun j => byteAt tail (m + j))
                  (byteAt tail (m - 1));
              mret (c, trace)
            else mret (c, [])
        | None => mret (c, [])
        end;
      let '(c, events) :=
        if connState_eqb (state c) CS_CONNECTED_FULL
           && negb (rdpConnFlightWindowFull c) then
          (set_state c CS_CONNECTED, Z.lor events RDP_POLLOUT)
        else (c, events) in
      mret (mkPollResult c events None trace).

End Header.

(** ** Creating and connecting *)

(** rdpConnCreate; [r] is what rand() returns. *)
Definition rdpConnCreate (r : Z) : rdpConn :=
  mkRdpConn rbufferInit rbufferInit 0 0 0 0 0 (limitedRetransmitTimeout 0) 0 0
    CS_UNINITIALIZED 0 (limitedWindow 0) (limitedWindow RDP_WINDOW_SIZE_MAX)
    (limitedWindow RDP_WINDOW_SIZE_MAX) (-1) 0 0 0 0 0 (uint16_t r) 0 0 false
    false false 0 (replicate 128%nat 0).

(** List node compare callback. *)
Definition listEqualRdpConn (currentV comparedV : rdpConn) : bool :=
  if negb (recvId currentV =? recvId comparedV) then false
  else if negb (addrlen currentV =? addrlen comparedV) then false
  else if negb (bool_decide
                  (take (Z.to_nat (addrlen currentV)) (addr currentV)
                   = take (Z.to_nat (addrlen currentV)) (addr comparedV)))
  then false
  else true.

(** Modelled from the spec: liblist (liblist/list.h) is not among the
    sources.  The registry maps (peer address, recv-id) to a connection:
    listNodeFind walks the list from its head and yields the first node
    whose value the list's compare callback accepts. *)
Definition listNodeFind (heap : gmap nat rdpConn) (l : list nat)
    (key : rdpConn) : option nat :=
  List.find (fun q =>
               match heap !! q with
               | Some v => listEqualRdpConn v key
               | None => false
               end) l.

(** Modelled from the spec: liblist is not among the sources.
    listNodeAddHead puts the value in front of the list. *)
Definition listNodeAddHead (l : list nat) (value : nat) : list nat :=
  value :: l.

(** Make a fake rdpConn to compare: of [comparedValue] only the three
    fields set here are read. *)
Definition findRdpConnInRdpSocket (heap : gmap nat rdpConn) (s : rdpSocket)
    (sockaddr : list Z) (addrlen : Z) (recvId : Z) : option nat :=
  let comparedValue := rdpConnCreate 0 in
  let comparedValue :=
    set_addr comparedValue
      (take (Z.to_nat addrlen) sockaddr
       ++ drop (Z.to_nat addrlen) (addr comparedValue)) in
  let comparedValue := set_addrlen comparedValue addrlen in
  let comparedValue := set_recvId comparedValue (uint16_t recvId) in
  listNodeFind heap (conns s) comparedValue.

(** do idSeed = rand() & 0xffff; while (findRdpConnInRdpSocket(...));
    [rands] is what the calls of rand() return, one after the other. *)
Fixpoint rdpConnInitSeed (heap : gmap nat rdpConn) (s : rdpSocket)
    (sockaddr : list Z) (addrlen : Z) (rands : list Z)
    : outcome (Z * list Z) :=
  match rands with
  | [] => OutOfFuel
  | r :: rands' =>
      let idSeed := uint16_t (Z.land r 0xffff) in
      match findRdpConnInRdpSocket heap s sockaddr addrlen idSeed with
      | Some _ => rdpConnInitSeed heap s sockaddr addrlen rands'
      | None => mret (idSeed, rands')
      end
  end.

(** rdpConnInit; [cp] is the address of the connection [c].  Returns the
    socket with [c] registered, [c], and the rand() values not used. *)
Definition rdpConnInit (heap : gmap nat rdpConn) (s : rdpSocket) (cp : nat)
    (c : rdpConn) (sockaddr : list Z) (addrlen : Z) (generateSeed : Z)
    (idSeed recvId sendId : Z) (rands : list Z)
    : outcome (rdpSocket * rdpConn * list Z) :=
  '(idSeed, recvId, sendId, rands) ←
    (if negb (generateSeed =? 0) then
       '(idSeed, rands) ← rdpConnInitSeed heap s sockaddr addrlen rands;
       mret (idSeed, uint16_t (recvId + idSeed), uint16_t (sendId + idSeed),
             rands)
     else mret (uint16_t idSeed, uint16_t recvId, uint16_t sendId, rands));
  let c :=
    set_addr c
      (take (Z.to_nat addrlen) sockaddr ++ drop (Z.to_nat addrlen) (addr c)) in
  let c := set_addrlen c addrlen in
  let c := set_idSeed c idSeed in
  let c := set_recvId c recvId in
  let c := set_sendId c sendId in
  let c := set_lastReceivedPacket c (mstime s) in
  let s := set_conns s (listNodeAddHead (conns s) cp) in
  mret (s, c, rands).

(** The socket and the connections allocated, by address. *)
Record world : Type := mkWorld {
  w_sock : rdpSocket;
  w_heap : gmap nat rdpConn
}.

(** rdpConnect.  [c] is the pointer passed ([None] is NULL), [now] what
    mstime() returns.  Returns the new world, the datagrams sent, the
    rand() values left and the return value.  The SYN's packetWrap is
    sent after it was put in the ring: the ring holds it as sent. *)
Definition rdpConnect (w : world) (c : option nat) (sockaddr : list Z)
    (addrlen : Z) (now : Z) (rands : list Z)
    : outcome (world * list datagram * list Z * Z) :=
  match c with
  | None => mret (w, [], rands, -1)
  | Some cp =>
      match w_heap w !! cp with
      | None => AssertFailed
      | Some c =>
          if negb (connState_eqb (state c) CS_UNINITIALIZED) then
            mret (w, [], rands, -1)
          else
            let s := set_mstime (w_sock w) now in
            '(s, c, rands) ←
              rdpConnInit (w_heap w) s cp c sockaddr addrlen 1 0 0 1 rands;
            let c := set_state c CS_SYN_SENT in
            let c := set_retransmitTimeout c (nextRetransmitTimeout c) in
            let c :=
              set_retransmitTicker c
                (uint64_t (mstime s + retransmitTimeout c)) in
            let pw := mkPacketWrap 0 0 0 false packet_zero [] in
            let p := packet_zero in
            let p := packetSetVersion p 1 in
            let p := packetSetType p ST_SYN in
            let p := set_reserve p 0 in
            let p := set_connId p (recvId c) in
            let p := set_window p (recvWindowSelf c) in
            let p := set_p_seqnr p (seqnr c) in
            let pw := set_pw_hdr pw p in
            ob ← rbufferEnsureSize (outbuf c) (seqnr c) (queue c);
            let ob := rbufferPut ob (seqnr c) (Some pw) in
            let slot := seqnr c in
            let c := set_outbuf c ob in
            let c := set_seqnr c (uint16_t (seqnr c + 1)) in
            let c := set_queue c (uint16_t (queue c + 1)) in
            '(c, pw, out) ← sendPacketWrap s c pw;
            let c := set_outbuf c (rbufferPut (outbuf c) slot (Some pw)) in
            mret (mkWorld s (<[cp := c]> (w_heap w)), out, rands, 0)
      end
  end.

(** ** rdpWrite and rdpConnClose *)

(** rdpWrite: the [len] bytes at [buf] as an array of one entry. *)
Definition rdpWrite (s : rdpSocket) (c : option rdpConn) (buf : list Z)
    (now : Z) : outcome writeResult :=
  rdpWriteVec s c (Some [buf]) now.

(** What a call of rdpConnClose leaves behind: its return value, errno
    when it was set, the connection and the datagrams sent. *)
Record closeResult : Type := mkCloseResult {
  cl_ret : Z;
  cl_errno : option Z;
  cl_conn : option rdpConn;
  cl_out : list datagram
}.

(** rdpConnClose does not read the clock: [s] has the [mstime] of the
    last call that did. *)
Definition rdpConnClose (s : rdpSocket) (c : option rdpConn)
    : outcome closeResult :=
  match c with
  | None => mret (mkCloseResult (-1) (Some EINVAL) c [])
  | Some c0 =>
      match state c0 with
      | CS_UNINITIALIZED | CS_SYN_RECV | CS_DESTROY | CS_FIN_SENT =>
          mret (mkCloseResult (-1) (Some EINVAL) c [])
      | CS_CONNECTED | CS_CONNECTED_FULL =>
          if receivedFin c0 then
            mret (mkCloseResult 0 None (Some (set_state c0 CS_DESTROY)) [])
          else
            '(c1, out1) ←
              (if needSendAck c0 then sendAck s c0 else mret (c0, []));
            _ ← assert (queue c1 <? RDP_QUEUE_SIZE_MAX);
            '(c2, _) ← buildSendPacket c1 0 ST_FIN [];
            '(c3, out2, _) ← rdpConnFlushPackets s c2;
            mret (mkCloseResult 0 None (Some (set_state c3 CS_FIN_SENT))
                    (out1 ++ out2))
      | CS_SYN_SENT =>
          mret (mkCloseResult 0 None (Some (set_state c0 CS_DESTROY)) [])
      end
  end.

(** ** rdpReadPoll: delivery *)

Section HeaderRead.
(** rdp.h is not among the sources: the event constants it defines are
    left open. *)
Variables RDP_CONTINUE RDP_DATA RDP_ERROR : Z.

(** What rdpReadPoll hands back for one connection: the connection, the
    events, the return value and the bytes it left at the start of the
    caller's buffer, if it wrote any. *)
Record readResult : Type := mkReadResult {
  rd_conn : rdpConn;
  rd_events : Z;
  rd_ret : Z;
  rd_buf : option (list Z)
}.

(** A packet kept in [inbuf] is the malloc'ed block of rdpReadPoll: the
    uint prefix, here the head of the list, and the payload bytes behind
    it. *)
Definition inbufPrefixOf (block : list Z) : Z := hd 0 block.

Definition inbufBytesOf (block : list Z) : list Z := tl block.

(** The body of the loop "Drain ordered buffer on each connection" of
    rdpReadPoll for the connection [c]; [len] is the length of the
    caller's buffer.  [None]: the loop goes on to the next connection;
    [Some]: rdpReadPoll returns, with the datagrams sent on the way. *)
Definition rdpReadPollDrain (s : rdpSocket) (c : rdpConn) (len : Z)
    : outcome (option (readResult * list datagram)) :=
  let events := RDP_CONTINUE in
  if negb (connState_eqb (state c) CS_CONNECTED)
     && negb (connState_eqb (state c) CS_CONNECTED_FULL) then mret None
  else if negb (receivedFinCompleted c) && receivedFin c
          && (eofseqnr c =? acknr c) then
    let c := set_receivedFinCompleted c true in
    '(c, out) ← sendAck s c;
    let c := set_outOfOrderCnt c 0 in
    mret (Some (mkReadResult c RDP_DATA 0 None, out))
  else if outOfOrderCnt c =? 0 then mret None
  else
    match rbufferGet (inbuf c) (acknr c + 1) with
    | None => mret None
    | Some p =>
        let inbufPrefix := inbufPrefixOf p in
        if (inbufPrefix >? 0) && (inbufPrefix >? len) then
          mret (Some (mkReadResult c RDP_ERROR (-1) None, []))
        else
          let '(events, buf) :=
            if inbufPrefix >? 0 then
              (RDP_DATA,
               Some (take (Z.to_nat inbufPrefix) (inbufBytesOf p)))
            else (events, None) in
          let c := set_inbuf c (rbufferPut (inbuf c) (acknr c + 1) None) in
          let c := set_acknr c (uint16_t (acknr c + 1)) in
          let c := set_needSendAck c true in
          _ ← assert (outOfOrderCnt c >? 0);
          let c := set_outOfOrderCnt c (uint16_t (outOfOrderCnt c - 1)) in
          mret (Some (mkReadResult c events
                        (if inbufPrefix >? 0 then inbufPrefix else -1) buf,
                      []))
    end.

(** rdpReadPoll behind the processing of acknowledgements, from
    [if (type == ST_STATE) return -1;] to its end.  [events] is the value
    of [*events] so far, [payload] is payloadEnd less the payloadStart of
    before the walk along the extensions, [payloadStart] the offset behind
    the header where that walk ended, [tail] the caller's buffer behind
    the header and [len] the length of that buffer.  A memmove that would
    read behind the caller's buffer stops the model. *)
Definition rdpReadPollDeliver (c : rdpConn) (events : Z)
    (type pseqnr seqCnt payload payloadStart : Z) (tail : list Z) (len : Z)
    : outcome readResult :=
  if type =? ST_STATE then mret (mkReadResult c events (-1) None)
  else if negb (connState_eqb (state c) CS_CONNECTED)
          && negb (connState_eqb (state c) CS_CONNECTED_FULL)
          && negb (connState_eqb (state c) CS_FIN_SENT) then
    mret (mkReadResult c events (-1) None)
  else if (type =? ST_FIN) && connState_eqb (state c) CS_FIN_SENT then
    mret (mkReadResult (set_state c CS_DESTROY) events (-1) None)
  else
    let c :=
      if (type =? ST_FIN) && negb (receivedFin c) then
        set_eofseqnr (set_receivedFin c true) pseqnr
      else c in
    if connState_eqb (state c) CS_FIN_SENT then
      mret (mkReadResult c events (-1) None)
    else if seqCnt =? 0 then
      if (payload >? 0) && negb (connState_eqb (state c) CS_FIN_SENT)
         && (size_t payload >? len) then
        mret (mkReadResult c RDP_ERROR (-1) None)
      else
        '(events, buf) ←
          (if (payload >? 0) && negb (connState_eqb (state c) CS_FIN_SENT)
           then
             _ ← assert (payloadStart + payload
                         <=? Z.of_nat (length tail));
             mret (Z.lor events RDP_DATA,
                   Some (take (Z.to_nat payload)
                           (drop (Z.to_nat payloadStart) tail)))
           else mret (events, None));
        let c := set_acknr c (uint16_t (acknr c + 1)) in
        let c := set_needSendAck c true in
        mret (mkReadResult c events (if payload =? 0 then -1 else payload)
                buf)
    else if receivedFin c && (pseqnr >? eofseqnr c) then
      mret (mkReadResult c events (-1) None)
    else
      ib ← rbufferEnsureSize (inbuf c) (pseqnr + 1) (uint32_t (seqCnt + 1));
      let c := set_inbuf c ib in
      match rbufferGet (inbuf c) pseqnr with
      | Some _ =>
          mret (mkReadResult (set_needSendAck c true) events (-1) None)
      | None =>
          _ ← assert (payloadStart + payload <=? Z.of_nat (length tail));
          let packetWithPrefix :=
            uint32_t payload
            :: take (Z.to_nat payload) (drop (Z.to_nat payloadStart) tail) in
          _ ← assert (negb (Z.land (size_t pseqnr) (mask (inbuf c))
                            =? Z.land (size_t (acknr c + 1))
                                 (mask (inbuf c))));
          let c :=
            set_inbuf c (rbufferPut (inbuf c) pseqnr (Some packetWithPrefix))
          in
          let c := set_outOfOrderCnt c (uint16_t (outOfOrderCnt c + 1)) in
          let c := set_needSendAck c true in
          mret (mkReadResult c events (-1) None)
      end.

End HeaderRead.

(** ** rdpReadPoll: a datagram from the socket *)

Section HeaderPoll.
(** rdp.h is not among the sources: the event constants it defines are
    left open. *)
Variables RDP_CONTINUE RDP_ACCEPT RDP_CONNECTED RDP_POLLOUT : Z.
Variables RDP_DATA RDP_ERROR : Z.

(** Modelled from the spec: liblist is not among the sources.
    listLengthGet is the number of nodes of the list. *)
Definition listLengthGet (l : list nat) : Z := Z.of_nat (length l).

(** What rdpReadPoll leaves behind for a datagram: the socket and the
    connections, [*conn] ([None] is NULL), [*events], the return value,
    the bytes left at the start of the caller's buffer if it wrote any,
    and the datagrams sent. *)
Record pollOutcome : Type := mkPollOutcome {
  po_world : world;
  po_conn : option nat;
  po_events : Z;
  po_ret : Z;
  po_buf : option (list Z);
  po_out : list datagram
}.

(** The branch [type == ST_SYN] of rdpReadPoll.  [w] has the new
    [mstime]; [fresh] is the address malloc returns to rdpConnCreate and
    [r] what rand() returns there. *)
Definition rdpReadPollSyn (w : world) (p : packet) (sockaddr : list Z)
    (addrlen : Z) (fresh : nat) (r : Z) : outcome pollOutcome :=
  let s := w_sock w in
  let events := RDP_CONTINUE in
  let connId := connId p in
  let pseqnr := p_seqnr p in
  found ←
    match findRdpConnInRdpSocket (w_heap w) s sockaddr addrlen (connId + 1)
    with
    | Some cp =>
        match w_heap w !! cp with
        | None => AssertFailed
        | Some c =>
            if negb (connState_eqb (state c) CS_SYN_RECV) then
              mret (inl (mkPollOutcome w (Some cp) events (-1) None []))
            else mret (inr (s, cp, c))
        end
    | None =>
        if listLengthGet (conns s) >? RDP_MAX_CONNS_PER_RDPSOCKET then
          mret (inl (mkPollOutcome w None RDP_ERROR (-1) None []))
        else
          let c := rdpConnCreate r in
          '(s, c, _) ←
            rdpConnInit (w_heap w) s fresh c sockaddr addrlen 0 connId
              (connId + 1) connId [];
          let c := set_state c CS_SYN_RECV in
          let c := set_acknr c pseqnr in
          mret (inr (s, fresh, c))
    end;
  match found with
  | inl res => mret res
  | inr (s, cp, c) =>
      let c := set_lastReceivedPacket c (mstime s) in
      let c := set_retransmitTimeout c (nextRetransmitTimeout c) in
      let c :=
        set_retransmitTicker c (uint64_t (mstime s + retransmitTimeout c)) in
      '(c, out) ← sendAck s c;
      mret (mkPollOutcome (mkWorld s (<[cp := c]> (w_heap w))) (Some cp)
              events (-1) None out)
  end.

(** rdpReadPoll from the return of recvfrom() on, for a datagram of
    [rawRead] bytes from [sockaddr]: [p] is its header as the caller's
    buffer holds it, [tail] that buffer behind the header, [len] the
    length of the buffer, [now] what mstime() returns.  The values of
    seqCnt and payloadStart, which the processing of acknowledgements
    computes on its way, are computed again for the delivery: nothing they
    depend on is written in between. *)
Definition rdpReadPollPacket (w : world) (p : packet) (tail : list Z)
    (rawRead len : Z) (sockaddr : list Z) (addrlen : Z) (now : Z)
    (fresh : nat) (r : Z) : outcome pollOutcome :=
  let events := RDP_CONTINUE in
  if size_t rawRead <? getPacketHeaderSize then
    mret (mkPollOutcome w None events (-1) None [])
  else if negb (packetGetVersion p =? 1) then
    mret (mkPollOutcome w None events (-1) None [])
  else
    let type := packetGetType p in
    let pseqnr := p_seqnr p in
    let w := mkWorld (set_mstime (w_sock w) now) (w_heap w) in
    if type =? ST_SYN then rdpReadPollSyn w p sockaddr addrlen fresh r
    else if (type =? ST_STATE) || (type =? ST_DATA) || (type =? ST_FIN) then
      match findRdpConnInRdpSocket (w_heap w) (w_sock w) sockaddr addrlen
              (connId p) with
      | None => mret (mkPollOutcome w None events (-1) None [])
      | Some cp =>
          match w_heap w !! cp with
          | None => AssertFailed
          | Some c =>
              pr ← rdpReadPollAck RDP_CONTINUE RDP_ACCEPT RDP_CONNECTED
                     RDP_POLLOUT (w_sock w) c p tail rawRead;
              match pr_ret pr with
              | Some ret =>
                  mret (mkPollOutcome
                          (mkWorld (w_sock w)
                             (<[cp := pr_conn pr]> (w_heap w)))
                          (Some cp) (pr_events pr) ret None [])
              | None =>
                  let payload := rawRead - getPacketHeaderSize in
                  '(payloadStart, _) ←
                    (if negb (reserve p =? 0) then
                       rdpReadPollExtensions (S (Z.to_nat payload)) tail 0
                         payload (reserve p) None
                     else mret (0, None));
                  let seqCnt :=
                    uint32_t (Z.land (pseqnr - acknr (pr_conn pr) - 1)
                                RDP_SEQ_NR_MASK) in
                  rd ← rdpReadPollDeliver RDP_DATA RDP_ERROR (pr_conn pr)
                         (pr_events pr) type pseqnr seqCnt payload
                         payloadStart tail len;
                  mret (mkPollOutcome
                          (mkWorld (w_sock w)
                             (<[cp := rd_conn rd]> (w_heap w)))
                          (Some cp) (rd_events rd) (rd_ret rd) (rd_buf rd)
                          [])
              end
          end
      end
    else mret (mkPollOutcome w None events (-1) None []).

End HeaderPoll.

(** ** rdpContextAck *)

(** Modelled from the spec: liblist is not among the sources.  The
    iterator of rdpContextAck visits the nodes from the head of the list
    on.  The loop sends the acknowledgement of every connection that owes
    one. *)
Fixpoint rdpContextAckLoop (s : rdpSocket) (heap : gmap nat rdpConn)
    (l : list nat) : outcome (gmap nat rdpConn * list datagram) :=
  match l with
  | [] => mret (heap, [])
  | cp :: l' =>
      match heap !! cp with
      | None => AssertFailed
      | Some c =>
          if needSendAck c then
            '(c, out) ← sendAck s c;
            '(heap, out') ← rdpContextAckLoop s (<[cp := c]> heap) l';
            mret (heap, out ++ out')
          else rdpContextAckLoop s heap l'
      end
  end.

(** rdpContextAck; [None] is the NULL socket. *)
Definition rdpContextAck (w : option world)
    : outcome (option world * list datagram) :=
  match w with
  | None => mret (None, [])
  | Some w =>
      '(heap, out) ←
        rdpContextAckLoop (w_sock w) (w_heap w) (conns (w_sock w));
      mret (Some (mkWorld (w_sock w) heap), out)
  end.


(** ** Wording of the specification, for comparison with the code *)

(** The distance from [b] up to [a] as a signed 16-bit number. *)
Definition sixteenDistance (a b : Z) : Z := int16_t (a - b).

(** [x] lies in the range [lo, hi] under signed 16-bit wrap-around
    distance: it is not after [hi] and not before [lo]. *)
Definition inSixteenRange (lo hi x : Z) : Prop :=
  0 <= sixteenDistance hi x /\ 0 <= sixteenDistance x lo.

(** The four nibble laws at header byte [vt] and nibble [x]. *)
Definition nibble_check (vt x : Z) : bool :=
  let p := mkPacket vt 0 0 0 0 0 in
  (packetGetVersion (packetSetVersion p x) =? x)
  && (packetGetType (packetSetVersion p x) =? packetGetType p)
  && (packetGetType (packetSetType p x) =? x)
  && (packetGetVersion (packetSetType p x) =? packetGetVersion p).

(** ** Frames *)

(** What sending, retransmitting and the timers never touch: every field
    of the connection but outbuf, lastSentPacket, retransmitTimeout,
    retransmitTicker, flightWindow, flightWindowLimit and oldestResent. *)
Definition sameControl (c c' : rdpConn) : Prop :=
  inbuf c' = inbuf c /\ userData c' = userData c /\
  lastReceivedPacket c' = lastReceivedPacket c /\
  rtt c' = rtt c /\ rttVar c' = rttVar c /\
  nextRetransmitTimeout c' = nextRetransmitTimeout c /\
  state c' = state c /\
  recvWindowPeer c' = recvWindowPeer c /\
  recvWindowSelf c' = recvWindowSelf c /\
  idSeed c' = idSeed c /\ recvId c' = recvId c /\ sendId c' = sendId c /\
  queue c' = queue c /\ outOfOrderCnt c' = outOfOrderCnt c /\
  seqnr c' = seqnr c /\ acknr c' = acknr c /\ eofseqnr c' = eofseqnr c /\
  receivedFinCompleted c' = receivedFinCompleted c /\
  receivedFin c' = receivedFin c /\ needSendAck c' = needSendAck c /\
  addrlen c' = addrlen c /\ addr c' = addr c.

(** What a (re)transmission never touches in a queued packet: its payload
    and every header field but acknr. *)
Definition samePacket (pw pw' : packetWrap) : Prop :=
  pw_payload pw' = pw_payload pw /\ pw_body pw' = pw_body pw /\
  versionAndType (pw_hdr pw') = versionAndType (pw_hdr pw) /\
  reserve (pw_hdr pw') = reserve (pw_hdr pw) /\
  connId (pw_hdr pw') = connId (pw_hdr pw) /\
  window (pw_hdr pw') = window (pw_hdr pw) /\
  p_seqnr (pw_hdr pw') = p_seqnr (pw_hdr pw).

Definition sameSlot (a b : option packetWrap) : Prop :=
  match a, b with
  | Some pw, Some pw' => samePacket pw pw'
  | None, None => True
  | _, _ => False
  end.

(** The same ring with the same packets queued at the same places. *)
Definition sameQueue (ob ob' : rbuffer packetWrap) : Prop :=
  mask ob' = mask ob /\
  length (elements ob') = length (elements ob) /\
  forall i : Z, sameSlot (rbufferGet ob i) (rbufferGet ob' i).

(** ** The send queue *)

(** The header buildSendPacket writes into a packet of [type]. *)
Definition sendHeader (c : rdpConn) (type : Z) : packet :=
  set_p_seqnr
    (set_p_acknr
       (set_window
          (set_connId
             (set_reserve (packetSetType (packetSetVersion packet_zero 1) type)
                0)
             (sendId c))
          (recvWindowSelf c))
       (acknr c))
    (seqnr c).

(** The last packet queued cannot take more payload. *)
Definition lastPacketClosed (c : rdpConn) : Prop :=
  queue c = 0 \/
  match rbufferGet (outbuf c) (seqnr c - 1) with
  | None => True
  | Some pw0 =>
      pw_transmissions pw0 <> 0 \/ getMaxPacketPayloadSize <= pw_payload pw0
  end.

(** ** Selective acknowledgement *)

(** Bit [i] of the mask, as selectiveAck reads it:
    mask[i >> 3] & (1 << (i & 7)). *)
Definition sackBit (sackMask : Z -> Z) (i : Z) : bool :=
  negb (Z.land (sackMask (Z.shiftr i 3)) (Z.shiftl 1 (Z.land i 7)) =? 0).

(** The sequence number [v] lies in (seqnr - queue, seqnr) modulo 2^16: it
    is one of the queued packets but the oldest. *)
Definition sackInQueue (c : rdpConn) (v : Z) : Prop :=
  1 <= uint16_t (seqnr c - v) < queue c.

(** What the rounds still to come may rely on: the connection is [c] but
    for slots emptied, none of them one of a round to come. *)
Definition sackInv (c : rdpConn) (start : Z) (n : nat) (cc : rdpConn)
    : Prop :=
  seqnr cc = seqnr c /\ queue cc = queue c /\
  mask (outbuf cc) = mask (outbuf c) /\
  length (elements (outbuf cc)) = length (elements (outbuf c)) /\
  forall i : Z, -1 <= i <= Z.of_nat n - 2 ->
    sackInQueue c (uint32_t (start + i)) ->
    rbufferGet (outbuf cc) (uint32_t (start + i))
    = rbufferGet (outbuf c) (uint32_t (start + i)).

(** Offset [i] calls for ackPacket on [v]. *)
Definition sackAcked (c : rdpConn) (start : Z) (sackMask : Z -> Z)
    (i v : Z) : Prop :=
  0 <= i /\ v = uint32_t (start + i) /\ sackBit sackMask i = true /\
  sackInQueue c v /\ rbufferGet (outbuf c) v <> None.

(** ** Values of the C types *)

(** The transmission counts of the packets in a ring are not negative:
    [transmissions] is an unsigned bit-field. *)
Definition outbufTyped (ob : rbuffer packetWrap) : bool :=
  forallb (fun e : option packetWrap =>
             match e with
             | Some pw => 0 <=? pw_transmissions pw
             | None => true
             end) (elements ob).

(** ** Segmentation *)

(** A ring of at most 2^16 slots: sequence numbers that agree modulo 2^16
    select the same slot. *)
Definition ring16 {A : Type} (ob : rbuffer A) : Prop :=
  exists k : Z, 0 <= k <= 16 /\ mask ob = 2 ^ k - 1 /\
    Z.of_nat (length (elements ob)) = 2 ^ k.

(** The number of packets a write of [total] bytes is cut into. *)
Definition segmentCount (total : Z) : Z :=
  (total + getMaxPacketPayloadSize - 1) / getMaxPacketPayloadSize.

(** The [i]-th packet that a write of [data] on connection [c] queues:
    the next bytes of [data], at most getMaxPacketPayloadSize of them, in
    a DATA packet numbered after the ones before it. *)
Definition segment (data : list Z) (c : rdpConn) (i : Z) (pw : packetWrap)
    : Prop :=
  pw_payload pw
  = min getMaxPacketPayloadSize
      (Z.of_nat (length data) - getMaxPacketPayloadSize * i) /\
  pw_body pw
  = take (Z.to_nat getMaxPacketPayloadSize)
      (drop (Z.to_nat (getMaxPacketPayloadSize * i)) data) /\
  packetGetType (pw_hdr pw) = ST_DATA /\
  p_seqnr (pw_hdr pw) = uint16_t (seqnr c + i).

(** The state of the loop of rdpWriteVec on entry of round [j] of a write
    of [data] on connection [c]. *)
Definition writeInv (c : rdpConn) (data : list Z) (j : Z) (cj : rdpConn)
    (vecj : list rdpVec) : Prop :=
  queue cj = queue c + j /\
  seqnr cj = uint16_t (seqnr c + j) /\
  flightWindow cj = flightWindow c /\
  ring16 (outbuf cj) /\
  queue cj <= mask (outbuf cj) + 1 /\
  outbufTyped (outbuf cj) = true /\
  concat vecj = drop (Z.to_nat (getMaxPacketPayloadSize * j)) data /\
  (j = 0 -> lastPacketClosed cj) /\
  forall i : Z, 0 <= i < j ->
    exists pw : packetWrap,
      rbufferGet (outbuf cj) (seqnr c + i) = Some pw /\ segment data c i pw.

(** ** Accounting and coalescing *)

(** The number of payload bytes in a list of datagrams. *)
Definition tailsTotal (out : list datagram) : Z :=
  foldr (fun d a => Z.of_nat (length (dg_tail d)) + a) 0 out.

(** Every queued packet holds at least [payload] bytes behind its header. *)
Definition outbufSized (ob : rbuffer packetWrap) : bool :=
  forallb (fun e : option packetWrap =>
             match e with
             | Some pw =>
                 (0 <=? pw_payload pw)
                 && (pw_payload pw <=? Z.of_nat (length (pw_body pw)))
             | None => true
             end) (elements ob).

(** The header buildSendPacket leaves in a packet it adds bytes to:
    everything is written anew but seqnr. *)
Definition refreshedHeader (c : rdpConn) (p : packet) (type : Z) : packet :=
  set_p_acknr
    (set_window
       (set_connId
          (set_reserve (packetSetType (packetSetVersion p 1) type) 0)
          (sendId c))
       (recvWindowSelf c))
    (acknr c).

(** ** Receiving *)

(** seqCnt as rdpReadPoll computes it from the packet's seqnr and the
    connection's acknr. *)
Definition seqCntOf (pseqnr ack : Z) : Z :=
  uint32_t (Z.land (pseqnr - ack - 1) RDP_SEQ_NR_MASK).

(** The payload bytes of [n] queue positions from [start] on that are in
    flight: sent and not marked for retransmission. *)
Fixpoint inFlightFrom (ob : rbuffer packetWrap) (start : Z) (n : nat) : Z :=
  match n with
  | O => 0
  | S n' =>
      match rbufferGet ob start with
      | Some pw =>
          if (pw_transmissions pw >? 0) && negb (pw_needResend pw)
          then pw_payload pw else 0
      | None => 0
      end + inFlightFrom ob (start + 1) n'
  end.

Definition inFlight (c : rdpConn) : Z :=
  inFlightFrom (outbuf c) (seqnr c - queue c) (Z.to_nat (queue c)).

(** Every queued packet has been sent and waits for its
    acknowledgement. *)
Definition queueSent (c : rdpConn) : Prop :=
  forall j : Z, 0 <= j < queue c ->
    exists pw : packetWrap,
      rbufferGet (outbuf c) (seqnr c - queue c + j) = Some pw /\
      0 < pw_transmissions pw /\ pw_needResend pw = false /\
      0 <= pw_payload pw.

(** ** Connecting *)

(** The bytes of the peer address a connection keeps. *)
Definition addrOf (sockaddr : list Z) (addrlen : Z) : list Z :=
  take (Z.to_nat addrlen) sockaddr
  ++ drop (Z.to_nat addrlen) (replicate 128%nat 0).

(** What a slot of the send queue adds to the bytes in flight: the
    payload of a packet that was sent and is not marked for resending. *)
Definition slotInFlight (e : option packetWrap) : Z :=
  match e with
  | Some pw =>
      if (pw_transmissions pw >? 0) && negb (pw_needResend pw)
      then pw_payload pw else 0
  | None => 0
  end.

(** ** Retransmission *)

(** A queued packet is due for retransmission at the time of the socket:
    it was sent, is not marked yet and its timeout has passed. *)
Definition resendDue (s : rdpSocket) (rto : Z) (pw : packetWrap) : bool :=
  negb ((pw_transmissions pw =? 0) || pw_needResend pw
        || (mstime s <? uint64_t (pw_sentTime pw + rto))).

(** A slot of the send queue with the packet that is due marked. *)
Definition markedSlot (s : rdpSocket) (rto : Z) (e : option packetWrap)
    : option packetWrap :=
  match e with
  | Some pw =>
      if resendDue s rto pw then Some (set_pw_needResend pw true) else Some pw
  | None => None
  end.

(** ** The mask of a selective acknowledgement *)

(** The mask rdpReadPoll hands to selectiveAck when the extension walk
    found it at offset 2 of the bytes behind the header. *)
Definition sackMaskOf (tail : list Z) : Z -> Z :=
  fun j => byteAt tail (2 + j).

(** sackSize of sendAck. *)
Definition sackSizeOf (c : rdpConn) : Z :=
  outOfOrderCnt c / 8 + 1 + 3 - ((outOfOrderCnt c / 8 + 1 + 3) mod 4).

(** The slot of a sequence number holds something. *)
Definition occupied {A : Type} (ob : rbuffer A) (i : Z) : bool :=
  match rbufferGet ob i with Some _ => true | None => false end.

(** ** The periodic check *)

(** The periodic check gives the connection up: the retransmission timer
    has expired and a connection in CS_FIN_SENT or CS_SYN_RECV has heard
    nothing for ten seconds. *)
Definition checkExpires (s : rdpSocket) (c : rdpConn) : bool :=
  (mstime s >=? retransmitTicker c)
  && ((connState_eqb (state c) CS_FIN_SENT
       && (mstime s >=? uint64_t (lastReceivedPacket c + RDP_WAIT_FIN_SENT)))
      || (connState_eqb (state c) CS_SYN_RECV
          && (mstime s
              >=? uint64_t (lastReceivedPacket c + RDP_WAIT_SYN_RECV)))).

(** ** The registry *)

(** No two registered connections answer to the same key: the registry
    maps (peer address, recvId) to at most one connection. *)
Definition registryUnique (heap : gmap nat rdpConn) (l : list nat) : Prop :=
  List.NoDup l /\
  forall (q1 q2 : nat) (v1 v2 : rdpConn),
    In q1 l -> In q2 l -> q1 <> q2 ->
    heap !! q1 = Some v1 -> heap !! q2 = Some v2 ->
    listEqualRdpConn v1 v2 = false.

(** ** Acknowledgements owed *)

(** sendAck cannot trip its assertion. *)
Definition ackReady (c : rdpConn) : Prop :=
  outOfOrderCnt c = 0 \/ state c = CS_SYN_RECV \/
  receivedFinCompleted c = true \/
  rbufferGet (inbuf c) (acknr c + 1) = None.

(** sendAck trips its assertion: it is about to write a selective
    acknowledgement while the slot of acknr + 1 holds a packet. *)
Definition ackBlocked (c : rdpConn) : bool :=
  negb (outOfOrderCnt c =? 0)
  && negb (connState_eqb (state c) CS_SYN_RECV)
  && negb (receivedFinCompleted c)
  && occupied (inbuf c) (acknr c + 1).

(** The connection after rdpContextAck has visited it. *)
Definition ackedConn (s : rdpSocket) (c : rdpConn) : rdpConn :=
  if needSendAck c then
    set_needSendAck (set_lastSentPacket c (mstime s)) false
  else c.

(** The datagram is the acknowledgement of the connection. *)
Definition ackOf (c : rdpConn) (d : datagram) : Prop :=
  packetGetType (dg_hdr d) = ST_STATE /\ connId (dg_hdr d) = sendId c /\
  p_acknr (dg_hdr d) = acknr c /\ p_seqnr (dg_hdr d) = seqnr c.

(** The connections of the list that owe an acknowledgement. *)
Definition owingAck (heap : gmap nat rdpConn) (l : list nat) : list nat :=
  List.filter (fun cp => match heap !! cp with
                         | Some c => needSendAck c
                         | None => false
                         end) l.

(** ** Sample states *)

Definition ex_sock : rdpSocket :=
  mkRdpSocket [] 1000 0 RDP_BUFFER_SIZE_MAX RDP_BUFFER_SIZE_MAX 500 3 0.

(** A connection as rdpConnCreate leaves it, moved to CS_CONNECTED. *)
Definition ex_connected (r : Z) : rdpConn :=
  set_state (rdpConnCreate r) CS_CONNECTED.

Definition conn_after (r : outcome writeResult) (d : rdpConn) : rdpConn :=
  match r with
  | Done r => match wr_conn r with Some c => c | None => d end
  | _ => d
  end.

(** [ex_connected 95] after [k] writes of three bytes each at time 1000:
    [k] packets are queued, each of them sent once. *)
Fixpoint ex_writes (k : nat) : rdpConn :=
  match k with
  | O => ex_connected 95
  | S k' =>
      conn_after
        (rdpWriteVec ex_sock (Some (ex_writes k')) (Some [[7; 7; 7]]) 1000)
        (ex_writes k')
  end.

(** A packet of one byte, sent once at time 1000. *)
Definition ex_queued_packet (i : Z) : packetWrap :=
  mkPacketWrap 1 1000 1 false (mkPacket 1 0 0 16777216 i 0) [7].

(** A connection with 16383 such packets queued, numbered from 0. *)
Definition ex_full_queue : rdpConn :=
  set_lastSentPacket
    (set_flightWindow
       (set_queue
          (set_outbuf (ex_connected 16383)
             (mkRbuffer 16383
                (map (fun i => Some (ex_queued_packet i)) (seqZ 0 16383)
                 ++ [None])))
          16383)
       16383)
    1000.

(** The return value, errno, seqnr and queue a call of rdpWriteVec leaves. *)
Definition write_summary (r : outcome writeResult)
    : option (Z * option Z * option (Z * Z)) :=
  match r with
  | Done r =>
      Some (wr_ret r, wr_errno r,
            match wr_conn r with
            | Some c => Some (seqnr c, queue c)
            | None => None
            end)
  | _ => None
  end.

(** A selective-ack mask of four bytes with the bits 0, 1 and 2 set. *)
Definition ex_sack_mask (j : Z) : Z := if j =? 0 then 7 else 0.

Definition ex_world : world :=
  mkWorld ex_sock {[ 0%nat := rdpConnCreate 100 ]}.

(** A sockaddr_in: AF_INET, port 9000, 127.0.0.1. *)
Definition ex_peer : list Z :=
  [2; 0; 35; 40; 127; 0; 0; 1; 0; 0; 0; 0; 0; 0; 0; 0].

(** [n] bytes: 0, 1, ..., 255, 0, 1, ... *)
Definition ex_bytes (n : Z) : list Z := map (fun i => i mod 256) (seqZ 0 n).

(** The payload lengths of the datagrams a call of rdpWriteVec sends. *)
Definition write_payloads (r : outcome writeResult) : list Z :=
  match r with
  | Done r => map (fun d => Z.of_nat (length (dg_tail d))) (wr_out r)
  | _ => []
  end.

(** The types of the packets a call of rdpConnCheck sends, and the
    retransmitTimeout and retransmitTicker it leaves. *)
Definition check_summary (r : outcome (rdpSocket * rdpConn * list datagram))
    : option (list Z * Z * Z) :=
  match r with
  | Done (_, c, out) =>
      Some (map (fun d => packetGetType (dg_hdr d)) out,
            retransmitTimeout c, retransmitTicker c)
  | _ => None
  end.

(** A connection with one packet of three bytes queued and not sent. *)
Definition ex_open : rdpConn :=
  match buildSendPacket (ex_connected 95) 3 ST_DATA [[7; 7; 7]] with
  | Done (c, _) => c
  | _ => ex_connected 95
  end.

(** A peer of [ex_connected 95]: registered under recvId 0 for the
    address [ex_peer], expecting sequence number 95. *)
Definition ex_receiver : world :=
  mkWorld (set_conns ex_sock [0%nat])
    {[ 0%nat := set_addr (set_addrlen (set_acknr (ex_connected 1) 94) 16)
                  (addrOf ex_peer 16) ]}.

(** A connection that holds one packet out of order, two places behind
    the one it expects. *)
Definition ex_holding : rdpConn :=
  set_outOfOrderCnt
    (set_inbuf (ex_connected 1)
       (rbufferPut (inbuf (ex_connected 1)) (acknr (ex_connected 1) + 3)
          (Some [1; 9])))
    1.

(** A connection that sent its FIN at time 0 and has heard nothing. *)
Definition ex_fin_sent : rdpConn := set_state (ex_connected 95) CS_FIN_SENT.

(** A socket with two connections, the first of which owes an
    acknowledgement. *)
Definition ex_two : world :=
  mkWorld (set_conns ex_sock [0%nat; 1%nat])
    {[ 0%nat := set_needSendAck (ex_connected 1) true;
       1%nat := ex_connected 2 ]}.

(** [ex_holding] once the packet after the acknowledged one has been
    stored as well and an acknowledgement is owed. *)
Definition ex_blocked : rdpConn :=
  set_needSendAck
    (set_inbuf ex_holding
       (rbufferPut (inbuf ex_holding) (acknr ex_holding + 1)
          (Some [1; 8])))
    true.

(** A socket with two connections, the second of which owes an
    acknowledgement that sendAck cannot write. *)
Definition ex_two_blocked : world :=
  mkWorld (set_conns ex_sock [0%nat; 1%nat])
    {[ 0%nat := ex_connected 2;
       1%nat := ex_blocked ]}.

(** [ex_writes 1] with a second packet of three bytes queued and not
    sent: sequence number 96 behind the sent packet 95. *)
Definition ex_unsent : rdpConn :=
  match buildSendPacket (ex_writes 1) 3 ST_DATA [[7; 7; 7]] with
  | Done (c, _) => c
  | _ => ex_writes 1
  end.

(** * Properties *)

(** Unfolds field accesses and updates of the records and the binds, by
    value: an updated record is simplified before it is passed on. *)
Ltac fields :=
  cbv beta iota zeta delta [versionAndType reserve connId window p_seqnr
       p_acknr pw_payload pw_sentTime pw_transmissions pw_needResend pw_hdr
       pw_body dg_hdr dg_tail conns mstime lastCheck sendBufferSize
       recvBufferSize nextCheckTimeout fd verbosity inbuf outbuf userData
       lastReceivedPacket lastSentPacket rtt rttVar nextRetransmitTimeout
       retransmitTimeout retransmitTicker state flightWindow
       flightWindowLimit recvWindowPeer recvWindowSelf oldestResent idSeed
       recvId sendId queue outOfOrderCnt seqnr acknr eofseqnr
       receivedFinCompleted receivedFin needSendAck addrlen addr wr_ret
       wr_errno wr_sock wr_conn wr_vec wr_out pr_conn pr_events pr_ret
       pr_sack w_sock w_heap set_versionAndType set_reserve set_connId
       set_window set_p_seqnr set_p_acknr set_pw_payload set_pw_sentTime
       set_pw_transmissions set_pw_needResend set_pw_hdr set_pw_body
       set_conns set_mstime set_nextCheckTimeout set_inbuf set_outbuf
       set_userData set_lastReceivedPacket set_lastSentPacket set_rtt
       set_rttVar set_nextRetransmitTimeout set_retransmitTimeout
       set_retransmitTicker set_state set_flightWindow set_flightWindowLimit
       set_recvWindowPeer set_recvWindowSelf set_oldestResent set_idSeed
       set_recvId set_sendId set_queue set_outOfOrderCnt set_seqnr set_acknr
       set_eofseqnr set_receivedFinCompleted set_receivedFin set_needSendAck
       set_addrlen set_addr mask elements mbind outcome_bind mret
       outcome_ret].

Ltac fields_in H :=
  cbv beta iota zeta delta [versionAndType reserve connId window p_seqnr
       p_acknr pw_payload pw_sentTime pw_transmissions pw_needResend pw_hdr
       pw_body dg_hdr dg_tail conns mstime lastCheck sendBufferSize
       recvBufferSize nextCheckTimeout fd verbosity inbuf outbuf userData
       lastReceivedPacket lastSentPacket rtt rttVar nextRetransmitTimeout
       retransmitTimeout retransmitTicker state flightWindow
       flightWindowLimit recvWindowPeer recvWindowSelf oldestResent idSeed
       recvId sendId queue outOfOrderCnt seqnr acknr eofseqnr
       receivedFinCompleted receivedFin needSendAck addrlen addr wr_ret
       wr_errno wr_sock wr_conn wr_vec wr_out pr_conn pr_events pr_ret
       pr_sack w_sock w_heap set_versionAndType set_reserve set_connId
       set_window set_p_seqnr set_p_acknr set_pw_payload set_pw_sentTime
       set_pw_transmissions set_pw_needResend set_pw_hdr set_pw_body
       set_conns set_mstime set_nextCheckTimeout set_inbuf set_outbuf
       set_userData set_lastReceivedPacket set_lastSentPacket set_rtt
       set_rttVar set_nextRetransmitTimeout set_retransmitTimeout
       set_retransmitTicker set_state set_flightWindow set_flightWindowLimit
       set_recvWindowPeer set_recvWindowSelf set_oldestResent set_idSeed
       set_recvId set_sendId set_queue set_outOfOrderCnt set_seqnr set_acknr
       set_eofseqnr set_receivedFinCompleted set_receivedFin set_needSendAck
       set_addrlen set_addr mask elements mbind outcome_bind mret
       outcome_ret] in H.

(** ** Arithmetic of the fixed-width types *)

Lemma pow2_pos (k : Z) : 0 <= k -> 0 < 2 ^ k.
Proof. intros; apply Z.pow_pos_nonneg; lia. Qed.

Lemma pow2_divide (a b : Z) : 0 <= a <= b -> (2 ^ a | 2 ^ b).
Proof.
  intros H. exists (2 ^ (b - a)).
  rewrite <- Z.pow_add_r by lia. f_equal; lia.
Qed.

Lemma mod_pow2_twice (x a b : Z) :
  0 <= a <= b -> (x mod 2 ^ b) mod 2 ^ a = x mod 2 ^ a.
Proof. intros H. apply Z.mod_mod_divide, pow2_divide, H. Qed.

Lemma land_pow2_mask (x k : Z) : 0 <= k -> Z.land x (2 ^ k - 1) = x mod 2 ^ k.
Proof.
  intros Hk. rewrite <- (Z.land_ones x k Hk). f_equal.
  rewrite Z.ones_equiv. lia.
Qed.

Section RbufferFacts.
Context {A : Type}.
Implicit Types buf : rbuffer A.

Lemma rbufferSlot_pow2 (k i : Z) :
  0 <= k <= 64 -> rbufferSlot (2 ^ k - 1) i = Z.to_nat (i mod 2 ^ k).
Proof.
  intros Hk. unfold rbufferSlot, size_t.
  rewrite land_pow2_mask by lia. now rewrite mod_pow2_twice by lia.
Qed.

Lemma rbufferSlot_lt (k i : Z) :
  0 <= k <= 64 -> Z.of_nat (rbufferSlot (2 ^ k - 1) i) < 2 ^ k.
Proof.
  intros Hk. rewrite rbufferSlot_pow2 by lia.
  pose proof (Z.mod_pos_bound i (2 ^ k) (pow2_pos k ltac:(lia))). lia.
Qed.

(** Two indices less than the size apart select different slots. *)
Lemma rbufferSlot_inj (k x y : Z) :
  0 <= k <= 64 -> 0 < y - x < 2 ^ k ->
  rbufferSlot (2 ^ k - 1) x <> rbufferSlot (2 ^ k - 1) y.
Proof.
  intros Hk Hxy. rewrite !rbufferSlot_pow2 by lia.
  pose proof (pow2_pos k ltac:(lia)) as Hp.
  pose proof (Z.mod_pos_bound x (2 ^ k) Hp).
  pose proof (Z.mod_pos_bound y (2 ^ k) Hp).
  intros E. assert (E' : x mod 2 ^ k = y mod 2 ^ k) by lia.
  pose proof (Z.div_mod x (2 ^ k)). pose proof (Z.div_mod y (2 ^ k)).
  remember (2 ^ k) as P. remember (y / P - x / P) as q.
  assert (Hq : y - x = P * q) by (subst q; lia).
  assert (Hc : q <= 0 \/ 1 <= q) by lia.
  destruct Hc; nia.
Qed.

Lemma size_t_double (a : Z) : 0 <= a < 63 -> size_t (2 ^ a * 2) = 2 ^ (a + 1).
Proof.
  intros Ha. unfold size_t.
  replace (2 ^ a * 2) with (2 ^ (a + 1))
    by (rewrite Z.pow_add_r by lia; reflexivity).
  apply Z.mod_small. split; [pose proof (pow2_pos (a + 1)); lia|].
  apply Z.pow_lt_mono_r; lia.
Qed.

Lemma rbufferGrowSize_done (d : nat) : forall (fuel : nat) (a b index : Z),
  0 <= a -> b = Z.log2 index -> 0 < index < 2 ^ 63 -> 2 ^ a <= index ->
  d = Z.to_nat (b - a) -> (d < fuel)%nat ->
  rbufferGrowSize fuel (2 ^ a) index = Done (2 ^ (b + 1)).
Proof.
  induction d as [|d IH]; intros fuel a b index Ha Hb Hi Hai Hd Hf;
    (destruct fuel as [|fuel]; [lia|]); cbn [rbufferGrowSize].
  all: pose proof (Z.log2_spec index ltac:(lia)) as Hl; rewrite <- Hb in Hl.
  all: assert (Hab : a <= b) by (subst b; apply Z.log2_le_pow2; lia).
  all: assert (Hb63 : b < 63)
    by (apply (Z.pow_lt_mono_r_iff 2); [lia|lia|lia]).
  all: rewrite size_t_double by lia.
  - assert (a = b) by lia. subst a.
    destruct (Z.geb_spec index (2 ^ (b + 1))) as [?|?]; [|reflexivity].
    replace (Z.succ b) with (b + 1) in Hl by lia. lia.
  - destruct (Z.geb_spec index (2 ^ (a + 1))) as [Hge|Hlt].
    + apply IH; try lia.
    + exfalso. assert (a + 1 <= b) by lia.
      assert (2 ^ (a + 1) <= 2 ^ b) by (apply Z.pow_le_mono_r; lia). lia.
Qed.

Lemma rbufferGrowCopy_length buf item index newmask n (l : list (option A)) :
  length (rbufferGrowCopy buf item index newmask n l) = length l.
Proof.
  induction n as [|n IH]; cbn [rbufferGrowCopy]; [reflexivity|].
  now rewrite length_insert.
Qed.

(** After [n] rounds of the copy loop the new array holds, at the new slot
    of each index visited, what the old buffer holds at that index. *)
Lemma rbufferGrowCopy_lookup buf item index K (n : nat)
    (l : list (option A)) (i : nat) :
  0 <= K <= 64 -> Z.of_nat (length l) = 2 ^ K -> Z.of_nat n <= 2 ^ K ->
  (i < n)%nat ->
  rbufferGrowCopy buf item index (2 ^ K - 1) n l
    !! rbufferSlot (2 ^ K - 1) (item - index + Z.of_nat i)
  = Some (rbufferGet buf (item - index + Z.of_nat i)).
Proof.
  intros HK Hl. induction n as [|n IH]; intros Hn Hi; [lia|].
  cbn [rbufferGrowCopy]. destruct (decide (i = n)) as [->|Hne].
  - apply list_lookup_insert_eq. rewrite rbufferGrowCopy_length.
    pose proof (rbufferSlot_lt K (item - index + Z.of_nat n) HK). lia.
  - rewrite list_lookup_insert_ne; [apply IH; lia|].
    apply not_eq_sym, rbufferSlot_inj; lia.
Qed.

End RbufferFacts.

(** What rbufferGrow does to a buffer of [2 ^ k] slots: the new buffer has
    [2 ^ (log2 index + 1)] slots and reads at the positions copied what
    the old one reads there. *)
Lemma rbufferGrow_done {A : Type} (buf : rbuffer A) (k item index : Z) :
  0 <= k -> mask buf = 2 ^ k - 1 ->
  Z.of_nat (length (elements buf)) = 2 ^ k ->
  mask buf < index < 2 ^ 63 ->
  exists (new : list (option A)) (b : Z),
    rbufferGrow buf item index = Done (mkRbuffer (2 ^ (b + 1) - 1) new) /\
    k <= b < 63 /\ 2 ^ b <= index < 2 ^ (b + 1) /\
    Z.of_nat (length new) = 2 ^ (b + 1) /\
    (forall i : Z, 0 <= i <= mask buf ->
       rbufferGet (mkRbuffer (2 ^ (b + 1) - 1) new) (item - index + i)
       = rbufferGet buf (item - index + i)).
Proof.
  intros Hk Hm Hlen [Hlo Hhi].
  pose proof (pow2_pos k Hk) as Hp.
  assert (Hidx : 2 ^ k <= index) by lia.
  set (b := Z.log2 index).
  pose proof (Z.log2_spec index ltac:(lia)) as Hl. fold b in Hl.
  replace (Z.succ b) with (b + 1) in Hl by lia.
  assert (Hkb : k <= b) by (apply Z.log2_le_pow2; lia).
  assert (Hb63 : b < 63) by (apply (Z.pow_lt_mono_r_iff 2); lia).
  assert (Hsz : rbufferGrowSize 65 (size_t (mask buf + 1)) index
                = Done (2 ^ (b + 1))).
  { rewrite Hm. replace (2 ^ k - 1 + 1) with (2 ^ k) by lia.
    unfold size_t. rewrite Z.mod_small.
    - apply (rbufferGrowSize_done (Z.to_nat (b - k))); try lia; reflexivity.
    - split; [lia|]. apply Z.pow_lt_mono_r; lia. }
  pose proof (pow2_pos (b + 1) ltac:(lia)) as Hp1.
  assert (Hnew : size_t (2 ^ (b + 1) - 1) = 2 ^ (b + 1) - 1).
  { unfold size_t. apply Z.mod_small.
    assert (2 ^ (b + 1) < 2 ^ 64) by (apply Z.pow_lt_mono_r; lia). lia. }
  set (new := rbufferGrowCopy buf item index (2 ^ (b + 1) - 1)
                (Z.to_nat (mask buf + 1))
                (replicate (Z.to_nat (2 ^ (b + 1))) None)).
  assert (Hkb1 : 2 ^ k <= 2 ^ (b + 1)) by (apply Z.pow_le_mono_r; lia).
  exists new, b. split.
  { unfold rbufferGrow. rewrite Hsz.
    cbn [mbind outcome_bind mret outcome_ret]. rewrite Hnew. reflexivity. }
  split; [lia|]. split; [lia|]. split.
  { unfold new. rewrite rbufferGrowCopy_length, length_replicate. lia. }
  intros i Hi. unfold rbufferGet at 1. cbn [mask elements].
  replace i with (Z.of_nat (Z.to_nat i)) by lia.
  unfold new. rewrite rbufferGrowCopy_lookup; try lia; [reflexivity|].
  rewrite length_replicate. lia.
Qed.

(** C7: for a ring buffer of [2 ^ k] slots and an offset [index] beyond its
    mask, rbufferGrow returns, the new size is the old size times [2 ^ j]
    for the least [j] that makes it exceed [index], every logical position
    [item - index + i], [i] in [0, old mask], reads after the grow what it
    read before, and every old slot is read by one of these positions: no
    stored element is lost. *)
Theorem rbufferGrow_relocates {A : Type} (buf : rbuffer A) (k item index : Z) :
  0 <= k -> mask buf = 2 ^ k - 1 ->
  Z.of_nat (length (elements buf)) = 2 ^ k ->
  mask buf < index < 2 ^ 63 ->
  exists (buf' : rbuffer A) (j : Z),
    rbufferGrow buf item index = Done buf' /\
    1 <= j /\
    mask buf' + 1 = 2 ^ j * (mask buf + 1) /\
    index < mask buf' + 1 /\
    (forall j' : Z, 0 <= j' -> index < 2 ^ j' * (mask buf + 1) -> j <= j') /\
    Z.of_nat (length (elements buf')) = mask buf' + 1 /\
    (forall i : Z, 0 <= i <= mask buf ->
       rbufferGet buf' (item - index + i) = rbufferGet buf (item - index + i)) /\
    (forall (n : nat) (e : option A), elements buf !! n = Some e ->
       exists i : Z, 0 <= i <= mask buf /\
         rbufferSlot (mask buf) (item - index + i) = n /\
         rbufferGet buf' (item - index + i) = e).
Proof.
  intros Hk Hm Hlen Hidx.
  destruct (rbufferGrow_done buf k item index Hk Hm Hlen Hidx)
    as (new & b & Hgrow & Hb & Hpow & Hlen' & Hget).
  pose proof (pow2_pos k Hk) as Hp.
  exists (mkRbuffer (2 ^ (b + 1) - 1) new), (b + 1 - k).
  split; [exact Hgrow|]. cbn [mask elements].
  split; [lia|]. split.
  { rewrite Hm. replace (2 ^ k - 1 + 1) with (2 ^ k) by lia.
    rewrite <- Z.pow_add_r by lia. replace (b + 1 - k + k) with (b + 1) by lia.
    lia. }
  split; [lia|]. split.
  { intros j' Hj' Hlt. rewrite Hm in Hlt.
    replace (2 ^ k - 1 + 1) with (2 ^ k) in Hlt by lia.
    rewrite <- Z.pow_add_r in Hlt by lia.
    assert (2 ^ b < 2 ^ (j' + k)) by lia.
    assert (b < j' + k) by (apply (Z.pow_lt_mono_r_iff 2); lia). lia. }
  split; [lia|]. split; [exact Hget|].
  intros n e Hn.
  assert (Hnlt : Z.of_nat n < 2 ^ k).
  { apply lookup_lt_Some in Hn. lia. }
  exists ((Z.of_nat n - (item - index)) mod 2 ^ k).
  pose proof (Z.mod_pos_bound (Z.of_nat n - (item - index)) (2 ^ k) Hp) as Hbd.
  assert (Hslot : rbufferSlot (mask buf)
            (item - index + (Z.of_nat n - (item - index)) mod 2 ^ k) = n).
  { rewrite Hm, rbufferSlot_pow2 by lia.
    rewrite Z.add_mod_idemp_r by lia.
    replace (item - index + (Z.of_nat n - (item - index))) with (Z.of_nat n)
      by lia.
    rewrite Z.mod_small by lia. lia. }
  split; [lia|]. split; [exact Hslot|].
  rewrite Hget by lia. unfold rbufferGet. rewrite Hslot, Hn. reflexivity.
Qed.

Lemma rbufferGrow_relocates_witness :
  exists (buf' : rbuffer Z) (j : Z),
    rbufferGrow (rbufferPut rbufferInit 5 (Some 42)) 70 64 = Done buf' /\
    1 <= j /\
    mask buf' + 1 = 2 ^ j * (mask (rbufferPut rbufferInit 5 (Some 42)) + 1) /\
    64 < mask buf' + 1 /\
    (forall j' : Z, 0 <= j' ->
       64 < 2 ^ j' * (mask (rbufferPut rbufferInit 5 (Some 42)) + 1) ->
       j <= j') /\
    Z.of_nat (length (elements buf')) = mask buf' + 1 /\
    (forall i : Z, 0 <= i <= mask (rbufferPut rbufferInit 5 (Some 42)) ->
       rbufferGet buf' (70 - 64 + i)
       = rbufferGet (rbufferPut rbufferInit 5 (Some 42)) (70 - 64 + i)) /\
    (forall (n : nat) (e : option Z),
       elements (rbufferPut rbufferInit 5 (Some 42)) !! n = Some e ->
       exists i : Z, 0 <= i <= mask (rbufferPut rbufferInit 5 (Some 42)) /\
         rbufferSlot (mask (rbufferPut rbufferInit 5 (Some 42)))
           (70 - 64 + i) = n /\
         rbufferGet buf' (70 - 64 + i) = e).
Proof.
  apply (rbufferGrow_relocates (rbufferPut rbufferInit 5 (Some 42)) 6 70 64).
  - lia.
  - reflexivity.
  - reflexivity.
  - cbn [mask rbufferPut rbufferInit]. lia.
Defined.

(** ** Packet header nibbles *)

Lemma forallb_seqZ (f : Z -> bool) (n x : Z) :
  forallb f (seqZ 0 n) = true -> 0 <= x < n -> f x = true.
Proof.
  intros Hall Hx. rewrite forallb_forall in Hall. apply Hall.
  apply list_elem_of_In, elem_of_seqZ. lia.
Qed.

Lemma nibble_check_all (vt x : Z) :
  0 <= vt < 256 -> 0 <= x < 16 -> nibble_check vt x = true.
Proof.
  intros Hvt Hx.
  apply (forallb_seqZ (fun x => nibble_check vt x) 16); [|exact Hx].
  apply (forallb_seqZ (fun vt => forallb (fun x => nibble_check vt x)
                                   (seqZ 0 16)) 256); [|exact Hvt].
  vm_compute. reflexivity.
Qed.

(** C10: for a header byte [versionAndType] (a uint8_t) and a nibble
    [x < 16], packetSetVersion stores [x] as the version and leaves the
    type alone, and packetSetType stores [x] as the type and leaves the
    version alone. *)
Theorem packet_nibbles_independent (p : packet) (x : Z) :
  0 <= versionAndType p < 256 -> 0 <= x < 16 ->
  (packetGetVersion (packetSetVersion p x) = x /\
   packetGetType (packetSetVersion p x) = packetGetType p) /\
  (packetGetType (packetSetType p x) = x /\
   packetGetVersion (packetSetType p x) = packetGetVersion p).
Proof.
  intros Hvt Hx. pose proof (nibble_check_all _ _ Hvt Hx) as H.
  unfold nibble_check in H. destruct p as [vt r ci w sq ak].
  unfold packetGetVersion, packetGetType, packetSetVersion, packetSetType
    in *. cbn [versionAndType set_versionAndType] in *.
  rewrite !andb_true_iff, !Z.eqb_eq in H. tauto.
Qed.

Lemma packet_nibbles_independent_witness :
  (packetGetVersion (packetSetVersion (mkPacket 0x21 0 7 0 3 4) 5) = 5 /\
   packetGetType (packetSetVersion (mkPacket 0x21 0 7 0 3 4) 5)
   = packetGetType (mkPacket 0x21 0 7 0 3 4)) /\
  (packetGetType (packetSetType (mkPacket 0x21 0 7 0 3 4) 5) = 5 /\
   packetGetVersion (packetSetType (mkPacket 0x21 0 7 0 3 4) 5)
   = packetGetVersion (mkPacket 0x21 0 7 0 3 4)).
Proof.
  apply (packet_nibbles_independent (mkPacket 0x21 0 7 0 3 4) 5);
    cbn [versionAndType]; lia.
Defined.

(** ** The window of acceptable acknowledgement numbers *)

Lemma sixteenAfter_distance (a b : Z) :
  sixteenAfter a b = true <-> sixteenDistance a b < 0.
Proof.
  unfold sixteenAfter, sixteenDistance, int16_t, uint16_t.
  rewrite Z.ltb_lt.
  change (2 ^ 15) with 32768. change (2 ^ 16) with 65536.
  Z.div_mod_to_equations. lia.
Qed.

Lemma sixteenDistance_nonneg (a b : Z) :
  0 <= sixteenDistance a b <-> uint16_t (a - b) < 2 ^ 15.
Proof.
  unfold sixteenDistance, int16_t, uint16_t.
  change (2 ^ 15) with 32768. change (2 ^ 16) with 65536.
  Z.div_mod_to_equations. lia.
Qed.

Lemma rdpReadPollAcknrInvalid_range (c : rdpConn) (packnr : Z) :
  rdpReadPollAcknrInvalid c packnr = true <->
  ~ inSixteenRange (seqnr c - queue c - 11) (seqnr c - 1) packnr.
Proof.
  unfold rdpReadPollAcknrInvalid, inSixteenRange,
    RDP_ACK_NR_RECV_BEHIND_ALLOWED.
  rewrite orb_true_iff, !sixteenAfter_distance.
  replace (seqnr c - 1 - queue c - 10) with (seqnr c - queue c - 11) by lia.
  lia.
Qed.

Lemma rdpReadPollAcknrInvalid_interval (c : rdpConn) (packnr : Z) :
  0 <= queue c <= RDP_QUEUE_SIZE_MAX ->
  rdpReadPollAcknrInvalid c packnr = false <->
  uint16_t (seqnr c - 1 - packnr) <= queue c + 10.
Proof.
  intros Hq. rewrite <- not_true_iff_false, rdpReadPollAcknrInvalid_range.
  unfold inSixteenRange. rewrite !sixteenDistance_nonneg.
  unfold uint16_t, RDP_QUEUE_SIZE_MAX in *.
  change (2 ^ 15) with 32768. change (2 ^ 16) with 65536.
  Z.div_mod_to_equations. lia.
Qed.

(** C3, as amended: a STATE, DATA or FIN packet that reaches a connection
    not in CS_DESTROY fails the test of its acknr exactly when the acknr
    lies outside [seqnr - queue - 11, seqnr - 1] under signed 16-bit
    distance; rdpReadPoll then returns -1 and leaves the connection as it
    was.  With at most 16384 packets queued the packets that pass are those
    whose acknr is at most [queue + 10] behind [seqnr - 1] modulo 2^16. *)
Theorem rdpReadPoll_acknr_window (RDP_CONTINUE RDP_ACCEPT RDP_CONNECTED
    RDP_POLLOUT : Z) (s : rdpSocket) (c : rdpConn) (p : packet)
    (tail : list Z) (rawRead : Z) :
  state c <> CS_DESTROY ->
  (rdpReadPollAcknrInvalid c (p_acknr p) = true <->
   ~ inSixteenRange (seqnr c - queue c - 11) (seqnr c - 1) (p_acknr p)) /\
  (rdpReadPollAcknrInvalid c (p_acknr p) = true ->
   rdpReadPollAck RDP_CONTINUE RDP_ACCEPT RDP_CONNECTED RDP_POLLOUT s c p
     tail rawRead
   = Done (mkPollResult c RDP_CONTINUE (Some (-1)) [])) /\
  (0 <= queue c <= RDP_QUEUE_SIZE_MAX ->
   (rdpReadPollAcknrInvalid c (p_acknr p) = false <->
    uint16_t (seqnr c - 1 - p_acknr p) <= queue c + 10)).
Proof.
  intros Hst. split; [apply rdpReadPollAcknrInvalid_range|]. split.
  - intros Hinv. unfold rdpReadPollAck.
    destruct (state c); try congruence; cbn [connState_eqb];
      rewrite Hinv; reflexivity.
  - apply rdpReadPollAcknrInvalid_interval.
Qed.

(** ** rdpWriteVec: the state check *)

(** C5: with a connection and between 1 and 1024 vectors, rdpWriteVec
    fails with EAGAIN in CS_SYN_SENT and CS_CONNECTED_FULL, with EINVAL in
    CS_UNINITIALIZED, CS_SYN_RECV, CS_FIN_SENT and CS_DESTROY, and in every
    state but CS_CONNECTED it fails before it touches the socket, the
    connection or the vectors and sends nothing. *)
Theorem rdpWriteVec_state_check (s : rdpSocket) (c : rdpConn)
    (vec : list rdpVec) (now : Z) :
  vec <> [] -> Z.of_nat (length vec) <= RDP_MAX_VEC ->
  (state c = CS_SYN_SENT \/ state c = CS_CONNECTED_FULL ->
   rdpWriteVec s (Some c) (Some vec) now
   = Done (mkWriteResult (-1) (Some EAGAIN) s (Some c) (Some vec) [])) /\
  (state c = CS_UNINITIALIZED \/ state c = CS_SYN_RECV \/
   state c = CS_FIN_SENT \/ state c = CS_DESTROY ->
   rdpWriteVec s (Some c) (Some vec) now
   = Done (mkWriteResult (-1) (Some EINVAL) s (Some c) (Some vec) [])) /\
  (state c <> CS_CONNECTED ->
   exists e : Z,
     rdpWriteVec s (Some c) (Some vec) now
     = Done (mkWriteResult (-1) (Some e) s (Some c) (Some vec) [])).
Proof.
  intros Hne Hlen.
  assert (Hcnt : (Z.of_nat (length vec) =? 0) = false).
  { apply Z.eqb_neq. destruct vec; [congruence|cbn [length]; lia]. }
  assert (Hmax : (Z.of_nat (length vec) >? RDP_MAX_VEC) = false).
  { destruct (Z.gtb_spec (Z.of_nat (length vec)) RDP_MAX_VEC); [lia|easy]. }
  unfold rdpWriteVec. rewrite Hcnt, Hmax.
  split; [|split].
  - intros [-> | ->]; reflexivity.
  - intros [-> | [-> | [-> | ->]]]; reflexivity.
  - intros Hst. destruct (state c); try congruence; eexists; reflexivity.
Qed.

(** ** ackPacket: the retransmission timeout *)

Lemma limitedRetransmitTimeout_bounds (t : Z) :
  RDP_RETRANSMIT_TIMEOUT_MIN <= limitedRetransmitTimeout t
  <= RDP_RETRANSMIT_TIMEOUT_MAX.
Proof.
  unfold limitedRetransmitTimeout, min, max, uint32_t,
    RDP_RETRANSMIT_TIMEOUT_MIN, RDP_RETRANSMIT_TIMEOUT_MAX,
    RDP_RETRANSMIT_TIMEOUT_DEFAULT.
  destruct (t >? 0); [|lia].
  destruct (Z.ltb_spec 200 t) as [H1|H1];
    [destruct (Z.ltb_spec 1000 t) as [H2|H2]
    |destruct (Z.ltb_spec 1000 200) as [H2|H2]];
    rewrite Z.mod_small; lia.
Qed.

(** C6: a call of ackPacket on a slot sent exactly once (and whose
    assertion on the flight window holds) returns 0, empties the slot and
    leaves nextRetransmitTimeout, computed from the new rtt and rttVar,
    between 200 and 1000 ms. *)
Theorem ackPacket_rto_bounds (s : rdpSocket) (c : rdpConn) (i : Z)
    (pw : packetWrap) :
  rbufferGet (outbuf c) (uint16_t i) = Some pw ->
  pw_transmissions pw = 1 ->
  pw_needResend pw = true \/ pw_payload pw <= flightWindow c ->
  exists c' : rdpConn,
    ackPacket s c i = Done (c', 0) /\
    outbuf c' = rbufferPut (outbuf c) (uint16_t i) None /\
    nextRetransmitTimeout c'
    = limitedRetransmitTimeout (uint32_t (rtt c' + rttVar c' * 4)) /\
    200 <= nextRetransmitTimeout c' <= 1000.
Proof.
  intros Hget Htr Hassert. unfold ackPacket. rewrite Hget, Htr.
  cbn [Z.eqb Pos.eqb].
  set (packetRtt := uint32_t (uint64_t (mstime s - pw_sentTime pw))).
  set (c0 := set_outbuf c (rbufferPut (outbuf c) (uint16_t i) None)).
  set (c1 := if rtt c0 =? 0 then _ else _).
  set (c2 := set_nextRetransmitTimeout c1 _).
  assert (Hrto : 200 <= nextRetransmitTimeout c2 <= 1000).
  { subst c2. cbn [nextRetransmitTimeout set_nextRetransmitTimeout].
    apply limitedRetransmitTimeout_bounds. }
  assert (Hfw : flightWindow c2 = flightWindow c).
  { subst c2 c1 c0. destruct (rtt _ =? 0); reflexivity. }
  assert (Hob : outbuf c2 = rbufferPut (outbuf c) (uint16_t i) None).
  { subst c2 c1 c0. destruct (rtt _ =? 0); reflexivity. }
  destruct (pw_needResend pw) eqn:Hnr; cbn [negb].
  - exists c2.
    split; [reflexivity|split; [exact Hob|split; [reflexivity|exact Hrto]]].
  - destruct Hassert as [?|Hle]; [discriminate|].
    rewrite Hfw. destruct (Z.geb_spec (flightWindow c) (pw_payload pw));
      [|lia].
    exists (set_flightWindow c2 (uint32_t (flightWindow c - pw_payload pw))).
    split; [reflexivity|split; [exact Hob|split; [reflexivity|exact Hrto]]].
Qed.

(** ** rdpConnect: the connection ids *)

Lemma rbufferEnsureSize_done {A : Type} (buf : rbuffer A) (item index : Z) :
  rbuffer_wf buf -> index < 2 ^ 63 ->
  exists buf' : rbuffer A,
    rbufferEnsureSize buf item index = Done buf' /\
    rbuffer_wf buf' /\ index <= mask buf' /\ mask buf <= mask buf' /\
    (index <= mask buf -> buf' = buf) /\
    (forall i : Z, 0 <= i <= mask buf ->
       rbufferGet buf' (item - index + i) = rbufferGet buf (item - index + i)).
Proof.
  intros (k & Hk & Hm & Hlen) Hidx. unfold rbufferEnsureSize.
  destruct (Z.gtb_spec index (mask buf)) as [Hgt|Hle].
  - destruct (rbufferGrow_done buf k item index Hk Hm Hlen ltac:(lia))
      as (new & b & Hg & Hb & Hpow & Hlen' & Hget).
    pose proof (pow2_pos k Hk) as Hp.
    assert (2 ^ k <= 2 ^ b) by (apply Z.pow_le_mono_r; lia).
    exists (mkRbuffer (2 ^ (b + 1) - 1) new). split; [exact Hg|].
    cbn [mask elements]. split.
    { exists (b + 1). split; [lia|]. split; [reflexivity|exact Hlen']. }
    split; [lia|]. split; [lia|]. split; [lia|exact Hget].
  - exists buf. split; [reflexivity|]. split; [exists k; auto|].
    split; [lia|]. split; [lia|]. split; auto.
Qed.

Lemma rdpConnInitSeed_done heap s sockaddr addrlen rands seed rest :
  rdpConnInitSeed heap s sockaddr addrlen rands = Done (seed, rest) ->
  0 <= seed < 2 ^ 16 /\
  findRdpConnInRdpSocket heap s sockaddr addrlen seed = None.
Proof.
  induction rands as [|r rands IH]; cbn [rdpConnInitSeed]; [discriminate|].
  destruct (findRdpConnInRdpSocket _ _ _ _ (uint16_t _)) eqn:Hf; [exact IH|].
  intros [= <- <-]. split; [|exact Hf].
  unfold uint16_t. apply Z.mod_pos_bound. reflexivity.
Qed.

Lemma sendPacketWrap_unsent (s : rdpSocket) (c : rdpConn) (pw : packetWrap) :
  pw_transmissions pw = 0 ->
  sendPacketWrap s c pw =
  Done (set_lastSentPacket
          (set_flightWindow c (uint32_t (flightWindow c + pw_payload pw)))
          (mstime s),
        mkPacketWrap (pw_payload pw) (mstime s) (uint31 (0 + 1)) false
          (set_p_acknr (pw_hdr pw) (acknr c)) (pw_body pw),
        [mkDatagram (set_p_acknr (pw_hdr pw) (acknr c))
           (take (Z.to_nat (pw_payload pw)) (pw_body pw))]).
Proof.
  intros H. destruct pw, c. fields_in H. subst.
  unfold sendPacketWrap, sendData, assert. fields. reflexivity.
Qed.

Lemma rdpConnInit_generate heap s cp c sockaddr addrlen rands seed rest :
  rdpConnInitSeed heap s sockaddr addrlen rands = Done (seed, rest) ->
  rdpConnInit heap s cp c sockaddr addrlen 1 0 0 1 rands
  = Done (set_conns s (cp :: conns s),
          set_lastReceivedPacket
            (set_sendId
               (set_recvId
                  (set_idSeed
                     (set_addrlen
                        (set_addr c
                           (take (Z.to_nat addrlen) sockaddr
                            ++ drop (Z.to_nat addrlen) (addr c)))
                        addrlen)
                     seed)
                  (uint16_t (0 + seed)))
               (uint16_t (1 + seed)))
            (mstime s),
          rest).
Proof.
  intros H. unfold rdpConnInit. cbn [Z.eqb negb]. rewrite H. reflexivity.
Qed.

(** C2, as amended: rdpConnect on a CS_UNINITIALIZED connection, once the
    loop over rand() has chosen the 16-bit [seed], returns 0 with the
    connection in CS_SYN_SENT, [idSeed = seed], [recvId = idSeed] and
    [sendId = idSeed + 1] modulo 2^16, and sends one packet, a SYN whose
    connId is recvId. *)
Theorem rdpConnect_ids (w : world) (cp : nat) (c : rdpConn)
    (sockaddr : list Z) (addrlen now : Z) (rands rest : list Z) (seed : Z) :
  w_heap w !! cp = Some c ->
  state c = CS_UNINITIALIZED ->
  rbuffer_wf (outbuf c) -> queue c < 2 ^ 63 ->
  rdpConnInitSeed (w_heap w) (set_mstime (w_sock w) now) sockaddr addrlen
    rands = Done (seed, rest) ->
  exists (w' : world) (c' : rdpConn) (syn : datagram),
    rdpConnect w (Some cp) sockaddr addrlen now rands
    = Done (w', [syn], rest, 0) /\
    w_heap w' !! cp = Some c' /\
    state c' = CS_SYN_SENT /\
    idSeed c' = seed /\
    recvId c' = idSeed c' /\
    sendId c' = uint16_t (idSeed c' + 1) /\
    packetGetType (dg_hdr syn) = ST_SYN /\
    connId (dg_hdr syn) = recvId c'.
Proof.
  intros Hcp Hst Hwf Hq Hseed.
  destruct (rdpConnInitSeed_done _ _ _ _ _ _ _ Hseed) as [Hrange _].
  assert (Hs : uint16_t (0 + seed) = seed)
    by (unfold uint16_t; rewrite Z.add_0_l; apply Z.mod_small; exact Hrange).
  destruct (rbufferEnsureSize_done (outbuf c) (seqnr c) (queue c) Hwf Hq)
    as (ob & Hob & _).
  unfold rdpConnect. rewrite Hcp, Hst. cbn [connState_eqb negb].
  rewrite (rdpConnInit_generate _ _ _ _ _ _ _ _ _ Hseed).
  destruct c, w. fields_in Hob. fields. rewrite Hob. fields.
  rewrite sendPacketWrap_unsent by reflexivity. fields.
  eexists _, _, _. split; [reflexivity|].
  fields. rewrite lookup_insert_eq. split; [reflexivity|]. fields.
  rewrite Hs, (Z.add_comm 1 seed).
  split; [reflexivity|]. split; [reflexivity|]. split; [reflexivity|].
  split; [reflexivity|]. split; [vm_compute; reflexivity|reflexivity].
Qed.

(** ** Reading and writing ring slots *)

Section RbufferSlots.
Context {A : Type}.
Implicit Types buf : rbuffer A.

Lemma rbufferSlot_bound (k i : Z) :
  0 <= k -> Z.of_nat (rbufferSlot (2 ^ k - 1) i) < 2 ^ k.
Proof.
  intros Hk. unfold rbufferSlot. rewrite land_pow2_mask by lia.
  pose proof (Z.mod_pos_bound (size_t i) (2 ^ k) (pow2_pos k Hk)).
  unfold size_t in *. lia.
Qed.

Lemma rbufferSlot_in_range buf (i : Z) :
  rbuffer_wf buf -> (rbufferSlot (mask buf) i < length (elements buf))%nat.
Proof.
  intros (k & Hk & Hm & Hlen). rewrite Hm.
  pose proof (rbufferSlot_bound k i Hk). lia.
Qed.

Lemma rbufferGet_put_same buf (i : Z) (d : option A) :
  rbuffer_wf buf -> rbufferGet (rbufferPut buf i d) i = d.
Proof.
  intros Hwf. unfold rbufferGet, rbufferPut. cbn [mask elements].
  rewrite list_lookup_insert_eq; [reflexivity|].
  apply rbufferSlot_in_range, Hwf.
Qed.

Lemma rbufferGet_put_slot buf (i j : Z) (d : option A) :
  rbuffer_wf buf -> rbufferSlot (mask buf) i = rbufferSlot (mask buf) j ->
  rbufferGet (rbufferPut buf i d) j = d.
Proof.
  intros Hwf E. unfold rbufferGet, rbufferPut. cbn [mask elements].
  rewrite E, list_lookup_insert_eq; [reflexivity|].
  apply rbufferSlot_in_range, Hwf.
Qed.

Lemma rbufferGet_put_other buf (i j : Z) (d : option A) :
  rbufferSlot (mask buf) i <> rbufferSlot (mask buf) j ->
  rbufferGet (rbufferPut buf i d) j = rbufferGet buf j.
Proof.
  intros Hne. unfold rbufferGet, rbufferPut. cbn [mask elements].
  now rewrite list_lookup_insert_ne.
Qed.

Lemma rbufferPut_wf buf (i : Z) (d : option A) :
  rbuffer_wf buf -> rbuffer_wf (rbufferPut buf i d).
Proof.
  intros (k & Hk & Hm & Hlen). exists k. unfold rbufferPut.
  cbn [mask elements]. rewrite length_insert. auto.
Qed.

Lemma rbufferInit_wf : rbuffer_wf (@rbufferInit A).
Proof. exists 6. split; [lia|]. split; reflexivity. Qed.

(** With at most 2^16 slots a sequence number and any integer equal to it
    modulo 2^16 select the same slot. *)
Lemma rbufferSlot_uint16 (k i : Z) :
  0 <= k <= 16 ->
  rbufferSlot (2 ^ k - 1) (uint16_t i) = rbufferSlot (2 ^ k - 1) i.
Proof.
  intros Hk. rewrite !rbufferSlot_pow2 by lia. unfold uint16_t.
  now rewrite mod_pow2_twice by lia.
Qed.

Lemma rbufferSlot_congr (k i j : Z) :
  0 <= k <= 16 -> uint16_t i = uint16_t j ->
  rbufferSlot (2 ^ k - 1) i = rbufferSlot (2 ^ k - 1) j.
Proof.
  intros Hk E. rewrite <- (rbufferSlot_uint16 k i), <- (rbufferSlot_uint16 k j)
    by lia. now rewrite E.
Qed.

End RbufferSlots.

(** ** Frames of the send path *)

Ltac destruct_conns :=
  repeat match goal with
         | c : rdpConn |- _ => destruct c
         | pw : packetWrap |- _ => destruct pw
         | p : packet |- _ => destruct p
         end.

Lemma sameControl_refl (c : rdpConn) : sameControl c c.
Proof. unfold sameControl. repeat split. Qed.

Lemma sameControl_trans (c1 c2 c3 : rdpConn) :
  sameControl c1 c2 -> sameControl c2 c3 -> sameControl c1 c3.
Proof.
  unfold sameControl. intros H1 H2.
  repeat match goal with H : _ /\ _ |- _ => destruct H end.
  repeat split; congruence.
Qed.

Lemma samePacket_refl (pw : packetWrap) : samePacket pw pw.
Proof. unfold samePacket. repeat split. Qed.

Lemma samePacket_trans (a b c : packetWrap) :
  samePacket a b -> samePacket b c -> samePacket a c.
Proof.
  unfold samePacket. intros H1 H2.
  repeat match goal with H : _ /\ _ |- _ => destruct H end.
  repeat split; congruence.
Qed.

Lemma sameSlot_refl (a : option packetWrap) : sameSlot a a.
Proof. destruct a; [apply samePacket_refl|exact I]. Qed.

Lemma sameSlot_trans (a b c : option packetWrap) :
  sameSlot a b -> sameSlot b c -> sameSlot a c.
Proof.
  destruct a, b, c; cbn; try tauto. apply samePacket_trans.
Qed.

Lemma sameQueue_refl (ob : rbuffer packetWrap) : sameQueue ob ob.
Proof.
  split; [reflexivity|]. split; [reflexivity|]. intros i. apply sameSlot_refl.
Qed.

Lemma sameQueue_trans (a b c : rbuffer packetWrap) :
  sameQueue a b -> sameQueue b c -> sameQueue a c.
Proof.
  intros (Hm1 & Hl1 & Hs1) (Hm2 & Hl2 & Hs2).
  split; [congruence|]. split; [congruence|].
  intros i. eapply sameSlot_trans; [apply Hs1|apply Hs2].
Qed.

Lemma sameQueue_wf (a b : rbuffer packetWrap) :
  sameQueue a b -> rbuffer_wf a -> rbuffer_wf b.
Proof.
  intros (Hm & Hl & _) (k & Hk & Hm' & Hlen). exists k.
  rewrite Hm, Hl. auto.
Qed.

(** Putting back a packet that differs from the one in the slot only in
    what a transmission changes. *)
Lemma sameQueue_put (ob : rbuffer packetWrap) (i : Z) (pw pw' : packetWrap) :
  rbuffer_wf ob -> rbufferGet ob i = Some pw -> samePacket pw pw' ->
  sameQueue ob (rbufferPut ob i (Some pw')).
Proof.
  intros Hwf Hget Hsame. split; [reflexivity|]. split.
  { unfold rbufferPut. cbn [elements]. now rewrite length_insert. }
  intros j.
  destruct (decide (rbufferSlot (mask ob) i = rbufferSlot (mask ob) j))
    as [E|NE].
  - rewrite (rbufferGet_put_slot ob i j _ Hwf E).
    assert (Hj : rbufferGet ob j = Some pw).
    { unfold rbufferGet in *. now rewrite <- E. }
    rewrite Hj. exact Hsame.
  - rewrite rbufferGet_put_other by exact NE. apply sameSlot_refl.
Qed.

(** sendPacketWrap on a packet the flush loop lets through. *)
Lemma sendPacketWrap_done (s : rdpSocket) (c : rdpConn) (pw : packetWrap) :
  (pw_transmissions pw >? 0) && negb (pw_needResend pw) = false ->
  0 <= pw_transmissions pw ->
  exists (c' : rdpConn) (pw' : packetWrap),
    sendPacketWrap s c pw
    = Done (c', pw',
            [mkDatagram (set_p_acknr (pw_hdr pw) (acknr c))
               (take (Z.to_nat (pw_payload pw)) (pw_body pw))]) /\
    sameControl c c' /\ outbuf c' = outbuf c /\ samePacket pw pw' /\
    flightWindow c' = uint32_t (flightWindow c + pw_payload pw) /\
    lastSentPacket c' = mstime s /\
    pw_transmissions pw' = uint31 (pw_transmissions pw + 1) /\
    pw_needResend pw' = false /\ pw_sentTime pw' = mstime s.
Proof.
  intros Hguard Hnn.
  assert (Hassert : (pw_transmissions pw =? 0) || pw_needResend pw = true).
  { destruct (pw_needResend pw); [apply orb_true_r|].
    rewrite andb_true_r in Hguard.
    destruct (Z.gtb_spec (pw_transmissions pw) 0); [discriminate|].
    replace (pw_transmissions pw) with 0 by lia. reflexivity. }
  clear Hguard Hnn. destruct_conns. fields_in Hassert.
  unfold sendPacketWrap, sendData, assert. fields. rewrite Hassert. fields.
  eexists _, _. split; [reflexivity|]. fields.
  unfold sameControl, samePacket. fields. repeat split.
Qed.

Lemma forallb_insert {A : Type} (f : A -> bool) (l : list A) (n : nat) (x : A) :
  forallb f l = true -> f x = true -> forallb f (<[n := x]> l) = true.
Proof.
  revert n. induction l as [|a l IH]; intros n Hl Hx; [exact Hl|].
  cbn [forallb] in Hl. apply andb_true_iff in Hl as [Ha Hl].
  destruct n as [|n]; cbn; apply andb_true_iff; auto.
Qed.

Lemma outbufTyped_get (ob : rbuffer packetWrap) (i : Z) (pw : packetWrap) :
  outbufTyped ob = true -> rbufferGet ob i = Some pw ->
  0 <= pw_transmissions pw.
Proof.
  unfold outbufTyped, rbufferGet. intros Hall Hget.
  destruct (elements ob !! rbufferSlot (mask ob) i) as [e|] eqn:Hl;
    [|discriminate]. subst e.
  rewrite forallb_forall in Hall.
  apply list_elem_of_lookup_2, list_elem_of_In, Hall in Hl. lia.
Qed.

Lemma outbufTyped_put (ob : rbuffer packetWrap) (i : Z)
    (d : option packetWrap) :
  outbufTyped ob = true ->
  match d with Some pw => 0 <= pw_transmissions pw | None => True end ->
  outbufTyped (rbufferPut ob i d) = true.
Proof.
  intros Hall Hd. unfold outbufTyped, rbufferPut. cbn [elements].
  apply forallb_insert; [exact Hall|]. destruct d; [lia|reflexivity].
Qed.

Lemma uint31_nonneg (z : Z) : 0 <= uint31 z.
Proof. unfold uint31. apply Z.mod_pos_bound. reflexivity. Qed.

Lemma sameControl_set_outbuf c v : sameControl c (set_outbuf c v).
Proof. destruct c. unfold sameControl. repeat split. Qed.

Lemma sameControl_set_flightWindow c v : sameControl c (set_flightWindow c v).
Proof. destruct c. unfold sameControl. repeat split. Qed.

Lemma sameControl_set_flightWindowLimit c v :
  sameControl c (set_flightWindowLimit c v).
Proof. destruct c. unfold sameControl. repeat split. Qed.

Lemma sameControl_set_oldestResent c v : sameControl c (set_oldestResent c v).
Proof. destruct c. unfold sameControl. repeat split. Qed.

Lemma sameControl_set_retransmitTimeout c v :
  sameControl c (set_retransmitTimeout c v).
Proof. destruct c. unfold sameControl. repeat split. Qed.

Lemma sameControl_set_retransmitTicker c v :
  sameControl c (set_retransmitTicker c v).
Proof. destruct c. unfold sameControl. repeat split. Qed.

Lemma sameControl_set_lastSentPacket c v :
  sameControl c (set_lastSentPacket c v).
Proof. destruct c. unfold sameControl. repeat split. Qed.

Lemma outbuf_set_outbuf c v : outbuf (set_outbuf c v) = v.
Proof. destruct c. reflexivity. Qed.

(** The flush loop always returns: it sends only packets that pass the
    assertion of sendPacketWrap, leaves the control fields alone and
    changes a queued packet only in what a transmission changes. *)
Lemma rdpConnFlushPacketsLoop_done (s : rdpSocket) (n : nat) :
  forall (i : Z) (c : rdpConn) (out : list datagram),
    rbuffer_wf (outbuf c) -> outbufTyped (outbuf c) = true ->
    exists (c' : rdpConn) (out' : list datagram) (r : Z),
      rdpConnFlushPacketsLoop s n i c out = Done (c', out ++ out', r) /\
      (r = 0 \/ r = -1) /\ sameControl c c' /\
      sameQueue (outbuf c) (outbuf c') /\ outbufTyped (outbuf c') = true.
Proof.
  induction n as [|n IH]; intros i c out Hwf Hty;
    cbn [rdpConnFlushPacketsLoop].
  - exists c, [], 0. rewrite app_nil_r.
    split; [reflexivity|]. split; [auto|].
    split; [apply sameControl_refl|]. split; [apply sameQueue_refl|exact Hty].
  - destruct (rbufferGet (outbuf c) i) as [pw|] eqn:Hget;
      [|apply IH; assumption].
    destruct ((pw_transmissions pw >? 0) && negb (pw_needResend pw))
      eqn:Hguard; [apply IH; assumption|].
    destruct (rdpConnFlightWindowFull c).
    { exists c, [], (-1). rewrite app_nil_r.
      split; [reflexivity|]. split; [auto|].
      split; [apply sameControl_refl|].
      split; [apply sameQueue_refl|exact Hty]. }
    destruct (sendPacketWrap_done s c pw Hguard
                (outbufTyped_get _ _ _ Hty Hget))
      as (c1 & pw1 & Hsend & Hctl & Hob & Hpw & _ & _ & Htr & _).
    rewrite Hsend. cbn [mbind outcome_bind].
    set (c2 := set_outbuf c1 (rbufferPut (outbuf c1) i (Some pw1))).
    assert (Hob2 : outbuf c2 = rbufferPut (outbuf c) i (Some pw1))
      by (unfold c2; rewrite outbuf_set_outbuf, Hob; reflexivity).
    assert (Hq : sameQueue (outbuf c) (outbuf c2))
      by (rewrite Hob2; eapply sameQueue_put; eassumption).
    destruct (IH (uint16_t (i + 1)) c2
                (out ++ [mkDatagram (set_p_acknr (pw_hdr pw) (acknr c))
                           (take (Z.to_nat (pw_payload pw)) (pw_body pw))]))
      as (c' & out' & r & Hloop & Hr & Hctl' & Hq' & Hty').
    { eapply sameQueue_wf; eassumption. }
    { rewrite Hob2. apply outbufTyped_put; [exact Hty|].
      rewrite Htr. apply uint31_nonneg. }
    exists c', (mkDatagram (set_p_acknr (pw_hdr pw) (acknr c))
                  (take (Z.to_nat (pw_payload pw)) (pw_body pw)) :: out'), r.
    split.
    { rewrite Hloop. rewrite <- app_assoc. reflexivity. }
    split; [exact Hr|]. split.
    { eapply sameControl_trans; [exact Hctl|].
      eapply sameControl_trans; [apply sameControl_set_outbuf|exact Hctl']. }
    split; [eapply sameQueue_trans; eassumption|exact Hty'].
Qed.

(** ** The periodic check *)

Lemma sendPacketWrap_control (s : rdpSocket) (c c' : rdpConn)
    (pw pw' : packetWrap) (out : list datagram) :
  sendPacketWrap s c pw = Done (c', pw', out) -> sameControl c c'.
Proof.
  unfold sendPacketWrap, sendData, assert.
  destruct ((pw_transmissions pw =? 0) || pw_needResend pw);
    [|discriminate].
  destruct c, pw as [? ? ? ? [] ?]. fields. intros [= <- _ _].
  unfold sameControl. repeat split.
Qed.

Lemma rdpConnFlushPacketsLoop_control (s : rdpSocket) (n : nat) :
  forall (i : Z) (c c' : rdpConn) (out out' : list datagram) (r : Z),
    rdpConnFlushPacketsLoop s n i c out = Done (c', out', r) ->
    sameControl c c'.
Proof.
  induction n as [|n IH]; intros i c c' out out' r;
    cbn [rdpConnFlushPacketsLoop].
  - intros [= <- _ _]. apply sameControl_refl.
  - destruct (rbufferGet (outbuf c) i) as [pw|]; [|apply IH].
    destruct ((pw_transmissions pw >? 0) && negb (pw_needResend pw));
      [apply IH|].
    destruct (rdpConnFlightWindowFull c).
    { intros [= <- _ _]. apply sameControl_refl. }
    destruct (sendPacketWrap s c pw) as [[[c1 pw1] o]| |] eqn:Hsend;
      cbn [mbind outcome_bind]; try discriminate.
    intros Hloop. apply IH in Hloop.
    eapply sameControl_trans; [eapply sendPacketWrap_control, Hsend|].
    eapply sameControl_trans; [apply sameControl_set_outbuf|exact Hloop].
Qed.

Lemma rdpConnCheckMark_control (s : rdpSocket) (n : nat) :
  forall (i : Z) (c c' : rdpConn),
    rdpConnCheckMark s n i c = Done c' -> sameControl c c'.
Proof.
  induction n as [|n IH]; intros i c c'; cbn [rdpConnCheckMark].
  - intros [= <-]. apply sameControl_refl.
  - destruct (rbufferGet (outbuf c) i) as [pw|]; [|apply IH].
    destruct ((pw_transmissions pw =? 0) || pw_needResend pw
              || (mstime s <? uint64_t (pw_sentTime pw + retransmitTimeout c)));
      [apply IH|].
    unfold assert.
    match goal with
    | |- context [if ?b then Done tt else AssertFailed] => destruct b
    end; cbn [mbind outcome_bind]; [|discriminate].
    intros Hloop. apply IH in Hloop.
    eapply sameControl_trans; [|exact Hloop].
    eapply sameControl_trans; [apply sameControl_set_outbuf|].
    apply sameControl_set_flightWindow.
Qed.

Lemma resizeWindow_control (c c' : rdpConn) (r : Z) :
  resizeWindow c = Done (c', r) -> sameControl c c'.
Proof.
  unfold resizeWindow, assert.
  destruct (rbufferGet (outbuf c) (seqnr c - queue c));
    cbn [mbind outcome_bind]; [|discriminate].
  destruct (oldestResent c =? -1).
  { intros [= <- _]. apply sameControl_set_oldestResent. }
  destruct (oldestResent c =? seqnr c - queue c); intros [= <- _].
  - apply sameControl_set_flightWindowLimit.
  - destruct c. unfold sameControl. repeat split.
Qed.

Lemma updateRetransmitTimeout_control (s : rdpSocket) (c c' : rdpConn)
    (r : Z) :
  updateRetransmitTimeout s c = Done (c', r) -> sameControl c c'.
Proof.
  unfold updateRetransmitTimeout.
  match goal with
  | |- mbind ?f ?m = _ -> _ => destruct m as [a| |]
  end; cbn [mbind outcome_bind]; try discriminate.
  intros [= <- _].
  eapply sameControl_trans; [apply sameControl_set_retransmitTimeout|].
  apply sameControl_set_retransmitTicker.
Qed.

(** The retransmission stage of the check changes nothing of the control
    fields unless it ends the check by destroying the connection. *)
Lemma rdpConnCheckTimeout_control (s : rdpSocket) (c c1 : rdpConn)
    (out1 : list datagram) :
  rdpConnCheckTimeout s c = Done (c1, out1, false) -> sameControl c c1.
Proof.
  unfold rdpConnCheckTimeout.
  destruct (mstime s >=? retransmitTicker c);
    [|intros [= <- _]; apply sameControl_refl].
  destruct (connState_eqb (state c) CS_FIN_SENT
            && (mstime s >=? uint64_t (lastReceivedPacket c + RDP_WAIT_FIN_SENT)));
    [discriminate|].
  destruct (connState_eqb (state c) CS_SYN_RECV
            && (mstime s >=? uint64_t (lastReceivedPacket c + RDP_WAIT_SYN_RECV)));
    [discriminate|].
  destruct (queue c >? 0).
  - destruct (rdpConnCheckMark s (queueRounds c)
                (uint16_t (seqnr c - queue c)) c) as [c2| |] eqn:Hmark;
      cbn [mbind outcome_bind]; try discriminate.
    destruct (resizeWindow c2) as [[c3 r3]| |] eqn:Hres;
      cbn [mbind outcome_bind]; try discriminate.
    destruct (rdpConnFlushPackets s c3) as [[[c4 o4] r4]| |] eqn:Hfl;
      cbn [mbind outcome_bind mret outcome_ret]; try discriminate.
    destruct (updateRetransmitTimeout s c4) as [[c5 r5]| |] eqn:Hupd;
      cbn [mbind outcome_bind]; try discriminate.
    intros [= <- _].
    eapply sameControl_trans; [eapply rdpConnCheckMark_control, Hmark|].
    eapply sameControl_trans; [eapply resizeWindow_control, Hres|].
    eapply sameControl_trans;
      [eapply rdpConnFlushPacketsLoop_control, Hfl|].
    eapply updateRetransmitTimeout_control, Hupd.
  - cbn [mbind outcome_bind mret outcome_ret].
    destruct (updateRetransmitTimeout s c) as [[c5 r5]| |] eqn:Hupd;
      cbn [mbind outcome_bind]; try discriminate.
    intros [= <- _]. eapply updateRetransmitTimeout_control, Hupd.
Qed.

(** sendAck, when its assertion on the receive ring holds: one STATE
    packet with the connection's numbers, and two fields written. *)
Lemma sendAck_done (s : rdpSocket) (c : rdpConn) :
  outOfOrderCnt c = 0 \/ state c = CS_SYN_RECV \/
  receivedFinCompleted c = true \/
  rbufferGet (inbuf c) (acknr c + 1) = None ->
  exists dg : datagram,
    sendAck s c
    = Done (set_needSendAck (set_lastSentPacket c (mstime s)) false, [dg]) /\
    packetGetVersion (dg_hdr dg) = 1 /\
    packetGetType (dg_hdr dg) = ST_STATE /\
    connId (dg_hdr dg) = sendId c /\
    p_acknr (dg_hdr dg) = acknr c /\
    p_seqnr (dg_hdr dg) = seqnr c /\
    window (dg_hdr dg) = recvWindowSelf c.
Proof.
  intros Hassert. unfold sendAck, sendData.
  destruct (negb (outOfOrderCnt c =? 0)
            && negb (connState_eqb (state c) CS_SYN_RECV)
            && negb (receivedFinCompleted c)) eqn:Hsack.
  - assert (Hslot : rbufferGet (inbuf c) (acknr c + 1) = None).
    { apply andb_true_iff in Hsack as [Hsack H3].
      apply andb_true_iff in Hsack as [H1 H2].
      destruct Hassert as [H|[H|[H|H]]]; [| | |exact H].
      - rewrite H in H1. discriminate.
      - rewrite H in H2. discriminate.
      - rewrite H in H3. discriminate. }
    rewrite Hslot. unfold assert. destruct c. fields.
    eexists. split; [reflexivity|]. fields.
    repeat split; vm_compute; reflexivity.
  - destruct c. fields.
    eexists. split; [reflexivity|]. fields.
    repeat split; vm_compute; reflexivity.
Qed.

Lemma uint16_pred_succ (a : Z) :
  0 <= a < 2 ^ 16 -> uint16_t (uint16_t (a - 1) + 1) = a.
Proof.
  intros Ha. unfold uint16_t. change (2 ^ 16) with 65536 in *.
  Z.div_mod_to_equations. lia.
Qed.

(** The keepalive probe: the acknowledgement goes out with acknr - 1 and
    the connection keeps its acknr. *)
Lemma rdpConnKeepAlive_done (s : rdpSocket) (c : rdpConn) :
  0 <= acknr c < 2 ^ 16 ->
  outOfOrderCnt c = 0 \/ state c = CS_SYN_RECV \/
  receivedFinCompleted c = true \/
  rbufferGet (inbuf c) (uint16_t (acknr c - 1) + 1) = None ->
  exists ka : datagram,
    rdpConnKeepAlive s c
    = Done (set_needSendAck (set_lastSentPacket c (mstime s)) false, [ka]) /\
    packetGetType (dg_hdr ka) = ST_STATE /\
    p_acknr (dg_hdr ka) = uint16_t (acknr c - 1).
Proof.
  intros Hack Hassert. unfold rdpConnKeepAlive.
  destruct (sendAck_done s (set_acknr c (uint16_t (acknr c - 1))))
    as (ka & Hsend & _ & Hty & _ & Hnr & _).
  { destruct c. fields. fields_in Hassert. exact Hassert. }
  rewrite Hsend. cbn [mbind outcome_bind mret outcome_ret].
  exists ka. split; [|split; [exact Hty|]].
  - destruct c. fields. fields_in Hack. rewrite uint16_pred_succ by exact Hack.
    reflexivity.
  - rewrite Hnr. destruct c. reflexivity.
Qed.

(** C8: a connection in CS_CONNECTED or CS_CONNECTED_FULL whose last
    transmission, as the keepalive test of the periodic check sees it after
    the retransmission stage, lies 29000 ms or more in the past: the check
    sends, after the packets of that stage, exactly one packet more, a
    STATE packet whose acknr is the connection's acknr minus one; the
    connection's acknr and every other field is as the stage left it, but
    for needSendAck and lastSentPacket.  When the retransmission timer has
    not expired the stage changes and sends nothing. *)
Theorem rdpConnCheck_keepalive (RDP_SOCKET_CHECK_TIMEOUT_MIN
    RDP_SOCKET_CHECK_TIMEOUT_MAX : Z) (s : rdpSocket) (c c1 : rdpConn)
    (out1 : list datagram) :
  state c = CS_CONNECTED \/ state c = CS_CONNECTED_FULL ->
  0 <= acknr c < 2 ^ 16 ->
  queue c = 0 \/ rbufferGet (outbuf c) (seqnr c - queue c) <> None ->
  rdpConnCheckTimeout s c = Done (c1, out1, false) ->
  uint64_t (lastSentPacket c1 + RDP_KEEPALIVE_INTERVAL) <= mstime s ->
  outOfOrderCnt c = 0 \/ receivedFinCompleted c = true \/
  rbufferGet (inbuf c) (uint16_t (acknr c - 1) + 1) = None ->
  exists (s' : rdpSocket) (ka : datagram),
    rdpConnCheck RDP_SOCKET_CHECK_TIMEOUT_MIN RDP_SOCKET_CHECK_TIMEOUT_MAX
      s c
    = Done (s', set_needSendAck (set_lastSentPacket c1 (mstime s)) false,
            out1 ++ [ka]) /\
    packetGetType (dg_hdr ka) = ST_STATE /\
    p_acknr (dg_hdr ka) = uint16_t (acknr c - 1) /\
    acknr c1 = acknr c /\
    (mstime s < retransmitTicker c -> c1 = c /\ out1 = []).
Proof.
  intros Hst Hack Hentry Hstage Hidle Hassert.
  pose proof (rdpConnCheckTimeout_control s c c1 out1 Hstage) as Hctl.
  destruct Hctl as (Hin & _ & _ & _ & _ & _ & Hstate & _ & _ & _ & _ & _ & _
                    & Hooc & _ & Hacknr & _ & Hrfc & _).
  destruct (rdpConnKeepAlive_done s c1) as (ka & Hka & Hty & Hnr).
  { rewrite Hacknr. exact Hack. }
  { rewrite Hooc, Hrfc, Hin, Hacknr. tauto. }
  assert (Hentry' : (queue c =? 0)
                    || match rbufferGet (outbuf c) (seqnr c - queue c) with
                       | Some _ => true
                       | None => false
                       end = true).
  { destruct Hentry as [-> | Hne]; [reflexivity|].
    destruct (rbufferGet (outbuf c) (seqnr c - queue c));
      [apply orb_true_r|congruence]. }
  assert (Hkeep : rdpConnCheckKeepAlive s c1
                  = Done (set_needSendAck
                            (set_lastSentPacket c1 (mstime s)) false, [ka])).
  { unfold rdpConnCheckKeepAlive. rewrite Hstate.
    assert (Hor : connState_eqb (state c) CS_CONNECTED
                  || connState_eqb (state c) CS_CONNECTED_FULL = true)
      by (destruct Hst as [-> | ->]; reflexivity).
    rewrite Hor.
    destruct (Z.geb_spec (mstime s)
                (uint64_t (lastSentPacket c1 + RDP_KEEPALIVE_INTERVAL)));
      [exact Hka|lia]. }
  assert (Hfinal : forall t : Z, (uint64_t t >=? 0) = true).
  { intros t. unfold uint64_t.
    pose proof (Z.mod_pos_bound t (2 ^ 64) ltac:(reflexivity)).
    destruct (Z.geb_spec (t mod 2 ^ 64) 0); [reflexivity|lia]. }
  eexists _, ka. split.
  { unfold rdpConnCheck, assert. rewrite Hentry'.
    cbn [mbind outcome_bind].
    destruct Hst as [-> | ->]; rewrite Hstage; cbn [mbind outcome_bind];
      rewrite Hkeep; cbn [mbind outcome_bind]; rewrite Hfinal;
      reflexivity. }
  split; [exact Hty|]. split; [rewrite Hnr, Hacknr; reflexivity|].
  split; [exact Hacknr|].
  intros Hnot. unfold rdpConnCheckTimeout in Hstage.
  destruct (Z.geb_spec (mstime s) (retransmitTicker c)); [lia|].
  injection Hstage as <- <-. auto.
Qed.

(** ** buildSendPacket and rdpWriteVec *)

Lemma rbufferGet_forallb {A : Type} (f : option A -> bool) (buf : rbuffer A)
    (i : Z) :
  f None = true -> forallb f (elements buf) = true ->
  f (rbufferGet buf i) = true.
Proof.
  intros Hn Hall. unfold rbufferGet.
  destruct (elements buf !! rbufferSlot (mask buf) i) as [e|] eqn:Hl;
    [|exact Hn].
  rewrite forallb_forall in Hall.
  apply Hall, list_elem_of_In. eapply list_elem_of_lookup_2, Hl.
Qed.

Lemma rbufferGrowCopy_forallb {A : Type} (f : option A -> bool)
    (buf : rbuffer A) (item index newmask : Z) (n : nat)
    (l : list (option A)) :
  f None = true -> forallb f (elements buf) = true -> forallb f l = true ->
  forallb f (rbufferGrowCopy buf item index newmask n l) = true.
Proof.
  intros Hn Hall Hl. induction n as [|n IH]; cbn [rbufferGrowCopy];
    [exact Hl|].
  apply forallb_insert; [exact IH|]. apply rbufferGet_forallb; assumption.
Qed.

(** Growing a ring makes up no element: what holds of the empty slot and
    of every old slot holds of every new slot. *)
Lemma rbufferEnsureSize_forallb {A : Type} (f : option A -> bool)
    (buf buf' : rbuffer A) (item index : Z) :
  rbufferEnsureSize buf item index = Done buf' ->
  f None = true -> forallb f (elements buf) = true ->
  forallb f (elements buf') = true.
Proof.
  unfold rbufferEnsureSize, rbufferGrow. intros Hdone Hn Hall.
  destruct (index >? mask buf); [|injection Hdone as <-; exact Hall].
  destruct (rbufferGrowSize 65 (size_t (mask buf + 1)) index) as [sz| |];
    cbn [mbind outcome_bind mret outcome_ret] in Hdone; try discriminate.
  injection Hdone as <-. cbn [elements].
  apply rbufferGrowCopy_forallb; [exact Hn|exact Hall|].
  apply forallb_forall. intros x Hx.
  apply list_elem_of_In, elem_of_replicate in Hx as [-> _]. exact Hn.
Qed.

Lemma vecTotal_acc (vec : list rdpVec) (a : Z) :
  foldl (fun total v => total + vec_len v) a vec = a + vecTotal vec.
Proof.
  unfold vecTotal. revert a. induction vec as [|v vec IH]; intros a; cbn [foldl].
  - lia.
  - rewrite IH, (IH (0 + vec_len v)). lia.
Qed.

Lemma vecTotal_cons (v : rdpVec) (vec : list rdpVec) :
  vecTotal (v :: vec) = vec_len v + vecTotal vec.
Proof. unfold vecTotal at 1. cbn [foldl]. rewrite vecTotal_acc. lia. Qed.

Lemma vec_len_nonneg (v : rdpVec) : 0 <= vec_len v.
Proof. unfold vec_len. lia. Qed.

Lemma vecTotal_nonneg (vec : list rdpVec) : 0 <= vecTotal vec.
Proof.
  induction vec as [|v vec IH]; [reflexivity|].
  rewrite vecTotal_cons. pose proof (vec_len_nonneg v). lia.
Qed.

(** The copy loop takes [needed] bytes off the front of the vectors. *)
Lemma buildSendPacketCopy_done (vec : list rdpVec) : forall needed : Z,
  0 <= needed <= vecTotal vec ->
  exists (bytes : list Z) (vec' : list rdpVec),
    buildSendPacketCopy vec needed = (bytes, vec', 0) /\
    Z.of_nat (length bytes) = needed /\
    vecTotal vec' = vecTotal vec - needed /\
    length vec' = length vec /\
    bytes = take (Z.to_nat needed) (concat vec) /\
    concat vec' = drop (Z.to_nat needed) (concat vec).
Proof.
  induction vec as [|v vec IH]; intros needed Hn.
  - cbn in Hn. assert (needed = 0) by lia. subst.
    exists [], []. cbn. repeat split.
  - cbn [buildSendPacketCopy]. rewrite vecTotal_cons in Hn.
    destruct (Z.eqb_spec needed 0) as [->|Hne].
    { exists [], (v :: vec). change (Z.to_nat 0) with 0%nat.
      rewrite take_0, drop_0. repeat split; try reflexivity.
      symmetry. apply Z.sub_0_r. }
    destruct (Z.eqb_spec (vec_len v) 0) as [Hv|Hv].
    { destruct (IH needed ltac:(lia)) as (b & r & E & Hb & Ht & Hl & Hbs & Hc).
      rewrite E. exists b, (v :: r). rewrite !vecTotal_cons.
      assert (v = [])
        by (destruct v; [reflexivity|unfold vec_len in Hv; cbn [length] in Hv; lia]).
      subst v.
      cbn [length concat app]. repeat split; try lia; assumption. }
    pose proof (vec_len_nonneg v) as Hvn.
    set (num := min needed (vec_len v)).
    assert (Hnum : 0 < num <= needed /\ num <= vec_len v /\
                   (num = needed \/ num = vec_len v)).
    { unfold num, min. destruct (Z.ltb_spec needed (vec_len v)); lia. }
    pose proof (vecTotal_nonneg vec) as Hvt.
    destruct (IH (needed - num) ltac:(lia))
      as (b & r & E & Hb & Ht & Hl & Hbs & Hc).
    rewrite E. exists (take (Z.to_nat num) v ++ b), (drop (Z.to_nat num) v :: r).
    unfold vec_len in *.
    split; [reflexivity|]. split.
    { rewrite length_app, length_take. lia. }
    split.
    { rewrite !vecTotal_cons. unfold vec_len. rewrite length_drop. lia. }
    split; [cbn [length]; lia|].
    cbn [concat].
    destruct (Z.ltb_spec needed (Z.of_nat (length v))) as [Hlt|Hge].
    + assert (num = needed) by (unfold num, min, vec_len;
        destruct (Z.ltb_spec needed (Z.of_nat (length v))); lia).
      assert (Hz : needed - num = 0) by lia. rewrite Hz in *.
      rewrite Hbs, Hc. cbn [Z.to_nat take drop]. rewrite app_nil_r.
      rewrite H. split.
      * rewrite take_app_le by lia. reflexivity.
      * rewrite drop_app_le by lia. reflexivity.
    + assert (num = Z.of_nat (length v)) by (unfold num, min, vec_len;
        destruct (Z.ltb_spec needed (Z.of_nat (length v))); lia).
      rewrite Hbs, Hc, H. rewrite Nat2Z.id.
      rewrite firstn_all, drop_all.
      replace (Z.to_nat needed) with (length v + Z.to_nat (needed - Z.of_nat (length v)))%nat by lia.
      split.
      * rewrite take_app_add'; reflexivity.
      * cbn [app]. rewrite drop_app_add'; reflexivity.
Qed.

Lemma getMaxPacketPayloadSize_eq : getMaxPacketPayloadSize = 1390.
Proof. reflexivity. Qed.

(** buildSendPacket when nothing can be added to the last packet queued:
    one new packet with the whole payload. *)
Lemma buildSendPacket_append (c : rdpConn) (payload type : Z)
    (vec : list rdpVec) :
  0 <= queue c < RDP_QUEUE_SIZE_MAX ->
  0 < queue c \/ flightWindow c = 0 ->
  0 <= payload <= getMaxPacketPayloadSize ->
  payload <= vecTotal vec ->
  payload = 0 \/ type = ST_DATA ->
  payload = 0 \/ lastPacketClosed c ->
  rbuffer_wf (outbuf c) ->
  exists (ob : rbuffer packetWrap) (bytes : list Z) (vec' : list rdpVec),
    rbufferEnsureSize (outbuf c) (seqnr c) (queue c) = Done ob /\
    buildSendPacketCopy vec payload = (bytes, vec', 0) /\
    buildSendPacket c payload type vec
    = Done (set_queue
              (set_seqnr
                 (set_outbuf c
                    (rbufferPut ob (seqnr c)
                       (Some (mkPacketWrap payload 0 0 false
                                (sendHeader c type) bytes))))
                 (uint16_t (seqnr c + 1)))
              (uint16_t (queue c + 1)),
            vec').
Proof.
  intros Hq Hfw Hpay Hvec Hty Hclosed Hwf.
  rewrite getMaxPacketPayloadSize_eq in Hpay.
  destruct (rbufferEnsureSize_done (outbuf c) (seqnr c) (queue c) Hwf)
    as (ob & Hob & _).
  { unfold RDP_QUEUE_SIZE_MAX in Hq. lia. }
  destruct (buildSendPacketCopy_done vec payload ltac:(lia))
    as (bytes & vec' & Hcopy & Hlen & _).
  exists ob, bytes, vec'. split; [exact Hob|]. split; [exact Hcopy|].
  unfold buildSendPacket, assert.
  assert (H1 : (queue c >? 0) || ((queue c =? 0) && (flightWindow c =? 0))
               = true).
  { destruct (Z.gtb_spec (queue c) 0); [reflexivity|].
    destruct Hfw as [?|Hfw]; [lia|]. rewrite Hfw.
    replace (queue c) with 0 by lia. reflexivity. }
  rewrite H1. cbn [mbind outcome_bind].
  assert (H2 : (payload <=? getMaxPacketPayloadSize) = true).
  { rewrite getMaxPacketPayloadSize_eq. apply Z.leb_le. lia. }
  rewrite H2. cbn [mbind outcome_bind].
  cbn [buildSendPacketLoop]. unfold assert.
  assert (H3 : (queue c <? RDP_QUEUE_SIZE_MAX) = true)
    by (apply Z.ltb_lt; lia).
  rewrite H3. cbn [mbind outcome_bind].
  (* the branch taken *)
  assert (Hbranch :
    match (if queue c >? 0 then rbufferGet (outbuf c) (seqnr c - 1) else None)
    with
    | Some pw0 =>
        if negb (payload =? 0) && (pw_transmissions pw0 =? 0)
           && (pw_payload pw0 <? getMaxPacketPayloadSize)
        then (pw0,
              size_t (min (size_t (payload + pw_payload pw0))
                        getMaxPacketPayloadSize - pw_payload pw0),
              false, c)
        else (mkPacketWrap 0 0 0 false packet_zero [], payload, true, c)
    | None => (mkPacketWrap 0 0 0 false packet_zero [], payload, true, c)
    end = (mkPacketWrap 0 0 0 false packet_zero [], payload, true, c)).
  { destruct (Z.gtb_spec (queue c) 0) as [Hpos|Hzero]; [|reflexivity].
    destruct (rbufferGet (outbuf c) (seqnr c - 1)) as [pw0|] eqn:Hget;
      [|reflexivity].
    destruct (Z.eqb_spec payload 0) as [?|Hp]; [reflexivity|].
    destruct Hclosed as [?|[?|Hc]]; [lia|lia|]. rewrite Hget in Hc.
    cbn [negb andb].
    destruct (Z.eqb_spec (pw_transmissions pw0) 0) as [Ht|Ht];
      [|reflexivity].
    destruct (Z.ltb_spec (pw_payload pw0) getMaxPacketPayloadSize);
      [|reflexivity].
    destruct Hc; [congruence|lia]. }
  cbv zeta. rewrite Hbranch.
  assert (Hsz : size_t (0 + payload) = payload).
  { unfold size_t. rewrite Z.add_0_l. apply Z.mod_small. lia. }
  assert (Hsz0 : size_t (payload - payload) = 0).
  { unfold size_t. rewrite Z.sub_diag. reflexivity. }
  clear Hlen. destruct (Z.eqb_spec payload 0) as [Hp0|Hp0].
  - subst payload.
    assert (bytes = [] /\ vec' = vec) as [-> ->].
    { destruct vec; cbn [buildSendPacketCopy Z.eqb] in Hcopy;
        injection Hcopy as <- <-; auto. }
    cbn [negb]. destruct c. fields_in Hob. fields. rewrite Hob. fields.
    rewrite Hsz, Hsz0. cbn [Z.eqb negb].
    reflexivity.
  - cbn [negb]. destruct Hty as [?| ->]; [contradiction|].
    unfold assert. cbn [Z.eqb ST_DATA]. fields. rewrite Hcopy. fields.
    cbn [Z.eqb]. fields.
    destruct c. fields. fields_in Hob. rewrite Hob. fields.
    rewrite Hsz, Hsz0. cbn [Z.eqb negb take Z.to_nat app]. reflexivity.
Qed.

Lemma vecTotal_empty (vec : list rdpVec) :
  Forall (fun v => v = []) vec -> vecTotal vec = 0.
Proof.
  induction 1 as [|v vec Hv _ IH]; [reflexivity|].
  rewrite vecTotal_cons, IH, Hv. reflexivity.
Qed.

(** C9, as amended: on a connection in CS_CONNECTED whose flight window is
    not full and whose queue holds fewer than 16383 packets (flightWindow
    is 0 when it holds none; the send ring is as calloc and rbufferGrow
    leave it, with no negative transmission count), rdpWriteVec with 1 to
    RDP_MAX_VEC (1024) vectors, all of length 0, returns 0 without
    touching errno, and seqnr and queue each grow by one: the slot of the
    old seqnr holds a DATA packet of payload 0 that carries this sequence
    number. *)
Theorem rdpWriteVec_zero_length (s : rdpSocket) (c : rdpConn)
    (vec : list rdpVec) (now : Z) :
  state c = CS_CONNECTED ->
  rdpConnFlightWindowFull c = false ->
  vec <> [] -> Z.of_nat (length vec) <= RDP_MAX_VEC ->
  Forall (fun v => v = []) vec ->
  0 <= queue c < RDP_QUEUE_SIZE_MAX - 1 ->
  0 < queue c \/ flightWindow c = 0 ->
  rbuffer_wf (outbuf c) -> outbufTyped (outbuf c) = true ->
  exists (r : writeResult) (c' : rdpConn) (pw : packetWrap),
    rdpWriteVec s (Some c) (Some vec) now = Done r /\
    wr_ret r = 0 /\ wr_errno r = None /\ wr_conn r = Some c' /\
    wr_vec r = Some vec /\
    seqnr c' = uint16_t (seqnr c + 1) /\
    queue c' = queue c + 1 /\
    rbufferGet (outbuf c') (seqnr c) = Some pw /\
    pw_payload pw = 0 /\ packetGetType (pw_hdr pw) = ST_DATA /\
    p_seqnr (pw_hdr pw) = seqnr c.
Proof.
  intros Hst Hfull Hne Hlen Hempty Hq Hfw Hwf Hty.
  unfold RDP_QUEUE_SIZE_MAX in Hq.
  pose proof (vecTotal_empty vec Hempty) as Htot.
  destruct (buildSendPacket_append c 0 ST_DATA vec) as
    (ob & bytes & vec' & Hob & Hcopy & Hbuild); auto.
  { unfold RDP_QUEUE_SIZE_MAX. lia. }
  { rewrite getMaxPacketPayloadSize_eq. lia. }
  { lia. }
  assert (bytes = [] /\ vec' = vec) as [-> ->].
  { destruct vec; cbn [buildSendPacketCopy Z.eqb] in Hcopy;
      injection Hcopy as <- <-; auto. }
  destruct (rbufferEnsureSize_done (outbuf c) (seqnr c) (queue c) Hwf
              ltac:(lia)) as (ob' & Hob' & Hwf' & _).
  rewrite Hob in Hob'. injection Hob' as <-.
  set (pw := mkPacketWrap 0 0 0 false (sendHeader c ST_DATA) []) in *.
  set (c1 := set_queue _ _) in Hbuild.
  assert (Hob1 : outbuf c1 = rbufferPut ob (seqnr c) (Some pw))
    by (unfold c1; destruct c; reflexivity).
  assert (Hseq1 : seqnr c1 = uint16_t (seqnr c + 1))
    by (unfold c1; destruct c; reflexivity).
  assert (Hq1 : queue c1 = queue c + 1).
  { unfold c1. destruct c. fields. fields_in Hq. unfold uint16_t.
    apply Z.mod_small. lia. }
  destruct (rdpConnFlushPacketsLoop_done (set_mstime s now) (queueRounds c1)
              (uint16_t (seqnr c1 - queue c1)) c1 [])
    as (c2 & out & r & Hflush & Hr & Hctl & Hqueue & _).
  { rewrite Hob1. apply rbufferPut_wf, Hwf'. }
  { rewrite Hob1. apply outbufTyped_put; [|cbn; lia].
    eapply rbufferEnsureSize_forallb; [exact Hob|reflexivity|exact Hty]. }
  destruct Hctl as (_ & _ & _ & _ & _ & _ & _ & _ & _ & _ & _ & _ & Hq2 & _
                    & Hseq2 & _).
  assert (Hslot : sameSlot (Some pw) (rbufferGet (outbuf c2) (seqnr c))).
  { destruct Hqueue as (_ & _ & Hs). specialize (Hs (seqnr c)).
    rewrite Hob1, rbufferGet_put_same in Hs by exact Hwf'. exact Hs. }
  destruct (rbufferGet (outbuf c2) (seqnr c)) as [pw2|] eqn:Hget2;
    [|contradiction].
  destruct Hslot as (Hpay & _ & Hvt & _ & _ & _ & Hsq).
  assert (Hcnt : (Z.of_nat (length vec) =? 0) = false).
  { apply Z.eqb_neq. destruct vec; [congruence|cbn [length]; lia]. }
  assert (Hmax : (Z.of_nat (length vec) >? RDP_MAX_VEC) = false).
  { destruct (Z.gtb_spec (Z.of_nat (length vec)) RDP_MAX_VEC); [lia|easy]. }
  assert (Hqlt : (queue c <? RDP_QUEUE_SIZE_MAX - 1) = true)
    by (apply Z.ltb_lt; unfold RDP_QUEUE_SIZE_MAX; lia).
  exists (mkWriteResult 0 None (set_mstime s now)
            (Some (if r =? -1 then set_state c2 CS_CONNECTED_FULL else c2))
            (Some vec) out),
    (if r =? -1 then set_state c2 CS_CONNECTED_FULL else c2), pw2.
  split.
  { unfold rdpWriteVec. rewrite Hcnt, Hmax, Hst, Hfull, Htot.
    cbn [Z.to_nat rdpWriteVecLoop]. rewrite Hqlt.
    change (min 0 getMaxPacketPayloadSize) with 0.
    change (size_t (0 - 0)) with 0. change (size_t (0 + 0)) with 0.
    rewrite Hbuild. cbn [mbind outcome_bind].
    change (min 0 getMaxPacketPayloadSize =? 0) with true.
    cbn [mbind outcome_bind mret outcome_ret].
    unfold rdpConnFlushPackets. rewrite Hflush.
    cbn [mbind outcome_bind mret outcome_ret app Z.eqb]. reflexivity. }
  cbn [wr_ret wr_errno wr_conn wr_vec].
  assert (Hsame : forall c3, c3 = (if r =? -1
                     then set_state c2 CS_CONNECTED_FULL else c2) ->
            seqnr c3 = seqnr c2 /\ queue c3 = queue c2 /\
            outbuf c3 = outbuf c2).
  { intros c3 ->. destruct (r =? -1); [destruct c2|]; repeat split. }
  destruct (Hsame _ eq_refl) as (E1 & E2 & E3).
  rewrite E1, E2, E3, Hseq2, Hq2, Hseq1, Hq1, Hget2, Hpay, Hsq.
  repeat split.
  unfold packetGetType. rewrite Hvt. reflexivity.
Qed.

(** ** selectiveAck *)

Lemma sackInQueue_test (c : rdpConn) (v : Z) :
  1 <= queue c < 2 ^ 16 ->
  (Z.land (uint32_t (seqnr c - v - 1)) RDP_ACK_NR_MASK
     >=? uint16_t (queue c - 1)) = false <-> sackInQueue c v.
Proof.
  intros Hq. unfold sackInQueue, RDP_ACK_NR_MASK, SIXTEEN_MASK.
  change 0xFFFF with (2 ^ 16 - 1). rewrite land_pow2_mask by lia.
  unfold uint32_t. rewrite mod_pow2_twice by lia.
  assert (Hq1 : uint16_t (queue c - 1) = queue c - 1)
    by (unfold uint16_t; apply Z.mod_small; lia).
  rewrite Hq1. unfold uint16_t. change (2 ^ 16) with 65536 in *.
  destruct (Z.geb_spec ((seqnr c - v - 1) mod 65536) (queue c - 1)) as [Hc|Hc];
    split; intros Hx; try discriminate; try reflexivity;
    revert Hx Hc; Z.div_mod_to_equations; lia.
Qed.

(** Two different offsets of one mask that both fall in the queue select
    different slots of a ring that holds the queue. *)
Lemma sackInQueue_slots (c : rdpConn) (k start i i' : Z) :
  0 <= k <= 16 -> queue c <= 2 ^ k ->
  -1 <= i < 2 ^ 16 - 1 -> -1 <= i' < 2 ^ 16 - 1 -> i <> i' ->
  sackInQueue c (uint32_t (start + i)) ->
  sackInQueue c (uint32_t (start + i')) ->
  rbufferSlot (2 ^ k - 1) (uint32_t (start + i))
  <> rbufferSlot (2 ^ k - 1) (uint32_t (start + i')).
Proof.
  intros Hk Hqk Hi Hi' Hne Hin Hin' Hslot.
  unfold sackInQueue in *.
  set (v := uint32_t (start + i)) in *. set (v' := uint32_t (start + i')) in *.
  rewrite !rbufferSlot_pow2 in Hslot by lia.
  pose proof (pow2_pos k ltac:(lia)) as Hp.
  pose proof (Z.mod_pos_bound v (2 ^ k) Hp).
  pose proof (Z.mod_pos_bound v' (2 ^ k) Hp).
  assert (Hvv : v mod 2 ^ k = v' mod 2 ^ k) by lia.
  assert (Hd : uint16_t (seqnr c - v) = uint16_t (seqnr c - v')).
  { rewrite <- (Z.mod_small (uint16_t (seqnr c - v)) (2 ^ k)) by lia.
    rewrite <- (Z.mod_small (uint16_t (seqnr c - v')) (2 ^ k)) by lia.
    unfold uint16_t. rewrite !mod_pow2_twice by lia.
    rewrite (Zminus_mod (seqnr c) v), (Zminus_mod (seqnr c) v'), Hvv.
    reflexivity. }
  apply Hne. clear Hslot Hvv H H0 Hin Hin'.
  unfold uint16_t, v, v', uint32_t in Hd.
  change (2 ^ 16) with 65536 in *. change (2 ^ 32) with 4294967296 in *.
  revert Hd. Z.div_mod_to_equations. lia.
Qed.

(** ackPacket on an occupied slot of a packet that was sent: the slot is
    emptied; seqnr, queue and the ring's shape stay. *)
Lemma ackPacket_acked (s : rdpSocket) (c c' : rdpConn) (i r : Z)
    (pw : packetWrap) :
  rbufferGet (outbuf c) (uint16_t i) = Some pw ->
  pw_transmissions pw <> 0 ->
  ackPacket s c i = Done (c', r) ->
  r = 0 /\ seqnr c' = seqnr c /\ queue c' = queue c /\
  outbuf c' = rbufferPut (outbuf c) (uint16_t i) None.
Proof.
  intros Hget Htr. unfold ackPacket. rewrite Hget.
  destruct (Z.eqb_spec (pw_transmissions pw) 0); [contradiction|].
  set (c0 := set_outbuf c (rbufferPut (outbuf c) (uint16_t i) None)).
  set (c2 := if pw_transmissions pw =? 1 then _ else c0).
  assert (Hc2 : seqnr c2 = seqnr c /\ queue c2 = queue c /\
                outbuf c2 = rbufferPut (outbuf c) (uint16_t i) None).
  { subst c2 c0. destruct c.
    destruct (pw_transmissions pw =? 1); [|repeat split].
    fields.
    match goal with |- context [if ?b then _ else _] => destruct b end;
      repeat split. }
  destruct Hc2 as (H1 & H2 & H3).
  destruct (negb (pw_needResend pw)).
  - unfold assert. destruct (flightWindow c2 >=? pw_payload pw);
      cbn [mbind outcome_bind mret outcome_ret]; [|discriminate].
    intros [= <- <-]. destruct c2. fields. fields_in H1. fields_in H2.
    fields_in H3. auto.
  - cbn [mbind outcome_bind mret outcome_ret]. intros [= <- <-]. auto.
Qed.

Lemma rbufferGet_uint16 {A : Type} (ob : rbuffer A) (k i : Z) :
  0 <= k <= 16 -> mask ob = 2 ^ k - 1 ->
  rbufferGet ob (uint16_t i) = rbufferGet ob i.
Proof.
  intros Hk Hm. unfold rbufferGet. rewrite Hm.
  now rewrite rbufferSlot_uint16 by exact Hk.
Qed.

Lemma shiftr3_bounds (offset : Z) :
  0 <= offset -> 0 <= Z.shiftr offset 3 /\ 8 * Z.shiftr offset 3 <= offset.
Proof.
  intros H. rewrite Z.shiftr_div_pow2 by lia. change (2 ^ 3) with 8.
  Z.div_mod_to_equations. lia.
Qed.

Section SelectiveAck.
Variables (s : rdpSocket) (c : rdpConn) (start : Z) (sackMask : Z -> Z).
Variable k : Z.
Hypothesis Hk : 0 <= k <= 16.
Hypothesis Hmask : mask (outbuf c) = 2 ^ k - 1.
Hypothesis Hlen : Z.of_nat (length (elements (outbuf c))) = 2 ^ k.
Hypothesis Hq : 1 <= queue c <= 2 ^ k.
Hypothesis Hq16 : queue c < 2 ^ 16.

Lemma sackInv_weaken (n : nat) (cc : rdpConn) :
  sackInv c start (S n) cc -> sackInv c start n cc.
Proof.
  intros (H1 & H2 & H3 & H4 & H5). repeat split; try assumption.
  intros i Hi. apply H5. lia.
Qed.

Lemma sackInv_wf (n : nat) (cc : rdpConn) :
  sackInv c start n cc -> rbuffer_wf (outbuf cc).
Proof.
  intros (_ & _ & H3 & H4 & _). exists k.
  rewrite H3, H4. split; [lia|]. split; assumption.
Qed.

Lemma selectiveAckLoop_trace (n : nat) :
  forall (cc c' : rdpConn) (tr trace : list sackEvent),
    Z.of_nat n <= 2 ^ 16 -> sackInv c start n cc ->
    selectiveAckLoop s n cc start sackMask tr = Done (c', trace) ->
    exists tr' : list sackEvent,
      trace = tr ++ tr' /\ seqnr c' = seqnr c /\ queue c' = queue c /\
      (forall j : Z, In (ReadMask j) tr' ->
         0 <= j /\ 8 * j <= Z.of_nat n - 2) /\
      (forall v : Z, In (CallAckPacket v) tr' <->
         exists i : Z, i <= Z.of_nat n - 2 /\ sackAcked c start sackMask i v) /\
      (forall j : Z,
         (forall v : Z, In (CallAckPacket v) tr' ->
            rbufferSlot (mask (outbuf c)) v
            <> rbufferSlot (mask (outbuf c)) j) ->
         rbufferGet (outbuf c') j = rbufferGet (outbuf cc) j) /\
      (forall v : Z, In (CallAckPacket v) tr' ->
         rbufferGet (outbuf c') v = None).
Proof.
  induction n as [|n IH]; intros cc c' tr trace Hn Hinv;
    cbn [selectiveAckLoop].
  { intros [= <- <-]. exists []. rewrite app_nil_r.
    destruct Hinv as (H1 & H2 & _).
    split; [reflexivity|]. split; [exact H1|]. split; [exact H2|].
    split; [intros j []|]. split.
    - intros v. split; [intros []|].
      intros (i & Hi & Hi0 & _). cbn in Hi. lia.
    - split; [reflexivity|intros v []]. }
  set (offset := Z.of_nat n - 1).
  set (v := uint32_t (start + offset)).
  assert (Hoff : -1 <= offset < 2 ^ 16 - 1) by (unfold offset; lia).
  assert (HofS : Z.of_nat (S n) - 2 = offset) by (unfold offset; lia).
  pose proof (sackInv_weaken n cc Hinv) as Hinv'.
  pose proof Hinv as (Hseq & Hqueue & Hm & Hl & Hslots).
  rewrite Hseq, Hqueue.
  (* what a round that does not call ackPacket needs *)
  assert (Hskip : forall (pre : list sackEvent),
    (forall j, In (ReadMask j) pre -> 0 <= j /\ 8 * j <= offset) ->
    (forall w, ~ In (CallAckPacket w) pre) ->
    ~ sackAcked c start sackMask offset v ->
    selectiveAckLoop s n cc start sackMask (tr ++ pre) = Done (c', trace) ->
    exists tr' : list sackEvent,
      trace = tr ++ tr' /\ seqnr c' = seqnr c /\ queue c' = queue c /\
      (forall j : Z, In (ReadMask j) tr' ->
         0 <= j /\ 8 * j <= Z.of_nat (S n) - 2) /\
      (forall v : Z, In (CallAckPacket v) tr' <->
         exists i : Z, i <= Z.of_nat (S n) - 2 /\ sackAcked c start sackMask i v) /\
      (forall j : Z,
         (forall v : Z, In (CallAckPacket v) tr' ->
            rbufferSlot (mask (outbuf c)) v
            <> rbufferSlot (mask (outbuf c)) j) ->
         rbufferGet (outbuf c') j = rbufferGet (outbuf cc) j) /\
      (forall v : Z, In (CallAckPacket v) tr' ->
         rbufferGet (outbuf c') v = None)).
  { intros pre Hpre Hnocall Hnot Hloop.
    destruct (IH cc c' (tr ++ pre) trace ltac:(lia) Hinv' Hloop)
      as (tr'' & Htr & Hs & Hqq & Hread & Hcall & Hframe & Hnone).
    exists (pre ++ tr''). rewrite app_assoc.
    split; [exact Htr|]. split; [exact Hs|]. split; [exact Hqq|].
    rewrite HofS. split.
    { intros j Hj. apply in_app_or in Hj as [Hj|Hj]; [apply Hpre, Hj|].
      apply Hread in Hj. unfold offset. lia. }
    split.
    { intros w. rewrite in_app_iff, Hcall. split.
      - intros [Hw|(i & Hi & Hacked)]; [destruct (Hnocall w Hw)|].
        exists i. split; [unfold offset; lia|exact Hacked].
      - intros (i & Hi & Hacked). right. exists i. split; [|exact Hacked].
        destruct (Z.eq_dec i offset) as [->|Hne]; [|unfold offset in *; lia].
        exfalso. apply Hnot.
        destruct Hacked as (Ha0 & Haw & Hab & Hai & Has). subst w.
        split; [exact Ha0|]. split; [reflexivity|].
        split; [exact Hab|]. split; [exact Hai|exact Has]. }
    split.
    { intros j Hj. apply Hframe. intros w Hw. apply Hj, in_or_app. auto. }
    intros w Hw. apply in_app_or in Hw as [Hw|Hw];
      [destruct (Hnocall w Hw)|apply Hnone, Hw]. }
  fold offset. fold v.
  destruct (Z.land (uint32_t (seqnr c - v - 1)) RDP_ACK_NR_MASK
              >=? uint16_t (queue c - 1)) eqn:Htest.
  { (* not in the queue *)
    intros Hloop. apply (Hskip []).
    - intros j [].
    - intros w [].
    - intros (_ & _ & _ & Hin & _).
      apply sackInQueue_test in Hin; [congruence|lia].
    - rewrite app_nil_r. exact Hloop. }
  assert (Hin : sackInQueue c v) by (apply sackInQueue_test; [lia|exact Htest]).
  assert (Hgetv : rbufferGet (outbuf cc) v = rbufferGet (outbuf c) v)
    by (apply Hslots; [lia|exact Hin]).
  set (bt := if offset >=? 0 then _ else _).
  assert (Hbt : exists pre : list sackEvent,
            bt = ((0 <=? offset) && sackBit sackMask offset, tr ++ pre) /\
            (forall j, In (ReadMask j) pre -> 0 <= j /\ 8 * j <= offset) /\
            (forall w, ~ In (CallAckPacket w) pre)).
  { unfold bt. destruct (Z.geb_spec offset 0) as [Hge|Hlt].
    - exists [ReadMask (Z.shiftr offset 3)].
      destruct (Z.leb_spec 0 offset); [|lia]. split; [reflexivity|].
      split.
      + intros j [[= <-]|[]]. apply shiftr3_bounds. lia.
      + intros w [?|[]]. discriminate.
    - exists []. destruct (Z.leb_spec 0 offset); [lia|].
      rewrite app_nil_r. split; [reflexivity|]. split; intros ? []. }
  destruct Hbt as (pre & -> & Hpre & Hnocall).
  rewrite Hgetv.
  destruct (rbufferGet (outbuf c) v) as [pw|] eqn:Hget.
  2:{ intros Hloop. apply (Hskip pre Hpre Hnocall); [|exact Hloop].
      intros (_ & _ & _ & _ & Hne). rewrite Hget in Hne. congruence. }
  destruct (Z.eqb_spec (pw_transmissions pw) 0) as [|Htr]; [discriminate|].
  destruct ((0 <=? offset) && sackBit sackMask offset) eqn:Hb.
  2:{ intros Hloop. apply (Hskip pre Hpre Hnocall); [|exact Hloop].
      intros (H0 & _ & Hbit & _).
      destruct (Z.leb_spec 0 offset); [|lia]. cbn in Hb. congruence. }
  apply andb_true_iff in Hb as [Hoff0 Hbit]. apply Z.leb_le in Hoff0.
  unfold assert.
  match goal with
  | |- context [if ?b then Done tt else AssertFailed] => destruct b
  end; cbn [mbind outcome_bind]; [|discriminate].
  destruct (ackPacket s cc v) as [[cc1 r1]| |] eqn:Hack;
    cbn [mbind outcome_bind]; try discriminate.
  assert (Hget16 : rbufferGet (outbuf cc) (uint16_t v) = Some pw).
  { rewrite (rbufferGet_uint16 _ k) by (try lia; congruence).
    exact Hgetv. }
  destruct (ackPacket_acked s cc cc1 v r1 pw Hget16 Htr Hack)
    as (_ & Hseq1 & Hq1 & Hob1).
  assert (Hslot16 : rbufferSlot (mask (outbuf cc)) (uint16_t v)
                    = rbufferSlot (mask (outbuf cc)) v)
    by (rewrite Hm, Hmask; apply rbufferSlot_uint16; lia).
  assert (Hinv1 : sackInv c start n cc1).
  { split; [congruence|]. split; [congruence|].
    rewrite Hob1. split; [exact Hm|]. split.
    { unfold rbufferPut. cbn [elements]. rewrite length_insert. exact Hl. }
    intros i Hi Hini.
    rewrite rbufferGet_put_other; [apply Hslots; [lia|exact Hini]|].
    rewrite Hslot16, Hm, Hmask.
    apply (sackInQueue_slots c k start offset i); try lia; assumption. }
  intros Hloop.
  destruct (IH cc1 c' ((tr ++ pre) ++ [CallAckPacket v]) trace ltac:(lia)
              Hinv1 Hloop)
    as (tr'' & Htr' & Hs & Hqq & Hread & Hcall & Hframe & Hnone).
  assert (Hlater : forall w, In (CallAckPacket w) tr'' ->
            rbufferSlot (mask (outbuf c)) w <> rbufferSlot (mask (outbuf c)) v).
  { intros w Hw. apply Hcall in Hw as (i & Hi & Hi0 & -> & _ & Hini & _).
    rewrite Hmask.
    apply (sackInQueue_slots c k start i offset); try lia; assumption. }
  exists (pre ++ CallAckPacket v :: tr'').
  split.
  { rewrite Htr'. rewrite <- !app_assoc. reflexivity. }
  split; [exact Hs|]. split; [exact Hqq|]. rewrite HofS. split.
  { intros j Hj. apply in_app_or in Hj as [Hj|[Hj|Hj]];
      [apply Hpre, Hj|discriminate|].
    apply Hread in Hj. unfold offset. lia. }
  split.
  { intros w. rewrite in_app_iff. cbn [In]. rewrite Hcall. split.
    - intros [Hw|[[= <-]|(i & Hi & Hacked)]].
      + destruct (Hnocall w Hw).
      + exists offset. split; [lia|].
        split; [lia|]. split; [reflexivity|]. split; [exact Hbit|].
        split; [exact Hin|]. rewrite Hget. discriminate.
      + exists i. split; [unfold offset; lia|exact Hacked].
    - intros (i & Hi & Hacked).
      destruct (Z.eq_dec i offset) as [->|Hne].
      + right. left. destruct Hacked as (_ & -> & _). reflexivity.
      + right. right. exists i. split; [unfold offset in *; lia|exact Hacked]. }
  split.
  { intros j Hj. rewrite Hframe.
    - rewrite Hob1. apply rbufferGet_put_other.
      rewrite Hslot16, Hm. apply Hj, in_or_app. right. left. reflexivity.
    - intros w Hw. apply Hj, in_or_app. right. right. exact Hw. }
  intros w Hw. apply in_app_or in Hw as [Hw|[[= <-]|Hw]].
  - destruct (Hnocall w Hw).
  - rewrite Hframe by exact Hlater. rewrite Hob1.
    apply rbufferGet_put_slot; [eapply sackInv_wf, Hinv|exact Hslot16].
  - apply Hnone, Hw.
Qed.

End SelectiveAck.

Lemma uint32_idem_add (a i : Z) : uint32_t (uint32_t a + i) = uint32_t (a + i).
Proof. unfold uint32_t. now rewrite Z.add_mod_idemp_l by lia. Qed.


(** ** Segmentation of a write *)

Lemma ring16_wf {A : Type} (ob : rbuffer A) : ring16 ob -> rbuffer_wf ob.
Proof. intros (k & Hk & Hm & Hl). exists k. split; [lia|auto]. Qed.

Lemma rbufferGet_congr {A : Type} (ob : rbuffer A) (i j : Z) :
  ring16 ob -> uint16_t i = uint16_t j -> rbufferGet ob i = rbufferGet ob j.
Proof.
  intros (k & Hk & Hm & _) E. unfold rbufferGet. rewrite Hm.
  now rewrite (rbufferSlot_congr k i j) by assumption.
Qed.

Lemma ring16_slot_ne {A : Type} (ob : rbuffer A) (i j : Z) :
  ring16 ob -> 0 < j - i <= mask ob ->
  rbufferSlot (mask ob) i <> rbufferSlot (mask ob) j.
Proof.
  intros (k & Hk & Hm & _) Hd. rewrite Hm in *.
  apply rbufferSlot_inj; lia.
Qed.

(** rbufferEnsureSize on a ring of at most 2^16 slots, for an offset up to
    2^15. *)
Lemma rbufferEnsureSize_ring16 {A : Type} (ob : rbuffer A) (item index : Z) :
  ring16 ob -> 0 <= index <= 2 ^ 15 ->
  exists ob' : rbuffer A,
    rbufferEnsureSize ob item index = Done ob' /\
    ring16 ob' /\ index <= mask ob' /\
    (forall i : Z, 0 <= i <= mask ob ->
       rbufferGet ob' (item - index + i) = rbufferGet ob (item - index + i)).
Proof.
  intros (k & Hk & Hm & Hlen) Hidx. unfold rbufferEnsureSize.
  destruct (Z.gtb_spec index (mask ob)) as [Hgt|Hle].
  - destruct (rbufferGrow_done ob k item index ltac:(lia) Hm Hlen)
      as (new & b & Hg & Hb & Hpow & Hlen' & Hget).
    { split; [lia|]. change (2 ^ 15) with 32768 in Hidx.
      change (2 ^ 63) with 9223372036854775808. lia. }
    exists (mkRbuffer (2 ^ (b + 1) - 1) new). split; [exact Hg|].
    assert (Hb15 : b <= 15).
    { destruct (Z.le_gt_cases b 15) as [?|Hc]; [assumption|].
      assert (2 ^ 16 <= 2 ^ b) by (apply Z.pow_le_mono_r; lia).
      change (2 ^ 16) with 65536 in *. change (2 ^ 15) with 32768 in *. lia. }
    split.
    { exists (b + 1). cbn [mask elements]. split; [lia|]. split; auto. }
    cbn [mask]. split; [lia|exact Hget].
  - exists ob. split; [reflexivity|]. split; [exists k; auto|].
    split; [lia|]. auto.
Qed.

Lemma ring16_put {A : Type} (ob : rbuffer A) (i : Z) (d : option A) :
  ring16 ob -> ring16 (rbufferPut ob i d).
Proof.
  intros (k & Hk & Hm & Hl). exists k. unfold rbufferPut.
  cbn [mask elements]. rewrite length_insert. auto.
Qed.

Lemma vecTotal_concat (vec : list rdpVec) :
  vecTotal vec = Z.of_nat (length (concat vec)).
Proof.
  induction vec as [|v vec IH]; [reflexivity|].
  rewrite vecTotal_cons, IH. cbn [concat]. rewrite length_app.
  unfold vec_len. lia.
Qed.

Lemma uint16_add_l (a b : Z) : uint16_t (uint16_t a + b) = uint16_t (a + b).
Proof. unfold uint16_t. now rewrite Zplus_mod_idemp_l. Qed.

Lemma uint16_idem (a : Z) : uint16_t (uint16_t a) = uint16_t a.
Proof. unfold uint16_t. now rewrite Zmod_mod. Qed.

Lemma packetGetType_sendHeader (c : rdpConn) :
  packetGetType (sendHeader c ST_DATA) = ST_DATA /\
  p_seqnr (sendHeader c ST_DATA) = seqnr c.
Proof. destruct c. split; reflexivity. Qed.

Section WriteLoop.
Variables (c : rdpConn) (data : list Z).
Hypothesis Hq0 : 0 <= queue c.
Hypothesis Hfw0 : 0 < queue c \/ flightWindow c = 0.

(** One round of the loop of rdpWriteVec: buildSendPacket appends the next
    segment. *)
Lemma rdpWriteVec_round (j : Z) (cj : rdpConn) (vecj : list rdpVec) :
  0 <= j -> queue c + j < RDP_QUEUE_SIZE_MAX - 1 ->
  writeInv c data j cj vecj ->
  0 < vecTotal vecj ->
  exists (c' : rdpConn) (vec' : list rdpVec),
    buildSendPacket cj (min (vecTotal vecj) getMaxPacketPayloadSize) ST_DATA
      vecj = Done (c', vec') /\
    writeInv c data (j + 1) c' vec' /\
    vecTotal vec'
    = vecTotal vecj - min (vecTotal vecj) getMaxPacketPayloadSize.
Proof.
  intros Hj Hroom (Hq & Hs & Hf & Hring & Hfit & Hty & Hcat & Hclosed & Hslots)
    Htot.
  unfold RDP_QUEUE_SIZE_MAX in Hroom.
  pose proof getMaxPacketPayloadSize_eq as Hmax.
  set (v := min (vecTotal vecj) getMaxPacketPayloadSize).
  assert (Hv : 0 < v <= 1390 /\ v <= vecTotal vecj).
  { unfold v, min. rewrite Hmax.
    destruct (Z.ltb_spec (vecTotal vecj) 1390); lia. }
  assert (Hlen : vecTotal vecj
                 = Z.of_nat (length data) - getMaxPacketPayloadSize * j).
  { rewrite vecTotal_concat, Hcat, length_drop. rewrite Hmax.
    rewrite vecTotal_concat, Hcat, length_drop, Hmax in Htot. lia. }
  assert (Hcl : lastPacketClosed cj).
  { destruct (Z.eq_dec j 0) as [E|E]; [auto|]. right.
    destruct (Hslots (j - 1) ltac:(lia)) as (pw & Hget & Hpay & _).
    rewrite (rbufferGet_congr _ (seqnr cj - 1) (seqnr c + (j - 1)) Hring).
    2:{ rewrite Hs. unfold uint16_t. rewrite Zminus_mod_idemp_l.
        f_equal. lia. }
    rewrite Hget. right. rewrite Hpay. unfold min. rewrite Hmax in *.
    destruct (Z.ltb_spec 1390 (Z.of_nat (length data) - 1390 * (j - 1)));
      lia. }
  destruct (buildSendPacket_append cj v ST_DATA vecj) as
    (ob & bytes & vec' & Hob & Hcopy & Hbuild); auto.
  { unfold RDP_QUEUE_SIZE_MAX. lia. }
  { rewrite Hq, Hf. lia. }
  { rewrite Hmax. lia. }
  { lia. }
  { apply ring16_wf, Hring. }
  destruct (rbufferEnsureSize_ring16 (outbuf cj) (seqnr cj) (queue cj) Hring)
    as (ob' & Hob' & Hring' & Hidx & Hkeep).
  { change (2 ^ 15) with 32768. lia. }
  rewrite Hob in Hob'. injection Hob' as <-.
  destruct (buildSendPacketCopy_done vecj v ltac:(lia)) as
    (bytes' & vec'' & Hcopy' & Hblen & Htot' & _ & Hbytes & Hcat').
  rewrite Hcopy in Hcopy'. injection Hcopy' as <- <-.
  set (pw := mkPacketWrap v 0 0 false (sendHeader cj ST_DATA) bytes) in *.
  set (c1 := set_queue _ _) in Hbuild.
  assert (Hob1 : outbuf c1 = rbufferPut ob (seqnr cj) (Some pw))
    by (unfold c1; destruct cj; reflexivity).
  assert (Hseq1 : seqnr c1 = uint16_t (seqnr cj + 1))
    by (unfold c1; destruct cj; reflexivity).
  assert (Hq1 : queue c1 = uint16_t (queue cj + 1))
    by (unfold c1; destruct cj; reflexivity).
  assert (Hf1 : flightWindow c1 = flightWindow cj)
    by (unfold c1; destruct cj; reflexivity).
  exists c1, vec'. split; [exact Hbuild|]. split; [|exact Htot'].
  assert (Hdrop : forall n : nat,
            (Z.to_nat (1390 * j) + Z.to_nat v <= n)%nat ->
            (v < 1390 -> (length data <= n)%nat) ->
            (n <= Z.to_nat (1390 * (j + 1)))%nat ->
            drop (Z.to_nat v) (drop (Z.to_nat (1390 * j)) data)
            = drop n data).
  { intros n H1 H2 H3. rewrite drop_drop.
    destruct (Z.eq_dec v 1390) as [E|E].
    - f_equal. lia.
    - rewrite !drop_ge; [reflexivity|lia|].
      unfold v in *. rewrite Hmax in *. unfold min in *.
      destruct (Z.ltb_spec (vecTotal vecj) 1390); lia. }
  unfold writeInv. rewrite Hq1, Hseq1, Hf1, Hob1, Hs, Hq.
  split. { unfold uint16_t. change (2 ^ 16) with 65536. rewrite Z.mod_small; lia. }
  split. { rewrite uint16_add_l. f_equal. lia. }
  split; [exact Hf|].
  split; [apply ring16_put, Hring'|].
  split.
  { unfold rbufferPut, uint16_t. cbn [mask]. change (2 ^ 16) with 65536.
    rewrite Z.mod_small; lia. }
  split.
  { apply outbufTyped_put; [|cbn; lia].
    eapply rbufferEnsureSize_forallb; [exact Hob|reflexivity|exact Hty]. }
  split.
  { rewrite Hcat', Hcat, Hmax. apply Hdrop; [lia| |lia].
    intros Hlt. unfold v in *. rewrite Hmax in *. unfold min in *.
    destruct (Z.ltb_spec (vecTotal vecj) 1390); lia. }
  split; [intros; lia|].
  intros i Hi. destruct (Z.eq_dec i j) as [->|Hne].
  - exists pw. split.
    { rewrite (rbufferGet_congr _ (seqnr c + j) (uint16_t (seqnr c + j)))
        by (apply ring16_put, Hring' || (symmetry; apply uint16_idem)).
      apply rbufferGet_put_same, ring16_wf, Hring'. }
    unfold segment. cbn [pw pw_payload pw_body pw_hdr].
    destruct (packetGetType_sendHeader cj) as [E1 E2]. rewrite E1, E2, Hs.
    split.
    { unfold v. rewrite Hlen, Hmax. unfold min.
      destruct (Z.ltb_spec (Z.of_nat (length data) - 1390 * j) 1390),
        (Z.ltb_spec 1390 (Z.of_nat (length data) - 1390 * j)); lia. }
    split; [|auto].
    rewrite Hbytes, Hcat, Hmax.
    destruct (Z.eq_dec v 1390) as [E|E]; [now rewrite E|].
    rewrite !take_ge; [reflexivity| |]; rewrite length_drop;
      unfold v in *; rewrite Hmax in *; unfold min in *;
      destruct (Z.ltb_spec (vecTotal vecj) 1390); lia.
  - destruct (Hslots i ltac:(lia)) as (pw0 & Hget & Hseg).
    exists pw0. split; [|exact Hseg].
    rewrite rbufferGet_put_other.
    2:{ destruct Hring' as (k & Hk & Hm & Hl).
        rewrite Hm, (rbufferSlot_congr k (uint16_t (seqnr c + j))
                       (seqnr c + j)) by (auto using uint16_idem).
        apply not_eq_sym, rbufferSlot_inj; lia. }
    rewrite <- Hget.
    rewrite (rbufferGet_congr ob (seqnr c + i)
               (seqnr cj - queue cj + (queue c + i))) by
      (auto; rewrite Hs, Hq; unfold uint16_t;
       replace (((seqnr c + j) mod 2 ^ 16) - (queue c + j) + (queue c + i))
         with (((seqnr c + j) mod 2 ^ 16) + (i - j)) by lia;
       rewrite Zplus_mod_idemp_l; f_equal; lia).
    rewrite Hkeep.
    2:{ destruct (Z.le_gt_cases (queue cj) (mask (outbuf cj))); lia. }
    apply rbufferGet_congr; [exact Hring|].
    rewrite Hs, Hq. unfold uint16_t.
    replace (((seqnr c + j) mod 2 ^ 16) - (queue c + j) + (queue c + i))
      with (((seqnr c + j) mod 2 ^ 16) + (i - j)) by lia.
    rewrite Zplus_mod_idemp_l. f_equal. lia.
Qed.

(** The loop of rdpWriteVec queues every remaining segment and ends with
    nothing left to send. *)
Lemma rdpWriteVecLoop_segments (fuel : nat) :
  forall (j : Z) (cj : rdpConn) (vecj : list rdpVec),
    0 <= j -> writeInv c data j cj vecj ->
    0 < vecTotal vecj <= Z.of_nat fuel ->
    queue c + segmentCount (Z.of_nat (length data))
    <= RDP_QUEUE_SIZE_MAX - 1 ->
    exists (cf : rdpConn) (vecf : list rdpVec),
      rdpWriteVecLoop fuel cj vecj (vecTotal vecj)
        (getMaxPacketPayloadSize * j)
        (min (vecTotal vecj) getMaxPacketPayloadSize)
      = Done (cf, vecf, 0, Z.of_nat (length data)) /\
      writeInv c data (segmentCount (Z.of_nat (length data))) cf vecf.
Proof.
  pose proof getMaxPacketPayloadSize_eq as Hmax.
  induction fuel as [|fuel IH]; intros j cj vecj Hj Hinv Htot Hroom;
    [lia|].
  assert (Hlen : vecTotal vecj = Z.of_nat (length data) - 1390 * j).
  { destruct Hinv as (_ & _ & _ & _ & _ & _ & Hcat & _).
    destruct Htot as [Htot _].
    rewrite vecTotal_concat, Hcat, length_drop, Hmax in Htot.
    rewrite vecTotal_concat, Hcat, length_drop, Hmax. lia. }
  unfold segmentCount, RDP_QUEUE_SIZE_MAX in *. rewrite Hmax in *.
  assert (Hjn : j < (Z.of_nat (length data) + 1390 - 1) / 1390)
    by (Z.div_mod_to_equations; lia).
  destruct (rdpWriteVec_round j cj vecj Hj ltac:(unfold RDP_QUEUE_SIZE_MAX; lia)
              Hinv ltac:(lia)) as (c' & vec' & Hbuild & Hinv' & Htot').
  rewrite Hmax in Hbuild, Htot'.
  assert (Hq : queue cj = queue c + j) by apply Hinv.
  cbn [rdpWriteVecLoop].
  assert (Hlt : (queue cj <? 16 * 1024 - 1) = true) by (apply Z.ltb_lt; lia).
  unfold RDP_QUEUE_SIZE_MAX. rewrite Hlt, Hbuild.
  cbn [mbind outcome_bind mret outcome_ret]. rewrite Hmax.
  set (v := min (vecTotal vecj) 1390) in *.
  assert (Hv : 0 < v <= 1390 /\ v <= vecTotal vecj /\
               (v = 1390 \/ v = vecTotal vecj)).
  { unfold v, min. destruct (Z.ltb_spec (vecTotal vecj) 1390); lia. }
  assert (Hbig : Z.of_nat (length data) < 16384 * 1390).
  { revert Hroom. Z.div_mod_to_equations. lia. }
  assert (E1 : size_t (vecTotal vecj - v) = vecTotal vec').
  { unfold size_t. change (2 ^ 64) with 18446744073709551616.
    rewrite Z.mod_small; lia. }
  assert (E2 : size_t (1390 * j + v) = 1390 * j + v).
  { unfold size_t. change (2 ^ 64) with 18446744073709551616.
    rewrite Z.mod_small; lia. }
  rewrite E1, E2.
  destruct (Z.eqb_spec (min (vecTotal vec') 1390) 0) as [Hz|Hnz].
  - assert (Hlast : vecTotal vec' = 0).
    { unfold min in Hz. destruct (Z.ltb_spec (vecTotal vec') 1390); lia. }
    assert (Hn : (Z.of_nat (length data) + 1390 - 1) / 1390 = j + 1).
    { Z.div_mod_to_equations. lia. }
    exists c', vec'. rewrite Hn. split; [|exact Hinv'].
    rewrite Hlast. do 3 f_equal. lia.
  - assert (Hpos : 0 < vecTotal vec').
    { unfold min in Hnz. destruct (Z.ltb_spec (vecTotal vec') 1390); lia. }
    destruct (IH (j + 1) c' vec' ltac:(lia) Hinv' ltac:(lia) Hroom)
      as (cf & vecf & Hloop & Hfin).
    exists cf, vecf. split; [|exact Hfin].
    rewrite <- Hloop. f_equal. lia.
Qed.

End WriteLoop.

Lemma segment_same (data : list Z) (c : rdpConn) (i : Z)
    (pw pw' : packetWrap) :
  samePacket pw pw' -> segment data c i pw -> segment data c i pw'.
Proof.
  intros (Hpay & Hbody & Hvt & _ & _ & _ & Hsq) (S1 & S2 & S3 & S4).
  unfold segment, packetGetType in *. rewrite Hpay, Hbody, Hvt, Hsq. auto.
Qed.

(** C1 (amended): the payload of one packet is at most
    getMaxPacketPayloadSize = 1390 bytes: the 1402 of UDP_IPV4_MTU less the
    12 bytes of the header.  A write of N >= 1 bytes on a CONNECTED
    connection whose window is not full, whose last queued packet takes no
    more bytes and whose queue has room for them, returns N and queues
    ceil(N / 1390) DATA packets: packet i carries the next
    min(1390, N - 1390 i) bytes of the data. *)
Theorem rdpWriteVec_segments (s : rdpSocket) (c : rdpConn)
    (vec : list rdpVec) (now : Z) :
  state c = CS_CONNECTED ->
  rdpConnFlightWindowFull c = false ->
  vec <> [] -> Z.of_nat (length vec) <= RDP_MAX_VEC ->
  0 < vecTotal vec ->
  0 <= queue c -> 0 <= seqnr c < 2 ^ 16 ->
  queue c + segmentCount (vecTotal vec) <= RDP_QUEUE_SIZE_MAX - 1 ->
  0 < queue c \/ flightWindow c = 0 ->
  lastPacketClosed c ->
  ring16 (outbuf c) -> queue c <= mask (outbuf c) + 1 ->
  outbufTyped (outbuf c) = true ->
  getUdpMtu = 1402 /\ getMaxPacketPayloadSize = 1390 /\
  getMaxPacketPayloadSize = getUdpMtu - getPacketHeaderSize /\
  exists (r : writeResult) (c' : rdpConn),
    rdpWriteVec s (Some c) (Some vec) now = Done r /\
    wr_ret r = vecTotal vec /\ wr_errno r = None /\ wr_conn r = Some c' /\
    queue c' = queue c + segmentCount (vecTotal vec) /\
    seqnr c' = uint16_t (seqnr c + segmentCount (vecTotal vec)) /\
    forall i : Z, 0 <= i < segmentCount (vecTotal vec) ->
      exists pw : packetWrap,
        rbufferGet (outbuf c') (seqnr c + i) = Some pw /\
        segment (concat vec) c i pw /\
        pw_payload pw <= getMaxPacketPayloadSize.
Proof.
  intros Hst Hfull Hne Hlen Htot Hq Hseq Hroom Hfw Hcl Hring Hfit Hty.
  split; [reflexivity|]. split; [reflexivity|]. split; [reflexivity|].
  pose proof getMaxPacketPayloadSize_eq as Hmax.
  assert (Hinv : writeInv c (concat vec) 0 c vec).
  { unfold writeInv. rewrite !Z.add_0_r, Z.mul_0_r.
    split; [reflexivity|].
    split. { unfold uint16_t. rewrite Z.mod_small; lia. }
    split; [reflexivity|]. split; [exact Hring|]. split; [lia|].
    split; [exact Hty|]. split; [reflexivity|].
    split; [auto|]. intros i Hi. lia. }
  rewrite (vecTotal_concat vec) in Hroom.
  destruct (rdpWriteVecLoop_segments c (concat vec) Hq Hfw
              (S (Z.to_nat (vecTotal vec))) 0 c vec ltac:(lia) Hinv
              ltac:(lia) Hroom) as (c1 & vec1 & Hloop & Hfin).
  rewrite <- (vecTotal_concat vec) in Hloop, Hfin, Hroom.
  rewrite Z.mul_0_r in Hloop.
  destruct Hfin as (Hq1 & Hseq1 & _ & Hring1 & _ & Hty1 & _ & _ & Hslots).
  destruct (rdpConnFlushPacketsLoop_done (set_mstime s now) (queueRounds c1)
              (uint16_t (seqnr c1 - queue c1)) c1 [])
    as (c2 & out & r & Hflush & Hr & Hctl & Hqueue & _);
    [apply ring16_wf, Hring1|exact Hty1|].
  destruct Hctl as (_ & _ & _ & _ & _ & _ & _ & _ & _ & _ & _ & _ & Hq2 & _
                    & Hseq2 & _).
  assert (Hcnt : (Z.of_nat (length vec) =? 0) = false).
  { apply Z.eqb_neq. destruct vec; [congruence|cbn [length]; lia]. }
  assert (Hvmax : (Z.of_nat (length vec) >? RDP_MAX_VEC) = false).
  { destruct (Z.gtb_spec (Z.of_nat (length vec)) RDP_MAX_VEC); [lia|easy]. }
  assert (Hsent : (vecTotal vec =? 0) = false) by (apply Z.eqb_neq; lia).
  exists (mkWriteResult (vecTotal vec) None (set_mstime s now)
            (Some (if r =? -1 then set_state c2 CS_CONNECTED_FULL else c2))
            (Some vec1) out),
    (if r =? -1 then set_state c2 CS_CONNECTED_FULL else c2).
  split.
  { unfold rdpWriteVec. rewrite Hcnt, Hvmax, Hst, Hfull, Hloop.
    cbn [mbind outcome_bind mret outcome_ret].
    unfold rdpConnFlushPackets. rewrite Hflush.
    cbn [mbind outcome_bind mret outcome_ret app]. rewrite Hsent.
    reflexivity. }
  cbn [wr_ret wr_errno wr_conn].
  assert (Hsame : forall c3, c3 = (if r =? -1
                     then set_state c2 CS_CONNECTED_FULL else c2) ->
            seqnr c3 = seqnr c2 /\ queue c3 = queue c2 /\
            outbuf c3 = outbuf c2).
  { intros c3 ->. destruct (r =? -1); [destruct c2|]; repeat split. }
  destruct (Hsame _ eq_refl) as (E1 & E2 & E3).
  rewrite E1, E2, E3, Hseq2, Hq2, Hseq1, Hq1.
  repeat (split; [reflexivity|]).
  intros i Hi. destruct (Hslots i Hi) as (pw & Hget & Hseg).
  destruct Hqueue as (_ & _ & Hs). specialize (Hs (seqnr c + i)).
  rewrite Hget in Hs.
  destruct (rbufferGet (outbuf c2) (seqnr c + i)) as [pw2|];
    [|contradiction].
  exists pw2. split; [reflexivity|].
  pose proof (segment_same _ _ _ _ _ Hs Hseg) as Hseg2.
  split; [exact Hseg2|]. destruct Hseg2 as (-> & _). unfold min.
  match goal with |- context [?a <? ?b] => destruct (Z.ltb_spec a b) end;
    lia.
Qed.

(** ** The bytes in flight *)

Lemma outbufSized_get (ob : rbuffer packetWrap) (i : Z) (pw : packetWrap) :
  outbufSized ob = true -> rbufferGet ob i = Some pw ->
  0 <= pw_payload pw <= Z.of_nat (length (pw_body pw)).
Proof.
  unfold outbufSized, rbufferGet. intros Hall Hget.
  destruct (elements ob !! rbufferSlot (mask ob) i) as [e|] eqn:Hl;
    [|discriminate]. subst e.
  rewrite forallb_forall in Hall.
  apply list_elem_of_lookup_2, list_elem_of_In, Hall in Hl. lia.
Qed.

Lemma outbufSized_put (ob : rbuffer packetWrap) (i : Z) (pw : packetWrap) :
  outbufSized ob = true ->
  0 <= pw_payload pw <= Z.of_nat (length (pw_body pw)) ->
  outbufSized (rbufferPut ob i (Some pw)) = true.
Proof.
  intros Hall Hd. unfold outbufSized, rbufferPut. cbn [elements].
  apply forallb_insert; [exact Hall|]. lia.
Qed.

Lemma inFlightFrom_put_outside (ob : rbuffer packetWrap) (i : Z)
    (d : option packetWrap) (n : nat) :
  forall start : Z,
    (forall j : Z, 0 <= j < Z.of_nat n ->
       rbufferSlot (mask ob) i <> rbufferSlot (mask ob) (start + j)) ->
    inFlightFrom (rbufferPut ob i d) start n = inFlightFrom ob start n.
Proof.
  induction n as [|n IH]; intros start Hout; [reflexivity|].
  cbn [inFlightFrom]. rewrite rbufferGet_put_other.
  2:{ specialize (Hout 0 ltac:(lia)). now rewrite Z.add_0_r in Hout. }
  rewrite IH; [reflexivity|]. intros j Hj.
  replace (start + 1 + j) with (start + (1 + j)) by lia. apply Hout. lia.
Qed.

Lemma inFlightFrom_nonneg (ob : rbuffer packetWrap) (n : nat) :
  forall start : Z,
    (forall j : Z, 0 <= j < Z.of_nat n ->
       exists pw : packetWrap,
         rbufferGet ob (start + j) = Some pw /\ 0 <= pw_payload pw) ->
    0 <= inFlightFrom ob start n.
Proof.
  induction n as [|n IH]; intros start Hall; [reflexivity|].
  cbn [inFlightFrom].
  destruct (Hall 0 ltac:(lia)) as (pw & Hget & Hpay).
  rewrite Z.add_0_r in Hget. rewrite Hget.
  assert (0 <= inFlightFrom ob (start + 1) n).
  { apply IH. intros j Hj. destruct (Hall (1 + j) ltac:(lia)) as (pw' & G & P).
    exists pw'. replace (start + 1 + j) with (start + (1 + j)) by lia. auto. }
  destruct ((pw_transmissions pw >? 0) && negb (pw_needResend pw)); lia.
Qed.

Lemma inFlightFrom_congr (ob : rbuffer packetWrap) (n : nat) :
  forall a b : Z,
    ring16 ob -> uint16_t a = uint16_t b ->
    inFlightFrom ob a n = inFlightFrom ob b n.
Proof.
  induction n as [|n IH]; intros a b Hring Hab; [reflexivity|].
  cbn [inFlightFrom]. rewrite (rbufferGet_congr ob a b Hring Hab).
  rewrite (IH (a + 1) (b + 1) Hring); [reflexivity|].
  rewrite <- (uint16_add_l a), <- (uint16_add_l b), Hab. reflexivity.
Qed.

Lemma inFlightFrom_sized (ob : rbuffer packetWrap) (n : nat) :
  forall start : Z, outbufSized ob = true -> 0 <= inFlightFrom ob start n.
Proof.
  induction n as [|n IH]; intros start Hs; [reflexivity|].
  cbn [inFlightFrom]. specialize (IH (start + 1) Hs).
  destruct (rbufferGet ob start) as [pw|] eqn:Hget; [|lia].
  pose proof (outbufSized_get ob start pw Hs Hget).
  destruct ((pw_transmissions pw >? 0) && negb (pw_needResend pw)); lia.
Qed.

Lemma outbufSized_put_none (ob : rbuffer packetWrap) (i : Z) :
  outbufSized ob = true -> outbufSized (rbufferPut ob i None) = true.
Proof.
  intros Hall. unfold outbufSized, rbufferPut. cbn [elements].
  apply forallb_insert; [exact Hall|reflexivity].
Qed.

Lemma inFlightFrom_step (ob : rbuffer packetWrap) (start : Z) (n : nat) :
  inFlightFrom ob start (S n)
  = slotInFlight (rbufferGet ob start) + inFlightFrom ob (start + 1) n.
Proof. reflexivity. Qed.

(** Emptying the slot of one queue position takes what it added. *)
Lemma inFlightFrom_put_at (ob : rbuffer packetWrap) (x : Z) (n : nat) :
  forall start j : Z,
    ring16 ob -> Z.of_nat n <= mask ob + 1 -> 0 <= j < Z.of_nat n ->
    uint16_t x = uint16_t (start + j) ->
    inFlightFrom (rbufferPut ob x None) start n
    = inFlightFrom ob start n - slotInFlight (rbufferGet ob (start + j)).
Proof.
  induction n as [|n IH]; intros start j Hring Hn Hj Hx; [lia|].
  pose proof Hring as (k & Hk & Hm & _).
  assert (Hslot : rbufferSlot (mask ob) x
                  = rbufferSlot (mask ob) (start + j))
    by (rewrite Hm; apply rbufferSlot_congr; assumption).
  rewrite !inFlightFrom_step.
  destruct (Z.eq_dec j 0) as [->|Hj0].
  - rewrite Z.add_0_r in *.
    rewrite rbufferGet_put_slot by (auto using ring16_wf).
    rewrite inFlightFrom_put_outside.
    + cbn [slotInFlight]. lia.
    + intros i Hi. rewrite Hslot. apply ring16_slot_ne; [exact Hring|lia].
  - rewrite rbufferGet_put_other.
    2:{ rewrite Hslot. apply not_eq_sym, ring16_slot_ne; [exact Hring|lia]. }
    rewrite (IH (start + 1) (j - 1)); try assumption; try lia.
    + replace (start + 1 + (j - 1)) with (start + j) by lia. lia.
    + rewrite Hx. f_equal. lia.
Qed.

(** ackPacket on a packet that was sent: it returns, the slot is emptied
    and a packet not marked for resending leaves the flight window. *)
Lemma ackPacket_returns (s : rdpSocket) (c : rdpConn) (i : Z)
    (pw : packetWrap) :
  rbufferGet (outbuf c) (uint16_t i) = Some pw ->
  pw_transmissions pw <> 0 ->
  (pw_needResend pw = false -> pw_payload pw <= flightWindow c) ->
  exists c' : rdpConn,
    ackPacket s c i = Done (c', 0) /\
    seqnr c' = seqnr c /\ queue c' = queue c /\
    outbuf c' = rbufferPut (outbuf c) (uint16_t i) None /\
    flightWindow c'
    = (if pw_needResend pw then flightWindow c
       else uint32_t (flightWindow c - pw_payload pw)).
Proof.
  intros Hget Htr Hfw. unfold ackPacket. rewrite Hget.
  destruct (Z.eqb_spec (pw_transmissions pw) 0); [contradiction|].
  set (c0 := set_outbuf c (rbufferPut (outbuf c) (uint16_t i) None)).
  set (c2 := if pw_transmissions pw =? 1 then _ else c0).
  assert (Hc2 : seqnr c2 = seqnr c /\ queue c2 = queue c /\
                outbuf c2 = rbufferPut (outbuf c) (uint16_t i) None /\
                flightWindow c2 = flightWindow c).
  { subst c2 c0. destruct c.
    destruct (pw_transmissions pw =? 1); [|repeat split].
    fields.
    match goal with |- context [if ?b then _ else _] => destruct b end;
      repeat split. }
  destruct Hc2 as (H1 & H2 & H3 & H4).
  destruct (pw_needResend pw) eqn:Hnr; cbn [negb].
  - cbn [mbind outcome_bind mret outcome_ret]. exists c2. auto.
  - unfold assert.
    assert (E : (flightWindow c2 >=? pw_payload pw) = true).
    { rewrite H4. apply Z.geb_le. auto. }
    rewrite E. cbn [mbind outcome_bind mret outcome_ret].
    eexists. split; [reflexivity|]. rewrite <- H4.
    destruct c2. fields. fields_in H1. fields_in H2. fields_in H3. auto.
Qed.

(** ackPacket has no loop: it returns or trips an assertion. *)
Lemma ackPacket_no_fuel (s : rdpSocket) (c : rdpConn) (i : Z) :
  ackPacket s c i <> OutOfFuel.
Proof.
  unfold ackPacket. destruct (rbufferGet (outbuf c) (uint16_t i)) as [pw|];
    [|discriminate].
  destruct (pw_transmissions pw =? 0); [discriminate|].
  destruct (negb (pw_needResend pw)); [|discriminate].
  unfold assert.
  match goal with
  | |- context [if ?b then Done tt else AssertFailed] => destruct b
  end; discriminate.
Qed.


(** ** selectiveAck: returning and aborting *)

Section SelectiveAckRuns.
Variables (s : rdpSocket) (c : rdpConn) (start : Z) (sackMask : Z -> Z).
Variable k : Z.
Hypothesis Hk : 0 <= k <= 16.
Hypothesis Hmask : mask (outbuf c) = 2 ^ k - 1.
Hypothesis Hlen : Z.of_nat (length (elements (outbuf c))) = 2 ^ k.
Hypothesis Hq : 1 <= queue c <= 2 ^ k.
Hypothesis Hq16 : queue c < 2 ^ 16.

(** A sequence number of the queue, the oldest left out, sits at one of
    the positions 1 .. queue - 1 behind the oldest, in a slot of its
    own. *)
Lemma sackInQueue_position (v : Z) :
  sackInQueue c v ->
  exists j : Z, 1 <= j < queue c /\
    uint16_t v = uint16_t (seqnr c - queue c + j) /\
    rbufferSlot (2 ^ k - 1) v
    <> rbufferSlot (2 ^ k - 1) (seqnr c - queue c).
Proof.
  intros Hin. unfold sackInQueue in Hin.
  exists (queue c - uint16_t (seqnr c - v)).
  assert (E : uint16_t v
              = uint16_t (seqnr c - queue c
                          + (queue c - uint16_t (seqnr c - v)))).
  { replace (seqnr c - queue c + (queue c - uint16_t (seqnr c - v)))
      with (seqnr c - uint16_t (seqnr c - v)) by lia.
    unfold uint16_t. rewrite Zminus_mod_idemp_r. f_equal. lia. }
  split; [lia|]. split; [exact E|].
  rewrite (rbufferSlot_congr k v _ Hk E).
  apply not_eq_sym, rbufferSlot_inj; lia.
Qed.

Lemma sackInv_ack (n : nat) (cc cc1 : rdpConn) :
  Z.of_nat (S n) <= 2 ^ 16 -> sackInv c start (S n) cc ->
  sackInQueue c (uint32_t (start + (Z.of_nat n - 1))) ->
  seqnr cc1 = seqnr cc -> queue cc1 = queue cc ->
  outbuf cc1
  = rbufferPut (outbuf cc)
      (uint16_t (uint32_t (start + (Z.of_nat n - 1)))) None ->
  sackInv c start n cc1.
Proof.
  intros Hn (Hseq & Hqueue & Hm & Hl & Hslots) Hin Hseq1 Hq1 Hob1.
  split; [congruence|]. split; [congruence|].
  rewrite Hob1. split; [exact Hm|]. split.
  { unfold rbufferPut. cbn [elements]. rewrite length_insert. exact Hl. }
  intros i Hi Hini.
  rewrite rbufferGet_put_other; [apply Hslots; [lia|exact Hini]|].
  rewrite Hm, Hmask, rbufferSlot_uint16 by exact Hk.
  apply (sackInQueue_slots c k start (Z.of_nat n - 1) i); try lia;
    assumption.
Qed.

Hypothesis Hty : outbufTyped (outbuf c) = true.

(** The loop of selectiveAck returns when every queued packet it comes
    across was sent and the flight window covers the bytes in flight. *)
Lemma selectiveAckLoop_returns (n : nat) :
  forall (cc : rdpConn) (tr : list sackEvent),
    Z.of_nat n <= 2 ^ 16 -> sackInv c start n cc ->
    (forall (i : Z) (pw : packetWrap),
       -1 <= i <= Z.of_nat n - 2 ->
       sackInQueue c (uint32_t (start + i)) ->
       rbufferGet (outbuf c) (uint32_t (start + i)) = Some pw ->
       pw_transmissions pw <> 0) ->
    outbufSized (outbuf cc) = true ->
    inFlightFrom (outbuf cc) (seqnr c - queue c) (Z.to_nat (queue c))
    <= flightWindow cc < 2 ^ 32 ->
    exists (c' : rdpConn) (trace : list sackEvent),
      selectiveAckLoop s n cc start sackMask tr = Done (c', trace) /\
      outbufSized (outbuf c') = true /\
      inFlightFrom (outbuf c') (seqnr c - queue c) (Z.to_nat (queue c))
      <= flightWindow c' < 2 ^ 32.
Proof.
  induction n as [|n IH]; intros cc tr Hn Hinv Hsent Hsz Hfw;
    cbn [selectiveAckLoop].
  { exists cc, tr. auto. }
  set (offset := Z.of_nat n - 1).
  set (v := uint32_t (start + offset)).
  pose proof (sackInv_weaken c start k n cc Hinv) as Hinv'.
  pose proof Hinv as (Hseq & Hqueue & Hm & Hl & Hslots).
  assert (Hsent' : forall (i : Z) (pw : packetWrap),
            -1 <= i <= Z.of_nat n - 2 ->
            sackInQueue c (uint32_t (start + i)) ->
            rbufferGet (outbuf c) (uint32_t (start + i)) = Some pw ->
            pw_transmissions pw <> 0)
    by (intros i pw Hi; apply Hsent; lia).
  assert (Hskip : forall tr0 : list sackEvent,
            exists (c' : rdpConn) (trace : list sackEvent),
              selectiveAckLoop s n cc start sackMask tr0 = Done (c', trace)
              /\ outbufSized (outbuf c') = true /\
              inFlightFrom (outbuf c') (seqnr c - queue c)
                (Z.to_nat (queue c)) <= flightWindow c' < 2 ^ 32)
    by (intros tr0; apply IH; auto; lia).
  rewrite Hseq, Hqueue.
  destruct (Z.land (uint32_t (seqnr c - v - 1)) RDP_ACK_NR_MASK
              >=? uint16_t (queue c - 1)) eqn:Htest; [apply Hskip|].
  assert (Hin : sackInQueue c v) by (apply sackInQueue_test; [lia|exact Htest]).
  assert (Hgetv : rbufferGet (outbuf cc) v = rbufferGet (outbuf c) v)
    by (apply Hslots; [unfold offset; lia|exact Hin]).
  rewrite Hgetv.
  set (bt := if offset >=? 0 then _ else _).
  destruct bt as [b tr1].
  destruct (rbufferGet (outbuf c) v) as [pw|] eqn:Hget; [|apply Hskip].
  assert (Htr : pw_transmissions pw <> 0)
    by (apply (Hsent offset pw); [unfold offset; lia|exact Hin|exact Hget]).
  destruct (Z.eqb_spec (pw_transmissions pw) 0) as [|_]; [contradiction|].
  destruct b; [|apply Hskip].
  destruct (sackInQueue_position v Hin) as (j & Hj & Hvj & Hne).
  assert (Hassert : negb (Z.land (size_t v) (mask (outbuf cc))
                          =? Z.land (size_t (seqnr c - queue c))
                               (mask (outbuf cc))) = true).
  { apply negb_true_iff, Z.eqb_neq. intros E. apply Hne.
    unfold rbufferSlot. rewrite <- Hmask, <- Hm, E. reflexivity. }
  unfold assert. rewrite Hassert. cbn [mbind outcome_bind].
  assert (Hring : ring16 (outbuf cc)).
  { exists k. split; [exact Hk|]. rewrite Hm, Hl. auto. }
  assert (Hget16 : rbufferGet (outbuf cc) (uint16_t v) = Some pw).
  { rewrite (rbufferGet_uint16 _ k) by (try lia; congruence).
    exact Hgetv. }
  assert (Hat : rbufferGet (outbuf cc) (seqnr c - queue c + j) = Some pw).
  { rewrite <- Hget16. apply rbufferGet_congr; [exact Hring|].
    rewrite uint16_idem. symmetry. exact Hvj. }
  pose proof (inFlightFrom_put_at (outbuf cc) (uint16_t v)
                (Z.to_nat (queue c)) (seqnr c - queue c) j Hring
                ltac:(rewrite Hm, Hmask; lia) ltac:(lia)
                ltac:(rewrite uint16_idem; exact Hvj)) as Hput.
  rewrite Hat in Hput.
  pose proof (inFlightFrom_sized (rbufferPut (outbuf cc) (uint16_t v) None)
                (Z.to_nat (queue c)) (seqnr c - queue c)
                (outbufSized_put_none _ _ Hsz)) as Hnonneg.
  pose proof (outbufTyped_get _ _ _ Hty Hget) as Htr0.
  pose proof (outbufSized_get _ _ _ Hsz Hget16) as Hpay.
  assert (Hflight : slotInFlight (Some pw)
                    = if pw_needResend pw then 0 else pw_payload pw).
  { cbn [slotInFlight].
    destruct (Z.gtb_spec (pw_transmissions pw) 0); [|lia].
    destruct (pw_needResend pw); reflexivity. }
  rewrite Hflight in Hput.
  destruct (ackPacket_returns s cc v pw Hget16 Htr) as
    (cc1 & Hack & Hseq1 & Hq1 & Hob1 & Hfw1).
  { intros Hnr. rewrite Hnr in Hput. lia. }
  rewrite Hack. cbn [mbind outcome_bind].
  apply IH.
  - lia.
  - apply (sackInv_ack n cc cc1); auto.
  - exact Hsent'.
  - rewrite Hob1. apply outbufSized_put_none, Hsz.
  - rewrite Hob1, Hput, Hfw1.
    destruct (pw_needResend pw); [lia|].
    unfold uint32_t. rewrite Z.mod_small; lia.
Qed.

(** The loop of selectiveAck aborts when it comes across a queued packet
    that was never sent. *)
Lemma selectiveAckLoop_aborts (n : nat) :
  forall (cc : rdpConn) (tr : list sackEvent),
    Z.of_nat n <= 2 ^ 16 -> sackInv c start n cc ->
    (exists (i : Z) (pw : packetWrap),
       -1 <= i <= Z.of_nat n - 2 /\
       sackInQueue c (uint32_t (start + i)) /\
       rbufferGet (outbuf c) (uint32_t (start + i)) = Some pw /\
       pw_transmissions pw = 0) ->
    selectiveAckLoop s n cc start sackMask tr = AssertFailed.
Proof.
  induction n as [|n IH]; intros cc tr Hn Hinv (i & pw & Hi & Hini & Hgeti
    & Htri); [lia|].
  cbn [selectiveAckLoop].
  set (offset := Z.of_nat n - 1).
  set (v := uint32_t (start + offset)).
  pose proof (sackInv_weaken c start k n cc Hinv) as Hinv'.
  pose proof Hinv as (Hseq & Hqueue & Hm & Hl & Hslots).
  rewrite Hseq, Hqueue.
  destruct (Z.eq_dec i offset) as [->|Hne].
  { (* the packet of this round *)
    fold v in Hini, Hgeti.
    assert (Htest : (Z.land (uint32_t (seqnr c - v - 1)) RDP_ACK_NR_MASK
                     >=? uint16_t (queue c - 1)) = false)
      by (apply sackInQueue_test; [lia|exact Hini]).
    rewrite Htest.
    assert (Hgv : rbufferGet (outbuf cc) v = rbufferGet (outbuf c) v)
      by (apply Hslots; [unfold offset; lia|exact Hini]).
    rewrite Hgv, Hgeti, Htri.
    destruct (if offset >=? 0 then _ else _) as [b tr1]. reflexivity. }
  assert (Hlater : forall (cc' : rdpConn) (tr0 : list sackEvent),
            sackInv c start n cc' ->
            selectiveAckLoop s n cc' start sackMask tr0 = AssertFailed).
  { intros cc' tr0 Hinv0. apply IH; [lia|exact Hinv0|].
    exists i, pw. split; [unfold offset in Hne; lia|]. auto. }
  destruct (Z.land (uint32_t (seqnr c - v - 1)) RDP_ACK_NR_MASK
              >=? uint16_t (queue c - 1)) eqn:Htest; [apply Hlater, Hinv'|].
  assert (Hin : sackInQueue c v) by (apply sackInQueue_test; [lia|exact Htest]).
  assert (Hgetv : rbufferGet (outbuf cc) v = rbufferGet (outbuf c) v)
    by (apply Hslots; [unfold offset; lia|exact Hin]).
  rewrite Hgetv.
  destruct (if offset >=? 0 then _ else _) as [b tr1].
  destruct (rbufferGet (outbuf c) v) as [pw1|] eqn:Hget;
    [|apply Hlater, Hinv'].
  destruct (Z.eqb_spec (pw_transmissions pw1) 0) as [|Htr]; [reflexivity|].
  destruct b; [|apply Hlater, Hinv'].
  unfold assert.
  match goal with
  | |- context [if ?b then Done tt else AssertFailed] => destruct b
  end; cbn [mbind outcome_bind]; [|reflexivity].
  assert (Hget16 : rbufferGet (outbuf cc) (uint16_t v) = Some pw1).
  { rewrite (rbufferGet_uint16 _ k) by (try lia; congruence).
    exact Hgetv. }
  destruct (ackPacket s cc v) as [[cc1 r1]| |] eqn:Hack;
    cbn [mbind outcome_bind]; [|reflexivity|].
  - destruct (ackPacket_acked s cc cc1 v r1 pw1 Hget16 Htr Hack)
      as (_ & Hseq1 & Hq1 & Hob1).
    apply Hlater. apply (sackInv_ack n cc cc1); auto.
  - destruct (ackPacket_no_fuel s cc v Hack).
Qed.

End SelectiveAckRuns.



(** ** sendAck and its assertion *)

Lemma sendAck_blocked (s : rdpSocket) (c : rdpConn) :
  ackBlocked c = true -> sendAck s c = AssertFailed.
Proof.
  unfold ackBlocked, occupied, sendAck. intros H.
  apply andb_true_iff in H as [H Hocc].
  rewrite H. destruct (rbufferGet (inbuf c) (acknr c + 1)); [|discriminate].
  reflexivity.
Qed.

Lemma ackBlocked_ready (c : rdpConn) : ackBlocked c = false -> ackReady c.
Proof.
  unfold ackBlocked, occupied, ackReady. intros H.
  destruct (Z.eqb_spec (outOfOrderCnt c) 0) as [E|_]; [left; exact E|].
  destruct (state c) eqn:Hst; try (right; left; reflexivity);
    (destruct (receivedFinCompleted c); [right; right; left; reflexivity|];
     destruct (rbufferGet (inbuf c) (acknr c + 1));
     [discriminate|right; right; right; reflexivity]).
Qed.


(** ** Instances and counterexamples *)

Lemma rdpReadPoll_acknr_window_witness :
  (rdpReadPollAcknrInvalid (ex_writes 5) 50 = true <->
   ~ inSixteenRange (seqnr (ex_writes 5) - queue (ex_writes 5) - 11)
       (seqnr (ex_writes 5) - 1) 50) /\
  (rdpReadPollAcknrInvalid (ex_writes 5) 50 = true ->
   rdpReadPollAck 0 1 2 4 ex_sock (ex_writes 5)
     (mkPacket 0x21 0 0 16777216 1 50) [] 12
   = Done (mkPollResult (ex_writes 5) 0 (Some (-1)) [])) /\
  (0 <= queue (ex_writes 5) <= RDP_QUEUE_SIZE_MAX ->
   (rdpReadPollAcknrInvalid (ex_writes 5) 50 = false <->
    uint16_t (seqnr (ex_writes 5) - 1 - 50)
    <= queue (ex_writes 5) + 10)).
Proof.
  apply (rdpReadPoll_acknr_window 0 1 2 4 ex_sock (ex_writes 5)
           (mkPacket 0x21 0 0 16777216 1 50) [] 12).
  vm_compute. discriminate.
Defined.

(** C3 as stated fails: with seqnr = 100 and queue = 5 the acknr 84 lies
    outside [seqnr - queue - 10, seqnr - 1] = [85, 99], yet the packet
    passes the test and rdpReadPoll goes on to change the connection. *)
Lemma rdpReadPoll_acknr_window_counterexample :
  seqnr (ex_writes 5) = 100 /\ queue (ex_writes 5) = 5 /\
  ~ inSixteenRange (seqnr (ex_writes 5) - queue (ex_writes 5) - 10)
      (seqnr (ex_writes 5) - 1) 84 /\
  rdpReadPollAcknrInvalid (ex_writes 5) 84 = false /\
  exists r : pollResult,
    rdpReadPollAck 0 1 2 4 (set_mstime ex_sock 1200) (ex_writes 5)
      (mkPacket 0x21 0 0 16777216 1 84) [] 12 = Done r /\
    pr_ret r = None /\
    lastReceivedPacket (pr_conn r) <> lastReceivedPacket (ex_writes 5).
Proof.
  split; [vm_compute; reflexivity|]. split; [vm_compute; reflexivity|].
  split.
  { assert (E : sixteenDistance 84
                  (seqnr (ex_writes 5) - queue (ex_writes 5) - 10)
                = -1) by (vm_compute; reflexivity).
    unfold inSixteenRange. rewrite E. lia. }
  split; [vm_compute; reflexivity|].
  eexists. split; [vm_compute; reflexivity|].
  split; [reflexivity|]. vm_compute. discriminate.
Qed.

Lemma rdpWriteVec_state_check_witness :
  (state (set_state (rdpConnCreate 7) CS_SYN_SENT) = CS_SYN_SENT \/
   state (set_state (rdpConnCreate 7) CS_SYN_SENT) = CS_CONNECTED_FULL ->
   rdpWriteVec ex_sock (Some (set_state (rdpConnCreate 7) CS_SYN_SENT))
     (Some [[1; 2; 3]]) 2000
   = Done (mkWriteResult (-1) (Some EAGAIN) ex_sock
             (Some (set_state (rdpConnCreate 7) CS_SYN_SENT))
             (Some [[1; 2; 3]]) [])) /\
  (state (set_state (rdpConnCreate 7) CS_SYN_SENT) = CS_UNINITIALIZED \/
   state (set_state (rdpConnCreate 7) CS_SYN_SENT) = CS_SYN_RECV \/
   state (set_state (rdpConnCreate 7) CS_SYN_SENT) = CS_FIN_SENT \/
   state (set_state (rdpConnCreate 7) CS_SYN_SENT) = CS_DESTROY ->
   rdpWriteVec ex_sock (Some (set_state (rdpConnCreate 7) CS_SYN_SENT))
     (Some [[1; 2; 3]]) 2000
   = Done (mkWriteResult (-1) (Some EINVAL) ex_sock
             (Some (set_state (rdpConnCreate 7) CS_SYN_SENT))
             (Some [[1; 2; 3]]) [])) /\
  (state (set_state (rdpConnCreate 7) CS_SYN_SENT) <> CS_CONNECTED ->
   exists e : Z,
     rdpWriteVec ex_sock (Some (set_state (rdpConnCreate 7) CS_SYN_SENT))
       (Some [[1; 2; 3]]) 2000
     = Done (mkWriteResult (-1) (Some e) ex_sock
               (Some (set_state (rdpConnCreate 7) CS_SYN_SENT))
               (Some [[1; 2; 3]]) [])).
Proof.
  apply (rdpWriteVec_state_check ex_sock
           (set_state (rdpConnCreate 7) CS_SYN_SENT) [[1; 2; 3]] 2000).
  - discriminate.
  - vm_compute. discriminate.
Defined.

Lemma ackPacket_rto_bounds_witness :
  exists c' : rdpConn,
    ackPacket (set_mstime ex_sock 1300) (ex_writes 1) 95 = Done (c', 0) /\
    outbuf c' = rbufferPut (outbuf (ex_writes 1)) (uint16_t 95) None /\
    nextRetransmitTimeout c'
    = limitedRetransmitTimeout (uint32_t (rtt c' + rttVar c' * 4)) /\
    200 <= nextRetransmitTimeout c' <= 1000.
Proof.
  eapply (ackPacket_rto_bounds (set_mstime ex_sock 1300) (ex_writes 1) 95).
  - vm_compute. reflexivity.
  - reflexivity.
  - right. vm_compute. discriminate.
Defined.

Lemma rdpConnect_ids_witness :
  exists (w' : world) (c' : rdpConn) (syn : datagram),
    rdpConnect ex_world (Some 0%nat) ex_peer 16 2000 [5; 6]
    = Done (w', [syn], [6], 0) /\
    w_heap w' !! 0%nat = Some c' /\
    state c' = CS_SYN_SENT /\
    idSeed c' = 5 /\
    recvId c' = idSeed c' /\
    sendId c' = uint16_t (idSeed c' + 1) /\
    packetGetType (dg_hdr syn) = ST_SYN /\
    connId (dg_hdr syn) = recvId c'.
Proof.
  apply (rdpConnect_ids ex_world 0%nat (rdpConnCreate 100) ex_peer 16 2000
           [5; 6] [6] 5).
  - vm_compute. reflexivity.
  - reflexivity.
  - exists 6. split; [lia|]. split; reflexivity.
  - vm_compute. reflexivity.
  - vm_compute. reflexivity.
Defined.

(** C2 as stated fails: with the seed 5 chosen, recvId is 5 and sendId 6,
    not recvId = id_seed + 1 and sendId = id_seed. *)
Lemma rdpConnect_ids_counterexample :
  exists (w' : world) (c' : rdpConn) (out : list datagram),
    rdpConnect ex_world (Some 0%nat) ex_peer 16 2000 [5]
    = Done (w', out, [], 0) /\
    w_heap w' !! 0%nat = Some c' /\
    idSeed c' = 5 /\
    recvId c' <> uint16_t (idSeed c' + 1) /\
    sendId c' <> idSeed c'.
Proof.
  eexists _, _, _. split; [vm_compute; reflexivity|].
  split; [vm_compute; reflexivity|].
  split; [reflexivity|]. split; vm_compute; discriminate.
Qed.

Lemma rdpConnCheck_keepalive_witness :
  exists (s' : rdpSocket) (ka : datagram),
    rdpConnCheck 10 1000 (set_mstime ex_sock 30000)
      (set_retransmitTicker (ex_writes 1) 40000)
    = Done (s',
            set_needSendAck
              (set_lastSentPacket (set_retransmitTicker (ex_writes 1) 40000)
                 (mstime (set_mstime ex_sock 30000)))
              false,
            [] ++ [ka]) /\
    packetGetType (dg_hdr ka) = ST_STATE /\
    p_acknr (dg_hdr ka)
    = uint16_t (acknr (set_retransmitTicker (ex_writes 1) 40000) - 1) /\
    acknr (set_retransmitTicker (ex_writes 1) 40000)
    = acknr (set_retransmitTicker (ex_writes 1) 40000) /\
    (mstime (set_mstime ex_sock 30000)
     < retransmitTicker (set_retransmitTicker (ex_writes 1) 40000) ->
     set_retransmitTicker (ex_writes 1) 40000
     = set_retransmitTicker (ex_writes 1) 40000 /\ @nil datagram = []).
Proof.
  apply (rdpConnCheck_keepalive 10 1000 (set_mstime ex_sock 30000)
           (set_retransmitTicker (ex_writes 1) 40000)
           (set_retransmitTicker (ex_writes 1) 40000) []).
  - left. vm_compute. reflexivity.
  - vm_compute. split; [discriminate|reflexivity].
  - right. vm_compute. discriminate.
  - vm_compute. reflexivity.
  - vm_compute. discriminate.
  - left. vm_compute. reflexivity.
Defined.

(** C8 as stated fails.  With a packet queued and last sent 29000 ms ago
    the check retransmits that DATA packet and sends no STATE packet; with
    nothing queued it sends the STATE packet, but the retransmission stage
    before it has set retransmitTimeout and retransmitTicker anew. *)
Lemma rdpConnCheck_keepalive_counterexample :
  state (ex_writes 1) = CS_CONNECTED /\
  lastSentPacket (ex_writes 1) + RDP_KEEPALIVE_INTERVAL <= 30000 /\
  check_summary (rdpConnCheck 10 1000 (set_mstime ex_sock 30000) (ex_writes 1))
  = Some ([ST_DATA], 500, 30500) /\
  state (ex_writes 0) = CS_CONNECTED /\
  lastSentPacket (ex_writes 0) + RDP_KEEPALIVE_INTERVAL <= 30000 /\
  retransmitTimeout (ex_writes 0) = 0 /\ retransmitTicker (ex_writes 0) = 0 /\
  check_summary (rdpConnCheck 10 1000 (set_mstime ex_sock 30000) (ex_writes 0))
  = Some ([ST_STATE], 500, 30500).
Proof.
  split; [reflexivity|]. split; [vm_compute; discriminate|].
  split; [vm_compute; reflexivity|]. split; [reflexivity|].
  split; [vm_compute; discriminate|]. split; [reflexivity|].
  split; [reflexivity|]. vm_compute. reflexivity.
Qed.

Lemma rdpWriteVec_zero_length_witness :
  exists (r : writeResult) (c' : rdpConn) (pw : packetWrap),
    rdpWriteVec ex_sock (Some (ex_writes 2)) (Some [[]; []]) 2000 = Done r /\
    wr_ret r = 0 /\ wr_errno r = None /\ wr_conn r = Some c' /\
    wr_vec r = Some [[]; []] /\
    seqnr c' = uint16_t (seqnr (ex_writes 2) + 1) /\
    queue c' = queue (ex_writes 2) + 1 /\
    rbufferGet (outbuf c') (seqnr (ex_writes 2)) = Some pw /\
    pw_payload pw = 0 /\ packetGetType (pw_hdr pw) = ST_DATA /\
    p_seqnr (pw_hdr pw) = seqnr (ex_writes 2).
Proof.
  apply (rdpWriteVec_zero_length ex_sock (ex_writes 2) [[]; []] 2000).
  - vm_compute. reflexivity.
  - vm_compute. reflexivity.
  - discriminate.
  - vm_compute. discriminate.
  - repeat constructor.
  - vm_compute. split; [discriminate|reflexivity].
  - left. vm_compute. reflexivity.
  - exists 6. split; [lia|]. split; vm_compute; reflexivity.
  - vm_compute. reflexivity.
Defined.

(** C9 as stated fails: with 16383 packets queued the flight window is not
    full, yet a write of length 0 returns 0 and queues nothing, the last
    slot being kept for the FIN. *)
Lemma rdpWriteVec_zero_length_counterexample :
  state ex_full_queue = CS_CONNECTED /\
  rdpConnFlightWindowFull ex_full_queue = false /\
  seqnr ex_full_queue = 16383 /\ queue ex_full_queue = 16383 /\
  write_summary (rdpWriteVec ex_sock (Some ex_full_queue) (Some [[]]) 2000)
  = Some (0, None, Some (16383, 16383)).
Proof.
  split; [reflexivity|]. split; [vm_compute; reflexivity|].
  split; [reflexivity|]. split; [reflexivity|]. vm_compute. reflexivity.
Qed.



Lemma rdpWriteVec_segments_witness :
  getUdpMtu = 1402 /\ getMaxPacketPayloadSize = 1390 /\
  getMaxPacketPayloadSize = getUdpMtu - getPacketHeaderSize /\
  exists (r : writeResult) (c' : rdpConn),
    rdpWriteVec ex_sock (Some (ex_writes 2)) (Some [ex_bytes 3000]) 2000
    = Done r /\
    wr_ret r = vecTotal [ex_bytes 3000] /\ wr_errno r = None /\
    wr_conn r = Some c' /\
    queue c' = queue (ex_writes 2) + segmentCount (vecTotal [ex_bytes 3000]) /\
    seqnr c'
    = uint16_t (seqnr (ex_writes 2) + segmentCount (vecTotal [ex_bytes 3000]))
    /\
    forall i : Z, 0 <= i < segmentCount (vecTotal [ex_bytes 3000]) ->
      exists pw : packetWrap,
        rbufferGet (outbuf c') (seqnr (ex_writes 2) + i) = Some pw /\
        segment (concat [ex_bytes 3000]) (ex_writes 2) i pw /\
        pw_payload pw <= getMaxPacketPayloadSize.
Proof.
  apply (rdpWriteVec_segments ex_sock (ex_writes 2) [ex_bytes 3000] 2000).
  - vm_compute. reflexivity.
  - vm_compute. reflexivity.
  - discriminate.
  - vm_compute. discriminate.
  - vm_compute. reflexivity.
  - vm_compute. discriminate.
  - vm_compute. split; [discriminate|reflexivity].
  - vm_compute. discriminate.
  - left. vm_compute. reflexivity.
  - right. vm_compute. left. discriminate.
  - exists 6. split; [lia|]. split; vm_compute; reflexivity.
  - vm_compute. discriminate.
  - vm_compute. reflexivity.
Defined.

(** C1 as stated fails: the payload limit is 1390, not 1402, and a write
    of 1402 bytes is cut into two packets, of 1390 and of 12 bytes, where
    ceil(1402 / 1402) is one. *)
Lemma rdpWriteVec_segments_counterexample :
  getMaxPacketPayloadSize = 1390 /\ getMaxPacketPayloadSize <> 1402 /\
  state (ex_connected 95) = CS_CONNECTED /\
  vecTotal [ex_bytes 1402] = 1402 /\
  (1402 + 1402 - 1) / 1402 = 1 /\
  write_summary
    (rdpWriteVec ex_sock (Some (ex_connected 95)) (Some [ex_bytes 1402]) 2000)
  = Some (1402, None, Some (97, 2)) /\
  write_payloads
    (rdpWriteVec ex_sock (Some (ex_connected 95)) (Some [ex_bytes 1402]) 2000)
  = [1390; 12].
Proof.
  split; [reflexivity|]. split; [discriminate|]. split; [reflexivity|].
  split; [vm_compute; reflexivity|]. split; [reflexivity|].
  split; vm_compute; reflexivity.
Qed.

(** * Further properties of the code *)

(** ** The ring buffer as a map *)

(** X1: a ring of 2^k slots is a map on indices modulo 2^k: reading index
    [j] after rbufferPut at index [i] gives the element put when [i] and
    [j] agree modulo the size, and what was there before otherwise. *)
Theorem rbufferPut_rbufferGet {A : Type} (buf : rbuffer A) (k i j : Z)
    (d : option A) :
  0 <= k <= 64 -> mask buf = 2 ^ k - 1 ->
  Z.of_nat (length (elements buf)) = 2 ^ k ->
  rbufferGet (rbufferPut buf i d) j
  = if (i - j) mod 2 ^ k =? 0 then d else rbufferGet buf j.
Proof.
  intros Hk Hm Hlen.
  assert (Hwf : rbuffer_wf buf) by (exists k; split; [lia|auto]).
  pose proof (pow2_pos k ltac:(lia)) as Hpos.
  destruct (Z.eqb_spec ((i - j) mod 2 ^ k) 0) as [E|E].
  - apply rbufferGet_put_slot; [exact Hwf|]. rewrite Hm.
    rewrite !rbufferSlot_pow2 by lia. f_equal.
    rewrite <- (Z.sub_add j i) at 1.
    rewrite <- Zplus_mod_idemp_l, E. reflexivity.
  - apply rbufferGet_put_other. rewrite Hm, !rbufferSlot_pow2 by lia.
    intros Heq. apply E.
    pose proof (Z.mod_pos_bound i (2 ^ k) Hpos).
    pose proof (Z.mod_pos_bound j (2 ^ k) Hpos).
    assert (Hij : i mod 2 ^ k = j mod 2 ^ k) by lia.
    rewrite Zminus_mod, Hij, Z.sub_diag. apply Z.mod_0_l. lia.
Qed.

Lemma rbufferPut_rbufferGet_witness :
  rbufferGet (rbufferPut (@rbufferInit Z) 5 (Some 7)) 69
  = if (5 - 69) mod 2 ^ 6 =? 0 then Some 7
    else rbufferGet (@rbufferInit Z) 69.
Proof.
  apply (rbufferPut_rbufferGet (@rbufferInit Z) 6 5 69 (Some 7)).
  - lia.
  - reflexivity.
  - reflexivity.
Defined.

(** X2: rbufferEnsureSize(buf, item, index) always returns for an offset
    below 2^63, leaves a ring that fits and is never smaller, and makes
    the index + 1 positions item - index .. item select index + 1
    different slots: none of them is overwritten by a put at another. *)
Theorem rbufferEnsureSize_room {A : Type} (buf : rbuffer A) (item index : Z) :
  rbuffer_wf buf -> 0 <= index < 2 ^ 63 ->
  exists buf' : rbuffer A,
    rbufferEnsureSize buf item index = Done buf' /\
    rbuffer_wf buf' /\ mask buf <= mask buf' /\ index <= mask buf' /\
    (index <= mask buf -> buf' = buf) /\
    forall i j : Z, 0 <= i < j -> j <= index ->
      rbufferSlot (mask buf') (item - index + i)
      <> rbufferSlot (mask buf') (item - index + j).
Proof.
  intros Hwf Hidx.
  destruct (rbufferEnsureSize_done buf item index Hwf ltac:(lia))
    as (buf' & Hdone & Hwf' & Hfit & Hmono & Hsame & _).
  exists buf'. repeat (split; [assumption|]).
  intros i j Hij Hj. destruct Hwf' as (k & Hk & Hm & _). rewrite Hm in *.
  destruct (Z.le_gt_cases k 64) as [Hk64|Hk64].
  - apply rbufferSlot_inj; lia.
  - unfold rbufferSlot. rewrite !land_pow2_mask by lia.
    assert (H64 : 2 ^ 64 < 2 ^ k) by (apply Z.pow_lt_mono_r; lia).
    pose proof (Z.mod_pos_bound (item - index + i) (2 ^ 64) ltac:(lia)).
    pose proof (Z.mod_pos_bound (item - index + j) (2 ^ 64) ltac:(lia)).
    unfold size_t. rewrite !(Z.mod_small (_ mod 2 ^ 64) (2 ^ k)) by lia.
    intros Heq. apply Z2Nat.inj in Heq; [|lia|lia].
    change (2 ^ 64) with 18446744073709551616 in *.
    change (2 ^ 63) with 9223372036854775808 in *.
    revert Heq. Z.div_mod_to_equations. lia.
Qed.

Lemma rbufferEnsureSize_room_witness :
  exists buf' : rbuffer Z,
    rbufferEnsureSize (@rbufferInit Z) 1000 100 = Done buf' /\
    rbuffer_wf buf' /\ mask (@rbufferInit Z) <= mask buf' /\
    100 <= mask buf' /\
    (100 <= mask (@rbufferInit Z) -> buf' = rbufferInit) /\
    forall i j : Z, 0 <= i < j -> j <= 100 ->
      rbufferSlot (mask buf') (1000 - 100 + i)
      <> rbufferSlot (mask buf') (1000 - 100 + j).
Proof.
  apply (rbufferEnsureSize_room (@rbufferInit Z) 1000 100).
  - exists 6. split; [lia|]. split; reflexivity.
  - lia.
Defined.

(** ** Clamps and sequence comparison *)

(** X3: limitedWindow and limitedRetransmitTimeout clamp a 32-bit value
    into their ranges, [getMaxPacketPayloadSize, RDP_WINDOW_SIZE_MAX] and
    [RDP_RETRANSMIT_TIMEOUT_MIN, RDP_RETRANSMIT_TIMEOUT_MAX]: the result
    lies in the range, a value of the range is left as it is (so both are
    idempotent), 0 gives the default, and on positive values both are
    monotone. *)
Theorem limited_clamps (t t' : Z) :
  0 <= t < 2 ^ 32 -> t <= t' < 2 ^ 32 ->
  (getMaxPacketPayloadSize <= limitedWindow t <= RDP_WINDOW_SIZE_MAX) /\
  (getMaxPacketPayloadSize <= t <= RDP_WINDOW_SIZE_MAX ->
   limitedWindow t = t) /\
  limitedWindow (limitedWindow t) = limitedWindow t /\
  (RDP_RETRANSMIT_TIMEOUT_MIN <= limitedRetransmitTimeout t
   <= RDP_RETRANSMIT_TIMEOUT_MAX) /\
  (RDP_RETRANSMIT_TIMEOUT_MIN <= t <= RDP_RETRANSMIT_TIMEOUT_MAX ->
   limitedRetransmitTimeout t = t) /\
  limitedRetransmitTimeout (limitedRetransmitTimeout t)
  = limitedRetransmitTimeout t /\
  (0 < t -> limitedWindow t <= limitedWindow t' /\
            limitedRetransmitTimeout t <= limitedRetransmitTimeout t') /\
  (limitedWindow 0 = RDP_WINDOW_SIZE_DEFAULT /\
   limitedRetransmitTimeout 0 = RDP_RETRANSMIT_TIMEOUT_DEFAULT).
Proof.
  intros Ht Ht'.
  assert (Hw : forall x, 0 <= x < 2 ^ 32 ->
            limitedWindow x
            = if x >? 0 then (if x <? 1390 then 1390
                              else if 16777216 <? x then 16777216 else x)
              else 4194304).
  { intros x Hx. unfold limitedWindow. rewrite getMaxPacketPayloadSize_eq.
    change RDP_WINDOW_SIZE_MAX with 16777216.
    change RDP_WINDOW_SIZE_DEFAULT with 4194304.
    unfold min, max, uint32_t. change (2 ^ 32) with 4294967296 in *.
    destruct (x >? 0); [|reflexivity].
    destruct (Z.ltb_spec 1390 x), (Z.ltb_spec x 1390); try lia;
      repeat match goal with
             | |- context [?a <? ?b] => destruct (Z.ltb_spec a b)
             end; try lia; rewrite Z.mod_small; lia. }
  assert (Hr : forall x, 0 <= x < 2 ^ 32 ->
            limitedRetransmitTimeout x
            = if x >? 0 then (if x <? 200 then 200
                              else if 1000 <? x then 1000 else x)
              else 500).
  { intros x Hx. unfold limitedRetransmitTimeout.
    change RDP_RETRANSMIT_TIMEOUT_MAX with 1000.
    change RDP_RETRANSMIT_TIMEOUT_MIN with 200.
    change RDP_RETRANSMIT_TIMEOUT_DEFAULT with 500.
    unfold min, max, uint32_t. change (2 ^ 32) with 4294967296 in *.
    destruct (x >? 0); [|reflexivity].
    destruct (Z.ltb_spec 200 x), (Z.ltb_spec x 200); try lia;
      repeat match goal with
             | |- context [?a <? ?b] => destruct (Z.ltb_spec a b)
             end; try lia; rewrite Z.mod_small; lia. }
  pose proof (Hw t Ht) as Hwt. pose proof (Hr t Ht) as Hrt.
  pose proof (Hw t' ltac:(lia)) as Hwt'. pose proof (Hr t' ltac:(lia)) as Hrt'.
  rewrite getMaxPacketPayloadSize_eq.
  change RDP_WINDOW_SIZE_MAX with 16777216.
  change RDP_WINDOW_SIZE_DEFAULT with 4194304.
  change RDP_RETRANSMIT_TIMEOUT_MAX with 1000.
  change RDP_RETRANSMIT_TIMEOUT_MIN with 200.
  change RDP_RETRANSMIT_TIMEOUT_DEFAULT with 500.
  change (2 ^ 32) with 4294967296 in *.
  assert (Hwb : 1390 <= limitedWindow t <= 16777216).
  { rewrite Hwt. destruct (t >? 0); [|lia].
    destruct (Z.ltb_spec t 1390); [lia|].
    destruct (Z.ltb_spec 16777216 t); lia. }
  assert (Hrb : 200 <= limitedRetransmitTimeout t <= 1000).
  { rewrite Hrt. destruct (t >? 0); [|lia].
    destruct (Z.ltb_spec t 200); [lia|].
    destruct (Z.ltb_spec 1000 t); lia. }
  assert (Hwfix : forall x, 1390 <= x <= 16777216 -> limitedWindow x = x).
  { intros x Hx. rewrite Hw by lia.
    destruct (Z.gtb_spec x 0); [|lia].
    destruct (Z.ltb_spec x 1390); [lia|].
    destruct (Z.ltb_spec 16777216 x); lia. }
  assert (Hrfix : forall x, 200 <= x <= 1000 ->
            limitedRetransmitTimeout x = x).
  { intros x Hx. rewrite Hr by lia.
    destruct (Z.gtb_spec x 0); [|lia].
    destruct (Z.ltb_spec x 200); [lia|].
    destruct (Z.ltb_spec 1000 x); lia. }
  split; [exact Hwb|]. split; [apply Hwfix|].
  split; [apply Hwfix, Hwb|]. split; [exact Hrb|]. split; [apply Hrfix|].
  split; [apply Hrfix, Hrb|]. split; [|split; reflexivity].
  intros Hpos. rewrite Hwt, Hwt', Hrt, Hrt'.
  destruct (Z.gtb_spec t 0); [|lia]. destruct (Z.gtb_spec t' 0); [|lia].
  repeat match goal with
         | |- context [?a <? ?b] => destruct (Z.ltb_spec a b)
         end; lia.
Qed.

Lemma limited_clamps_witness :
  (getMaxPacketPayloadSize <= limitedWindow 100 <= RDP_WINDOW_SIZE_MAX) /\
  (getMaxPacketPayloadSize <= 100 <= RDP_WINDOW_SIZE_MAX ->
   limitedWindow 100 = 100) /\
  limitedWindow (limitedWindow 100) = limitedWindow 100 /\
  (RDP_RETRANSMIT_TIMEOUT_MIN <= limitedRetransmitTimeout 100
   <= RDP_RETRANSMIT_TIMEOUT_MAX) /\
  (RDP_RETRANSMIT_TIMEOUT_MIN <= 100 <= RDP_RETRANSMIT_TIMEOUT_MAX ->
   limitedRetransmitTimeout 100 = 100) /\
  limitedRetransmitTimeout (limitedRetransmitTimeout 100)
  = limitedRetransmitTimeout 100 /\
  (0 < 100 -> limitedWindow 100 <= limitedWindow 5000 /\
              limitedRetransmitTimeout 100 <= limitedRetransmitTimeout 5000) /\
  (limitedWindow 0 = RDP_WINDOW_SIZE_DEFAULT /\
   limitedRetransmitTimeout 0 = RDP_RETRANSMIT_TIMEOUT_DEFAULT).
Proof.
  apply (limited_clamps 100 5000).
  - vm_compute. split; [discriminate|reflexivity].
  - vm_compute. split; [discriminate|reflexivity].
Defined.

Lemma sixteenAfter_half (a b : Z) :
  sixteenAfter a b = (2 ^ 15 <=? uint16_t (a - b)).
Proof.
  apply eq_true_iff_eq. rewrite sixteenAfter_distance, Z.leb_le.
  pose proof (sixteenDistance_nonneg a b). lia.
Qed.

(** X4: sixteenAfter(a, b) holds exactly when a - b, taken modulo 2^16,
    lies in the upper half [2^15, 2^16).  It is irreflexive and invariant
    under shifting both numbers; of two different sequence numbers at least
    one is after the other, and both are exactly when they lie 2^15
    apart. *)
Theorem sixteenAfter_order (a b n : Z) :
  (sixteenAfter a b = true <-> 2 ^ 15 <= uint16_t (a - b)) /\
  sixteenAfter a a = false /\
  sixteenAfter (a + n) (b + n) = sixteenAfter a b /\
  (uint16_t a <> uint16_t b -> sixteenAfter a b || sixteenAfter b a = true) /\
  (sixteenAfter a b && sixteenAfter b a = true <->
   uint16_t (a - b) = 2 ^ 15).
Proof.
  rewrite !sixteenAfter_half.
  replace (a + n - (b + n)) with (a - b) by lia. rewrite Z.sub_diag.
  unfold uint16_t. change (2 ^ 16) with 65536. change (2 ^ 15) with 32768.
  split; [apply Z.leb_le|]. split; [reflexivity|]. split; [reflexivity|].
  split.
  - intros Hne. apply orb_true_iff. rewrite !Z.leb_le.
    assert (Hd : (a - b) mod 65536 <> 0).
    { intros Hz. apply Hne. revert Hz. Z.div_mod_to_equations. lia. }
    revert Hd. Z.div_mod_to_equations. lia.
  - rewrite andb_true_iff, !Z.leb_le. Z.div_mod_to_equations. lia.
Qed.

(** ** The flush loop *)



Lemma tailsTotal_app (a b : list datagram) :
  tailsTotal (a ++ b) = tailsTotal a + tailsTotal b.
Proof.
  induction a as [|d a IH]; [reflexivity|].
  cbn [app tailsTotal foldr] in *. fold (tailsTotal (a ++ b)).
  fold (tailsTotal a). lia.
Qed.

Lemma uint32_add_idem (a b : Z) :
  uint32_t (uint32_t a + b) = uint32_t (a + b).
Proof. unfold uint32_t. now rewrite Zplus_mod_idemp_l. Qed.

Lemma rdpConnFlushPacketsLoop_accounts (s : rdpSocket) (n : nat) :
  forall (i : Z) (c : rdpConn) (out : list datagram),
    rbuffer_wf (outbuf c) -> outbufTyped (outbuf c) = true ->
    outbufSized (outbuf c) = true ->
    exists (c' : rdpConn) (out' : list datagram) (r : Z),
      rdpConnFlushPacketsLoop s n i c out = Done (c', out ++ out', r) /\
      (r = 0 \/ r = -1 /\ rdpConnFlightWindowFull c' = true) /\
      uint32_t (flightWindow c') = uint32_t (flightWindow c + tailsTotal out')
      /\ (out' = [] -> c' = c) /\
      (out' <> [] -> lastSentPacket c' = mstime s) /\
      (length out' <= n)%nat.
Proof.
  induction n as [|n IH]; intros i c out Hwf Hty Hsz;
    cbn [rdpConnFlushPacketsLoop].
  - exists c, [], 0. rewrite app_nil_r. cbn [tailsTotal foldr].
    rewrite Z.add_0_r. repeat split; auto; congruence.
  - assert (Hskip : exists (c' : rdpConn) (out' : list datagram) (r : Z),
        rdpConnFlushPacketsLoop s n (uint16_t (i + 1)) c out
        = Done (c', out ++ out', r) /\
        (r = 0 \/ r = -1 /\ rdpConnFlightWindowFull c' = true) /\
        uint32_t (flightWindow c')
        = uint32_t (flightWindow c + tailsTotal out') /\
        (out' = [] -> c' = c) /\
        (out' <> [] -> lastSentPacket c' = mstime s) /\
        (length out' <= S n)%nat).
    { destruct (IH (uint16_t (i + 1)) c out Hwf Hty Hsz)
        as (c' & out' & r & H1 & H2 & H3 & H4 & H5 & H6).
      exists c', out', r. repeat (split; [assumption|]). lia. }
    destruct (rbufferGet (outbuf c) i) as [pw|] eqn:Hget; [|exact Hskip].
    destruct ((pw_transmissions pw >? 0) && negb (pw_needResend pw))
      eqn:Hguard; [exact Hskip|]. clear Hskip.
    destruct (rdpConnFlightWindowFull c) eqn:Hfull.
    { exists c, [], (-1). rewrite app_nil_r. cbn [tailsTotal foldr].
      rewrite Z.add_0_r. repeat split; auto; try congruence.
      cbn [length]. lia. }
    destruct (sendPacketWrap_done s c pw Hguard
                (outbufTyped_get _ _ _ Hty Hget))
      as (c1 & pw1 & Hsend & Hctl & Hob & Hpw & Hfw & Hls & Htr & _).
    rewrite Hsend. cbn [mbind outcome_bind].
    set (dg := mkDatagram (set_p_acknr (pw_hdr pw) (acknr c))
                 (take (Z.to_nat (pw_payload pw)) (pw_body pw))).
    set (c2 := set_outbuf c1 (rbufferPut (outbuf c1) i (Some pw1))).
    assert (Hob2 : outbuf c2 = rbufferPut (outbuf c) i (Some pw1))
      by (unfold c2; rewrite outbuf_set_outbuf, Hob; reflexivity).
    assert (Hfw2 : flightWindow c2 = flightWindow c1)
      by (unfold c2; destruct c1; reflexivity).
    assert (Hls2 : lastSentPacket c2 = lastSentPacket c1)
      by (unfold c2; destruct c1; reflexivity).
    pose proof (outbufSized_get _ _ _ Hsz Hget) as Hpay.
    destruct (IH (uint16_t (i + 1)) c2 (out ++ [dg]))
      as (c' & out' & r & Hloop & Hr & Hacc & Hnil & Hlast & Hlen).
    { rewrite Hob2. apply rbufferPut_wf, Hwf. }
    { rewrite Hob2. apply outbufTyped_put; [exact Hty|].
      rewrite Htr. apply uint31_nonneg. }
    { rewrite Hob2. apply outbufSized_put; [exact Hsz|].
      destruct Hpw as (-> & -> & _). exact Hpay. }
    exists c', (dg :: out'), r.
    split. { rewrite Hloop, <- app_assoc. reflexivity. }
    split; [exact Hr|]. split.
    { rewrite Hacc, Hfw2, Hfw, uint32_add_idem. f_equal.
      cbn [tailsTotal foldr]. fold (tailsTotal out').
      unfold dg at 1. cbn [dg_tail]. rewrite length_take. lia. }
    split; [discriminate|]. split.
    { intros _. destruct out' as [|d out'].
      - rewrite (Hnil eq_refl), Hls2. exact Hls.
      - apply Hlast. discriminate. }
    cbn [length]. lia.
Qed.

(** X5: rdpConnFlushPackets always returns, with 0 or, when it stopped at
    a full flight window, -1.  It changes a queued packet only in what a
    transmission changes and no control field; the flight window grows by
    the payload bytes it sent (modulo 2^32), it sends at most one datagram
    per queue position, stamps lastSentPacket when it sent something and
    leaves the connection as it was when it sent nothing. *)
Theorem rdpConnFlushPackets_accounts (s : rdpSocket) (c : rdpConn) :
  rbuffer_wf (outbuf c) -> outbufTyped (outbuf c) = true ->
  outbufSized (outbuf c) = true ->
  exists (c' : rdpConn) (out : list datagram) (r : Z),
    rdpConnFlushPackets s c = Done (c', out, r) /\
    (r = 0 \/ r = -1 /\ rdpConnFlightWindowFull c' = true) /\
    sameControl c c' /\ sameQueue (outbuf c) (outbuf c') /\
    uint32_t (flightWindow c') = uint32_t (flightWindow c + tailsTotal out) /\
    (out = [] -> c' = c) /\
    (out <> [] -> lastSentPacket c' = mstime s) /\
    (length out <= queueRounds c)%nat.
Proof.
  intros Hwf Hty Hsz. unfold rdpConnFlushPackets.
  destruct (rdpConnFlushPacketsLoop_accounts s (queueRounds c)
              (uint16_t (seqnr c - queue c)) c [] Hwf Hty Hsz)
    as (c' & out & r & Hloop & Hr & Hacc & Hnil & Hlast & Hlen).
  destruct (rdpConnFlushPacketsLoop_done s (queueRounds c)
              (uint16_t (seqnr c - queue c)) c [] Hwf Hty)
    as (c2 & out2 & r2 & Hloop2 & _ & Hctl & Hq & _).
  rewrite Hloop in Hloop2. injection Hloop2 as <- <- <-.
  exists c', out, r. cbn [app] in Hloop. auto 10.
Qed.

Lemma rdpConnFlushPackets_accounts_witness :
  exists (c' : rdpConn) (out : list datagram) (r : Z),
    rdpConnFlushPackets ex_sock (ex_writes 2) = Done (c', out, r) /\
    (r = 0 \/ r = -1 /\ rdpConnFlightWindowFull c' = true) /\
    sameControl (ex_writes 2) c' /\
    sameQueue (outbuf (ex_writes 2)) (outbuf c') /\
    uint32_t (flightWindow c')
    = uint32_t (flightWindow (ex_writes 2) + tailsTotal out) /\
    (out = [] -> c' = ex_writes 2) /\
    (out <> [] -> lastSentPacket c' = mstime ex_sock) /\
    (length out <= queueRounds (ex_writes 2))%nat.
Proof.
  apply (rdpConnFlushPackets_accounts ex_sock (ex_writes 2)).
  - exists 6. split; [lia|]. split; vm_compute; reflexivity.
  - vm_compute. reflexivity.
  - vm_compute. reflexivity.
Defined.

(** ** rdpWriteVec: what it refuses *)

(** X6: rdpWriteVec refuses a NULL connection, a NULL array and a vecCnt
    of 0 or above RDP_MAX_VEC with -1 and EINVAL, whatever the state of
    the connection; it changes nothing and sends nothing. *)
Theorem rdpWriteVec_invalid_arguments (s : rdpSocket) (c : option rdpConn)
    (vec : option (list rdpVec)) (now : Z) :
  c = None \/ vec = None \/
  (exists v : list rdpVec,
     vec = Some v /\ (v = [] \/ RDP_MAX_VEC < Z.of_nat (length v))) ->
  rdpWriteVec s c vec now
  = Done (mkWriteResult (-1) (Some EINVAL) s c vec []).
Proof.
  intros [-> | [-> | (v & -> & Hv)]]; [reflexivity| |].
  - destruct c; reflexivity.
  - destruct c as [c|]; [|reflexivity]. unfold rdpWriteVec.
    destruct Hv as [-> | Hv]; [reflexivity|].
    destruct (Z.eqb_spec (Z.of_nat (length v)) 0); [reflexivity|].
    destruct (Z.gtb_spec (Z.of_nat (length v)) RDP_MAX_VEC);
      [reflexivity|lia].
Qed.

Lemma rdpWriteVec_invalid_arguments_witness :
  rdpWriteVec ex_sock (Some (ex_writes 1)) (Some []) 2000
  = Done (mkWriteResult (-1) (Some EINVAL) ex_sock (Some (ex_writes 1))
            (Some []) []).
Proof.
  apply (rdpWriteVec_invalid_arguments ex_sock (Some (ex_writes 1)) (Some [])
           2000).
  right. right. exists []. split; [reflexivity|]. left. reflexivity.
Defined.

(** X7: a write on a CONNECTED connection whose flight window is full
    sends and queues nothing: it returns -1 with EAGAIN and moves the
    connection to CS_CONNECTED_FULL, where every further write is refused
    the same way without any change. *)
Theorem rdpWriteVec_window_full (s : rdpSocket) (c : rdpConn)
    (vec vec' : list rdpVec) (now now' : Z) :
  state c = CS_CONNECTED -> rdpConnFlightWindowFull c = true ->
  1 <= Z.of_nat (length vec) <= RDP_MAX_VEC ->
  1 <= Z.of_nat (length vec') <= RDP_MAX_VEC ->
  rdpWriteVec s (Some c) (Some vec) now
  = Done (mkWriteResult (-1) (Some EAGAIN) s
            (Some (set_state c CS_CONNECTED_FULL)) (Some vec) []) /\
  rdpWriteVec s (Some (set_state c CS_CONNECTED_FULL)) (Some vec') now'
  = Done (mkWriteResult (-1) (Some EAGAIN) s
            (Some (set_state c CS_CONNECTED_FULL)) (Some vec') []).
Proof.
  intros Hst Hfull Hv Hv'.
  assert (Hcnt : forall v : list rdpVec,
            1 <= Z.of_nat (length v) <= RDP_MAX_VEC ->
            (Z.of_nat (length v) =? 0) = false /\
            (Z.of_nat (length v) >? RDP_MAX_VEC) = false).
  { intros v H. split; [apply Z.eqb_neq; lia|].
    destruct (Z.gtb_spec (Z.of_nat (length v)) RDP_MAX_VEC); [lia|easy]. }
  destruct (Hcnt vec Hv) as [E1 E2]. destruct (Hcnt vec' Hv') as [E3 E4].
  unfold rdpWriteVec. rewrite E1, E2, E3, E4, Hst, Hfull.
  split; [reflexivity|]. destruct c; reflexivity.
Qed.

Lemma rdpWriteVec_window_full_witness :
  rdpWriteVec ex_sock (Some (set_recvWindowPeer (ex_connected 95) 0))
    (Some [[1; 2]]) 2000
  = Done (mkWriteResult (-1) (Some EAGAIN) ex_sock
            (Some (set_state (set_recvWindowPeer (ex_connected 95) 0)
                     CS_CONNECTED_FULL)) (Some [[1; 2]]) []) /\
  rdpWriteVec ex_sock
    (Some (set_state (set_recvWindowPeer (ex_connected 95) 0)
             CS_CONNECTED_FULL)) (Some [[3]]) 3000
  = Done (mkWriteResult (-1) (Some EAGAIN) ex_sock
            (Some (set_state (set_recvWindowPeer (ex_connected 95) 0)
                     CS_CONNECTED_FULL)) (Some [[3]]) []).
Proof.
  apply (rdpWriteVec_window_full ex_sock
           (set_recvWindowPeer (ex_connected 95) 0) [[1; 2]] [[3]] 2000 3000).
  - reflexivity.
  - vm_compute. reflexivity.
  - vm_compute. split; discriminate.
  - vm_compute. split; discriminate.
Defined.

(** ** rdpWriteVec: filling the last packet *)

(** buildSendPacket with an unsent, partly filled packet at the end of the
    queue that has room for the whole payload: the realloc branch. *)
Lemma buildSendPacket_coalesce (c : rdpConn) (payload : Z)
    (vec : list rdpVec) (pw0 : packetWrap) :
  0 < queue c < RDP_QUEUE_SIZE_MAX ->
  rbufferGet (outbuf c) (seqnr c - 1) = Some pw0 ->
  pw_transmissions pw0 = 0 -> 0 <= pw_payload pw0 ->
  0 < payload -> payload + pw_payload pw0 <= getMaxPacketPayloadSize ->
  payload <= vecTotal vec ->
  exists (vec' : list rdpVec),
    buildSendPacketCopy vec payload
    = (take (Z.to_nat payload) (concat vec), vec', 0) /\
    concat vec' = drop (Z.to_nat payload) (concat vec) /\
    buildSendPacket c payload ST_DATA vec
    = Done (set_outbuf c
              (rbufferPut (outbuf c) (seqnr c - 1)
                 (Some (mkPacketWrap (pw_payload pw0 + payload)
                          (pw_sentTime pw0) 0 (pw_needResend pw0)
                          (refreshedHeader c (pw_hdr pw0) ST_DATA)
                          (take (Z.to_nat (pw_payload pw0)) (pw_body pw0)
                           ++ take (Z.to_nat payload) (concat vec))))),
            vec').
Proof.
  intros Hq Hget Htr Hp0 Hpay Hfit Hvec.
  rewrite getMaxPacketPayloadSize_eq in Hfit.
  destruct (buildSendPacketCopy_done vec payload ltac:(lia))
    as (bytes & vec' & Hcopy & _ & _ & _ & -> & Hcat).
  exists vec'. split; [exact Hcopy|]. split; [exact Hcat|].
  unfold buildSendPacket, assert.
  assert (H1 : (queue c >? 0) = true)
    by (destruct (Z.gtb_spec (queue c) 0); [reflexivity|lia]).
  rewrite H1. cbn [orb mbind outcome_bind].
  assert (H2 : (payload <=? getMaxPacketPayloadSize) = true).
  { rewrite getMaxPacketPayloadSize_eq. apply Z.leb_le. lia. }
  rewrite H2. cbn [mbind outcome_bind].
  cbn [buildSendPacketLoop]. unfold assert.
  assert (H3 : (queue c <? RDP_QUEUE_SIZE_MAX) = true)
    by (apply Z.ltb_lt; lia).
  rewrite H3, H1, Hget. cbn [mbind outcome_bind].
  assert (H4 : negb (payload =? 0) && (pw_transmissions pw0 =? 0)
               && (pw_payload pw0 <? getMaxPacketPayloadSize) = true).
  { rewrite Htr, getMaxPacketPayloadSize_eq.
    destruct (Z.eqb_spec payload 0); [lia|].
    destruct (Z.ltb_spec (pw_payload pw0) 1390); [reflexivity|lia]. }
  cbv zeta. rewrite H4.
  assert (Hround : size_t (min (size_t (payload + pw_payload pw0))
                             getMaxPacketPayloadSize - pw_payload pw0)
                   = payload).
  { rewrite getMaxPacketPayloadSize_eq. unfold size_t, min.
    change (2 ^ 64) with 18446744073709551616.
    rewrite (Z.mod_small (payload + pw_payload pw0)) by lia.
    destruct (Z.ltb_spec (payload + pw_payload pw0) 1390);
      rewrite Z.mod_small; lia. }
  rewrite Hround.
  assert (Hnz : negb (payload =? 0) = true)
    by (destruct (Z.eqb_spec payload 0); [lia|reflexivity]).
  rewrite Hnz. unfold assert. cbn [Z.eqb ST_DATA mbind outcome_bind].
  rewrite Hcopy. cbn [Z.eqb mbind outcome_bind mret outcome_ret].
  assert (Hsz : size_t (pw_payload pw0 + payload) = pw_payload pw0 + payload).
  { unfold size_t. change (2 ^ 64) with 18446744073709551616.
    apply Z.mod_small. lia. }
  assert (Hsz0 : size_t (payload - payload) = 0).
  { unfold size_t. rewrite Z.sub_diag. reflexivity. }
  rewrite Hsz0. cbn [Z.eqb negb].
  destruct pw0 as [p0 st0 tr0 nr0 h0 b0]. cbn [pw_payload] in *.
  cbn [pw_transmissions] in Htr. subst tr0.
  destruct c. fields. fields_in Hsz. rewrite Hsz. reflexivity.
Qed.

Lemma refreshedHeader_type (c : rdpConn) (p : packet) (t : Z) :
  0 <= t < 16 ->
  packetGetType (refreshedHeader c p t) = t /\
  p_seqnr (refreshedHeader c p t) = p_seqnr p.
Proof.
  intros Ht. split; [|destruct p as [vt r ci w sq ak], c; reflexivity].
  assert (Hvt : 0 <= versionAndType (packetSetVersion p 1) < 256).
  { destruct p as [vt r ci w sq ak]. unfold packetSetVersion, uint8_t.
    cbn [versionAndType set_versionAndType]. apply Z.mod_pos_bound. lia. }
  pose proof (nibble_check_all _ _ Hvt Ht) as H.
  unfold nibble_check in H. rewrite !andb_true_iff, !Z.eqb_eq in H.
  destruct H as [[[_ _] H] _]. rewrite <- H at 2.
  destruct p as [vt r ci w sq ak], c. reflexivity.
Qed.

(** X8: a write that fits into the unsent, partly filled packet at the end
    of the send queue queues no new packet.  On a connection in
    CS_CONNECTED whose flight window is not full, whose send ring is as
    calloc and rbufferGrow leave it (2^k slots) with no negative
    transmission count, and which has between 1 and RDP_QUEUE_SIZE_MAX - 2
    packets queued, the last of them (sequence number seqnr - 1) never
    transmitted and with a payload count that is not negative: rdpWriteVec
    with 1 to RDP_MAX_VEC vectors that hold N >= 1 bytes in all, where N
    plus the payload of that packet is at most getMaxPacketPayloadSize,
    returns N and leaves errno alone; seqnr and queue stay, and that
    packet now carries its old bytes followed by the bytes written, as a
    DATA packet under its old sequence number. *)
Theorem rdpWriteVec_fills_open_packet (s : rdpSocket) (c : rdpConn)
    (vec : list rdpVec) (now : Z) (pw0 : packetWrap) :
  state c = CS_CONNECTED -> rdpConnFlightWindowFull c = false ->
  1 <= Z.of_nat (length vec) <= RDP_MAX_VEC ->
  0 < queue c < RDP_QUEUE_SIZE_MAX - 1 ->
  rbufferGet (outbuf c) (seqnr c - 1) = Some pw0 ->
  pw_transmissions pw0 = 0 -> 0 <= pw_payload pw0 ->
  0 < vecTotal vec ->
  vecTotal vec + pw_payload pw0 <= getMaxPacketPayloadSize ->
  rbuffer_wf (outbuf c) -> outbufTyped (outbuf c) = true ->
  exists (r : writeResult) (c' : rdpConn) (pw : packetWrap),
    rdpWriteVec s (Some c) (Some vec) now = Done r /\
    wr_ret r = vecTotal vec /\ wr_errno r = None /\ wr_conn r = Some c' /\
    seqnr c' = seqnr c /\ queue c' = queue c /\
    rbufferGet (outbuf c') (seqnr c - 1) = Some pw /\
    pw_payload pw = pw_payload pw0 + vecTotal vec /\
    pw_body pw
    = take (Z.to_nat (pw_payload pw0)) (pw_body pw0) ++ concat vec /\
    packetGetType (pw_hdr pw) = ST_DATA /\
    p_seqnr (pw_hdr pw) = p_seqnr (pw_hdr pw0).
Proof.
  intros Hst Hfull Hlen Hq Hget Htr Hp0 Htot Hfit Hwf Hty.
  unfold RDP_QUEUE_SIZE_MAX in Hq.
  pose proof getMaxPacketPayloadSize_eq as Hmax.
  destruct (buildSendPacket_coalesce c (vecTotal vec) vec pw0) as
    (vec' & _ & _ & Hbuild); auto; try lia.
  { unfold RDP_QUEUE_SIZE_MAX. lia. }
  rewrite (take_ge (concat vec)) in Hbuild
    by (rewrite (vecTotal_concat vec); lia).
  set (pw := mkPacketWrap _ _ _ _ _ _) in Hbuild.
  set (c1 := set_outbuf _ _) in Hbuild.
  assert (Hob1 : outbuf c1 = rbufferPut (outbuf c) (seqnr c - 1) (Some pw))
    by (unfold c1; destruct c; reflexivity).
  assert (Hseq1 : seqnr c1 = seqnr c) by (unfold c1; destruct c; reflexivity).
  assert (Hq1 : queue c1 = queue c) by (unfold c1; destruct c; reflexivity).
  destruct (rdpConnFlushPacketsLoop_done (set_mstime s now) (queueRounds c1)
              (uint16_t (seqnr c1 - queue c1)) c1 [])
    as (c2 & out & r & Hflush & Hr & Hctl & Hqueue & _).
  { rewrite Hob1. apply rbufferPut_wf, Hwf. }
  { rewrite Hob1. apply outbufTyped_put; [exact Hty|cbn; lia]. }
  destruct Hctl as (_ & _ & _ & _ & _ & _ & _ & _ & _ & _ & _ & _ & Hq2 & _
                    & Hseq2 & _).
  assert (Hslot : sameSlot (Some pw) (rbufferGet (outbuf c2) (seqnr c - 1))).
  { destruct Hqueue as (_ & _ & Hs). specialize (Hs (seqnr c - 1)).
    rewrite Hob1, rbufferGet_put_same in Hs by exact Hwf. exact Hs. }
  destruct (rbufferGet (outbuf c2) (seqnr c - 1)) as [pw2|] eqn:Hget2;
    [|contradiction].
  destruct Hslot as (Hpay & Hbody & Hvt & _ & _ & _ & Hsq).
  assert (Hcnt : (Z.of_nat (length vec) =? 0) = false)
    by (apply Z.eqb_neq; lia).
  assert (Hvmax : (Z.of_nat (length vec) >? RDP_MAX_VEC) = false).
  { destruct (Z.gtb_spec (Z.of_nat (length vec)) RDP_MAX_VEC); [lia|easy]. }
  assert (Hqlt : (queue c <? RDP_QUEUE_SIZE_MAX - 1) = true)
    by (apply Z.ltb_lt; unfold RDP_QUEUE_SIZE_MAX; lia).
  assert (Hsent : (vecTotal vec =? 0) = false) by (apply Z.eqb_neq; lia).
  exists (mkWriteResult (vecTotal vec) None (set_mstime s now)
            (Some (if r =? -1 then set_state c2 CS_CONNECTED_FULL else c2))
            (Some vec') out),
    (if r =? -1 then set_state c2 CS_CONNECTED_FULL else c2), pw2.
  split.
  { unfold rdpWriteVec. rewrite Hcnt, Hvmax, Hst, Hfull.
    cbn [rdpWriteVecLoop]. rewrite Hqlt.
    assert (Hmin : min (vecTotal vec) getMaxPacketPayloadSize = vecTotal vec).
    { unfold min. rewrite Hmax in *.
      destruct (Z.ltb_spec (vecTotal vec) 1390); lia. }
    rewrite Hmin, Hbuild. cbn [mbind outcome_bind].
    assert (E0 : size_t (vecTotal vec - vecTotal vec) = 0)
      by (rewrite Z.sub_diag; reflexivity).
    assert (E1 : size_t (0 + vecTotal vec) = vecTotal vec).
    { unfold size_t. change (2 ^ 64) with 18446744073709551616.
      rewrite Hmax in Hfit. apply Z.mod_small. lia. }
    rewrite E0, E1.
    change (min 0 getMaxPacketPayloadSize =? 0) with true.
    cbn [mbind outcome_bind mret outcome_ret].
    unfold rdpConnFlushPackets. rewrite Hflush.
    cbn [mbind outcome_bind mret outcome_ret app]. rewrite Hsent.
    reflexivity. }
  cbn [wr_ret wr_errno wr_conn].
  assert (Hsame : forall c3, c3 = (if r =? -1
                     then set_state c2 CS_CONNECTED_FULL else c2) ->
            seqnr c3 = seqnr c2 /\ queue c3 = queue c2 /\
            outbuf c3 = outbuf c2).
  { intros c3 ->. destruct (r =? -1); [destruct c2|]; repeat split. }
  destruct (Hsame _ eq_refl) as (E1 & E2 & E3).
  rewrite E1, E2, E3, Hseq2, Hq2, Hseq1, Hq1, Hget2, Hpay, Hbody, Hsq.
  repeat (split; [reflexivity|]).
  unfold packetGetType. rewrite Hvt. fold (packetGetType (pw_hdr pw)).
  unfold pw. cbn [pw_hdr]. apply refreshedHeader_type. unfold ST_DATA. lia.
Qed.

Lemma rdpWriteVec_fills_open_packet_witness :
  exists (r : writeResult) (c' : rdpConn) (pw : packetWrap),
    rdpWriteVec ex_sock (Some ex_open) (Some [[1; 2]; [3]]) 2000 = Done r /\
    wr_ret r = vecTotal [[1; 2]; [3]] /\ wr_errno r = None /\
    wr_conn r = Some c' /\
    seqnr c' = seqnr ex_open /\ queue c' = queue ex_open /\
    rbufferGet (outbuf c') (seqnr ex_open - 1) = Some pw /\
    pw_payload pw
    = pw_payload (mkPacketWrap 3 0 0 false
                    (sendHeader (ex_connected 95) ST_DATA) [7; 7; 7])
      + vecTotal [[1; 2]; [3]] /\
    pw_body pw
    = take (Z.to_nat
              (pw_payload (mkPacketWrap 3 0 0 false
                             (sendHeader (ex_connected 95) ST_DATA)
                             [7; 7; 7])))
        (pw_body (mkPacketWrap 3 0 0 false
                    (sendHeader (ex_connected 95) ST_DATA) [7; 7; 7]))
      ++ concat [[1; 2]; [3]] /\
    packetGetType (pw_hdr pw) = ST_DATA /\
    p_seqnr (pw_hdr pw)
    = p_seqnr (pw_hdr (mkPacketWrap 3 0 0 false
                         (sendHeader (ex_connected 95) ST_DATA) [7; 7; 7])).
Proof.
  apply (rdpWriteVec_fills_open_packet ex_sock ex_open [[1; 2]; [3]] 2000
           (mkPacketWrap 3 0 0 false (sendHeader (ex_connected 95) ST_DATA)
              [7; 7; 7])).
  - vm_compute. reflexivity.
  - vm_compute. reflexivity.
  - vm_compute. split; discriminate.
  - vm_compute. split; reflexivity.
  - vm_compute. reflexivity.
  - reflexivity.
  - vm_compute. discriminate.
  - vm_compute. reflexivity.
  - vm_compute. discriminate.
  - exists 6. split; [lia|]. split; vm_compute; reflexivity.
  - vm_compute. reflexivity.
Defined.

(** ** Closing *)

Lemma state_set_state (c : rdpConn) (st : connState) :
  state (set_state c st) = st.
Proof. destruct c. reflexivity. Qed.

(** An active close whose acknowledgement, if one is owed, sendAck can
    write. *)
Lemma rdpConnClose_fin (s : rdpSocket) (c : rdpConn) :
  state c = CS_CONNECTED \/ state c = CS_CONNECTED_FULL ->
  receivedFin c = false ->
  0 <= queue c <= RDP_QUEUE_SIZE_MAX - 1 ->
  0 < queue c \/ flightWindow c = 0 ->
  rbuffer_wf (outbuf c) -> outbufTyped (outbuf c) = true ->
  (needSendAck c = true ->
   outOfOrderCnt c = 0 \/ receivedFinCompleted c = true \/
   rbufferGet (inbuf c) (acknr c + 1) = None) ->
  exists (r : closeResult) (c' : rdpConn) (pw : packetWrap),
    rdpConnClose s (Some c) = Done r /\
    cl_ret r = 0 /\ cl_errno r = None /\ cl_conn r = Some c' /\
    state c' = CS_FIN_SENT /\ needSendAck c' = false /\
    seqnr c' = uint16_t (seqnr c + 1) /\ queue c' = queue c + 1 /\
    rbufferGet (outbuf c') (seqnr c) = Some pw /\
    pw_payload pw = 0 /\ packetGetType (pw_hdr pw) = ST_FIN /\
    p_seqnr (pw_hdr pw) = seqnr c /\
    (needSendAck c = true ->
     exists (ack : datagram) (rest : list datagram),
       cl_out r = ack :: rest /\ packetGetType (dg_hdr ack) = ST_STATE /\
       p_acknr (dg_hdr ack) = acknr c).
Proof.
  intros Hst Hfin Hq Hfw Hwf Hty Hack.
  unfold RDP_QUEUE_SIZE_MAX in Hq.
  (* the acknowledgement that may go first *)
  assert (Hfirst : exists (c1 : rdpConn) (out1 : list datagram),
            (if needSendAck c then sendAck s c else mret (c, []))
            = Done (c1, out1) /\
            queue c1 = queue c /\ seqnr c1 = seqnr c /\
            flightWindow c1 = flightWindow c /\ outbuf c1 = outbuf c /\
            needSendAck c1 = false /\
            (needSendAck c = true ->
             exists ack : datagram,
               out1 = [ack] /\ packetGetType (dg_hdr ack) = ST_STATE /\
               p_acknr (dg_hdr ack) = acknr c)).
  { destruct (needSendAck c) eqn:Hn.
    - destruct (sendAck_done s c) as (dg & Hs & _ & Ht & _ & Ha & _).
      { destruct (Hack eq_refl) as [?|[?|?]]; auto. }
      exists (set_needSendAck (set_lastSentPacket c (mstime s)) false), [dg].
      split; [exact Hs|]. destruct c. repeat (split; [reflexivity|]).
      intros _. exists dg. auto.
    - exists c, []. repeat (split; [reflexivity|]).
      split; [exact Hn|discriminate]. }
  destruct Hfirst as (c1 & out1 & Hs1 & Hq1 & Hseq1 & Hfw1 & Hob1 & Hn1 & Hout1).
  destruct (buildSendPacket_append c1 0 ST_FIN []) as
    (ob & bytes & vec' & Hob & Hcopy & Hbuild); auto.
  { rewrite Hq1. unfold RDP_QUEUE_SIZE_MAX. lia. }
  { rewrite Hq1, Hfw1. exact Hfw. }
  { rewrite getMaxPacketPayloadSize_eq. lia. }
  { reflexivity. }
  { rewrite Hob1. exact Hwf. }
  cbn [buildSendPacketCopy] in Hcopy. injection Hcopy as <- <-.
  destruct (rbufferEnsureSize_done (outbuf c1) (seqnr c1) (queue c1))
    as (ob' & Hob' & Hwf' & _).
  { rewrite Hob1. exact Hwf. }
  { rewrite Hq1. lia. }
  rewrite Hob in Hob'. injection Hob' as <-.
  set (pw := mkPacketWrap 0 0 0 false (sendHeader c1 ST_FIN) []) in *.
  set (c2 := set_queue _ _) in Hbuild.
  assert (Hob2 : outbuf c2 = rbufferPut ob (seqnr c1) (Some pw))
    by (unfold c2; destruct c1; reflexivity).
  assert (Hseq2 : seqnr c2 = uint16_t (seqnr c1 + 1))
    by (unfold c2; destruct c1; reflexivity).
  assert (Hq2 : queue c2 = queue c1 + 1).
  { assert (E : queue c2 = uint16_t (queue c1 + 1))
      by (unfold c2; destruct c1; reflexivity).
    rewrite E, Hq1. unfold uint16_t. change (2 ^ 16) with 65536.
    apply Z.mod_small. lia. }
  assert (Hn2 : needSendAck c2 = needSendAck c1)
    by (unfold c2; destruct c1; reflexivity).
  destruct (rdpConnFlushPacketsLoop_done s (queueRounds c2)
              (uint16_t (seqnr c2 - queue c2)) c2 [])
    as (c3 & out2 & r & Hflush & _ & Hctl & Hqueue & _).
  { rewrite Hob2. apply rbufferPut_wf, Hwf'. }
  { rewrite Hob2. apply outbufTyped_put; [|cbn; lia].
    eapply rbufferEnsureSize_forallb; [exact Hob|reflexivity|].
    rewrite Hob1. exact Hty. }
  destruct Hctl as (_ & _ & _ & _ & _ & _ & _ & _ & _ & _ & _ & _ & Hq3 & _
                    & Hseq3 & _ & _ & _ & _ & Hn3 & _).
  assert (Hslot : sameSlot (Some pw) (rbufferGet (outbuf c3) (seqnr c1))).
  { destruct Hqueue as (_ & _ & Hs). specialize (Hs (seqnr c1)).
    rewrite Hob2, rbufferGet_put_same in Hs by exact Hwf'. exact Hs. }
  destruct (rbufferGet (outbuf c3) (seqnr c1)) as [pw3|] eqn:Hget3;
    [|contradiction].
  destruct Hslot as (Hpay & _ & Hvt & _ & _ & _ & Hsq).
  exists (mkCloseResult 0 None (Some (set_state c3 CS_FIN_SENT))
            (out1 ++ out2)), (set_state c3 CS_FIN_SENT), pw3.
  split.
  { unfold rdpConnClose.
    assert (Hbr : forall k1 k2 : outcome closeResult,
              match state c with
              | CS_CONNECTED | CS_CONNECTED_FULL => k1
              | CS_SYN_SENT => k2
              | _ => mret (mkCloseResult (-1) (Some EINVAL) (Some c) [])
              end = k1)
      by (intros; destruct Hst as [-> | ->]; reflexivity).
    rewrite Hbr, Hfin, Hs1. cbn [mbind outcome_bind]. unfold assert.
    assert (Hlt : (queue c1 <? RDP_QUEUE_SIZE_MAX) = true)
      by (apply Z.ltb_lt; rewrite Hq1; unfold RDP_QUEUE_SIZE_MAX; lia).
    rewrite Hlt. cbn [mbind outcome_bind]. rewrite Hbuild.
    cbn [mbind outcome_bind]. unfold rdpConnFlushPackets. rewrite Hflush.
    reflexivity. }
  cbn [cl_ret cl_errno cl_conn cl_out].
  assert (Hsame : seqnr (set_state c3 CS_FIN_SENT) = seqnr c3 /\
                  queue (set_state c3 CS_FIN_SENT) = queue c3 /\
                  outbuf (set_state c3 CS_FIN_SENT) = outbuf c3 /\
                  needSendAck (set_state c3 CS_FIN_SENT) = needSendAck c3)
    by (destruct c3; repeat split).
  destruct Hsame as (E1 & E2 & E3 & E4).
  rewrite state_set_state, E1, E2, E3, E4, Hseq3, Hq3, Hseq2, Hq2, Hn3, Hn2,
    Hn1, Hq1, <- Hseq1, Hget3, Hpay, Hsq.
  repeat (split; [reflexivity|]).
  split.
  { unfold packetGetType. rewrite Hvt. unfold pw. cbn [pw_hdr].
    destruct c1. reflexivity. }
  split; [unfold pw; destruct c1; reflexivity|].
  intros Hn. destruct (Hout1 Hn) as (ack & -> & Ht & Ha).
  exists ack, out2. auto.
Qed.

(** X9: rdpConnClose on a connection in CS_CONNECTED or CS_CONNECTED_FULL
    that has not received a FIN, with a well-formed send ring that holds
    at most the 16383 packets rdpWriteVec lets in (flightWindow 0 when it
    is empty).  When an acknowledgement is owed that sendAck cannot write
    (packets are held out of order, the FIN is not completed and the slot
    of acknr + 1 holds a packet) the assertion of sendAck aborts the
    close.  Otherwise the close returns 0 and leaves the connection in
    CS_FIN_SENT with needSendAck cleared and one packet more queued, a
    FIN of payload 0 numbered seqnr; when an acknowledgement was owed, a
    STATE packet with the connection's acknr goes out first. *)
Theorem rdpConnClose_active (s : rdpSocket) (c : rdpConn) :
  state c = CS_CONNECTED \/ state c = CS_CONNECTED_FULL ->
  receivedFin c = false ->
  0 <= queue c <= RDP_QUEUE_SIZE_MAX - 1 ->
  0 < queue c \/ flightWindow c = 0 ->
  rbuffer_wf (outbuf c) -> outbufTyped (outbuf c) = true ->
  (needSendAck c && ackBlocked c = true ->
   rdpConnClose s (Some c) = AssertFailed) /\
  (needSendAck c && ackBlocked c = false ->
   exists (r : closeResult) (c' : rdpConn) (pw : packetWrap),
     rdpConnClose s (Some c) = Done r /\
     cl_ret r = 0 /\ cl_errno r = None /\ cl_conn r = Some c' /\
     state c' = CS_FIN_SENT /\ needSendAck c' = false /\
     seqnr c' = uint16_t (seqnr c + 1) /\ queue c' = queue c + 1 /\
     rbufferGet (outbuf c') (seqnr c) = Some pw /\
     pw_payload pw = 0 /\ packetGetType (pw_hdr pw) = ST_FIN /\
     p_seqnr (pw_hdr pw) = seqnr c /\
     (needSendAck c = true ->
      exists (ack : datagram) (rest : list datagram),
        cl_out r = ack :: rest /\ packetGetType (dg_hdr ack) = ST_STATE /\
        p_acknr (dg_hdr ack) = acknr c)).
Proof.
  intros Hst Hfin Hq Hfw Hwf Hty. split.
  - intros Hb. apply andb_true_iff in Hb as [Hn Hb].
    unfold rdpConnClose.
    assert (Hbr : forall k1 k2 : outcome closeResult,
              match state c with
              | CS_CONNECTED | CS_CONNECTED_FULL => k1
              | CS_SYN_SENT => k2
              | _ => mret (mkCloseResult (-1) (Some EINVAL) (Some c) [])
              end = k1)
      by (intros; destruct Hst as [-> | ->]; reflexivity).
    rewrite Hbr, Hfin, Hn, (sendAck_blocked s c Hb). reflexivity.
  - intros Hb. apply (rdpConnClose_fin s c); try assumption.
    intros Hn. rewrite Hn in Hb. cbn [andb] in Hb.
    destruct (ackBlocked_ready c Hb) as [H|[H|[H|H]]]; auto.
    destruct Hst as [Hs|Hs]; rewrite Hs in H; discriminate.
Qed.

Lemma rdpConnClose_active_witness :
  (needSendAck (set_needSendAck (ex_writes 2) true)
   && ackBlocked (set_needSendAck (ex_writes 2) true) = true ->
   rdpConnClose ex_sock (Some (set_needSendAck (ex_writes 2) true))
   = AssertFailed) /\
  (needSendAck (set_needSendAck (ex_writes 2) true)
   && ackBlocked (set_needSendAck (ex_writes 2) true) = false ->
   exists (r : closeResult) (c' : rdpConn) (pw : packetWrap),
     rdpConnClose ex_sock (Some (set_needSendAck (ex_writes 2) true))
     = Done r /\
     cl_ret r = 0 /\ cl_errno r = None /\ cl_conn r = Some c' /\
     state c' = CS_FIN_SENT /\ needSendAck c' = false /\
     seqnr c' = uint16_t (seqnr (set_needSendAck (ex_writes 2) true) + 1) /\
     queue c' = queue (set_needSendAck (ex_writes 2) true) + 1 /\
     rbufferGet (outbuf c') (seqnr (set_needSendAck (ex_writes 2) true))
     = Some pw /\
     pw_payload pw = 0 /\ packetGetType (pw_hdr pw) = ST_FIN /\
     p_seqnr (pw_hdr pw) = seqnr (set_needSendAck (ex_writes 2) true) /\
     (needSendAck (set_needSendAck (ex_writes 2) true) = true ->
      exists (ack : datagram) (rest : list datagram),
        cl_out r = ack :: rest /\ packetGetType (dg_hdr ack) = ST_STATE /\
        p_acknr (dg_hdr ack) = acknr (set_needSendAck (ex_writes 2) true))).
Proof.
  apply (rdpConnClose_active ex_sock (set_needSendAck (ex_writes 2) true)).
  - left. vm_compute. reflexivity.
  - vm_compute. reflexivity.
  - vm_compute. split; discriminate.
  - left. vm_compute. reflexivity.
  - exists 6. split; [lia|]. split; vm_compute; reflexivity.
  - vm_compute. reflexivity.
Defined.

(** X10: rdpConnClose on a connection that, when it is in CS_CONNECTED
    or CS_CONNECTED_FULL and has not received a FIN, has a well-formed
    send ring with at most 16383 packets (flightWindow 0 when it is
    empty) and owes no acknowledgement that sendAck cannot write.  The
    close returns: it is refused (-1, EINVAL, nothing changed or sent)
    exactly in CS_UNINITIALIZED, CS_SYN_RECV, CS_FIN_SENT and CS_DESTROY;
    otherwise it returns 0 and leaves the connection in CS_DESTROY or
    CS_FIN_SENT, and there every further close and every rdpWrite is
    refused with EINVAL. *)
Theorem rdpConnClose_once (s s' : rdpSocket) (c : rdpConn) (buf : list Z)
    (now : Z) :
  (state c = CS_CONNECTED \/ state c = CS_CONNECTED_FULL ->
   receivedFin c = false ->
   0 <= queue c <= RDP_QUEUE_SIZE_MAX - 1 /\
   (0 < queue c \/ flightWindow c = 0) /\
   rbuffer_wf (outbuf c) /\ outbufTyped (outbuf c) = true /\
   needSendAck c && ackBlocked c = false) ->
  exists (r : closeResult) (c' : rdpConn),
    rdpConnClose s (Some c) = Done r /\ cl_conn r = Some c' /\
    ((cl_ret r = -1 /\ cl_errno r = Some EINVAL /\ c' = c /\ cl_out r = [] /\
      (state c = CS_UNINITIALIZED \/ state c = CS_SYN_RECV \/
       state c = CS_FIN_SENT \/ state c = CS_DESTROY)) \/
     (cl_ret r = 0 /\ cl_errno r = None /\
      (state c = CS_SYN_SENT \/ state c = CS_CONNECTED \/
       state c = CS_CONNECTED_FULL) /\
      (state c' = CS_DESTROY \/ state c' = CS_FIN_SENT) /\
      rdpConnClose s' (Some c')
      = Done (mkCloseResult (-1) (Some EINVAL) (Some c') []) /\
      rdpWrite s' (Some c') buf now
      = Done (mkWriteResult (-1) (Some EINVAL) s' (Some c') (Some [buf])
                []))).
Proof.
  intros Hactive.
  assert (Hrefuse : forall d : rdpConn,
            state d = CS_DESTROY \/ state d = CS_FIN_SENT ->
            rdpConnClose s' (Some d)
            = Done (mkCloseResult (-1) (Some EINVAL) (Some d) []) /\
            rdpWrite s' (Some d) buf now
            = Done (mkWriteResult (-1) (Some EINVAL) s' (Some d)
                      (Some [buf]) [])).
  { intros d Hd. unfold rdpWrite, rdpWriteVec, rdpConnClose.
    cbn [length Z.of_nat Z.eqb Pos.of_succ_nat].
    change (1 >? RDP_MAX_VEC) with false. cbv iota.
    destruct Hd as [-> | ->]; split; reflexivity. }
  assert (Hrefused : forall k1 k2 : outcome closeResult,
            state c = CS_UNINITIALIZED \/ state c = CS_SYN_RECV \/
            state c = CS_FIN_SENT \/ state c = CS_DESTROY ->
            exists (r : closeResult) (c' : rdpConn),
              mret (mkCloseResult (-1) (Some EINVAL) (Some c) []) = Done r /\
              cl_conn r = Some c' /\
              cl_ret r = -1 /\ cl_errno r = Some EINVAL /\ c' = c /\
              cl_out r = [])
    by (intros; eexists; exists c; repeat split).
  assert (Hdestroy :
    state c = CS_SYN_SENT \/ state c = CS_CONNECTED \/
    state c = CS_CONNECTED_FULL ->
    exists (r : closeResult) (c' : rdpConn),
      mret (mkCloseResult 0 None (Some (set_state c CS_DESTROY)) [])
      = Done r /\ cl_conn r = Some c' /\
      ((cl_ret r = -1 /\ cl_errno r = Some EINVAL /\ c' = c /\ cl_out r = [] /\
        (state c = CS_UNINITIALIZED \/ state c = CS_SYN_RECV \/
         state c = CS_FIN_SENT \/ state c = CS_DESTROY)) \/
       (cl_ret r = 0 /\ cl_errno r = None /\
        (state c = CS_SYN_SENT \/ state c = CS_CONNECTED \/
         state c = CS_CONNECTED_FULL) /\
        (state c' = CS_DESTROY \/ state c' = CS_FIN_SENT) /\
        rdpConnClose s' (Some c')
        = Done (mkCloseResult (-1) (Some EINVAL) (Some c') []) /\
        rdpWrite s' (Some c') buf now
        = Done (mkWriteResult (-1) (Some EINVAL) s' (Some c') (Some [buf])
                  [])))).
  { intros Hc. eexists. exists (set_state c CS_DESTROY).
    split; [reflexivity|]. split; [reflexivity|]. right.
    destruct (Hrefuse (set_state c CS_DESTROY)) as [H1 H2];
      [left; apply state_set_state|].
    split; [reflexivity|]. split; [reflexivity|]. split; [exact Hc|].
    split; [left; apply state_set_state|]. split; assumption. }
  assert (Hfin :
    state c = CS_CONNECTED \/ state c = CS_CONNECTED_FULL ->
    exists (r : closeResult) (c' : rdpConn),
      rdpConnClose s (Some c) = Done r /\ cl_conn r = Some c' /\
      ((cl_ret r = -1 /\ cl_errno r = Some EINVAL /\ c' = c /\ cl_out r = [] /\
        (state c = CS_UNINITIALIZED \/ state c = CS_SYN_RECV \/
         state c = CS_FIN_SENT \/ state c = CS_DESTROY)) \/
       (cl_ret r = 0 /\ cl_errno r = None /\
        (state c = CS_SYN_SENT \/ state c = CS_CONNECTED \/
         state c = CS_CONNECTED_FULL) /\
        (state c' = CS_DESTROY \/ state c' = CS_FIN_SENT) /\
        rdpConnClose s' (Some c')
        = Done (mkCloseResult (-1) (Some EINVAL) (Some c') []) /\
        rdpWrite s' (Some c') buf now
        = Done (mkWriteResult (-1) (Some EINVAL) s' (Some c') (Some [buf])
                  [])))).
  { intros Hst.
    destruct (receivedFin c) eqn:Hrf.
    - destruct Hdestroy as (r & c' & Hr & Hrest);
        [destruct Hst; auto|].
      exists r, c'. split; [|exact Hrest].
      unfold rdpConnClose. rewrite Hrf.
      destruct Hst as [-> | ->]; exact Hr.
    - destruct (Hactive Hst eq_refl) as (Hq & Hfw & Hwf & Hty & Hb).
      destruct (rdpConnClose_fin s c Hst Hrf Hq Hfw Hwf Hty) as
        (r & c' & pw & Hr & Hret & Herr & Hconn & Hst' & _).
      { intros Hn. rewrite Hn in Hb. cbn [andb] in Hb.
        destruct (ackBlocked_ready c Hb) as [H|[H|[H|H]]]; auto.
        destruct Hst as [Hs|Hs]; rewrite Hs in H; discriminate. }
      exists r, c'. split; [exact Hr|]. split; [exact Hconn|]. right.
      destruct (Hrefuse c') as [H1 H2]; [right; exact Hst'|].
      split; [exact Hret|]. split; [exact Herr|].
      split; [destruct Hst; auto|]. split; [right; exact Hst'|].
      split; assumption. }
  destruct (state c) eqn:Hst.
  - destruct (Hrefused (Done (mkCloseResult 0 None None []))
                (Done (mkCloseResult 0 None None []))) as
      (r & c' & Hr & Hc & H1 & H2 & H3 & H4); [auto|].
    exists r, c'. unfold rdpConnClose. rewrite Hst.
    split; [exact Hr|]. split; [exact Hc|]. left. auto 10.
  - destruct Hdestroy as (r & c' & Hr & Hrest); [auto|].
    exists r, c'. unfold rdpConnClose. rewrite Hst. split; [exact Hr|].
    exact Hrest.
  - destruct (Hrefused (Done (mkCloseResult 0 None None []))
                (Done (mkCloseResult 0 None None []))) as
      (r & c' & Hr & Hc & H1 & H2 & H3 & H4); [auto|].
    exists r, c'. unfold rdpConnClose. rewrite Hst.
    split; [exact Hr|]. split; [exact Hc|]. left. auto 10.
  - apply Hfin. auto.
  - apply Hfin. auto.
  - destruct (Hrefused (Done (mkCloseResult 0 None None []))
                (Done (mkCloseResult 0 None None []))) as
      (r & c' & Hr & Hc & H1 & H2 & H3 & H4); [auto|].
    exists r, c'. unfold rdpConnClose. rewrite Hst.
    split; [exact Hr|]. split; [exact Hc|]. left. auto 10.
  - destruct (Hrefused (Done (mkCloseResult 0 None None []))
                (Done (mkCloseResult 0 None None []))) as
      (r & c' & Hr & Hc & H1 & H2 & H3 & H4); [auto|].
    exists r, c'. unfold rdpConnClose. rewrite Hst.
    split; [exact Hr|]. split; [exact Hc|]. left. auto 10.
Qed.

Lemma rdpConnClose_once_witness :
  exists (r : closeResult) (c' : rdpConn),
    rdpConnClose ex_sock (Some (ex_writes 2)) = Done r /\
    cl_conn r = Some c' /\
    ((cl_ret r = -1 /\ cl_errno r = Some EINVAL /\ c' = ex_writes 2 /\
      cl_out r = [] /\
      (state (ex_writes 2) = CS_UNINITIALIZED \/
       state (ex_writes 2) = CS_SYN_RECV \/
       state (ex_writes 2) = CS_FIN_SENT \/
       state (ex_writes 2) = CS_DESTROY)) \/
     (cl_ret r = 0 /\ cl_errno r = None /\
      (state (ex_writes 2) = CS_SYN_SENT \/
       state (ex_writes 2) = CS_CONNECTED \/
       state (ex_writes 2) = CS_CONNECTED_FULL) /\
      (state c' = CS_DESTROY \/ state c' = CS_FIN_SENT) /\
      rdpConnClose ex_sock (Some c')
      = Done (mkCloseResult (-1) (Some EINVAL) (Some c') []) /\
      rdpWrite ex_sock (Some c') [1; 2] 3000
      = Done (mkWriteResult (-1) (Some EINVAL) ex_sock (Some c')
                (Some [[1; 2]]) []))).
Proof.
  apply (rdpConnClose_once ex_sock ex_sock (ex_writes 2) [1; 2] 3000).
  intros _ _.
  split; [vm_compute; split; discriminate|].
  split; [left; vm_compute; reflexivity|].
  split; [exists 6; split; [lia|]; split; vm_compute; reflexivity|].
  split; vm_compute; reflexivity.
Defined.

(** ** Receiving: delivery in sequence *)

Lemma land_seq_mask (x : Z) : Z.land x RDP_SEQ_NR_MASK = x mod 2 ^ 16.
Proof. change RDP_SEQ_NR_MASK with (Z.ones 16). apply Z.land_ones. lia. Qed.

(** The packet [d] places behind the one expected has seqCnt [d]. *)
Lemma seqCntOf_ahead (a d : Z) :
  0 <= d < 2 ^ 16 -> seqCntOf (uint16_t (a + 1 + d)) a = d.
Proof.
  intros Hd. unfold seqCntOf, uint16_t, uint32_t. rewrite land_seq_mask.
  change (2 ^ 16) with 65536 in *. change (2 ^ 32) with 4294967296.
  replace ((a + 1 + d) mod 65536 - a - 1)
    with ((a + 1 + d) mod 65536 + (- a - 1)) by lia.
  rewrite Zplus_mod_idemp_l. replace (a + 1 + d + (- a - 1)) with d by lia.
  rewrite (Z.mod_small d 65536) by lia. apply Z.mod_small. lia.
Qed.

Section Delivery.
Variables RDP_CONTINUE RDP_DATA RDP_ERROR : Z.

Lemma connected_tests (c : rdpConn) :
  state c = CS_CONNECTED \/ state c = CS_CONNECTED_FULL ->
  negb (connState_eqb (state c) CS_CONNECTED)
  && negb (connState_eqb (state c) CS_CONNECTED_FULL) = false /\
  connState_eqb (state c) CS_FIN_SENT = false.
Proof. intros [-> | ->]; split; reflexivity. Qed.

(** The packet expected next, with payload: handed to the caller. *)
Lemma rdpReadPollDeliver_next (c : rdpConn) (events pseqnr payload : Z)
    (tail : list Z) (len : Z) :
  state c = CS_CONNECTED \/ state c = CS_CONNECTED_FULL ->
  0 < payload <= len -> len < 2 ^ 64 ->
  payload <= Z.of_nat (length tail) ->
  rdpReadPollDeliver RDP_DATA RDP_ERROR c events ST_DATA pseqnr 0 payload 0 tail len
  = Done (mkReadResult
            (set_needSendAck (set_acknr c (uint16_t (acknr c + 1))) true)
            (Z.lor events RDP_DATA) payload
            (Some (take (Z.to_nat payload) tail))).
Proof.
  intros Hst Hpay Hlen Htail. destruct (connected_tests c Hst) as [H1 H2].
  unfold rdpReadPollDeliver. cbn [ST_DATA ST_STATE ST_FIN Z.eqb andb].
  rewrite H1, H2. cbn [andb negb Z.eqb].
  assert (E1 : (payload >? 0) = true)
    by (destruct (Z.gtb_spec payload 0); [reflexivity|lia]).
  assert (E2 : (size_t payload >? len) = false).
  { unfold size_t. rewrite Z.mod_small by lia.
    destruct (Z.gtb_spec payload len); [lia|reflexivity]. }
  assert (E3 : (0 + payload <=? Z.of_nat (length tail)) = true)
    by (apply Z.leb_le; lia).
  assert (E4 : (payload =? 0) = false) by (apply Z.eqb_neq; lia).
  rewrite E1, E2. cbn [andb negb]. unfold assert. rewrite E3.
  cbn [mbind outcome_bind mret outcome_ret Z.to_nat drop]. rewrite E4.
  reflexivity.
Qed.

(** A packet ahead of the one expected, whose slot is free: kept in
    [inbuf] with its length in front. *)
Lemma rdpReadPollDeliver_ahead (c : rdpConn) (events pseqnr seqCnt payload
    : Z) (tail : list Z) (len : Z) :
  state c = CS_CONNECTED \/ state c = CS_CONNECTED_FULL ->
  receivedFin c = false ->
  0 < seqCnt -> seqCnt + 1 <= mask (inbuf c) -> seqCnt + 1 < 2 ^ 32 ->
  rbufferGet (inbuf c) pseqnr = None ->
  rbufferSlot (mask (inbuf c)) pseqnr
  <> rbufferSlot (mask (inbuf c)) (acknr c + 1) ->
  0 <= Z.land (size_t pseqnr) (mask (inbuf c)) ->
  0 <= Z.land (size_t (acknr c + 1)) (mask (inbuf c)) ->
  payload <= Z.of_nat (length tail) ->
  rdpReadPollDeliver RDP_DATA RDP_ERROR c events ST_DATA pseqnr seqCnt payload 0 tail len
  = Done (mkReadResult
            (set_needSendAck
               (set_outOfOrderCnt
                  (set_inbuf c
                     (rbufferPut (inbuf c) pseqnr
                        (Some (uint32_t payload
                               :: take (Z.to_nat payload) tail))))
                  (uint16_t (outOfOrderCnt c + 1)))
               true)
            events (-1) None).
Proof.
  intros Hst Hfin Hcnt Hfit H32 Hfree Hslot Hn1 Hn2 Htail.
  destruct (connected_tests c Hst) as [H1 H2].
  unfold rdpReadPollDeliver. cbn [ST_DATA ST_STATE ST_FIN Z.eqb andb].
  rewrite H1, H2. cbn [andb negb Z.eqb].
  assert (E1 : (seqCnt =? 0) = false) by (apply Z.eqb_neq; lia).
  rewrite E1, Hfin. cbn [andb].
  assert (E2 : rbufferEnsureSize (inbuf c) (pseqnr + 1) (uint32_t (seqCnt + 1))
               = Done (inbuf c)).
  { unfold rbufferEnsureSize, uint32_t. rewrite Z.mod_small by lia.
    destruct (Z.gtb_spec (seqCnt + 1) (mask (inbuf c))); [lia|reflexivity]. }
  rewrite E2. cbn [mbind outcome_bind].
  assert (E3 : set_inbuf c (inbuf c) = c) by (destruct c; reflexivity).
  rewrite E3, Hfree. unfold assert.
  assert (E4 : (0 + payload <=? Z.of_nat (length tail)) = true)
    by (apply Z.leb_le; lia).
  rewrite E4. cbn [mbind outcome_bind Z.to_nat drop].
  assert (E5 : (Z.land (size_t pseqnr) (mask (inbuf c))
                =? Z.land (size_t (acknr c + 1)) (mask (inbuf c))) = false).
  { apply Z.eqb_neq. intros E. apply Hslot. unfold rbufferSlot.
    now rewrite E. }
  rewrite E5. cbn [negb mbind outcome_bind mret outcome_ret].
  destruct c. reflexivity.
Qed.

(** The drain stage on a connection whose next packet waits in [inbuf]. *)
Lemma rdpReadPollDrain_next (s : rdpSocket) (c : rdpConn) (len prefix : Z)
    (bytes : list Z) :
  state c = CS_CONNECTED \/ state c = CS_CONNECTED_FULL ->
  receivedFin c = false -> 0 < outOfOrderCnt c ->
  rbufferGet (inbuf c) (acknr c + 1) = Some (prefix :: bytes) ->
  0 < prefix <= len ->
  rdpReadPollDrain RDP_CONTINUE RDP_DATA RDP_ERROR s c len
  = Done (Some (mkReadResult
                  (set_outOfOrderCnt
                     (set_needSendAck
                        (set_acknr
                           (set_inbuf c
                              (rbufferPut (inbuf c) (acknr c + 1) None))
                           (uint16_t (acknr c + 1)))
                        true)
                     (uint16_t (outOfOrderCnt c - 1)))
                  RDP_DATA prefix (Some (take (Z.to_nat prefix) bytes)),
                [])).
Proof.
  intros Hst Hfin Hooo Hget Hp. destruct (connected_tests c Hst) as [H1 _].
  unfold rdpReadPollDrain. rewrite H1, Hfin, Hget.
  cbn [andb inbufPrefixOf inbufBytesOf hd tl].
  assert (E1 : (outOfOrderCnt c =? 0) = false) by (apply Z.eqb_neq; lia).
  assert (E2 : (prefix >? 0) = true)
    by (destruct (Z.gtb_spec prefix 0); [reflexivity|lia]).
  assert (E3 : (prefix >? len) = false)
    by (destruct (Z.gtb_spec prefix len); [lia|reflexivity]).
  rewrite andb_false_r, E1, E2, E3. cbn [andb]. unfold assert. cbv zeta.
  destruct c. fields. fields_in Hooo.
  match goal with
  | |- context [?a >? 0] => destruct (Z.gtb_spec a 0); [|lia]
  end.
  reflexivity.
Qed.


(** A packet whose slot is taken is dropped: the call returns -1, asks
    for an acknowledgement and changes nothing else. *)
Lemma rdpReadPollDeliver_held (c : rdpConn) (ev p d payload : Z)
    (tail held : list Z) (len : Z) :
  state c = CS_CONNECTED \/ state c = CS_CONNECTED_FULL ->
  receivedFin c = false -> 0 < d < 2 ^ 16 -> d + 1 <= mask (inbuf c) ->
  rbufferGet (inbuf c) p = Some held ->
  rdpReadPollDeliver RDP_DATA RDP_ERROR c ev ST_DATA p d payload 0 tail len
  = Done (mkReadResult (set_needSendAck c true) ev (-1) None).
Proof.
  intros Hst Hfin Hd Hfit Hget. change (2 ^ 16) with 65536 in Hd.
  destruct (connected_tests c Hst) as [H1 H2].
  unfold rdpReadPollDeliver. cbn [ST_DATA ST_STATE ST_FIN Z.eqb andb].
  rewrite H1, H2. cbn [andb negb Z.eqb].
  assert (E1 : (d =? 0) = false) by (apply Z.eqb_neq; lia).
  rewrite E1, Hfin. cbn [andb].
  assert (E2 : rbufferEnsureSize (inbuf c) (p + 1) (uint32_t (d + 1))
               = Done (inbuf c)).
  { unfold rbufferEnsureSize, uint32_t. change (2 ^ 32) with 4294967296.
    rewrite Z.mod_small by lia.
    destruct (Z.gtb_spec (d + 1) (mask (inbuf c))); [lia|reflexivity]. }
  rewrite E2. cbn [mbind outcome_bind].
  assert (E3 : set_inbuf c (inbuf c) = c) by (destruct c; reflexivity).
  rewrite E3, Hget. reflexivity.
Qed.


(** X13: the passive close.  A FIN that arrives in sequence is recorded
    (receivedFin, eofseqnr) and acknowledged like a packet without
    payload; the drain stage of the next call then reports the end of the
    stream (return value 0 with RDP_DATA), marks it as reported and sends
    one STATE packet; rdpConnClose after that sends nothing and moves the
    connection to CS_DESTROY. *)
Theorem rdpReadPoll_passive_close (s : rdpSocket) (c : rdpConn) (ev : Z)
    (tail : list Z) (len : Z) :
  state c = CS_CONNECTED \/ state c = CS_CONNECTED_FULL ->
  receivedFin c = false -> receivedFinCompleted c = false ->
  0 <= acknr c < 2 ^ 16 ->
  exists (cA cB : rdpConn) (ack : datagram),
    rdpReadPollDeliver RDP_DATA RDP_ERROR c ev ST_FIN
      (uint16_t (acknr c + 1)) (seqCntOf (uint16_t (acknr c + 1)) (acknr c))
      0 0 tail len
    = Done (mkReadResult cA ev (-1) None) /\
    receivedFin cA = true /\ eofseqnr cA = acknr cA /\
    acknr cA = uint16_t (acknr c + 1) /\
    rdpReadPollDrain RDP_CONTINUE RDP_DATA RDP_ERROR s cA len
    = Done (Some (mkReadResult cB RDP_DATA 0 None, [ack])) /\
    packetGetType (dg_hdr ack) = ST_STATE /\
    p_acknr (dg_hdr ack) = uint16_t (acknr c + 1) /\
    receivedFinCompleted cB = true /\ outOfOrderCnt cB = 0 /\
    rdpReadPollDrain RDP_CONTINUE RDP_DATA RDP_ERROR s cB len = Done None /\
    rdpConnClose s (Some cB)
    = Done (mkCloseResult 0 None (Some (set_state cB CS_DESTROY)) []).
Proof.
  intros Hst Hfin Hcomp Hack.
  assert (Hs1 : seqCntOf (uint16_t (acknr c + 1)) (acknr c) = 0).
  { replace (acknr c + 1) with (acknr c + 1 + 0) at 1 by lia.
    apply seqCntOf_ahead. change (2 ^ 16) with 65536. lia. }
  rewrite Hs1. set (p1 := uint16_t (acknr c + 1)).
  set (cA := set_needSendAck
               (set_acknr (set_eofseqnr (set_receivedFin c true) p1)
                  (uint16_t (acknr c + 1))) true).
  set (cA' := set_receivedFinCompleted cA true).
  set (cB := set_outOfOrderCnt
               (set_needSendAck (set_lastSentPacket cA' (mstime s)) false) 0).
  assert (PA : state cA = state c /\ receivedFin cA = true /\
               receivedFinCompleted cA = false /\ eofseqnr cA = p1 /\
               acknr cA = p1).
  { unfold cA, p1. destruct c. cbn in Hcomp. subst. repeat split. }
  destruct PA as (HstA & HfinA & HcompA & HeofA & HackA).
  assert (PA' : receivedFinCompleted cA' = true /\ acknr cA' = p1)
    by (unfold cA'; destruct cA; cbn in HackA; subst; split; reflexivity).
  destruct PA' as (HcompA' & HackA').
  assert (PB : state cB = state c /\ receivedFin cB = true /\
               receivedFinCompleted cB = true /\ outOfOrderCnt cB = 0).
  { unfold cB, cA'. destruct cA. cbn in HstA, HfinA. subst.
    repeat split. }
  destruct PB as (HstB & HfinB & HcompB & HoooB).
  destruct (sendAck_done s cA') as (ack & Hsend & _ & Hty & _ & Hnr & _).
  { right. right. left. exact HcompA'. }
  exists cA, cB, ack. split.
  { destruct (connected_tests c Hst) as [H1 H2].
    unfold rdpReadPollDeliver.
    cbn [ST_DATA ST_STATE ST_FIN Z.eqb Pos.eqb andb].
    rewrite H1, H2, Hfin. cbn [andb negb Z.eqb Pos.eqb].
    assert (E : connState_eqb
                  (state (set_eofseqnr (set_receivedFin c true) p1))
                  CS_FIN_SENT = false)
      by (destruct c; exact H2).
    rewrite E. cbn [andb mbind outcome_bind mret outcome_ret].
    unfold cA. destruct c. reflexivity. }
  split; [exact HfinA|]. split; [rewrite HeofA, HackA; reflexivity|].
  split; [exact HackA|]. split.
  { destruct (connected_tests cA ltac:(rewrite HstA; exact Hst)) as [H1 _].
    unfold rdpReadPollDrain. rewrite H1, HcompA, HfinA, HeofA, HackA.
    rewrite Z.eqb_refl. cbn [andb negb]. fold cA'. rewrite Hsend.
    reflexivity. }
  split; [exact Hty|]. split; [rewrite Hnr; exact HackA'|].
  split; [exact HcompB|]. split; [exact HoooB|]. split.
  { destruct (connected_tests cB ltac:(rewrite HstB; exact Hst)) as [H1 _].
    unfold rdpReadPollDrain. rewrite H1, HcompB, HoooB. reflexivity. }
  unfold rdpConnClose. rewrite HfinB.
  destruct Hst as [E | E]; rewrite <- HstB in E; rewrite E; reflexivity.
Qed.

End Delivery.



Lemma rdpReadPoll_passive_close_witness :
  exists (cA cB : rdpConn) (ack : datagram),
    rdpReadPollDeliver 4 8 (ex_writes 1) 0 ST_FIN
      (uint16_t (acknr (ex_writes 1) + 1))
      (seqCntOf (uint16_t (acknr (ex_writes 1) + 1)) (acknr (ex_writes 1)))
      0 0 [] 100
    = Done (mkReadResult cA 0 (-1) None) /\
    receivedFin cA = true /\ eofseqnr cA = acknr cA /\
    acknr cA = uint16_t (acknr (ex_writes 1) + 1) /\
    rdpReadPollDrain 0 4 8 ex_sock cA 100
    = Done (Some (mkReadResult cB 4 0 None, [ack])) /\
    packetGetType (dg_hdr ack) = ST_STATE /\
    p_acknr (dg_hdr ack) = uint16_t (acknr (ex_writes 1) + 1) /\
    receivedFinCompleted cB = true /\ outOfOrderCnt cB = 0 /\
    rdpReadPollDrain 0 4 8 ex_sock cB 100 = Done None /\
    rdpConnClose ex_sock (Some cB)
    = Done (mkCloseResult 0 None (Some (set_state cB CS_DESTROY)) []).
Proof.
  apply (rdpReadPoll_passive_close 0 4 8 ex_sock (ex_writes 1) 0 [] 100).
  - left. vm_compute. reflexivity.
  - vm_compute. reflexivity.
  - vm_compute. reflexivity.
  - vm_compute. split; [discriminate|reflexivity].
Defined.

(** ** Acknowledgements coming in *)

(** ackPacket on a packet in flight: the slot is freed and the flight
    window gives its payload back; the round-trip estimate may change,
    nothing else does. *)
Lemma ackPacket_sent (s : rdpSocket) (c : rdpConn) (i : Z) (pw : packetWrap) :
  rbufferGet (outbuf c) (uint16_t i) = Some pw ->
  0 < pw_transmissions pw -> pw_needResend pw = false ->
  pw_payload pw <= flightWindow c ->
  exists c' : rdpConn,
    ackPacket s c i = Done (c', 0) /\
    outbuf c' = rbufferPut (outbuf c) (uint16_t i) None /\
    flightWindow c' = uint32_t (flightWindow c - pw_payload pw) /\
    seqnr c' = seqnr c /\ queue c' = queue c /\ state c' = state c /\
    acknr c' = acknr c /\ inbuf c' = inbuf c /\
    lastReceivedPacket c' = lastReceivedPacket c /\
    recvWindowPeer c' = recvWindowPeer c /\
    flightWindowLimit c' = flightWindowLimit c /\
    recvId c' = recvId c /\ sendId c' = sendId c.
Proof.
  intros Hget Htr Hnr Hfw. unfold ackPacket. rewrite Hget.
  destruct (Z.eqb_spec (pw_transmissions pw) 0); [lia|].
  rewrite Hnr. cbn [negb].
  set (c0 := set_outbuf c (rbufferPut (outbuf c) (uint16_t i) None)).
  set (c2 := if pw_transmissions pw =? 1 then _ else c0).
  assert (Hc2 : outbuf c2 = rbufferPut (outbuf c) (uint16_t i) None /\
                flightWindow c2 = flightWindow c /\
                seqnr c2 = seqnr c /\ queue c2 = queue c /\
                state c2 = state c /\ acknr c2 = acknr c /\
                inbuf c2 = inbuf c /\
                lastReceivedPacket c2 = lastReceivedPacket c /\
                recvWindowPeer c2 = recvWindowPeer c /\
                flightWindowLimit c2 = flightWindowLimit c /\
                recvId c2 = recvId c /\ sendId c2 = sendId c).
  { subst c2 c0. destruct c.
    destruct (pw_transmissions pw =? 1); [|repeat split].
    fields.
    match goal with |- context [if ?b then _ else _] => destruct b end;
      repeat split. }
  destruct Hc2 as (H1 & H2 & H3 & H4 & H5 & H6 & H7 & H8 & H9 & H10 & H11
                   & H12).
  unfold assert.
  assert (E : (flightWindow c2 >=? pw_payload pw) = true).
  { rewrite H2. destruct (Z.geb_spec (flightWindow c) (pw_payload pw));
      [reflexivity|lia]. }
  rewrite E. cbn [mbind outcome_bind mret outcome_ret].
  eexists. split; [reflexivity|].
  rewrite <- H2.
  destruct c2. fields. fields_in H1. fields_in H3. fields_in H4.
  fields_in H5. fields_in H6. fields_in H7. fields_in H8. fields_in H9.
  fields_in H10. fields_in H11. fields_in H12. auto 14.
Qed.



(** The loop over [ackCnt] of rdpReadPoll with every queued packet
    acknowledged: the queue and the flight window end empty. *)
Lemma rdpReadPollAckLoop_all (s : rdpSocket) (n : nat) :
  forall c : rdpConn,
    ring16 (outbuf c) -> Z.of_nat n = queue c ->
    queue c <= mask (outbuf c) + 1 ->
    queueSent c -> flightWindow c = inFlight c -> flightWindow c < 2 ^ 32 ->
    exists c' : rdpConn,
      rdpReadPollAckLoop s n c = Done c' /\
      queue c' = 0 /\ flightWindow c' = 0 /\ seqnr c' = seqnr c /\
      state c' = state c /\ acknr c' = acknr c /\ inbuf c' = inbuf c /\
      lastReceivedPacket c' = lastReceivedPacket c /\
      recvWindowPeer c' = recvWindowPeer c /\
      flightWindowLimit c' = flightWindowLimit c /\
      ring16 (outbuf c') /\
      (forall j : Z, 0 <= j < queue c ->
         rbufferGet (outbuf c') (seqnr c - queue c + j) = None) /\
      (forall x : Z,
         (forall j : Z, 0 <= j < queue c ->
            rbufferSlot (mask (outbuf c)) x
            <> rbufferSlot (mask (outbuf c)) (seqnr c - queue c + j)) ->
         rbufferGet (outbuf c') x = rbufferGet (outbuf c) x) /\
      recvId c' = recvId c /\ sendId c' = sendId c.
Proof.
  induction n as [|n IH]; intros c Hring Hn Hfit Hsent Hfw H32.
  - exists c. cbn [rdpReadPollAckLoop]. split; [reflexivity|].
    split; [lia|]. split.
    { rewrite Hfw. unfold inFlight. rewrite <- Hn. reflexivity. }
    repeat (split; [reflexivity|]). split; [exact Hring|].
    split; [intros; lia|]. auto.
  - cbn [rdpReadPollAckLoop].
    set (i0 := seqnr c - queue c) in *.
    destruct (Hsent 0 ltac:(lia)) as (pw & Hget & Htr & Hnr & Hpay).
    rewrite Z.add_0_r in Hget. fold i0 in Hget.
    destruct Hring as (k & Hk & Hm & Hl).
    assert (Hring' : ring16 (outbuf c)) by (exists k; auto).
    assert (Hwf : rbuffer_wf (outbuf c)) by (exists k; split; [lia|auto]).
    assert (Hget16 : rbufferGet (outbuf c) (uint16_t i0) = Some pw)
      by (rewrite (rbufferGet_uint16 _ k) by auto; exact Hget).
    assert (Hrest : 0 <= inFlightFrom (outbuf c) (i0 + 1) n).
    { apply inFlightFrom_nonneg. intros j Hj.
      destruct (Hsent (1 + j) ltac:(lia)) as (pw' & G & _ & _ & P).
      exists pw'. fold i0 in G.
      replace (i0 + 1 + j) with (i0 + (1 + j)) by lia. auto. }
    assert (Hsum : flightWindow c = pw_payload pw
                                    + inFlightFrom (outbuf c) (i0 + 1) n).
    { rewrite Hfw. unfold inFlight. fold i0. rewrite <- Hn, Nat2Z.id.
      cbn [inFlightFrom]. rewrite Hget, Hnr.
      destruct (Z.gtb_spec (pw_transmissions pw) 0); [reflexivity|lia]. }
    destruct (ackPacket_sent s c i0 pw Hget16 Htr Hnr ltac:(lia))
      as (c1 & Hack & Hob1 & Hfw1 & Hs1 & Hq1 & Hst1 & Ha1 & Hi1 & Hl1 & Hw1
          & Hlim1 & Hr1 & Hsd1).
    rewrite Hack. cbn [mbind outcome_bind].
    set (c2 := set_queue c1 (uint16_t (queue c1 - 1))).
    assert (P2 : outbuf c2 = outbuf c1 /\ flightWindow c2 = flightWindow c1 /\
                 seqnr c2 = seqnr c1 /\ queue c2 = uint16_t (queue c1 - 1) /\
                 state c2 = state c1 /\ acknr c2 = acknr c1 /\
                 inbuf c2 = inbuf c1 /\
                 lastReceivedPacket c2 = lastReceivedPacket c1 /\
                 recvWindowPeer c2 = recvWindowPeer c1 /\
                 flightWindowLimit c2 = flightWindowLimit c1 /\
                 recvId c2 = recvId c1 /\ sendId c2 = sendId c1)
      by (unfold c2; destruct c1; repeat split).
    destruct P2 as (Hob2 & Hfw2 & Hs2 & Hq2 & Hst2 & Ha2 & Hi2 & Hl2 & Hw2
                    & Hlim2 & Hr2 & Hsd2).
    assert (Hk16 : 2 ^ k <= 2 ^ 16) by (apply Z.pow_le_mono_r; lia).
    change (2 ^ 16) with 65536 in Hk16.
    assert (Hq2' : queue c2 = Z.of_nat n).
    { rewrite Hq2, Hq1. unfold uint16_t. change (2 ^ 16) with 65536.
      rewrite Z.mod_small; lia. }
    assert (Hi0 : seqnr c2 - queue c2 = i0 + 1)
      by (rewrite Hs2, Hs1, Hq2'; unfold i0; lia).
    assert (Hslot0 : forall j : Z, 0 <= j < Z.of_nat n ->
              rbufferSlot (mask (outbuf c)) (uint16_t i0)
              <> rbufferSlot (mask (outbuf c)) (i0 + 1 + j)).
    { intros j Hj. rewrite Hm, rbufferSlot_uint16 by lia.
      apply rbufferSlot_inj; lia. }
    assert (Hob2' : outbuf c2 = rbufferPut (outbuf c) (uint16_t i0) None)
      by (rewrite Hob2; exact Hob1).
    destruct (IH c2) as (c' & Hloop & Hq' & Hfw' & Hs' & Hst' & Ha' & Hi'
                         & Hl' & Hw' & Hlim' & Hring'' & Hnone & Hframe
                         & Hr' & Hsd').
    { rewrite Hob2'. exists k. unfold rbufferPut. cbn [mask elements].
      rewrite length_insert. auto. }
    { lia. }
    { rewrite Hob2', Hq2'. unfold rbufferPut. cbn [mask]. lia. }
    { intros j Hj. rewrite Hq2' in Hj. rewrite Hi0, Hob2'.
      destruct (Hsent (1 + j) ltac:(lia)) as (pw' & G & T & N & P).
      exists pw'. fold i0 in G.
      rewrite rbufferGet_put_other by (apply Hslot0; lia).
      replace (i0 + 1 + j) with (i0 + (1 + j)) by lia. auto. }
    { unfold inFlight. rewrite Hi0, Hq2', Nat2Z.id, Hob2', Hfw2, Hfw1.
      rewrite inFlightFrom_put_outside by exact Hslot0.
      rewrite Hsum. unfold uint32_t.
      replace (pw_payload pw + inFlightFrom (outbuf c) (i0 + 1) n
               - pw_payload pw)
        with (inFlightFrom (outbuf c) (i0 + 1) n) by lia.
      apply Z.mod_small. lia. }
    { rewrite Hfw2, Hfw1. unfold uint32_t. apply Z.mod_pos_bound. lia. }
    exists c'. split; [exact Hloop|]. split; [exact Hq'|].
    split; [exact Hfw'|]. split; [congruence|]. split; [congruence|].
    split; [congruence|]. split; [congruence|]. split; [congruence|].
    split; [congruence|]. split; [congruence|]. split; [exact Hring''|].
    assert (Hmask2 : mask (outbuf c2) = mask (outbuf c))
      by (rewrite Hob2'; reflexivity).
    split; [|split; [|split; congruence]].
    + intros j Hj. destruct (Z.eq_dec j 0) as [-> | Hne].
      * rewrite Z.add_0_r, Hframe.
        -- rewrite Hob2'. rewrite <- (rbufferGet_uint16 _ k i0) by
             (unfold rbufferPut; cbn [mask]; auto).
           apply rbufferGet_put_same, Hwf.
        -- intros j' Hj'. rewrite Hq2' in Hj'. rewrite Hi0, Hmask2.
           rewrite Hm, <- (rbufferSlot_uint16 k i0), <- Hm by lia.
           apply Hslot0. lia.
      * replace (i0 + j) with (seqnr c2 - queue c2 + (j - 1)) by lia.
        apply Hnone. lia.
    + intros x Hx. rewrite Hframe.
      * rewrite Hob2'. apply rbufferGet_put_other.
        rewrite Hm, rbufferSlot_uint16, <- Hm by lia.
        specialize (Hx 0 ltac:(lia)). rewrite Z.add_0_r in Hx.
        apply not_eq_sym, Hx.
      * intros j Hj. rewrite Hq2' in Hj. rewrite Hi0, Hmask2.
        replace (i0 + 1 + j) with (i0 + (1 + j)) by lia. apply Hx. lia.
Qed.

(** X14: a packet whose acknr is seqnr - 1 acknowledges the whole send
    queue.  The packet carries no extension (reserve = 0) and its seqnr is
    fewer than RDP_QUEUE_SIZE_MAX ahead of acknr + 1 (modulo 2^16).  The
    connection is in CS_CONNECTED; its send ring has 2^k slots, k <= 16,
    and holds the queue (queue <= 2^k, queue < RDP_QUEUE_SIZE_MAX); all of
    its queued packets are in flight (sent, not marked for resending,
    payload count not negative), and flightWindow is the sum of their
    payloads, below 2^32.  Then rdpReadPoll's processing of
    acknowledgements frees every slot of the queue and leaves queue = 0
    and flightWindow = 0; it records the time and the peer's window,
    leaves seqnr, acknr and the state alone and goes on to the delivery of
    the payload. *)
Theorem rdpReadPollAck_cumulative (RDP_CONTINUE RDP_ACCEPT RDP_CONNECTED
    RDP_POLLOUT : Z) (s : rdpSocket) (c : rdpConn) (p : packet)
    (tail : list Z) (rawRead : Z) :
  state c = CS_CONNECTED ->
  ring16 (outbuf c) -> 0 <= queue c <= mask (outbuf c) + 1 ->
  queue c < RDP_QUEUE_SIZE_MAX ->
  queueSent c -> flightWindow c = inFlight c -> flightWindow c < 2 ^ 32 ->
  reserve p = 0 -> p_acknr p = uint16_t (seqnr c - 1) ->
  seqCntOf (p_seqnr p) (acknr c) < RDP_QUEUE_SIZE_MAX ->
  exists c' : rdpConn,
    rdpReadPollAck RDP_CONTINUE RDP_ACCEPT RDP_CONNECTED RDP_POLLOUT s c p
      tail rawRead
    = Done (mkPollResult c' RDP_CONTINUE None []) /\
    queue c' = 0 /\ flightWindow c' = 0 /\
    seqnr c' = seqnr c /\ acknr c' = acknr c /\ state c' = CS_CONNECTED /\
    lastReceivedPacket c' = mstime s /\ recvWindowPeer c' = window p /\
    forall j : Z, 0 <= j < queue c ->
      rbufferGet (outbuf c') (seqnr c - queue c + j) = None.
Proof.
  intros Hst Hring Hq Hqmax Hsent Hfw H32 Hres Hack Hseq.
  unfold RDP_QUEUE_SIZE_MAX in Hqmax.
  set (cX := set_recvWindowPeer (set_lastReceivedPacket c (mstime s))
               (window p)).
  assert (PX : outbuf cX = outbuf c /\ flightWindow cX = flightWindow c /\
               seqnr cX = seqnr c /\ queue cX = queue c /\
               state cX = state c /\ acknr cX = acknr c /\
               lastReceivedPacket cX = mstime s /\
               recvWindowPeer cX = window p)
    by (unfold cX; destruct c; repeat split).
  destruct PX as (HobX & HfwX & HsX & HqX & HstX & HaX & HlX & HwX).
  destruct (rdpReadPollAckLoop_all s (Z.to_nat (queue c)) cX)
    as (c' & Hloop & Hq' & Hfw' & Hs' & Hst' & Ha' & _ & Hl' & Hw' & _ & _
        & Hnone & _).
  { rewrite HobX. exact Hring. }
  { rewrite HqX. lia. }
  { rewrite HobX, HqX. lia. }
  { intros j Hj. rewrite HqX in Hj. rewrite HobX, HsX, HqX. auto. }
  { unfold inFlight. rewrite HobX, HsX, HqX, HfwX. exact Hfw. }
  { rewrite HfwX. exact H32. }
  exists c'. rewrite Hs', HsX, Ha', HaX, Hst', HstX, Hl', HlX, Hw', HwX.
  rewrite HsX, HqX in Hnone.
  split; [|auto 10].
  unfold rdpReadPollAck. rewrite Hst, Hres, Hack.
  cbn [connState_eqb Z.eqb negb].
  assert (Hvalid : rdpReadPollAcknrInvalid c (uint16_t (seqnr c - 1)) = false).
  { unfold rdpReadPollAcknrInvalid. rewrite !sixteenAfter_half.
    unfold RDP_ACK_NR_RECV_BEHIND_ALLOWED, uint16_t.
    change (2 ^ 16) with 65536. change (2 ^ 15) with 32768.
    apply orb_false_iff. split; apply Z.leb_gt.
    - rewrite Zminus_mod_idemp_r, Z.sub_diag. reflexivity.
    - rewrite Zminus_mod_idemp_l.
      replace (seqnr c - 1 - (seqnr c - 1 - queue c - 10))
        with (queue c + 10) by lia.
      rewrite Z.mod_small; lia. }
  rewrite Hvalid. cbn [mbind outcome_bind mret outcome_ret].
  fold (seqCntOf (p_seqnr p) (acknr c)).
  destruct (Z.geb_spec (seqCntOf (p_seqnr p) (acknr c)) RDP_QUEUE_SIZE_MAX);
    [lia|].
  assert (Hcnt : uint16_t (Z.land (uint16_t (seqnr c - 1)
                                   - (seqnr (set_lastReceivedPacket c (mstime s))
                                      - queue (set_lastReceivedPacket c
                                                 (mstime s))) + 1)
                             RDP_ACK_NR_MASK) = queue c).
  { replace (seqnr (set_lastReceivedPacket c (mstime s))) with (seqnr c)
      by (destruct c; reflexivity).
    replace (queue (set_lastReceivedPacket c (mstime s))) with (queue c)
      by (destruct c; reflexivity).
    change RDP_ACK_NR_MASK with (Z.ones 16). rewrite Z.land_ones by lia.
    unfold uint16_t. rewrite Zmod_mod. change (2 ^ 16) with 65536.
    replace ((seqnr c - 1) mod 65536 - (seqnr c - queue c) + 1)
      with ((seqnr c - 1) mod 65536 + (queue c - seqnr c + 1)) by lia.
    rewrite Zplus_mod_idemp_l.
    replace (seqnr c - 1 + (queue c - seqnr c + 1)) with (queue c) by lia.
    apply Z.mod_small. lia. }
  cbv zeta. rewrite Hcnt.
  replace (queue (set_lastReceivedPacket c (mstime s))) with (queue c)
    by (destruct c; reflexivity).
  assert (Hgt : (queue c >? queue c) = false)
    by (destruct (Z.gtb_spec (queue c) (queue c)); [lia|reflexivity]).
  rewrite Hgt. fold cX.
  assert (HstX' : connState_eqb (state cX) CS_SYN_RECV = false /\
                  connState_eqb (state cX) CS_SYN_SENT = false /\
                  connState_eqb (state cX) CS_FIN_SENT = false)
    by (rewrite HstX, Hst; repeat split).
  destruct HstX' as (E1 & E2 & E3).
  rewrite E1, andb_false_r. cbv iota beta. rewrite E2, andb_false_r.
  cbv iota beta. rewrite E3. cbn [andb]. rewrite Hloop.
  cbn [mbind outcome_bind]. unfold assert. rewrite Hq'.
  cbn [Z.gtb Z.compare andb negb mbind outcome_bind mret outcome_ret].
  rewrite Hst', HstX, Hst. reflexivity.
Qed.

Lemma rdpReadPollAck_cumulative_witness :
  exists c' : rdpConn,
    rdpReadPollAck 0 1 2 16 (set_mstime ex_sock 1200) (ex_writes 3)
      (mkPacket 33 0 0 5000 1 97) [] 12
    = Done (mkPollResult c' 0 None []) /\
    queue c' = 0 /\ flightWindow c' = 0 /\
    seqnr c' = seqnr (ex_writes 3) /\ acknr c' = acknr (ex_writes 3) /\
    state c' = CS_CONNECTED /\
    lastReceivedPacket c' = mstime (set_mstime ex_sock 1200) /\
    recvWindowPeer c' = window (mkPacket 33 0 0 5000 1 97) /\
    forall j : Z, 0 <= j < queue (ex_writes 3) ->
      rbufferGet (outbuf c')
        (seqnr (ex_writes 3) - queue (ex_writes 3) + j) = None.
Proof.
  apply (rdpReadPollAck_cumulative 0 1 2 16 (set_mstime ex_sock 1200)
           (ex_writes 3) (mkPacket 33 0 0 5000 1 97) [] 12).
  - vm_compute. reflexivity.
  - exists 6. split; [lia|]. split; vm_compute; reflexivity.
  - vm_compute. split; discriminate.
  - vm_compute. reflexivity.
  - intros j Hj. change (queue (ex_writes 3)) with 3 in Hj.
    assert (Hc : j = 0 \/ j = 1 \/ j = 2) by lia.
    destruct Hc as [-> | [-> | ->]]; eexists;
      (split; [vm_compute; reflexivity|]); vm_compute;
      (split; [reflexivity|]); (split; [reflexivity|discriminate]).
  - vm_compute. reflexivity.
  - vm_compute. reflexivity.
  - reflexivity.
  - vm_compute. reflexivity.
  - vm_compute. reflexivity.
Defined.

(** ** The handshake *)

(** rdpConnect on a connection fresh from rdpConnCreate. *)
Lemma rdpConnect_fresh (w : world) (cp : nat) (r : Z) (sockaddr : list Z)
    (al now : Z) (rands rest : list Z) (seed : Z) :
  w_heap w !! cp = Some (rdpConnCreate r) ->
  rdpConnInitSeed (w_heap w) (set_mstime (w_sock w) now) sockaddr al
    rands = Done (seed, rest) ->
  exists (c1 : rdpConn) (pw : packetWrap),
    rdpConnect w (Some cp) sockaddr al now rands
    = Done (mkWorld (set_conns (set_mstime (w_sock w) now)
                       (cp :: conns (w_sock w)))
              (<[cp := c1]> (w_heap w)),
            [mkDatagram (mkPacket 65 0 seed (limitedWindow RDP_WINDOW_SIZE_MAX)
                           (uint16_t r) 0) []],
            rest, 0) /\
    state c1 = CS_SYN_SENT /\ recvId c1 = seed /\
    sendId c1 = uint16_t (seed + 1) /\
    seqnr c1 = uint16_t (uint16_t r + 1) /\ queue c1 = 1 /\
    flightWindow c1 = 0 /\ rtt c1 = 0 /\
    addrlen c1 = al /\ addr c1 = addrOf sockaddr al /\
    mask (outbuf c1) = 63 /\ length (elements (outbuf c1)) = 64%nat /\
    rbufferGet (outbuf c1) (uint16_t r) = Some pw /\
    pw_transmissions pw = 1 /\ pw_needResend pw = false /\
    pw_payload pw = 0 /\ pw_sentTime pw = now.
Proof.
  intros Hcp Hseed.
  destruct (rdpConnInitSeed_done _ _ _ _ _ _ _ Hseed) as [Hrange _].
  assert (Hs : uint16_t (0 + seed) = seed)
    by (unfold uint16_t; rewrite Z.add_0_l; apply Z.mod_small; exact Hrange).
  unfold rdpConnect. rewrite Hcp.
  change (state (rdpConnCreate r)) with CS_UNINITIALIZED.
  cbn [connState_eqb negb].
  rewrite (rdpConnInit_generate _ _ _ _ _ _ _ _ _ Hseed).
  destruct w as [s heap]. cbn [w_sock w_heap] in *. destruct s.
  unfold rdpConnCreate. fields.
  change (rbufferEnsureSize rbufferInit (uint16_t r) 0)
    with (Done (@rbufferInit packetWrap)).
  fields. rewrite sendPacketWrap_unsent by reflexivity. fields.
  change (packetSetType (packetSetVersion packet_zero 1) ST_SYN)
    with (mkPacket 65 0 0 0 0 0).
  fields. rewrite Hs, (Z.add_comm 1 seed).
  change (uint31 (0 + 1)) with 1.
  eexists _, _. split; [reflexivity|].
  fields. repeat (split; [reflexivity|]).
  split.
  { unfold rbufferPut, rbufferInit. fields.
    rewrite !length_insert. reflexivity. }
  split; [|repeat split].
  fold (@elements packetWrap). fold (@mask packetWrap).
  apply rbufferGet_put_same. apply rbufferPut_wf, rbufferInit_wf.
  all: reflexivity.
Qed.

Section Handshake.
Variables RDP_CONTINUE RDP_ACCEPT RDP_CONNECTED RDP_POLLOUT : Z.
Variables RDP_DATA RDP_ERROR : Z.

(** A SYN from a peer the socket does not know yet: the branch
    [type == ST_SYN] of rdpReadPoll creates the connection. *)
Lemma rdpReadPollPacket_syn (w : world) (p : packet) (tail : list Z)
    (rawRead len : Z) (sockaddr : list Z) (al now : Z) (fresh : nat)
    (r : Z) :
  getPacketHeaderSize <= rawRead < 2 ^ 64 ->
  packetGetVersion p = 1 -> packetGetType p = ST_SYN ->
  findRdpConnInRdpSocket (w_heap w) (set_mstime (w_sock w) now) sockaddr al
    (connId p + 1) = None ->
  listLengthGet (conns (w_sock w)) <= RDP_MAX_CONNS_PER_RDPSOCKET ->
  exists cR : rdpConn,
    rdpReadPollPacket RDP_CONTINUE RDP_ACCEPT RDP_CONNECTED RDP_POLLOUT
      RDP_DATA RDP_ERROR w p tail rawRead len sockaddr al now fresh r
    = Done (mkPollOutcome
              (mkWorld (set_conns (set_mstime (w_sock w) now)
                          (fresh :: conns (w_sock w)))
                 (<[fresh := cR]> (w_heap w)))
              (Some fresh) RDP_CONTINUE (-1) None
              [mkDatagram (mkPacket 33 0 (uint16_t (connId p))
                             (limitedWindow RDP_WINDOW_SIZE_MAX) (uint16_t r)
                             (p_seqnr p)) []]) /\
    state cR = CS_SYN_RECV /\ recvId cR = uint16_t (connId p + 1) /\
    sendId cR = uint16_t (connId p) /\ acknr cR = p_seqnr p /\
    seqnr cR = uint16_t r /\ queue cR = 0 /\
    addrlen cR = al /\ addr cR = addrOf sockaddr al.
Proof.
  intros Hraw Hver Hty Hfind Hcnt.
  assert (E1 : (size_t rawRead <? getPacketHeaderSize) = false).
  { unfold size_t. rewrite Z.mod_small by (unfold getPacketHeaderSize,
      sizeof_packet in Hraw; lia). apply Z.ltb_ge. lia. }
  destruct w as [s heap]. destruct s as [cs ms lc sb rb nc sfd vb].
  destruct p as [vt rs ci wi sq ak].
  fields_in Hfind. fields_in Hcnt.
  assert (E2 : (listLengthGet cs >? RDP_MAX_CONNS_PER_RDPSOCKET) = false).
  { destruct (Z.gtb_spec (listLengthGet cs) RDP_MAX_CONNS_PER_RDPSOCKET);
      [lia|reflexivity]. }
  unfold rdpReadPollPacket. rewrite E1, Hver, Hty.
  unfold rdpReadPollSyn, rdpConnInit, rdpConnCreate, listNodeAddHead,
    sendAck, sendData.
  fields. rewrite Hfind. fields. rewrite E2. fields.
  change (packetSetType (packetSetVersion (set_reserve packet_zero 0) 1)
            ST_STATE) with (mkPacket 33 0 0 0 0 0).
  fields.
  eexists. split; [reflexivity|]. fields.
  unfold addrOf. repeat split.
Qed.

(** The answer to the SYN at the initiator: the SYN is acknowledged and
    the connection is established. *)
Lemma rdpReadPollPacket_synack (w : world) (cp : nat) (c1 : rdpConn)
    (pw : packetWrap) (p : packet) (tail : list Z) (rawRead len : Z)
    (sockaddr : list Z) (al now : Z) (fresh : nat) (r sq : Z) :
  w_heap w !! cp = Some c1 ->
  (exists rest : list nat, conns (w_sock w) = cp :: rest) ->
  state c1 = CS_SYN_SENT -> 0 <= recvId c1 < 2 ^ 16 ->
  0 <= sq < 2 ^ 16 ->
  seqnr c1 = uint16_t (sq + 1) -> queue c1 = 1 -> flightWindow c1 = 0 ->
  addrlen c1 = al -> addr c1 = addrOf sockaddr al ->
  mask (outbuf c1) = 63 -> length (elements (outbuf c1)) = 64%nat ->
  rbufferGet (outbuf c1) sq = Some pw ->
  pw_transmissions pw = 1 -> pw_needResend pw = false ->
  pw_payload pw = 0 ->
  getPacketHeaderSize <= rawRead < 2 ^ 64 ->
  packetGetVersion p = 1 -> packetGetType p = ST_STATE ->
  connId p = recvId c1 -> reserve p = 0 -> p_acknr p = sq ->
  0 <= p_seqnr p < 2 ^ 16 ->
  exists c2 : rdpConn,
    rdpReadPollPacket RDP_CONTINUE RDP_ACCEPT RDP_CONNECTED RDP_POLLOUT
      RDP_DATA RDP_ERROR w p tail rawRead len sockaddr al now fresh r
    = Done (mkPollOutcome
              (mkWorld (set_mstime (w_sock w) now) (<[cp := c2]> (w_heap w)))
              (Some cp) RDP_CONNECTED (-1) None []) /\
    state c2 = CS_CONNECTED /\ queue c2 = 0 /\ flightWindow c2 = 0 /\
    seqnr c2 = seqnr c1 /\ acknr c2 = uint16_t (p_seqnr p - 1) /\
    recvId c2 = recvId c1 /\ sendId c2 = sendId c1 /\
    rbufferGet (outbuf c2) sq = None.
Proof.
  intros Hcp (rest & Hconns) Hst Hrid Hsq Hseq Hq Hfw Hal Haddr Hmask Hlen
    Hget Htr Hnr Hpay Hraw Hver Hty Hcid Hres Hack Hps.
  change (2 ^ 16) with 65536 in *.
  assert (Hring : ring16 (outbuf c1)).
  { exists 6. split; [lia|]. split; [exact Hmask|]. rewrite Hlen.
    reflexivity. }
  (* the connection is found *)
  assert (Hfind : findRdpConnInRdpSocket (w_heap w)
                    (set_mstime (w_sock w) now) sockaddr al (connId p)
                  = Some cp).
  { unfold findRdpConnInRdpSocket, listNodeFind.
    replace (conns (set_mstime (w_sock w) now)) with (cp :: rest)
      by (rewrite <- Hconns; destruct (w_sock w); reflexivity).
    cbn [List.find]. rewrite Hcp.
    assert (E : listEqualRdpConn c1
                  (set_recvId
                     (set_addrlen
                        (set_addr (rdpConnCreate 0)
                           (take (Z.to_nat al) sockaddr
                            ++ drop (Z.to_nat al) (addr (rdpConnCreate 0))))
                        al) (uint16_t (connId p))) = true).
    { unfold listEqualRdpConn.
      replace (recvId (set_recvId _ _)) with (uint16_t (connId p))
        by reflexivity.
      replace (addrlen (set_recvId _ _)) with al by reflexivity.
      replace (addr (set_recvId _ _)) with (addrOf sockaddr al)
        by reflexivity.
      rewrite Hcid, Hal, Haddr.
      unfold uint16_t. change (2 ^ 16) with 65536.
      rewrite Z.mod_small by lia. rewrite !Z.eqb_refl. cbn [negb].
      rewrite bool_decide_eq_true_2 by reflexivity. reflexivity. }
    rewrite E. reflexivity. }
  (* the processing of acknowledgements *)
  set (s1 := set_mstime (w_sock w) now).
  set (cA := set_acknr c1 (uint16_t (Z.land (p_seqnr p - 1) RDP_SEQ_NR_MASK))).
  set (cY := set_state
               (set_recvWindowPeer (set_lastReceivedPacket cA (mstime s1))
                  (window p)) CS_CONNECTED).
  assert (PY : outbuf cY = outbuf c1 /\ flightWindow cY = flightWindow c1 /\
               seqnr cY = seqnr c1 /\ queue cY = queue c1 /\
               state cY = CS_CONNECTED /\
               acknr cY = uint16_t (Z.land (p_seqnr p - 1) RDP_SEQ_NR_MASK) /\
               recvId cY = recvId c1 /\ sendId cY = sendId c1)
    by (unfold cY, cA; destruct c1; repeat split).
  destruct PY as (HobY & HfwY & HsY & HqY & HstY & HaY & HrY & HsdY).
  assert (Hfront : rbufferGet (outbuf c1) (seqnr c1 - queue c1) = Some pw).
  { rewrite <- Hget. apply rbufferGet_congr; [exact Hring|].
    rewrite Hseq, Hq. unfold uint16_t. change (2 ^ 16) with 65536.
    rewrite Zminus_mod_idemp_l. f_equal. lia. }
  destruct (rdpReadPollAckLoop_all s1 1 cY)
    as (c' & Hloop & Hq' & Hfw' & Hs' & Hst' & Ha' & _ & _ & _ & _ & Hring'
        & Hnone & _ & Hr' & Hsd').
  { rewrite HobY. exact Hring. }
  { rewrite HqY, Hq. reflexivity. }
  { rewrite HobY, HqY, Hq, Hmask. lia. }
  { intros j Hj. rewrite HqY, Hq in Hj. assert (j = 0) by lia. subst j.
    exists pw. rewrite HobY, HsY, HqY, Z.add_0_r. rewrite Htr, Hpay.
    split; [exact Hfront|]. split; [lia|]. split; [exact Hnr|lia]. }
  { unfold inFlight. rewrite HobY, HsY, HqY, HfwY, Hfw.
    replace (Z.to_nat (queue c1)) with 1%nat by (rewrite Hq; reflexivity).
    cbn [inFlightFrom]. rewrite Hfront, Hpay.
    destruct ((pw_transmissions pw >? 0) && negb (pw_needResend pw));
      reflexivity. }
  { rewrite HfwY, Hfw. reflexivity. }
  assert (Hacknr : uint16_t (Z.land (p_seqnr p - 1) RDP_SEQ_NR_MASK)
                   = uint16_t (p_seqnr p - 1)).
  { rewrite land_seq_mask. unfold uint16_t. apply Zmod_mod. }
  assert (HackR :
    rdpReadPollAck RDP_CONTINUE RDP_ACCEPT RDP_CONNECTED RDP_POLLOUT s1 c1 p
      tail rawRead
    = Done (mkPollResult c' RDP_CONNECTED None [])).
  { unfold rdpReadPollAck. rewrite Hst, Hres, Hack, Hty.
    cbn [connState_eqb Z.eqb negb].
    assert (Hvalid : rdpReadPollAcknrInvalid c1 sq = false).
    { unfold rdpReadPollAcknrInvalid. rewrite !sixteenAfter_half, Hseq, Hq.
      unfold RDP_ACK_NR_RECV_BEHIND_ALLOWED, uint16_t.
      change (2 ^ 16) with 65536. change (2 ^ 15) with 32768.
      apply orb_false_iff. split; apply Z.leb_gt.
      - replace ((sq + 1) mod 65536 - 1 - sq)
          with ((sq + 1) mod 65536 + (- 1 - sq)) by lia.
        rewrite Zplus_mod_idemp_l.
        replace (sq + 1 + (- 1 - sq)) with 0 by lia. reflexivity.
      - replace (sq - ((sq + 1) mod 65536 - 1 - 1 - 10))
          with (sq + 12 - (sq + 1) mod 65536) by lia.
        rewrite Zminus_mod_idemp_r.
        replace (sq + 12 - (sq + 1)) with 11 by lia. reflexivity. }
    rewrite Hvalid. cbn [mbind outcome_bind mret outcome_ret]. fold cA.
    assert (Hcnt0 : uint32_t (Z.land (p_seqnr p - acknr cA - 1)
                                RDP_SEQ_NR_MASK) = 0).
    { replace (acknr cA) with
        (uint16_t (Z.land (p_seqnr p - 1) RDP_SEQ_NR_MASK))
        by (unfold cA; destruct c1; reflexivity).
      rewrite Hacknr, land_seq_mask. unfold uint16_t, uint32_t.
      change (2 ^ 16) with 65536. change (2 ^ 32) with 4294967296.
      replace (p_seqnr p - (p_seqnr p - 1) mod 65536 - 1)
        with (p_seqnr p - 1 - (p_seqnr p - 1) mod 65536) by lia.
      rewrite Zminus_mod_idemp_r, Z.sub_diag. reflexivity. }
    rewrite Hcnt0. change (0 >=? RDP_QUEUE_SIZE_MAX) with false. cbv iota.
    assert (Hcnt : uint16_t (Z.land (sq
                                     - (seqnr (set_lastReceivedPacket cA
                                                 (mstime s1))
                                        - queue (set_lastReceivedPacket cA
                                                   (mstime s1))) + 1)
                               RDP_ACK_NR_MASK) = 1).
    { replace (seqnr (set_lastReceivedPacket cA (mstime s1))) with (seqnr c1)
        by (unfold cA; destruct c1; reflexivity).
      replace (queue (set_lastReceivedPacket cA (mstime s1))) with (queue c1)
        by (unfold cA; destruct c1; reflexivity).
      rewrite Hseq, Hq.
      change RDP_ACK_NR_MASK with (Z.ones 16). rewrite Z.land_ones by lia.
      unfold uint16_t. rewrite Zmod_mod. change (2 ^ 16) with 65536.
      replace (sq - ((sq + 1) mod 65536 - 1) + 1)
        with (sq + 2 - (sq + 1) mod 65536) by lia.
      rewrite Zminus_mod_idemp_r. replace (sq + 2 - (sq + 1)) with 1 by lia.
      reflexivity. }
    assert (HqX : queue (set_lastReceivedPacket cA (mstime s1)) = 1)
      by (rewrite <- Hq; unfold cA; destruct c1; reflexivity).
    assert (HstX : state (set_recvWindowPeer
                            (set_lastReceivedPacket cA (mstime s1))
                            (window p)) = CS_SYN_SENT)
      by (rewrite <- Hst; unfold cA; destruct c1; reflexivity).
    cbv zeta. rewrite Hcnt, HqX.
    cbn [Z.gtb Z.compare Pos.compare Pos.compare_cont].
    cbn [Z.eqb Pos.eqb ST_STATE ST_DATA andb]. rewrite HstX.
    cbn [connState_eqb andb]. fold cY. rewrite HstY.
    cbn [connState_eqb andb].
    change (Z.to_nat 1) with 1%nat. rewrite Hloop.
    cbn [mbind outcome_bind]. unfold assert. rewrite Hq'.
    cbn [Z.gtb Z.compare andb negb mbind outcome_bind mret outcome_ret].
    rewrite Hst', HstY. reflexivity. }
  exists c'. rewrite Hq', Hfw', Hs', HsY, Ha', HaY, Hst', HstY, Hr', HrY,
    Hsd', HsdY.
  split.
  2:{ repeat (split; [reflexivity || exact Hacknr|]).
      specialize (Hnone 0 ltac:(rewrite HqY, Hq; lia)).
      rewrite HsY, HqY, Z.add_0_r in Hnone. rewrite <- Hnone.
      apply rbufferGet_congr; [exact Hring'|].
      rewrite Hseq, Hq. unfold uint16_t. change (2 ^ 16) with 65536.
      rewrite Zminus_mod_idemp_l. f_equal. lia. }
  unfold rdpReadPollPacket.
  assert (E1 : (size_t rawRead <? getPacketHeaderSize) = false).
  { unfold size_t. rewrite Z.mod_small by (unfold getPacketHeaderSize,
      sizeof_packet in Hraw; lia). apply Z.ltb_ge. lia. }
  rewrite E1, Hver, Hty.
  cbn [Z.eqb Pos.eqb negb orb ST_STATE ST_SYN w_sock w_heap].
  rewrite Hfind, Hcp. fold s1. rewrite HackR.
  cbn [mbind outcome_bind pr_ret pr_conn pr_events]. rewrite Hres.
  cbn [Z.eqb negb mbind outcome_bind mret outcome_ret].
  unfold rdpReadPollDeliver. cbn [Z.eqb Pos.eqb ST_STATE].
  reflexivity.
Qed.

(** X15: the handshake.  rdpConnect sends a SYN carrying the initiator's
    recvId; a socket that does not know the peer answers it from the
    branch [type == ST_SYN] of rdpReadPoll with a new connection in
    CS_SYN_RECV and a STATE packet that acknowledges the SYN; when that
    packet reaches the initiator its connection is found under the connId
    of the packet, the SYN leaves the send queue and the connection is
    CS_CONNECTED, reported by RDP_CONNECTED.  The ids of the two ends
    mirror each other: each end's sendId is the other's recvId. *)
Theorem rdpConnect_handshake (wI wR : world) (cp : nat) (rI : Z)
    (addrR addrI : list Z) (alR alI now1 now2 now3 : Z)
    (rands rest : list Z) (seed : Z) (fresh fresh' : nat) (rR r' : Z)
    (tail tail' : list Z) (len len' : Z) :
  w_heap wI !! cp = Some (rdpConnCreate rI) ->
  rdpConnInitSeed (w_heap wI) (set_mstime (w_sock wI) now1) addrR alR rands
  = Done (seed, rest) ->
  findRdpConnInRdpSocket (w_heap wR) (set_mstime (w_sock wR) now2) addrI alI
    (seed + 1) = None ->
  listLengthGet (conns (w_sock wR)) <= RDP_MAX_CONNS_PER_RDPSOCKET ->
  exists (wI1 wR1 wI2 : world) (syn ack : datagram) (cR cI : rdpConn),
    rdpConnect wI (Some cp) addrR alR now1 rands = Done (wI1, [syn], rest, 0)
    /\ packetGetType (dg_hdr syn) = ST_SYN /\
    rdpReadPollPacket RDP_CONTINUE RDP_ACCEPT RDP_CONNECTED RDP_POLLOUT
      RDP_DATA RDP_ERROR wR (dg_hdr syn) tail getPacketHeaderSize len addrI
      alI now2 fresh rR
    = Done (mkPollOutcome wR1 (Some fresh) RDP_CONTINUE (-1) None [ack]) /\
    w_heap wR1 !! fresh = Some cR /\ state cR = CS_SYN_RECV /\
    acknr cR = p_seqnr (dg_hdr syn) /\
    packetGetType (dg_hdr ack) = ST_STATE /\
    p_acknr (dg_hdr ack) = p_seqnr (dg_hdr syn) /\
    rdpReadPollPacket RDP_CONTINUE RDP_ACCEPT RDP_CONNECTED RDP_POLLOUT
      RDP_DATA RDP_ERROR wI1 (dg_hdr ack) tail' getPacketHeaderSize len'
      addrR alR now3 fresh' r'
    = Done (mkPollOutcome wI2 (Some cp) RDP_CONNECTED (-1) None []) /\
    w_heap wI2 !! cp = Some cI /\ state cI = CS_CONNECTED /\
    queue cI = 0 /\ flightWindow cI = 0 /\
    recvId cI = sendId cR /\ sendId cI = recvId cR /\
    acknr cI = uint16_t (p_seqnr (dg_hdr ack) - 1).
Proof.
  intros Hcp Hseed HfindR Hcnt.
  destruct (rdpConnInitSeed_done _ _ _ _ _ _ _ Hseed) as [Hrange _].
  destruct (rdpConnect_fresh wI cp rI addrR alR now1 rands rest seed Hcp
              Hseed)
    as (c1 & pw & Hconn & Hst1 & Hrid1 & Hsid1 & Hseq1 & Hq1 & Hfw1 & _
        & Hal1 & Haddr1 & Hmask1 & Hlen1 & Hget1 & Htr1 & Hnr1 & Hpay1 & _).
  set (syn := mkDatagram (mkPacket 65 0 seed
                            (limitedWindow RDP_WINDOW_SIZE_MAX)
                            (uint16_t rI) 0) []) in *.
  destruct (rdpReadPollPacket_syn wR (dg_hdr syn) tail getPacketHeaderSize
              len addrI alI now2 fresh rR)
    as (cR & HpollR & HstR & HridR & HsidR & HackR & _); auto.
  { split; [lia|reflexivity]. }
  set (ack := mkDatagram (mkPacket 33 0 (uint16_t (connId (dg_hdr syn)))
                            (limitedWindow RDP_WINDOW_SIZE_MAX)
                            (uint16_t rR) (p_seqnr (dg_hdr syn))) []) in *.
  set (wI1 := mkWorld (set_conns (set_mstime (w_sock wI) now1)
                         (cp :: conns (w_sock wI)))
                (<[cp := c1]> (w_heap wI))) in *.
  assert (Hsq : 0 <= uint16_t rI < 2 ^ 16)
    by (unfold uint16_t; apply Z.mod_pos_bound; lia).
  assert (Hsr : 0 <= uint16_t rR < 2 ^ 16)
    by (unfold uint16_t; apply Z.mod_pos_bound; lia).
  assert (Hseed16 : uint16_t seed = seed)
    by (unfold uint16_t; apply Z.mod_small; exact Hrange).
  destruct (rdpReadPollPacket_synack wI1 cp c1 pw (dg_hdr ack) tail'
              getPacketHeaderSize len' addrR alR now3 fresh' r'
              (uint16_t rI))
    as (cI & HpollI & HstI & HqI & HfwI & _ & HackI & HridI & HsidI & _);
    auto.
  { unfold wI1. cbn [w_heap]. apply lookup_insert_eq. }
  { exists (conns (w_sock wI)). unfold wI1. cbn [w_sock].
    destruct (w_sock wI); reflexivity. }
  { rewrite Hrid1. exact Hrange. }
  { split; [lia|reflexivity]. }
  { cbn. rewrite Hrid1. exact Hseed16. }
  exists wI1. eexists. eexists. exists syn, ack, cR, cI.
  split; [exact Hconn|]. split; [reflexivity|]. split; [exact HpollR|].
  split; [cbn [w_heap]; apply lookup_insert_eq|]. split; [exact HstR|].
  split; [exact HackR|]. split; [reflexivity|]. split; [reflexivity|].
  split; [exact HpollI|].
  split; [cbn [w_heap]; apply lookup_insert_eq|]. split; [exact HstI|].
  split; [exact HqI|]. split; [exact HfwI|].
  split; [rewrite HridI, Hrid1, HsidR; cbn; symmetry; exact Hseed16|].
  split; [rewrite HsidI, Hsid1, HridR; reflexivity|]. exact HackI.
Qed.

End Handshake.

Lemma rdpConnect_handshake_witness :
  exists (wI1 wR1 wI2 : world) (syn ack : datagram) (cR cI : rdpConn),
    rdpConnect ex_world (Some 0%nat) ex_peer 16 1000 [70000; 5]
    = Done (wI1, [syn], [5], 0)
    /\ packetGetType (dg_hdr syn) = ST_SYN /\
    rdpReadPollPacket 0 1 2 16 4 8 (mkWorld ex_sock ∅) (dg_hdr syn) []
      getPacketHeaderSize 1500 [2; 0; 35; 41; 127; 0; 0; 2] 8 2000 7%nat 333
    = Done (mkPollOutcome wR1 (Some 7%nat) 0 (-1) None [ack]) /\
    w_heap wR1 !! 7%nat = Some cR /\ state cR = CS_SYN_RECV /\
    acknr cR = p_seqnr (dg_hdr syn) /\
    packetGetType (dg_hdr ack) = ST_STATE /\
    p_acknr (dg_hdr ack) = p_seqnr (dg_hdr syn) /\
    rdpReadPollPacket 0 1 2 16 4 8 wI1 (dg_hdr ack) [] getPacketHeaderSize
      1500 ex_peer 16 3000 9%nat 444
    = Done (mkPollOutcome wI2 (Some 0%nat) 2 (-1) None []) /\
    w_heap wI2 !! 0%nat = Some cI /\ state cI = CS_CONNECTED /\
    queue cI = 0 /\ flightWindow cI = 0 /\
    recvId cI = sendId cR /\ sendId cI = recvId cR /\
    acknr cI = uint16_t (p_seqnr (dg_hdr ack) - 1).
Proof.
  apply (rdpConnect_handshake 0 1 2 16 4 8 ex_world (mkWorld ex_sock ∅)
           0%nat 100 ex_peer [2; 0; 35; 41; 127; 0; 0; 2] 16 8 1000 2000 3000
           [70000; 5] [5] 4464 7%nat 9%nat 333 444 [] [] 1500 1500).
  - vm_compute. reflexivity.
  - vm_compute. reflexivity.
  - vm_compute. reflexivity.
  - vm_compute. discriminate.
Defined.

(** ** From rdpWrite to rdpReadPoll *)

(** rdpWrite of at most one packet of bytes on a connection with nothing
    queued: one DATA packet is queued and sent at once. *)
Lemma rdpWrite_single (s : rdpSocket) (c : rdpConn) (buf : list Z) (now : Z) :
  state c = CS_CONNECTED -> rdpConnFlightWindowFull c = false ->
  queue c = 0 -> flightWindow c = 0 -> 0 <= seqnr c < 2 ^ 16 ->
  rbuffer_wf (outbuf c) -> 0 <= mask (outbuf c) ->
  0 < Z.of_nat (length buf) <= getMaxPacketPayloadSize ->
  exists c' : rdpConn,
    rdpWrite s (Some c) buf now
    = Done (mkWriteResult (Z.of_nat (length buf)) None (set_mstime s now)
              (Some c') (Some [[]])
              [mkDatagram (sendHeader c ST_DATA) buf]) /\
    state c' = CS_CONNECTED /\ queue c' = 1 /\
    seqnr c' = uint16_t (seqnr c + 1) /\ acknr c' = acknr c /\
    flightWindow c' = Z.of_nat (length buf) /\
    lastSentPacket c' = now.
Proof.
  intros Hst Hfull Hq Hfw Hseq Hwf Hmask Hlen.
  pose proof getMaxPacketPayloadSize_eq as Hmax. rewrite Hmax in Hlen.
  change (2 ^ 16) with 65536 in Hseq.
  set (N := Z.of_nat (length buf)) in *.
  assert (Htot : vecTotal [buf] = N)
    by (rewrite vecTotal_cons; unfold vec_len, N; cbn; lia).
  assert (Hqb : 0 <= queue c < RDP_QUEUE_SIZE_MAX)
    by (rewrite Hq; unfold RDP_QUEUE_SIZE_MAX; lia).
  assert (Hpb : 0 <= N <= getMaxPacketPayloadSize) by (rewrite Hmax; lia).
  assert (Hpt : N <= vecTotal [buf]) by lia.
  destruct (buildSendPacket_append c N ST_DATA [buf] Hqb (or_intror Hfw) Hpb
              Hpt (or_intror eq_refl) (or_intror (or_introl Hq)) Hwf) as
    (ob & bytes & vec' & Hob & Hcopy & Hbuild).
  assert (Hens : rbufferEnsureSize (outbuf c) (seqnr c) (queue c)
                 = Done (outbuf c)).
  { unfold rbufferEnsureSize. rewrite Hq.
    destruct (Z.gtb_spec 0 (mask (outbuf c))); [lia|reflexivity]. }
  rewrite Hens in Hob. injection Hob as <-.
  assert (Hcp : bytes = buf /\ vec' = [[]]).
  { cbn [buildSendPacketCopy] in Hcopy.
    destruct (Z.eqb_spec N 0); [lia|].
    destruct buf as [|b buf']; [cbn in N; lia|].
    fold N in Hcopy.
    assert (Em : min N (vec_len (b :: buf')) = N).
    { unfold min, vec_len. fold N.
      destruct (Z.ltb_spec N N); reflexivity. }
    rewrite Em in Hcopy. rewrite Z.sub_diag in Hcopy.
    cbn [Z.eqb] in Hcopy. unfold N in Hcopy. rewrite Nat2Z.id in Hcopy.
    rewrite firstn_all, drop_all in Hcopy.
    injection Hcopy as <- <-. split; [apply (app_nil_r (b :: buf'))|reflexivity]. }
  destruct Hcp as [-> ->].
  set (pw := mkPacketWrap N 0 0 false (sendHeader c ST_DATA) buf) in *.
  set (c1 := set_queue _ _) in Hbuild.
  assert (P1 : outbuf c1 = rbufferPut (outbuf c) (seqnr c) (Some pw) /\
               seqnr c1 = uint16_t (seqnr c + 1) /\ queue c1 = 1 /\
               state c1 = state c /\ acknr c1 = acknr c /\
               flightWindow c1 = flightWindow c /\
               flightWindowLimit c1 = flightWindowLimit c /\
               recvWindowPeer c1 = recvWindowPeer c).
  { unfold c1. destruct c. cbn in Hq. subst. repeat split. }
  destruct P1 as (Hob1 & Hseq1 & Hq1 & Hst1 & Ha1 & Hfw1 & Hlim1 & Hw1).
  assert (Hfull1 : rdpConnFlightWindowFull c1 = false).
  { unfold rdpConnFlightWindowFull in *. rewrite Hfw1, Hlim1, Hw1.
    exact Hfull. }
  assert (Hrounds : queueRounds c1 = 1%nat /\
                    uint16_t (seqnr c1 - queue c1) = seqnr c).
  { unfold queueRounds. rewrite Hseq1, Hq1. unfold uint16_t.
    change (2 ^ 16) with 65536.
    assert (E : ((seqnr c + 1) mod 65536 - 1) mod 65536 = seqnr c)
      by (Z.div_mod_to_equations; lia).
    rewrite E. split; [|reflexivity].
    assert (E' : ((seqnr c + 1) mod 65536 - seqnr c) mod 65536 = 1)
      by (Z.div_mod_to_equations; lia).
    rewrite E'. reflexivity. }
  destruct Hrounds as [Hr1 Hi1].
  assert (Hflush : rdpConnFlushPackets (set_mstime s now) c1
                   = Done (set_outbuf
                             (set_lastSentPacket
                                (set_flightWindow c1
                                   (uint32_t (flightWindow c1 + N)))
                                (mstime (set_mstime s now)))
                             (rbufferPut
                                (outbuf
                                   (set_lastSentPacket
                                      (set_flightWindow c1
                                         (uint32_t (flightWindow c1 + N)))
                                      (mstime (set_mstime s now))))
                                (seqnr c)
                                (Some (mkPacketWrap N
                                         (mstime (set_mstime s now))
                                         (uint31 (0 + 1)) false
                                         (set_p_acknr (sendHeader c ST_DATA)
                                            (acknr c1)) buf))),
                           [mkDatagram
                              (set_p_acknr (sendHeader c ST_DATA) (acknr c1))
                              (take (Z.to_nat N) buf)], 0)).
  { unfold rdpConnFlushPackets. rewrite Hr1, Hi1.
    cbn [rdpConnFlushPacketsLoop]. rewrite Hob1.
    rewrite rbufferGet_put_same by exact Hwf.
    cbn [pw pw_transmissions pw_needResend Z.gtb Z.compare andb].
    rewrite Hfull1. rewrite sendPacketWrap_unsent by reflexivity.
    reflexivity. }
  assert (Hhdr : set_p_acknr (sendHeader c ST_DATA) (acknr c1)
                 = sendHeader c ST_DATA)
    by (rewrite Ha1; destruct c; reflexivity).
  rewrite Hhdr in Hflush. unfold N in Hflush at 4.
  rewrite Nat2Z.id, firstn_all in Hflush.
  eexists. split.
  { unfold rdpWrite, rdpWriteVec. cbn [length Z.of_nat Pos.of_succ_nat Z.eqb].
    change (1 >? RDP_MAX_VEC) with false. cbv iota. rewrite Hst, Hfull, Htot.
    assert (Hmin : min N getMaxPacketPayloadSize = N).
    { unfold min. rewrite Hmax. destruct (Z.ltb_spec N 1390); lia. }
    rewrite Hmin.
    replace (Z.to_nat N) with (S (Nat.pred (Z.to_nat N))) by lia.
    cbn [rdpWriteVecLoop].
    assert (E0 : (queue c <? RDP_QUEUE_SIZE_MAX - 1) = true)
      by (rewrite Hq; reflexivity).
    rewrite E0, Hbuild. cbn [mbind outcome_bind].
    assert (E1 : size_t (N - N) = 0) by (rewrite Z.sub_diag; reflexivity).
    assert (E2 : size_t (0 + N) = N).
    { unfold size_t. change (2 ^ 64) with 18446744073709551616.
      apply Z.mod_small. lia. }
    rewrite E1, E2.
    change (min 0 getMaxPacketPayloadSize =? 0) with true.
    cbn [mbind outcome_bind mret outcome_ret]. rewrite Hflush.
    cbn [mbind outcome_bind mret outcome_ret Z.eqb].
    destruct (Z.eqb_spec N 0); [lia|]. reflexivity. }
  assert (Hfwn : uint32_t (flightWindow c1 + N) = N).
  { rewrite Hfw1, Hfw. unfold uint32_t. change (2 ^ 32) with 4294967296.
    apply Z.mod_small. lia. }
  rewrite Hfwn. rewrite Hst in Hst1. clearbody c1. clear Hflush Hbuild.
  destruct c1. cbn in Hst1, Hq1, Hseq1, Ha1. fields.
  repeat split; assumption.
Qed.

Section Transfer.
Variables RDP_CONTINUE RDP_ACCEPT RDP_CONNECTED RDP_POLLOUT : Z.
Variables RDP_DATA RDP_ERROR : Z.

(** A DATA packet with the sequence number expected next, for a connection
    with nothing queued: its bytes are handed to the caller. *)
Lemma rdpReadPollPacket_data (w : world) (cp : nat) (c : rdpConn)
    (p : packet) (bytes rest : list Z) (len : Z) (sockaddr : list Z)
    (al now : Z) (fresh : nat) (r : Z) :
  findRdpConnInRdpSocket (w_heap w) (set_mstime (w_sock w) now) sockaddr al
    (connId p) = Some cp ->
  w_heap w !! cp = Some c ->
  state c = CS_CONNECTED -> queue c = 0 ->
  rdpReadPollAcknrInvalid c (p_acknr p) = false ->
  packetGetVersion p = 1 -> packetGetType p = ST_DATA -> reserve p = 0 ->
  p_seqnr p = uint16_t (acknr c + 1) ->
  0 < Z.of_nat (length bytes) ->
  getPacketHeaderSize + Z.of_nat (length bytes) <= len -> len < 2 ^ 64 ->
  rdpReadPollPacket RDP_CONTINUE RDP_ACCEPT RDP_CONNECTED RDP_POLLOUT
    RDP_DATA RDP_ERROR w p (bytes ++ rest)
    (getPacketHeaderSize + Z.of_nat (length bytes)) len sockaddr al now
    fresh r
  = Done (mkPollOutcome
            (mkWorld (set_mstime (w_sock w) now)
               (<[cp := set_needSendAck
                          (set_acknr
                             (set_recvWindowPeer
                                (set_lastReceivedPacket c now) (window p))
                             (uint16_t (acknr c + 1)))
                          true]> (w_heap w)))
            (Some cp) (Z.lor RDP_CONTINUE RDP_DATA)
            (Z.of_nat (length bytes)) (Some bytes) []).
Proof.
  intros Hfind Hcp Hst Hq Hvalid Hver Hty Hres Hps Hpos Hlen Hl64.
  unfold getPacketHeaderSize, sizeof_packet in Hlen.
  set (N := Z.of_nat (length bytes)) in *.
  set (s1 := set_mstime (w_sock w) now) in *.
  set (cZ := set_recvWindowPeer (set_lastReceivedPacket c now) (window p)).
  assert (PZ : state cZ = CS_CONNECTED /\ acknr cZ = acknr c)
    by (rewrite <- Hst; unfold cZ; destruct c; split; reflexivity).
  destruct PZ as [HstZ HaZ].
  assert (Hcnt : seqCntOf (p_seqnr p) (acknr c) = 0).
  { rewrite Hps. replace (acknr c + 1) with (acknr c + 1 + 0) by lia.
    apply seqCntOf_ahead. lia. }
  unfold seqCntOf in Hcnt.
  assert (HackR :
    rdpReadPollAck RDP_CONTINUE RDP_ACCEPT RDP_CONNECTED RDP_POLLOUT s1 c p
      (bytes ++ rest) (getPacketHeaderSize + N)
    = Done (mkPollResult cZ RDP_CONTINUE None [])).
  { unfold rdpReadPollAck. rewrite Hst, Hvalid, Hty, Hres.
    cbn [connState_eqb Z.eqb negb mbind outcome_bind mret outcome_ret].
    rewrite Hcnt. change (0 >=? RDP_QUEUE_SIZE_MAX) with false. cbv iota.
    replace (mstime s1) with now by (unfold s1; destruct (w_sock w); reflexivity).
    replace (queue (set_lastReceivedPacket c now)) with 0
      by (rewrite <- Hq; destruct c; reflexivity).
    assert (Hz : (if uint16_t
                       (Z.land (p_acknr p
                                - (seqnr (set_lastReceivedPacket c now) - 0)
                                + 1) RDP_ACK_NR_MASK) >? 0
                  then 0
                  else uint16_t
                         (Z.land (p_acknr p
                                  - (seqnr (set_lastReceivedPacket c now) - 0)
                                  + 1) RDP_ACK_NR_MASK)) = 0).
    { match goal with |- (if ?a >? 0 then _ else _) = _ =>
        assert (Ha : 0 <= a)
          by (unfold uint16_t; apply Z.mod_pos_bound; reflexivity);
        destruct (Z.gtb_spec a 0); [reflexivity|lia] end. }
    cbv zeta. rewrite Hz. fold cZ.
    cbn [Z.eqb Pos.eqb ST_DATA ST_STATE andb]. rewrite HstZ.
    cbn [connState_eqb andb]. rewrite ?HstZ. cbn [connState_eqb andb].
    rewrite ?HstZ.
    change (Z.to_nat 0) with 0%nat.
    cbn [rdpReadPollAckLoop mbind outcome_bind mret outcome_ret].
    unfold assert.
    replace (queue cZ) with 0
      by (rewrite <- Hq; unfold cZ; destruct c; reflexivity).
    cbn [Z.gtb Z.compare andb negb mbind outcome_bind mret outcome_ret].
    rewrite HstZ. reflexivity. }
  unfold rdpReadPollPacket.
  assert (E1 : (size_t (getPacketHeaderSize + N) <? getPacketHeaderSize)
               = false).
  { unfold size_t, getPacketHeaderSize, sizeof_packet.
    change (2 ^ 64) with 18446744073709551616 in *.
    apply Z.ltb_ge. rewrite Z.mod_small.
    all: lia. }
  rewrite E1, Hver, Hty.
  cbn [Z.eqb Pos.eqb negb orb ST_DATA ST_STATE ST_SYN w_sock w_heap].
  fold s1. rewrite Hfind, Hcp, HackR.
  cbn [mbind outcome_bind pr_ret pr_conn pr_events]. rewrite Hres.
  cbn [Z.eqb negb mbind outcome_bind mret outcome_ret].
  rewrite HaZ, Hcnt.
  replace (getPacketHeaderSize + N - getPacketHeaderSize) with N by lia.
  rewrite (rdpReadPollDeliver_next RDP_DATA RDP_ERROR)
    by (auto; rewrite ?length_app; lia).
  cbn [mbind outcome_bind mret outcome_ret rd_conn rd_events rd_ret rd_buf].
  rewrite HaZ. unfold N. rewrite Nat2Z.id, take_app_length. reflexivity.
Qed.

(** X16: what rdpWrite sends, rdpReadPoll hands over.  The sender is in
    CS_CONNECTED, its flight window is not full, it has nothing queued and
    nothing in flight (flightWindow = 0), and its send ring is as calloc
    and rbufferGrow leave it; it writes N bytes, 1 <= N <=
    getMaxPacketPayloadSize.  The datagram reaches a socket where
    findRdpConnInRdpSocket finds, under the sender's sendId, an allocated
    connection that is in CS_CONNECTED, has nothing queued, accepts the
    sender's acknr and expects the sender's seqnr (acknr + 1 modulo 2^16);
    the datagram, header and N bytes, fits the caller's buffer of
    len < 2^64 bytes.  Then rdpWrite returns N and sends one datagram, and
    rdpReadPoll on it returns N with the events RDP_CONTINUE | RDP_DATA;
    the caller's buffer holds the bytes written, and the peer has advanced
    its acknr to the sender's seqnr, owes an acknowledgement and is still
    in CS_CONNECTED with its seqnr as before.  The sender has one packet
    queued and its seqnr advanced by one. *)
Theorem rdpWrite_rdpReadPoll (s : rdpSocket) (c : rdpConn) (buf : list Z)
    (now : Z) (w : world) (cp : nat) (cR : rdpConn) (rest : list Z)
    (len : Z) (sockaddr : list Z) (al now' : Z) (fresh : nat) (r : Z) :
  state c = CS_CONNECTED -> rdpConnFlightWindowFull c = false ->
  queue c = 0 -> flightWindow c = 0 ->
  rbuffer_wf (outbuf c) -> 0 <= mask (outbuf c) ->
  0 < Z.of_nat (length buf) <= getMaxPacketPayloadSize ->
  findRdpConnInRdpSocket (w_heap w) (set_mstime (w_sock w) now') sockaddr al
    (sendId c) = Some cp ->
  w_heap w !! cp = Some cR ->
  state cR = CS_CONNECTED -> queue cR = 0 ->
  rdpReadPollAcknrInvalid cR (acknr c) = false ->
  seqnr c = uint16_t (acknr cR + 1) ->
  getPacketHeaderSize + Z.of_nat (length buf) <= len -> len < 2 ^ 64 ->
  exists (c' : rdpConn) (d : datagram) (cR' : rdpConn),
    rdpWrite s (Some c) buf now
    = Done (mkWriteResult (Z.of_nat (length buf)) None (set_mstime s now)
              (Some c') (Some [[]]) [d]) /\
    rdpReadPollPacket RDP_CONTINUE RDP_ACCEPT RDP_CONNECTED RDP_POLLOUT
      RDP_DATA RDP_ERROR w (dg_hdr d) (dg_tail d ++ rest)
      (getPacketHeaderSize + Z.of_nat (length (dg_tail d))) len sockaddr al
      now' fresh r
    = Done (mkPollOutcome
              (mkWorld (set_mstime (w_sock w) now')
                 (<[cp := cR']> (w_heap w)))
              (Some cp) (Z.lor RDP_CONTINUE RDP_DATA)
              (Z.of_nat (length buf)) (Some buf) []) /\
    acknr cR' = seqnr c /\ needSendAck cR' = true /\
    seqnr cR' = seqnr cR /\ state cR' = CS_CONNECTED /\
    queue c' = 1 /\ seqnr c' = uint16_t (seqnr c + 1).
Proof.
  intros Hst Hfull Hq Hfw Hwf Hmask Hlen Hfind Hcp HstR HqR Hvalid Hseq Hfit
    Hl64.
  assert (Hrange : 0 <= seqnr c < 2 ^ 16)
    by (rewrite Hseq; unfold uint16_t; apply Z.mod_pos_bound; reflexivity).
  destruct (rdpWrite_single s c buf now Hst Hfull Hq Hfw Hrange Hwf Hmask
              Hlen) as (c' & Hwrite & _ & Hq' & Hs' & _).
  set (d := mkDatagram (sendHeader c ST_DATA) buf) in *.
  assert (Hd : connId (dg_hdr d) = sendId c /\
               p_acknr (dg_hdr d) = acknr c /\
               packetGetVersion (dg_hdr d) = 1 /\
               packetGetType (dg_hdr d) = ST_DATA /\
               reserve (dg_hdr d) = 0 /\ p_seqnr (dg_hdr d) = seqnr c /\
               dg_tail d = buf)
    by (unfold d; destruct c; repeat split).
  destruct Hd as (Hd1 & Hd2 & Hd3 & Hd4 & Hd5 & Hd6 & Hd7).
  exists c', d. eexists. split; [exact Hwrite|]. split.
  { rewrite Hd7. rewrite <- Hd1 in Hfind. rewrite <- Hd2 in Hvalid.
    rewrite <- Hd6 in Hseq.
    apply (rdpReadPollPacket_data w cp cR); assumption || lia. }
  rewrite Hseq at 1. rewrite <- HstR. clear Hcp.
  destruct cR. repeat split; assumption.
Qed.

End Transfer.

Lemma rdpWrite_rdpReadPoll_witness :
  exists (c' : rdpConn) (d : datagram) (cR' : rdpConn),
    rdpWrite ex_sock (Some (ex_connected 95)) [10; 20; 30] 1000
    = Done (mkWriteResult 3 None (set_mstime ex_sock 1000) (Some c')
              (Some [[]]) [d]) /\
    rdpReadPollPacket 0 1 2 16 4 8 ex_receiver (dg_hdr d)
      (dg_tail d ++ [0; 0; 0; 0; 0])
      (getPacketHeaderSize + Z.of_nat (length (dg_tail d))) 20 ex_peer 16
      2000 7%nat 333
    = Done (mkPollOutcome
              (mkWorld (set_mstime (w_sock ex_receiver) 2000)
                 (<[0%nat := cR']> (w_heap ex_receiver)))
              (Some 0%nat) (Z.lor 0 4) 3 (Some [10; 20; 30]) []) /\
    acknr cR' = 95 /\ needSendAck cR' = true /\
    seqnr cR' = 1 /\ state cR' = CS_CONNECTED /\
    queue c' = 1 /\ seqnr c' = uint16_t (95 + 1).
Proof.
  apply (rdpWrite_rdpReadPoll 0 1 2 16 4 8 ex_sock (ex_connected 95)
           [10; 20; 30] 1000 ex_receiver 0%nat
           (set_addr (set_addrlen (set_acknr (ex_connected 1) 94) 16)
              (addrOf ex_peer 16))
           [0; 0; 0; 0; 0] 20 ex_peer 16 2000 7%nat 333).
  all: try (vm_compute; reflexivity).
  all: try (vm_compute; split; discriminate).
  all: try (vm_compute; discriminate).
  - exists 6. vm_compute. repeat split; discriminate.
  - vm_compute. split; [reflexivity|discriminate].
Defined.

(** ** Retransmission: the marking loop *)



(** The marking loop of rdpConnCheck over [n] queue positions from [i]. *)
Lemma rdpConnCheckMark_loop (s : rdpSocket) (n : nat) :
  forall (i : Z) (c : rdpConn),
    ring16 (outbuf c) -> Z.of_nat n <= mask (outbuf c) + 1 ->
    outbufTyped (outbuf c) = true -> outbufSized (outbuf c) = true ->
    inFlightFrom (outbuf c) i n <= flightWindow c < 2 ^ 32 ->
    exists c' : rdpConn,
      rdpConnCheckMark s n i c = Done c' /\
      c' = set_flightWindow (set_outbuf c (outbuf c')) (flightWindow c') /\
      ring16 (outbuf c') /\ mask (outbuf c') = mask (outbuf c) /\
      outbufTyped (outbuf c') = true /\ outbufSized (outbuf c') = true /\
      flightWindow c' - inFlightFrom (outbuf c') i n
      = flightWindow c - inFlightFrom (outbuf c) i n /\
      flightWindow c' <= flightWindow c /\
      (forall j : Z, 0 <= j < Z.of_nat n ->
         rbufferGet (outbuf c') (i + j)
         = markedSlot s (retransmitTimeout c) (rbufferGet (outbuf c) (i + j)))
      /\
      (forall x : Z,
         (forall j : Z, 0 <= j < Z.of_nat n ->
            rbufferSlot (mask (outbuf c)) x
            <> rbufferSlot (mask (outbuf c)) (i + j)) ->
         rbufferGet (outbuf c') x = rbufferGet (outbuf c) x).
Proof.
  induction n as [|n IH]; intros i c Hring Hn Hty Hsz Hfw.
  { exists c. cbn [rdpConnCheckMark inFlightFrom].
    split; [reflexivity|]. split; [destruct c; reflexivity|].
    do 5 (split; [assumption || reflexivity|]).
    split; [lia|]. split; [intros j Hj; lia|]. intros x _. reflexivity. }
  assert (Hi' : uint16_t (uint16_t (i + 1)) = uint16_t (i + 1))
    by apply uint16_idem.
  assert (Hnext : forall (ob : rbuffer packetWrap) (j : Z),
            ring16 ob ->
            rbufferGet ob (uint16_t (i + 1) + j) = rbufferGet ob (i + (1 + j))).
  { intros ob j Hr. apply rbufferGet_congr; [exact Hr|].
    rewrite uint16_add_l. f_equal. lia. }
  assert (Hslot : forall j : Z, 0 <= j < Z.of_nat n ->
            rbufferSlot (mask (outbuf c)) i
            <> rbufferSlot (mask (outbuf c)) (i + 1 + j)).
  { intros j Hj. apply ring16_slot_ne; [exact Hring|lia]. }
  assert (Hslot' : forall x j : Z,
            rbufferSlot (mask (outbuf c)) x
            <> rbufferSlot (mask (outbuf c)) (i + (1 + j)) ->
            rbufferSlot (mask (outbuf c)) x
            <> rbufferSlot (mask (outbuf c)) (uint16_t (i + 1) + j)).
  { intros x j Hne. destruct Hring as (k & Hk & Hm & _). rewrite Hm in *.
    rewrite (rbufferSlot_congr k (uint16_t (i + 1) + j) (i + (1 + j)));
      [exact Hne|exact Hk|].
    rewrite uint16_add_l. f_equal. lia. }
  pose proof (inFlightFrom_sized (outbuf c) n (i + 1) Hsz) as Hrest.
  cbn [rdpConnCheckMark].
  destruct (rbufferGet (outbuf c) i) as [pw|] eqn:Hget.
  2:{ (* an empty slot *)
      destruct (IH (uint16_t (i + 1)) c Hring ltac:(lia) Hty Hsz) as
        (c' & Hrun & Hframe & Hring' & Hmask' & Hty' & Hsz' & Hacc & Hle
         & Hin & Hout).
      { rewrite (inFlightFrom_congr _ _ _ (i + 1) Hring Hi').
        cbn [inFlightFrom] in Hfw. rewrite Hget in Hfw. lia. }
      exists c'. split; [exact Hrun|]. split; [exact Hframe|].
      repeat (split; [assumption|]).
      assert (Hsame : rbufferGet (outbuf c') i = None).
      { rewrite Hout; [exact Hget|]. intros j Hj. apply Hslot'.
        replace (i + (1 + j)) with (i + 1 + j) by lia. apply Hslot, Hj. }
      split.
      { cbn [inFlightFrom]. rewrite Hget, Hsame.
        rewrite (inFlightFrom_congr _ _ _ (i + 1) Hring' Hi') in Hacc.
        rewrite (inFlightFrom_congr _ _ _ (i + 1) Hring Hi') in Hacc. lia. }
      split; [exact Hle|]. split.
      { intros j Hj. destruct (Z.eq_dec j 0) as [->|Hj0].
        - rewrite Z.add_0_r, Hget, Hsame. reflexivity.
        - replace (i + j) with (i + (1 + (j - 1))) by lia.
          rewrite <- !Hnext by assumption. apply Hin. lia. }
      intros x Hx. apply Hout. intros j Hj. apply Hslot', Hx. lia. }
  pose proof (outbufTyped_get _ _ _ Hty Hget) as Htr.
  pose proof (outbufSized_get _ _ _ Hsz Hget) as Hpay.
  destruct (resendDue s (retransmitTimeout c) pw) eqn:Hdue.
  2:{ (* a packet that is not due *)
      unfold resendDue in Hdue. apply negb_false_iff in Hdue. rewrite Hdue.
      destruct (IH (uint16_t (i + 1)) c Hring ltac:(lia) Hty Hsz) as
        (c' & Hrun & Hframe & Hring' & Hmask' & Hty' & Hsz' & Hacc & Hle
         & Hin & Hout).
      { rewrite (inFlightFrom_congr _ _ _ (i + 1) Hring Hi').
        cbn [inFlightFrom] in Hfw. rewrite Hget in Hfw.
        destruct ((pw_transmissions pw >? 0) && negb (pw_needResend pw));
          lia. }
      exists c'. split; [exact Hrun|]. split; [exact Hframe|].
      repeat (split; [assumption|]).
      assert (Hsame : rbufferGet (outbuf c') i = Some pw).
      { rewrite Hout; [exact Hget|]. intros j Hj. apply Hslot'.
        replace (i + (1 + j)) with (i + 1 + j) by lia. apply Hslot, Hj. }
      split.
      { cbn [inFlightFrom]. rewrite Hget, Hsame.
        rewrite (inFlightFrom_congr _ _ _ (i + 1) Hring' Hi') in Hacc.
        rewrite (inFlightFrom_congr _ _ _ (i + 1) Hring Hi') in Hacc. lia. }
      split; [exact Hle|]. split.
      { intros j Hj. destruct (Z.eq_dec j 0) as [->|Hj0].
        - rewrite Z.add_0_r, Hget, Hsame. cbn [markedSlot].
          unfold resendDue. rewrite Hdue. reflexivity.
        - replace (i + j) with (i + (1 + (j - 1))) by lia.
          rewrite <- !Hnext by assumption. apply Hin. lia. }
      intros x Hx. apply Hout. intros j Hj. apply Hslot', Hx. lia. }
  (* a packet that is due *)
  pose proof Hdue as Hdue'. unfold resendDue in Hdue'.
  apply negb_true_iff in Hdue'. rewrite Hdue'.
  apply orb_false_iff in Hdue'. destruct Hdue' as [Hdue' _].
  apply orb_false_iff in Hdue'. destruct Hdue' as [Htr0 Hnr].
  apply Z.eqb_neq in Htr0.
  assert (Hcounted : (pw_transmissions pw >? 0) && negb (pw_needResend pw)
                     = true).
  { rewrite Hnr. destruct (Z.gtb_spec (pw_transmissions pw) 0);
      [reflexivity|lia]. }
  cbn [inFlightFrom] in Hfw. rewrite Hget, Hcounted in Hfw.
  set (pw' := set_pw_needResend pw true).
  set (c0 := set_outbuf c (rbufferPut (outbuf c) i (Some pw'))).
  assert (P0 : outbuf c0 = rbufferPut (outbuf c) i (Some pw') /\
               flightWindow c0 = flightWindow c /\
               retransmitTimeout c0 = retransmitTimeout c)
    by (unfold c0; destruct c; repeat split).
  destruct P0 as (Hob0 & Hfw0 & Hrto0).
  assert (Hpw' : pw_payload pw' = pw_payload pw /\
                 pw_transmissions pw' = pw_transmissions pw /\
                 pw_body pw' = pw_body pw /\ pw_needResend pw' = true)
    by (unfold pw'; destruct pw; repeat split).
  destruct Hpw' as (Hp' & Ht' & Hb' & Hn').
  rewrite Hfw0, Hp'. unfold assert.
  assert (Ege : (flightWindow c >=? pw_payload pw) = true)
    by (apply Z.geb_le; lia).
  rewrite Ege. cbn [mbind outcome_bind].
  assert (Efw : uint32_t (flightWindow c - pw_payload pw)
                = flightWindow c - pw_payload pw).
  { unfold uint32_t. apply Z.mod_small. lia. }
  rewrite Efw.
  set (c1 := set_flightWindow c0 (flightWindow c - pw_payload pw)).
  assert (P1 : outbuf c1 = rbufferPut (outbuf c) i (Some pw') /\
               flightWindow c1 = flightWindow c - pw_payload pw /\
               retransmitTimeout c1 = retransmitTimeout c)
    by (unfold c1, c0; destruct c; repeat split).
  destruct P1 as (Hob1 & Hfw1 & Hrto1).
  assert (Hring1 : ring16 (outbuf c1)) by (rewrite Hob1; apply ring16_put, Hring).
  assert (Hmask1 : mask (outbuf c1) = mask (outbuf c))
    by (rewrite Hob1; reflexivity).
  assert (Hty1 : outbufTyped (outbuf c1) = true).
  { rewrite Hob1. apply outbufTyped_put; [exact Hty|]. rewrite Ht'. exact Htr. }
  assert (Hsz1 : outbufSized (outbuf c1) = true).
  { rewrite Hob1. apply outbufSized_put; [exact Hsz|]. rewrite Hp', Hb'.
    exact Hpay. }
  assert (Hin1 : inFlightFrom (outbuf c1) (i + 1) n
                 = inFlightFrom (outbuf c) (i + 1) n).
  { rewrite Hob1. apply inFlightFrom_put_outside. exact Hslot. }
  destruct (IH (uint16_t (i + 1)) c1 Hring1 ltac:(rewrite Hmask1; lia) Hty1
              Hsz1) as
    (c' & Hrun & Hframe & Hring' & Hmask' & Hty' & Hsz' & Hacc & Hle & Hin
     & Hout).
  { rewrite (inFlightFrom_congr _ _ _ (i + 1) Hring1 Hi'), Hin1, Hfw1. lia. }
  exists c'. split; [exact Hrun|]. split.
  { rewrite Hframe at 1. unfold c1, c0. destruct c. reflexivity. }
  split; [exact Hring'|]. split; [congruence|].
  split; [exact Hty'|]. split; [exact Hsz'|].
  assert (Hsame : rbufferGet (outbuf c') i = Some pw').
  { rewrite Hout.
    - rewrite Hob1. apply rbufferGet_put_same, ring16_wf, Hring.
    - intros j Hj. rewrite Hmask1. apply Hslot'.
      replace (i + (1 + j)) with (i + 1 + j) by lia. apply Hslot, Hj. }
  split.
  { cbn [inFlightFrom]. rewrite Hget, Hsame, Hcounted, Hn'.
    rewrite andb_false_r.
    rewrite (inFlightFrom_congr _ _ _ (i + 1) Hring' Hi') in Hacc.
    rewrite (inFlightFrom_congr _ _ _ (i + 1) Hring1 Hi') in Hacc.
    rewrite Hin1, Hfw1 in Hacc. lia. }
  split; [lia|]. split.
  { intros j Hj. destruct (Z.eq_dec j 0) as [->|Hj0].
    - rewrite Z.add_0_r, Hget, Hsame. cbn [markedSlot]. rewrite Hdue.
      reflexivity.
    - replace (i + j) with (i + (1 + (j - 1))) by lia.
      rewrite <- (Hnext (outbuf c')) by assumption.
      rewrite Hin by lia. rewrite Hrto1. f_equal.
      rewrite Hnext by assumption. rewrite Hob1.
      apply rbufferGet_put_other.
      replace (i + (1 + (j - 1))) with (i + 1 + (j - 1)) by lia.
      apply Hslot. lia. }
  intros x Hx. rewrite Hout.
  - rewrite Hob1. apply rbufferGet_put_other. apply not_eq_sym.
    specialize (Hx 0 ltac:(lia)). rewrite Z.add_0_r in Hx. exact Hx.
  - intros j Hj. rewrite Hmask1. apply Hslot', Hx. lia.
Qed.

(** X17: the marking loop of rdpConnCheck, run over a send queue whose
    flight window counts the payload of the packets that are sent and not
    marked.  It returns; it marks exactly the queued packets that are due
    (sent, not marked, timeout passed) and changes nothing else of them;
    it changes no field of the connection but outbuf and flightWindow and
    no slot outside the queue; the flight window does not grow and again
    counts the payload of the packets sent and not marked. *)
Theorem rdpConnCheckMark_accounts (s : rdpSocket) (c : rdpConn) :
  ring16 (outbuf c) ->
  0 <= queue c <= mask (outbuf c) + 1 -> queue c < 2 ^ 16 ->
  outbufTyped (outbuf c) = true -> outbufSized (outbuf c) = true ->
  flightWindow c = inFlight c -> flightWindow c < 2 ^ 32 ->
  exists c' : rdpConn,
    rdpConnCheckMark s (queueRounds c) (uint16_t (seqnr c - queue c)) c
    = Done c' /\
    c' = set_flightWindow (set_outbuf c (outbuf c')) (flightWindow c') /\
    flightWindow c' = inFlight c' /\ flightWindow c' <= flightWindow c /\
    (forall j : Z, 0 <= j < queue c ->
       rbufferGet (outbuf c') (seqnr c - queue c + j)
       = markedSlot s (retransmitTimeout c)
           (rbufferGet (outbuf c) (seqnr c - queue c + j))) /\
    (forall x : Z,
       (forall j : Z, 0 <= j < queue c ->
          rbufferSlot (mask (outbuf c)) x
          <> rbufferSlot (mask (outbuf c)) (seqnr c - queue c + j)) ->
       rbufferGet (outbuf c') x = rbufferGet (outbuf c) x).
Proof.
  intros Hring Hq Hq16 Hty Hsz Hfw Hfw32.
  change (2 ^ 16) with 65536 in Hq16.
  assert (Hrounds : queueRounds c = Z.to_nat (queue c)).
  { unfold queueRounds, uint16_t. change (2 ^ 16) with 65536. f_equal.
    rewrite Zminus_mod_idemp_r.
    replace (seqnr c - (seqnr c - queue c)) with (queue c) by lia.
    apply Z.mod_small. lia. }
  set (i := uint16_t (seqnr c - queue c)).
  assert (Hi : uint16_t i = uint16_t (seqnr c - queue c))
    by apply uint16_idem.
  assert (Hshift : forall (ob : rbuffer packetWrap) (j : Z),
            ring16 ob ->
            rbufferGet ob (i + j) = rbufferGet ob (seqnr c - queue c + j)).
  { intros ob j Hr. apply rbufferGet_congr; [exact Hr|].
    unfold i. apply uint16_add_l. }
  destruct (rdpConnCheckMark_loop s (Z.to_nat (queue c)) i c Hring
              ltac:(lia) Hty Hsz) as
    (c' & Hrun & Hframe & Hring' & Hmask' & Hty' & Hsz' & Hacc & Hle & Hin
     & Hout).
  { rewrite (inFlightFrom_congr _ _ _ (seqnr c - queue c) Hring Hi).
    unfold inFlight in Hfw. lia. }
  exists c'. rewrite Hrounds. split; [exact Hrun|]. split; [exact Hframe|].
  assert (Hsq : seqnr c' = seqnr c /\ queue c' = queue c)
    by (rewrite Hframe; destruct c; split; reflexivity).
  destruct Hsq as [Hs' Hq'].
  split.
  { unfold inFlight in *. rewrite Hs', Hq'.
    rewrite (inFlightFrom_congr _ _ _ (seqnr c - queue c) Hring' Hi) in Hacc.
    rewrite (inFlightFrom_congr _ _ _ (seqnr c - queue c) Hring Hi) in Hacc.
    lia. }
  split; [exact Hle|]. split.
  { intros j Hj. rewrite <- !Hshift by assumption. apply Hin. lia. }
  intros x Hx. apply Hout. intros j Hj.
  destruct Hring as (k & Hk & Hm & _). rewrite Hm in *.
  rewrite (rbufferSlot_congr k (i + j) (seqnr c - queue c + j));
    [apply Hx; lia|exact Hk|]. unfold i. apply uint16_add_l.
Qed.

Lemma rdpConnCheckMark_accounts_witness :
  exists c' : rdpConn,
    rdpConnCheckMark (set_mstime ex_sock 5000) (queueRounds (ex_writes 2))
      (uint16_t (seqnr (ex_writes 2) - queue (ex_writes 2))) (ex_writes 2)
    = Done c' /\
    c' = set_flightWindow (set_outbuf (ex_writes 2) (outbuf c'))
           (flightWindow c') /\
    flightWindow c' = inFlight c' /\
    flightWindow c' <= flightWindow (ex_writes 2) /\
    (forall j : Z, 0 <= j < queue (ex_writes 2) ->
       rbufferGet (outbuf c')
         (seqnr (ex_writes 2) - queue (ex_writes 2) + j)
       = markedSlot (set_mstime ex_sock 5000)
           (retransmitTimeout (ex_writes 2))
           (rbufferGet (outbuf (ex_writes 2))
              (seqnr (ex_writes 2) - queue (ex_writes 2) + j))) /\
    (forall x : Z,
       (forall j : Z, 0 <= j < queue (ex_writes 2) ->
          rbufferSlot (mask (outbuf (ex_writes 2))) x
          <> rbufferSlot (mask (outbuf (ex_writes 2)))
               (seqnr (ex_writes 2) - queue (ex_writes 2) + j)) ->
       rbufferGet (outbuf c') x = rbufferGet (outbuf (ex_writes 2)) x).
Proof.
  apply (rdpConnCheckMark_accounts (set_mstime ex_sock 5000) (ex_writes 2)).
  - exists 6. vm_compute. repeat split; discriminate.
  - vm_compute. split; discriminate.
  - vm_compute. reflexivity.
  - vm_compute. reflexivity.
  - vm_compute. reflexivity.
  - vm_compute. reflexivity.
  - vm_compute. reflexivity.
Defined.

(** ** The selective acknowledgement sendAck writes *)

Lemma land_pow2_testbit (b k : Z) :
  0 <= k -> (Z.land b (2 ^ k) =? 0) = negb (Z.testbit b k).
Proof.
  intros Hk. destruct (Z.testbit b k) eqn:Hb; cbn [negb].
  - apply Z.eqb_neq. intros H0.
    assert (Hbit : Z.testbit (Z.land b (2 ^ k)) k = true)
      by (rewrite Z.land_spec, Hb, Z.pow2_bits_true by lia; reflexivity).
    rewrite H0, Z.bits_0 in Hbit. discriminate.
  - apply Z.eqb_eq. apply Z.bits_inj'. intros j Hj.
    rewrite Z.land_spec, Z.bits_0.
    destruct (Z.eq_dec j k) as [->|Hne].
    + rewrite Hb. reflexivity.
    + rewrite Z.pow2_bits_false by lia. apply andb_false_r.
Qed.

Lemma sackBit_testbit (a b : Z) (msk : list Z) (i : Z) :
  0 <= i ->
  sackBit (sackMaskOf ([a; b] ++ msk)) i
  = Z.testbit (nth (Z.to_nat (i / 8)) msk 0) (i mod 8).
Proof.
  intros Hi. unfold sackBit, sackMaskOf.
  rewrite Z.shiftr_div_pow2 by lia. change (2 ^ 3) with 8.
  assert (Hk : 0 <= i / 8) by (Z.div_mod_to_equations; lia).
  assert (Hbyte : byteAt ([a; b] ++ msk) (2 + i / 8)
                  = nth (Z.to_nat (i / 8)) msk 0).
  { unfold byteAt. destruct (Z.ltb_spec (2 + i / 8) 0); [lia|].
    replace (Z.to_nat (2 + i / 8)) with (2 + Z.to_nat (i / 8))%nat by lia.
    reflexivity. }
  rewrite Hbyte.
  change 7 with (Z.ones 3). rewrite Z.land_ones by lia. change (2 ^ 3) with 8.
  rewrite Z.shiftl_1_l.
  rewrite land_pow2_testbit by (apply Z.mod_pos_bound; lia).
  apply negb_involutive.
Qed.

(** The bits one round of the outer loop of sendAck collects. *)
Lemma sendAckGroup_testbit (c : rdpConn) (group : Z) (n : nat) :
  (n <= 32)%nat ->
  forall i : Z, 0 <= i ->
    Z.testbit (sendAckGroup c group n) i
    = (i <? Z.of_nat n) && occupied (inbuf c) (acknr c + i + 2 + group * 32).
Proof.
  induction n as [|n IH]; intros Hn i Hi.
  { cbn [sendAckGroup]. rewrite Z.bits_0.
    destruct (Z.ltb_spec i (Z.of_nat 0)); [lia|reflexivity]. }
  cbn [sendAckGroup].
  assert (Hbit : uint32_t (Z.shiftl 1 (Z.of_nat n)) = 2 ^ Z.of_nat n).
  { rewrite Z.shiftl_1_l. unfold uint32_t. apply Z.mod_small.
    split; [apply Z.pow_nonneg; lia|].
    apply Z.pow_lt_mono_r; lia. }
  specialize (IH ltac:(lia) i Hi).
  destruct (Z.eq_dec i (Z.of_nat n)) as [->|Hne].
  - replace (Z.of_nat n <? Z.of_nat (S n)) with true
      by (symmetry; apply Z.ltb_lt; lia).
    rewrite Z.ltb_irrefl in IH. cbn [andb] in *. unfold occupied.
    destruct (rbufferGet (inbuf c) (acknr c + Z.of_nat n + 2 + group * 32)).
    + rewrite Z.lor_spec, Hbit, Z.pow2_bits_true by lia. apply orb_true_r.
    + exact IH.
  - assert (E : (i <? Z.of_nat (S n)) = (i <? Z.of_nat n)).
    { destruct (Z.ltb_spec i (Z.of_nat (S n))), (Z.ltb_spec i (Z.of_nat n));
        (reflexivity || lia). }
    rewrite E.
    destruct (rbufferGet (inbuf c) (acknr c + Z.of_nat n + 2 + group * 32)).
    + rewrite Z.lor_spec, Hbit, Z.pow2_bits_false by lia.
      rewrite orb_false_r. exact IH.
    + exact IH.
Qed.

Ltac mask_byte :=
  match goal with
  | |- context [Z.to_nat ?k] =>
      let v := eval vm_compute in (Z.to_nat k) in
      change (Z.to_nat k) with v
  end;
  cbn [nth app]; unfold uint8_t;
  rewrite Z.mod_pow2_bits_low by lia;
  rewrite ?Z.shiftr_spec by lia; f_equal; lia.

(** The mask bytes of sendAck: four a group, bit [i] for the slot
    [acknr + 2 + i] while [i] is below [len]. *)
Lemma sendAckMask_bits (c : rdpConn) (groups : nat) :
  forall group len : Z,
    32 * (Z.of_nat groups - 1) < len <= 32 * Z.of_nat groups ->
    len < 2 ^ 64 ->
    length (sendAckMask c groups group len) = (4 * groups)%nat /\
    forall i : Z, 0 <= i < 32 * Z.of_nat groups ->
      Z.testbit (nth (Z.to_nat (i / 8)) (sendAckMask c groups group len) 0)
        (i mod 8)
      = (i <? len) && occupied (inbuf c) (acknr c + i + 2 + group * 32).
Proof.
  induction groups as [|g IH]; intros group len Hlen Hl64.
  change (2 ^ 64) with 18446744073709551616 in *.
  { split; [reflexivity|]. intros i Hi. lia. }
  cbn [sendAckMask].
  assert (Hpos : (len >? 0) = true)
    by (destruct (Z.gtb_spec len 0); [reflexivity|lia]).
  rewrite Hpos.
  set (m := sendAckGroup c group (Z.to_nat (min 32 len))).
  assert (Hmin : min 32 len = 32 /\ 32 <= len \/
                 min 32 len = len /\ len < 32 /\ g = O).
  { unfold min. destruct (Z.ltb_spec 32 len); [left; split; [reflexivity|lia]|].
    destruct (Z.eq_dec len 32); [left; split; [congruence|lia]|right].
    repeat split; lia. }
  assert (Hm : forall i : Z, 0 <= i < 32 ->
            Z.testbit m i
            = (i <? len) && occupied (inbuf c) (acknr c + i + 2 + group * 32)).
  { intros i Hi. unfold m.
    destruct Hmin as [(E & Hl) | (E & Hl & _)]; rewrite E;
      rewrite sendAckGroup_testbit by lia; f_equal.
    - destruct (Z.ltb_spec i (Z.of_nat (Z.to_nat 32))), (Z.ltb_spec i len);
        (reflexivity || lia).
    - rewrite Z2Nat.id by lia. reflexivity. }
  destruct g as [|g'].
  { (* the last group *)
    cbn [sendAckMask app length]. split; [reflexivity|].
    intros i Hi. rewrite <- Hm by lia.
    assert (Hk : 0 <= i / 8 < 4) by (Z.div_mod_to_equations; lia).
    assert (Hr : 0 <= i mod 8 < 8) by (apply Z.mod_pos_bound; lia).
    assert (Hi8 : i = 8 * (i / 8) + i mod 8) by (apply Z.div_mod; lia).
    assert (Hcase : i / 8 = 0 \/ i / 8 = 1 \/ i / 8 = 2 \/ i / 8 = 3) by lia.
    rewrite Hi8 at 3.
    destruct Hcase as [E | [E | [E | E]]]; rewrite E; mask_byte. }
  assert (Hnext : size_t (len - 32) = len - 32).
  { unfold size_t. change (2 ^ 64) with 18446744073709551616.
    apply Z.mod_small. lia. }
  rewrite Hnext.
  destruct (IH (group + 1) (len - 32) ltac:(lia) ltac:(lia)) as
    [IHlen IHbits].
  split.
  { rewrite length_app, IHlen. cbn [length]. lia. }
  intros i Hi.
  assert (Hk : 0 <= i / 8) by (Z.div_mod_to_equations; lia).
  assert (Hr : 0 <= i mod 8 < 8) by (apply Z.mod_pos_bound; lia).
  assert (Hi8 : i = 8 * (i / 8) + i mod 8) by (apply Z.div_mod; lia).
  destruct (Z.lt_ge_cases i 32) as [Hlow|Hhigh].
  - rewrite <- Hm by lia.
    assert (Hcase : i / 8 = 0 \/ i / 8 = 1 \/ i / 8 = 2 \/ i / 8 = 3) by lia.
    rewrite Hi8 at 3.
    destruct Hcase as [E | [E | [E | E]]]; rewrite E; mask_byte.
  - assert (E1 : (i - 32) / 8 = i / 8 - 4) by (Z.div_mod_to_equations; lia).
    assert (E2 : (i - 32) mod 8 = i mod 8) by (Z.div_mod_to_equations; lia).
    specialize (IHbits (i - 32) ltac:(lia)). rewrite E1, E2 in IHbits.
    replace (Z.to_nat (i / 8)) with (4 + Z.to_nat (i / 8 - 4))%nat by lia.
    cbn [app Nat.add nth]. rewrite IHbits. f_equal.
    + destruct (Z.ltb_spec (i - 32) (len - 32)), (Z.ltb_spec i len);
        (reflexivity || lia).
    + f_equal. lia.
Qed.

Lemma sackSizeOf_bounds (c : rdpConn) :
  0 <= outOfOrderCnt c ->
  4 <= sackSizeOf c /\ sackSizeOf c mod 4 = 0 /\
  outOfOrderCnt c < 8 * sackSizeOf c /\
  8 * sackSizeOf c <= outOfOrderCnt c + 32.
Proof.
  intros Hoo. unfold sackSizeOf. Z.div_mod_to_equations. lia.
Qed.

(** The selective acknowledgement sendAck writes while the slot of
    acknr + 1 is free. *)
Lemma sendAck_mask (s : rdpSocket) (c : rdpConn) (k : Z) :
  1 <= k <= 16 -> mask (inbuf c) = 2 ^ k - 1 ->
  0 < outOfOrderCnt c <= mask (inbuf c) ->
  state c <> CS_SYN_RECV -> receivedFinCompleted c = false ->
  rbufferGet (inbuf c) (acknr c + 1) = None ->
  exists (hdr : packet) (msk : list Z),
    sendAck s c
    = Done (set_needSendAck (set_lastSentPacket c (mstime s)) false,
            [mkDatagram hdr ([0; uint8_t (sackSizeOf c)] ++ msk)]) /\
    reserve hdr = 1 /\ packetGetType hdr = ST_STATE /\
    p_acknr hdr = acknr c /\
    4 <= sackSizeOf c /\ sackSizeOf c mod 4 = 0 /\
    outOfOrderCnt c < 8 * sackSizeOf c /\
    Z.of_nat (length msk) = sackSizeOf c /\
    (forall i : Z, 0 <= i < 8 * sackSizeOf c ->
       sackBit (sackMaskOf ([0; uint8_t (sackSizeOf c)] ++ msk)) i
       = (i <? mask (inbuf c)) && occupied (inbuf c) (acknr c + 2 + i)) /\
    (sackSizeOf c < 256 ->
     rdpReadPollExtensions (S (Z.to_nat (2 + sackSizeOf c)))
       ([0; uint8_t (sackSizeOf c)] ++ msk) 0 (2 + sackSizeOf c) 1 None
     = Done (2 + sackSizeOf c, Some 2)).
Proof.
  intros Hk Hmask Hoo Hst Hfin Hfree.
  destruct (sackSizeOf_bounds c ltac:(lia)) as (H4 & Hmod & Hbits & Hup).
  set (size := sackSizeOf c) in *.
  set (groups := Z.to_nat (size / 4)).
  set (len := min (size * 8) (mask (inbuf c))).
  assert (Hgroups : 32 * Z.of_nat groups = 8 * size).
  { unfold groups. rewrite Z2Nat.id by (Z.div_mod_to_equations; lia).
    Z.div_mod_to_equations. lia. }
  assert (Hodd : exists h : Z, mask (inbuf c) = 2 * h - 1).
  { exists (2 ^ (k - 1)). rewrite Hmask.
    replace k with (1 + (k - 1)) at 1 by lia.
    rewrite Z.pow_add_r by lia. reflexivity. }
  destruct Hodd as (h & Hodd).
  assert (Hlen : 32 * (Z.of_nat groups - 1) < len <= 32 * Z.of_nat groups /\
                 len < 2 ^ 64 /\
                 forall i : Z, i < 8 * size ->
                   (i <? len) = (i <? mask (inbuf c))).
  { assert (Hm16 : mask (inbuf c) < 2 ^ 16).
    { rewrite Hmask. assert (2 ^ k <= 2 ^ 16)
        by (apply Z.pow_le_mono_r; lia). lia. }
    change (2 ^ 16) with 65536 in Hm16.
    change (2 ^ 64) with 18446744073709551616.
    unfold len, min.
    destruct (Z.ltb_spec (size * 8) (mask (inbuf c))).
    - split; [lia|]. split; [lia|]. intros i Hi.
      destruct (Z.ltb_spec i (size * 8)), (Z.ltb_spec i (mask (inbuf c)));
        (reflexivity || lia).
    - split; [lia|]. split; [lia|]. intros i Hi. reflexivity. }
  destruct Hlen as (Hlen & Hl64 & Hlt).
  destruct (sendAckMask_bits c groups 0 len Hlen Hl64) as [Hwlen Hwbits].
  set (written := sendAckMask c groups 0 len) in *.
  assert (Hwsize : Z.of_nat (length written) = size) by lia.
  assert (Hrun :
    sendAck s c
    = Done (set_needSendAck (set_lastSentPacket c (mstime s)) false,
            [mkDatagram
               (set_window
                  (set_p_seqnr
                     (set_p_acknr
                        (set_connId
                           (packetSetType
                              (packetSetVersion (set_reserve packet_zero 1) 1)
                              ST_STATE)
                           (sendId c))
                        (acknr c))
                     (seqnr c))
                  (recvWindowSelf c))
               ([0; uint8_t size] ++ written)])).
  { unfold sendAck, sendData.
    assert (E1 : negb (outOfOrderCnt c =? 0)
                 && negb (connState_eqb (state c) CS_SYN_RECV)
                 && negb (receivedFinCompleted c) = true).
    { rewrite Hfin. destruct (Z.eqb_spec (outOfOrderCnt c) 0); [lia|].
      destruct (state c); try reflexivity. congruence. }
    rewrite E1, Hfree. unfold assert.
    cbn [mbind outcome_bind mret outcome_ret].
    fold (sackSizeOf c). fold size. fold len. fold groups. fold written.
    replace (Z.to_nat size - length written)%nat with 0%nat by lia.
    cbn [replicate]. rewrite app_nil_r. reflexivity. }
  eexists. exists written. split; [exact Hrun|].
  split; [reflexivity|]. split; [reflexivity|].
  split; [destruct c; reflexivity|].
  split; [exact H4|]. split; [exact Hmod|]. split; [exact Hbits|].
  split; [exact Hwsize|]. split.
  { intros i Hi. rewrite sackBit_testbit by lia.
    rewrite Hwbits by lia. rewrite Hlt by lia. f_equal. f_equal. lia. }
  intros H256. cbn [rdpReadPollExtensions].
  assert (Eu : uint8_t size = size)
    by (unfold uint8_t; apply Z.mod_small; change (2 ^ 8) with 256; lia).
  rewrite Eu. change (0 + 2 - 1) with 1. change (0 + 2 - 2) with 0.
  change (0 + 2) with 2.
  change (byteAt ([0; size] ++ written) 1) with size.
  change (byteAt ([0; size] ++ written) 0) with 0.
  unfold assert.
  replace (2 + size - 2 >=? size) with true
    by (symmetry; apply Z.geb_le; lia).
  reflexivity.
Qed.


(** X18: the selective acknowledgement sendAck writes.  On a connection
    not in CS_SYN_RECV, with the FIN not completed, that holds packets
    out of order (0 < outOfOrderCnt <= mask) in a receive ring whose mask
    is 2^k - 1, k = 1 .. 16: when the slot of acknr + 1 holds a packet,
    sendAck aborts at its assertion.  When that slot is free, sendAck
    sends one STATE packet that carries one extension of sackSize mask
    bytes: sackSize is a multiple of four with more bits than packets
    held, and the bit selectiveAck tests for offset [i] is set exactly
    when [i] is below the ring's mask and the slot of sequence number
    acknr + 2 + i holds a packet.  While sackSize fits the length byte,
    the walk of rdpReadPoll along the extensions finds the mask at offset
    2 and no payload behind it. *)
Theorem sendAck_selective (s : rdpSocket) (c : rdpConn) (k : Z) :
  1 <= k <= 16 -> mask (inbuf c) = 2 ^ k - 1 ->
  0 < outOfOrderCnt c <= mask (inbuf c) ->
  state c <> CS_SYN_RECV -> receivedFinCompleted c = false ->
  (occupied (inbuf c) (acknr c + 1) = true -> sendAck s c = AssertFailed) /\
  (occupied (inbuf c) (acknr c + 1) = false ->
     exists (hdr : packet) (msk : list Z),
       sendAck s c
       = Done (set_needSendAck (set_lastSentPacket c (mstime s)) false,
               [mkDatagram hdr ([0; uint8_t (sackSizeOf c)] ++ msk)]) /\
       reserve hdr = 1 /\ packetGetType hdr = ST_STATE /\
       p_acknr hdr = acknr c /\
       4 <= sackSizeOf c /\ sackSizeOf c mod 4 = 0 /\
       outOfOrderCnt c < 8 * sackSizeOf c /\
       Z.of_nat (length msk) = sackSizeOf c /\
       (forall i : Z, 0 <= i < 8 * sackSizeOf c ->
          sackBit (sackMaskOf ([0; uint8_t (sackSizeOf c)] ++ msk)) i
          = (i <? mask (inbuf c)) && occupied (inbuf c) (acknr c + 2 + i)) /\
       (sackSizeOf c < 256 ->
        rdpReadPollExtensions (S (Z.to_nat (2 + sackSizeOf c)))
          ([0; uint8_t (sackSizeOf c)] ++ msk) 0 (2 + sackSizeOf c) 1 None
        = Done (2 + sackSizeOf c, Some 2))).
Proof.
  intros Hk Hmask Hoo Hst Hfin. split.
  - intros Hocc. apply sendAck_blocked. unfold ackBlocked.
    rewrite Hfin, Hocc.
    destruct (Z.eqb_spec (outOfOrderCnt c) 0); [lia|].
    destruct (state c); try reflexivity. congruence.
  - intros Hocc. apply (sendAck_mask s c k); try assumption.
    unfold occupied in Hocc.
    destruct (rbufferGet (inbuf c) (acknr c + 1)); [discriminate|].
    reflexivity.
Qed.

Lemma sendAck_selective_witness :
  (occupied (inbuf ex_holding) (acknr ex_holding + 1) = true ->
   sendAck ex_sock ex_holding = AssertFailed) /\
  (occupied (inbuf ex_holding) (acknr ex_holding + 1) = false ->
     exists (hdr : packet) (msk : list Z),
       sendAck ex_sock ex_holding
       = Done (set_needSendAck
                 (set_lastSentPacket ex_holding (mstime ex_sock)) false,
               [mkDatagram hdr ([0; uint8_t (sackSizeOf ex_holding)] ++ msk)]) /\
       reserve hdr = 1 /\ packetGetType hdr = ST_STATE /\
       p_acknr hdr = acknr ex_holding /\
       4 <= sackSizeOf ex_holding /\ sackSizeOf ex_holding mod 4 = 0 /\
       outOfOrderCnt ex_holding < 8 * sackSizeOf ex_holding /\
       Z.of_nat (length msk) = sackSizeOf ex_holding /\
       (forall i : Z, 0 <= i < 8 * sackSizeOf ex_holding ->
          sackBit
            (sackMaskOf ([0; uint8_t (sackSizeOf ex_holding)] ++ msk)) i
          = (i <? mask (inbuf ex_holding))
            && occupied (inbuf ex_holding) (acknr ex_holding + 2 + i)) /\
       (sackSizeOf ex_holding < 256 ->
        rdpReadPollExtensions (S (Z.to_nat (2 + sackSizeOf ex_holding)))
          ([0; uint8_t (sackSizeOf ex_holding)] ++ msk) 0
          (2 + sackSizeOf ex_holding) 1 None
        = Done (2 + sackSizeOf ex_holding, Some 2))).
Proof.
  apply (sendAck_selective ex_sock ex_holding 6).
  - lia.
  - vm_compute. reflexivity.
  - vm_compute. split; [reflexivity|discriminate].
  - vm_compute. discriminate.
  - vm_compute. reflexivity.
Defined.

(** ** The periodic check: giving up and the next check *)

Lemma sendAck_conn (s : rdpSocket) (c c' : rdpConn) (out : list datagram) :
  sendAck s c = Done (c', out) ->
  c' = set_needSendAck (set_lastSentPacket c (mstime s)) false.
Proof.
  unfold sendAck, sendData.
  destruct (negb (outOfOrderCnt c =? 0)
            && negb (connState_eqb (state c) CS_SYN_RECV)
            && negb (receivedFinCompleted c)).
  - unfold assert.
    destruct (rbufferGet (inbuf c) (acknr c + 1));
      cbn [mbind outcome_bind mret outcome_ret]; [discriminate|].
    intros [= <- _]. destruct c. reflexivity.
  - cbn [mbind outcome_bind mret outcome_ret].
    intros [= <- _]. destruct c. reflexivity.
Qed.

Lemma rdpConnCheckKeepAlive_state (s : rdpSocket) (c c' : rdpConn)
    (out : list datagram) :
  rdpConnCheckKeepAlive s c = Done (c', out) ->
  state c' = state c /\ retransmitTicker c' = retransmitTicker c.
Proof.
  unfold rdpConnCheckKeepAlive, rdpConnKeepAlive.
  destruct (connState_eqb (state c) CS_CONNECTED
            || connState_eqb (state c) CS_CONNECTED_FULL).
  2:{ intros [= <- _]. split; reflexivity. }
  destruct (mstime s >=? uint64_t (lastSentPacket c + RDP_KEEPALIVE_INTERVAL)).
  2:{ intros [= <- _]. split; reflexivity. }
  destruct (sendAck s (set_acknr c (uint16_t (acknr c - 1))))
    as [[c1 o1]| |] eqn:Hack; cbn [mbind outcome_bind mret outcome_ret];
    try discriminate.
  intros [= <- _]. apply sendAck_conn in Hack. rewrite Hack.
  destruct c. split; reflexivity.
Qed.

Section CheckTimeouts.
Variables RDP_SOCKET_CHECK_TIMEOUT_MIN RDP_SOCKET_CHECK_TIMEOUT_MAX : Z.
Hypothesis Hmin : 0 <= RDP_SOCKET_CHECK_TIMEOUT_MIN.
Hypothesis Hmax :
  RDP_SOCKET_CHECK_TIMEOUT_MIN <= RDP_SOCKET_CHECK_TIMEOUT_MAX < 2 ^ 31.

Lemma nextCheckTimeout_clamped (t d : Z) :
  RDP_SOCKET_CHECK_TIMEOUT_MIN
  <= int (min (size_t RDP_SOCKET_CHECK_TIMEOUT_MAX)
            (max (size_t RDP_SOCKET_CHECK_TIMEOUT_MIN)
               (min (size_t t) (uint64_t d))))
  <= RDP_SOCKET_CHECK_TIMEOUT_MAX /\
  int (min (size_t RDP_SOCKET_CHECK_TIMEOUT_MAX)
         (max (size_t RDP_SOCKET_CHECK_TIMEOUT_MIN)
            (min (size_t t) (uint64_t d))))
  <= Z.max RDP_SOCKET_CHECK_TIMEOUT_MIN (Z.min (size_t t) (uint64_t d)).
Proof.
  change (2 ^ 31) with 2147483648 in Hmax.
  assert (E1 : size_t RDP_SOCKET_CHECK_TIMEOUT_MAX
               = RDP_SOCKET_CHECK_TIMEOUT_MAX).
  { unfold size_t. change (2 ^ 64) with 18446744073709551616.
    apply Z.mod_small. lia. }
  assert (E2 : size_t RDP_SOCKET_CHECK_TIMEOUT_MIN
               = RDP_SOCKET_CHECK_TIMEOUT_MIN).
  { unfold size_t. change (2 ^ 64) with 18446744073709551616.
    apply Z.mod_small. lia. }
  rewrite E1, E2.
  assert (Ex : min (size_t t) (uint64_t d) = Z.min (size_t t) (uint64_t d)).
  { unfold min. destruct (Z.ltb_spec (size_t t) (uint64_t d)); lia. }
  rewrite Ex. set (x := Z.min (size_t t) (uint64_t d)).
  assert (Hr : RDP_SOCKET_CHECK_TIMEOUT_MIN
               <= min RDP_SOCKET_CHECK_TIMEOUT_MAX
                    (max RDP_SOCKET_CHECK_TIMEOUT_MIN x)
               <= RDP_SOCKET_CHECK_TIMEOUT_MAX /\
               min RDP_SOCKET_CHECK_TIMEOUT_MAX
                 (max RDP_SOCKET_CHECK_TIMEOUT_MIN x)
               <= Z.max RDP_SOCKET_CHECK_TIMEOUT_MIN x).
  { unfold min, max.
    destruct (Z.ltb_spec RDP_SOCKET_CHECK_TIMEOUT_MIN x);
      match goal with
      | |- context [if ?a <? ?b then _ else _] => destruct (Z.ltb_spec a b)
      end; lia. }
  replace (int (min RDP_SOCKET_CHECK_TIMEOUT_MAX
                  (max RDP_SOCKET_CHECK_TIMEOUT_MIN x)))
    with (min RDP_SOCKET_CHECK_TIMEOUT_MAX
            (max RDP_SOCKET_CHECK_TIMEOUT_MIN x)); [exact Hr|].
  symmetry. unfold int. change (2 ^ 31) with 2147483648.
  change (2 ^ 32) with 4294967296. rewrite Z.mod_small; lia.
Qed.

Lemma rdpConnCheckTimeout_returned (s : rdpSocket) (c c1 : rdpConn)
    (out : list datagram) :
  rdpConnCheckTimeout s c = Done (c1, out, true) -> checkExpires s c = true.
Proof.
  unfold rdpConnCheckTimeout, checkExpires.
  destruct (mstime s >=? retransmitTicker c); [|discriminate].
  cbn [andb].
  destruct (connState_eqb (state c) CS_FIN_SENT
            && (mstime s
                >=? uint64_t (lastReceivedPacket c + RDP_WAIT_FIN_SENT)));
    [reflexivity|].
  destruct (connState_eqb (state c) CS_SYN_RECV
            && (mstime s
                >=? uint64_t (lastReceivedPacket c + RDP_WAIT_SYN_RECV)));
    [reflexivity|].
  intros H. exfalso.
  destruct (queue c >? 0).
  - destruct (rdpConnCheckMark s (queueRounds c)
                (uint16_t (seqnr c - queue c)) c) as [c2| |];
      cbn [mbind outcome_bind] in H; try discriminate.
    destruct (resizeWindow c2) as [[c3 r3]| |];
      cbn [mbind outcome_bind] in H; try discriminate.
    destruct (rdpConnFlushPackets s c3) as [[[c4 o4] r4]| |];
      cbn [mbind outcome_bind mret outcome_ret] in H; try discriminate.
    destruct (updateRetransmitTimeout s c4) as [[c5 r5]| |];
      cbn [mbind outcome_bind mret outcome_ret] in H; discriminate.
  - cbn [mbind outcome_bind mret outcome_ret] in H.
    destruct (updateRetransmitTimeout s c) as [[c5 r5]| |];
      cbn [mbind outcome_bind mret outcome_ret] in H; discriminate.
Qed.

(** X19: when the periodic check gives a connection up and when it does
    not.  A connection in CS_FIN_SENT or CS_SYN_RECV whose retransmission
    timer has expired and that has heard nothing for ten seconds is moved
    to CS_DESTROY: nothing is sent and nothing else changes, the socket's
    nextCheckTimeout included.  In every other case a check that returns
    leaves the state as it was and sets nextCheckTimeout to a value
    between RDP_SOCKET_CHECK_TIMEOUT_MIN and RDP_SOCKET_CHECK_TIMEOUT_MAX
    that is neither above the previous value nor above the time left
    until the retransmission timer, unless the minimum demands it. *)
Theorem rdpConnCheck_gives_up (s : rdpSocket) (c : rdpConn) :
  queue c = 0 \/ rbufferGet (outbuf c) (seqnr c - queue c) <> None ->
  (checkExpires s c = true ->
   rdpConnCheck RDP_SOCKET_CHECK_TIMEOUT_MIN RDP_SOCKET_CHECK_TIMEOUT_MAX s c
   = Done (s, set_state c CS_DESTROY, [])) /\
  (checkExpires s c = false ->
   forall (s' : rdpSocket) (c' : rdpConn) (out : list datagram),
     rdpConnCheck RDP_SOCKET_CHECK_TIMEOUT_MIN RDP_SOCKET_CHECK_TIMEOUT_MAX
       s c = Done (s', c', out) ->
     state c' = state c /\
     s' = set_nextCheckTimeout s (nextCheckTimeout s') /\
     RDP_SOCKET_CHECK_TIMEOUT_MIN <= nextCheckTimeout s'
     <= RDP_SOCKET_CHECK_TIMEOUT_MAX /\
     (nextCheckTimeout s'
      <= Z.max RDP_SOCKET_CHECK_TIMEOUT_MIN
           (Z.min (size_t (nextCheckTimeout s))
              (uint64_t (retransmitTicker c' - mstime s))))).
Proof.
  intros Hfront.
  assert (Hassert : (queue c =? 0)
                    || match rbufferGet (outbuf c) (seqnr c - queue c) with
                       | Some _ => true
                       | None => false
                       end = true).
  { destruct Hfront as [-> | Hne]; [reflexivity|].
    destruct (rbufferGet (outbuf c) (seqnr c - queue c)); [|congruence].
    apply orb_true_r. }
  unfold rdpConnCheck, assert. rewrite Hassert.
  cbn [mbind outcome_bind]. unfold checkExpires. split.
  - intros Hexp. apply andb_true_iff in Hexp as [Htick Hexp].
    unfold rdpConnCheckTimeout. rewrite Htick.
    destruct (state c) eqn:Hst; cbn [connState_eqb andb orb] in Hexp;
      rewrite ?orb_false_r in Hexp; try discriminate;
      cbn [connState_eqb andb]; rewrite Hexp; reflexivity.
  - intros Hexp s' c' out.
    assert (Hlast : forall (c1 : rdpConn) (o : list datagram),
              state c1 = state c ->
              (_ ← (if uint64_t (retransmitTicker c1 - mstime s) >=? 0
                    then Done tt else AssertFailed);
               mret (set_nextCheckTimeout s
                       (int (min (size_t RDP_SOCKET_CHECK_TIMEOUT_MAX)
                               (max (size_t RDP_SOCKET_CHECK_TIMEOUT_MIN)
                                  (min (size_t (nextCheckTimeout s))
                                     (uint64_t
                                        (retransmitTicker c1 - mstime s)))))),
                     c1, o))
              = Done (s', c', out) ->
              state c' = state c /\
              s' = set_nextCheckTimeout s (nextCheckTimeout s') /\
              RDP_SOCKET_CHECK_TIMEOUT_MIN <= nextCheckTimeout s'
              <= RDP_SOCKET_CHECK_TIMEOUT_MAX /\
              (nextCheckTimeout s'
               <= Z.max RDP_SOCKET_CHECK_TIMEOUT_MIN
                    (Z.min (size_t (nextCheckTimeout s))
                       (uint64_t (retransmitTicker c' - mstime s))))).
    { intros c1 o Hst1.
      destruct (uint64_t (retransmitTicker c1 - mstime s) >=? 0);
        cbn [mbind outcome_bind mret outcome_ret]; [|discriminate].
      intros [= <- <- _]. split; [exact Hst1|].
      split; [destruct s; reflexivity|].
      replace (nextCheckTimeout (set_nextCheckTimeout s _))
        with (int (min (size_t RDP_SOCKET_CHECK_TIMEOUT_MAX)
                     (max (size_t RDP_SOCKET_CHECK_TIMEOUT_MIN)
                        (min (size_t (nextCheckTimeout s))
                           (uint64_t (retransmitTicker c1 - mstime s))))))
        by (destruct s; reflexivity).
      apply nextCheckTimeout_clamped. }
    destruct (state c) eqn:Hst;
      try (apply (Hlast c []); exact Hst);
      (destruct (rdpConnCheckTimeout s c) as [[[c1 o1] ret]| |] eqn:Hto;
       cbn [mbind outcome_bind]; try discriminate;
       destruct ret;
       [apply rdpConnCheckTimeout_returned in Hto;
        unfold checkExpires in Hto; rewrite Hst in Hto; congruence|];
       apply rdpConnCheckTimeout_control in Hto;
       destruct (rdpConnCheckKeepAlive s c1) as [[c2 o2]| |] eqn:Hka;
       cbn [mbind outcome_bind]; try discriminate;
       apply rdpConnCheckKeepAlive_state in Hka as [Hka _];
       apply Hlast; rewrite Hka;
       destruct Hto as (_ & _ & _ & _ & _ & _ & H7 & _);
       rewrite H7; exact Hst).
Qed.

End CheckTimeouts.

Lemma rdpConnCheck_gives_up_witness :
  (checkExpires (set_mstime ex_sock 20000) ex_fin_sent = true ->
   rdpConnCheck 10 1000 (set_mstime ex_sock 20000) ex_fin_sent
   = Done (set_mstime ex_sock 20000, set_state ex_fin_sent CS_DESTROY, []))
  /\
  (checkExpires (set_mstime ex_sock 20000) ex_fin_sent = false ->
   forall (s' : rdpSocket) (c' : rdpConn) (out : list datagram),
     rdpConnCheck 10 1000 (set_mstime ex_sock 20000) ex_fin_sent
     = Done (s', c', out) ->
     state c' = state ex_fin_sent /\
     s' = set_nextCheckTimeout (set_mstime ex_sock 20000)
            (nextCheckTimeout s') /\
     10 <= nextCheckTimeout s' <= 1000 /\
     (nextCheckTimeout s'
      <= Z.max 10
           (Z.min (size_t (nextCheckTimeout (set_mstime ex_sock 20000)))
              (uint64_t (retransmitTicker c'
                         - mstime (set_mstime ex_sock 20000)))))).
Proof.
  apply (rdpConnCheck_gives_up 10 1000 ltac:(lia) ltac:(lia)
           (set_mstime ex_sock 20000) ex_fin_sent).
  left. vm_compute. reflexivity.
Defined.

(** ** The registry of connections *)

Lemma listEqualRdpConn_sym (a b : rdpConn) :
  listEqualRdpConn a b = listEqualRdpConn b a.
Proof.
  unfold listEqualRdpConn. rewrite (Z.eqb_sym (recvId b)).
  destruct (recvId a =? recvId b); cbn [negb]; [|reflexivity].
  rewrite (Z.eqb_sym (addrlen b)).
  destruct (Z.eqb_spec (addrlen a) (addrlen b)) as [E|E]; cbn [negb];
    [|reflexivity].
  rewrite E.
  destruct (decide (take (Z.to_nat (addrlen b)) (addr a)
                    = take (Z.to_nat (addrlen b)) (addr b))) as [H|H].
  - rewrite !bool_decide_eq_true_2 by auto. reflexivity.
  - rewrite !bool_decide_eq_false_2 by auto. reflexivity.
Qed.

(** listEqualRdpConn reads of its second argument the key only. *)
Lemma listEqualRdpConn_key (v a b : rdpConn) :
  recvId a = recvId b -> addrlen a = addrlen b ->
  take (Z.to_nat (addrlen a)) (addr a) = take (Z.to_nat (addrlen a)) (addr b)
  ->
  listEqualRdpConn v a = listEqualRdpConn v b.
Proof.
  intros Hr Hl Ha. unfold listEqualRdpConn. rewrite Hr, Hl.
  destruct (recvId v =? recvId b); cbn [negb]; [|reflexivity].
  destruct (Z.eqb_spec (addrlen v) (addrlen b)) as [E|E]; cbn [negb];
    [|reflexivity].
  rewrite E. rewrite <- Hl, Ha. reflexivity.
Qed.

Lemma listEqualRdpConn_trans (a b k : rdpConn) :
  listEqualRdpConn a k = true -> listEqualRdpConn b k = true ->
  listEqualRdpConn a b = true.
Proof.
  unfold listEqualRdpConn. intros Ha Hb.
  destruct (Z.eqb_spec (recvId a) (recvId k)) as [E1|]; [|discriminate].
  destruct (Z.eqb_spec (recvId b) (recvId k)) as [E2|]; [|discriminate].
  cbn [negb] in *.
  destruct (Z.eqb_spec (addrlen a) (addrlen k)) as [E3|]; [|discriminate].
  destruct (Z.eqb_spec (addrlen b) (addrlen k)) as [E4|]; [|discriminate].
  cbn [negb] in *.
  destruct (decide (take (Z.to_nat (addrlen a)) (addr a)
                    = take (Z.to_nat (addrlen a)) (addr k))) as [E5|E5];
    [|rewrite bool_decide_eq_false_2 in Ha by auto; discriminate].
  destruct (decide (take (Z.to_nat (addrlen b)) (addr b)
                    = take (Z.to_nat (addrlen b)) (addr k))) as [E6|E6];
    [|rewrite bool_decide_eq_false_2 in Hb by auto; discriminate].
  rewrite E1, E2, Z.eqb_refl, E3, E4, Z.eqb_refl. cbn [negb].
  rewrite bool_decide_eq_true_2; [reflexivity|].
  rewrite E3 in E5. rewrite E4 in E6. congruence.
Qed.


Lemma find_ext_in {A : Type} (f g : A -> bool) (l : list A) :
  (forall x : A, In x l -> f x = g x) -> List.find f l = List.find g l.
Proof.
  induction l as [|a l IH]; intros H; [reflexivity|].
  cbn [List.find]. rewrite (H a) by (left; reflexivity).
  rewrite IH; [reflexivity|]. intros x Hx. apply H. right. exact Hx.
Qed.

(** listNodeFind looks only at the connections of the list. *)
Lemma listNodeFind_insert (heap : gmap nat rdpConn) (l : list nat)
    (key : rdpConn) (cp : nat) (c : rdpConn) :
  ~ In cp l ->
  listNodeFind (<[cp := c]> heap) l key = listNodeFind heap l key.
Proof.
  intros Hcp. unfold listNodeFind. apply find_ext_in. intros q Hq.
  rewrite lookup_insert_ne; [reflexivity|]. intros ->. contradiction.
Qed.

(** What rdpConnInit returns: the connection in front of the list, with
    the address given and a recvId that was looked up and not found. *)
Lemma rdpConnInit_key (heap : gmap nat rdpConn) (s : rdpSocket) (cp : nat)
    (c : rdpConn) (sockaddr : list Z) (al gen idSeed rid sid : Z)
    (rands : list Z) (s' : rdpSocket) (c' : rdpConn) (rest : list Z) :
  (gen <> 0 -> rid = 0) ->
  (gen = 0 -> findRdpConnInRdpSocket heap s sockaddr al rid = None) ->
  rdpConnInit heap s cp c sockaddr al gen idSeed rid sid rands
  = Done (s', c', rest) ->
  s' = set_conns s (cp :: conns s) /\ addrlen c' = al /\
  addr c' = take (Z.to_nat al) sockaddr ++ drop (Z.to_nat al) (addr c) /\
  uint16_t (recvId c') = recvId c' /\
  findRdpConnInRdpSocket heap s sockaddr al (recvId c') = None.
Proof.
  intros Hgen Hexp. unfold rdpConnInit.
  destruct (Z.eqb_spec gen 0) as [E|E]; cbn [negb].
  - cbn [mbind outcome_bind mret outcome_ret]. intros [= <- <- _].
    split; [reflexivity|].
    replace (recvId _) with (uint16_t rid) by (destruct c; reflexivity).
    split; [destruct c; reflexivity|]. split; [destruct c; reflexivity|].
    split; [apply uint16_idem|].
    rewrite <- (Hexp E). unfold findRdpConnInRdpSocket.
    rewrite uint16_idem. reflexivity.
  - destruct (rdpConnInitSeed heap s sockaddr al rands) as [[seed r']| |]
      eqn:Hseed; cbn [mbind outcome_bind mret outcome_ret]; try discriminate.
    intros [= <- <- _].
    destruct (rdpConnInitSeed_done _ _ _ _ _ _ _ Hseed) as [Hrange Hnone].
    rewrite (Hgen E).
    assert (Hs : uint16_t (0 + seed) = seed).
    { unfold uint16_t. apply Z.mod_small. lia. }
    split; [reflexivity|].
    replace (recvId _) with (uint16_t (0 + seed))
      by (destruct c; reflexivity).
    split; [destruct c; reflexivity|]. split; [destruct c; reflexivity|].
    rewrite Hs. split; [|exact Hnone].
    unfold uint16_t. apply Z.mod_small. lia.
Qed.

(** X20: rdpConnInit keeps the registry a map.  When no two registered
    connections answer to the same (address, recvId), the connection is
    not registered yet, the caller supplies addrlen bytes of address and
    either lets rdpConnInit draw the seed (with recvId 0, as rdpConnect
    does) or has looked its recvId up and found nothing (as rdpReadPoll
    does for a SYN), then after rdpConnInit the connection is at the head
    of the list, still no two registered connections answer to the same
    key, the new connection is found under its address and recvId, and
    every lookup that found a connection before finds the same one. *)
Theorem rdpConnInit_registry (heap : gmap nat rdpConn) (s : rdpSocket)
    (cp : nat) (c : rdpConn) (sockaddr : list Z) (al gen idSeed rid sid : Z)
    (rands : list Z) (s' : rdpSocket) (c' : rdpConn) (rest : list Z) :
  registryUnique heap (conns s) -> ~ In cp (conns s) ->
  (Z.to_nat al <= length sockaddr)%nat ->
  (gen <> 0 -> rid = 0) ->
  (gen = 0 -> findRdpConnInRdpSocket heap s sockaddr al rid = None) ->
  rdpConnInit heap s cp c sockaddr al gen idSeed rid sid rands
  = Done (s', c', rest) ->
  conns s' = cp :: conns s /\
  registryUnique (<[cp := c']> heap) (conns s') /\
  findRdpConnInRdpSocket (<[cp := c']> heap) s' sockaddr al (recvId c')
  = Some cp /\
  (forall (key : rdpConn) (q : nat),
     listNodeFind heap (conns s) key = Some q ->
     listNodeFind (<[cp := c']> heap) (conns s') key = Some q).
Proof.
  intros [Hnodup Huniq] Hcp Hlen Hgen Hexp Hinit.
  destruct (rdpConnInit_key _ _ _ _ _ _ _ _ _ _ _ _ _ _ Hgen Hexp Hinit)
    as (Hs' & Hal & Haddr & Hrid & Hnone).
  assert (Hconns : conns s' = cp :: conns s)
    by (rewrite Hs'; destruct s; reflexivity).
  set (key0 := set_recvId
                 (set_addrlen
                    (set_addr (rdpConnCreate 0)
                       (take (Z.to_nat al) sockaddr
                        ++ drop (Z.to_nat al) (addr (rdpConnCreate 0))))
                    al)
                 (uint16_t (recvId c'))).
  assert (Hprefix : forall rest' : list Z,
            take (Z.to_nat al) (take (Z.to_nat al) sockaddr ++ rest')
            = take (Z.to_nat al) sockaddr).
  { intros rest'. rewrite take_app_le by (rewrite length_take; lia).
    rewrite take_take. f_equal. lia. }
  assert (Hkey : forall v : rdpConn,
            listEqualRdpConn v c' = listEqualRdpConn v key0).
  { intros v. apply listEqualRdpConn_key.
    - unfold key0. rewrite Hrid. reflexivity.
    - rewrite Hal. reflexivity.
    - rewrite Hal, Haddr. unfold key0.
      replace (addr (set_recvId _ _))
        with (take (Z.to_nat al) sockaddr
              ++ drop (Z.to_nat al) (addr (rdpConnCreate 0)))
        by reflexivity.
      rewrite !Hprefix. reflexivity. }
  assert (Hold : forall (q : nat) (v : rdpConn),
            In q (conns s) -> heap !! q = Some v ->
            listEqualRdpConn v c' = false).
  { intros q v Hq Hv. rewrite Hkey.
    unfold findRdpConnInRdpSocket, listNodeFind in Hnone. fold key0 in Hnone.
    pose proof (List.find_none _ _ Hnone q Hq) as Hf. cbn beta in Hf.
    rewrite Hv in Hf. exact Hf. }
  split; [exact Hconns|]. split.
  { rewrite Hconns. split.
    - constructor; assumption.
    - intros q1 q2 v1 v2 H1 H2 Hne Hv1 Hv2.
      destruct H1 as [<-|H1], H2 as [<-|H2].
      + contradiction.
      + rewrite lookup_insert_eq in Hv1. injection Hv1 as <-.
        rewrite lookup_insert_ne in Hv2 by congruence.
        rewrite listEqualRdpConn_sym. exact (Hold q2 v2 H2 Hv2).
      + rewrite lookup_insert_eq in Hv2. injection Hv2 as <-.
        rewrite lookup_insert_ne in Hv1 by congruence.
        exact (Hold q1 v1 H1 Hv1).
      + rewrite lookup_insert_ne in Hv1 by (intros ->; contradiction).
        rewrite lookup_insert_ne in Hv2 by (intros ->; contradiction).
        exact (Huniq q1 q2 v1 v2 H1 H2 Hne Hv1 Hv2). }
  assert (Hself : listEqualRdpConn c' key0 = true).
  { unfold listEqualRdpConn, key0.
    replace (recvId (set_recvId _ _)) with (uint16_t (recvId c'))
      by reflexivity.
    replace (addrlen (set_recvId _ _)) with al by reflexivity.
    replace (addr (set_recvId _ _))
      with (take (Z.to_nat al) sockaddr
            ++ drop (Z.to_nat al) (addr (rdpConnCreate 0)))
      by reflexivity.
    rewrite Hrid, Hal, Haddr, !Z.eqb_refl. cbn [negb].
    rewrite !Hprefix. rewrite bool_decide_eq_true_2 by reflexivity.
    reflexivity. }
  split.
  { unfold findRdpConnInRdpSocket, listNodeFind. fold key0. rewrite Hconns.
    cbn [List.find]. rewrite lookup_insert_eq, Hself. reflexivity. }
  intros key q Hfind. rewrite Hconns.
  pose proof Hfind as Hfind'. unfold listNodeFind in Hfind'.
  apply List.find_some in Hfind' as [Hq Htest].
  destruct (heap !! q) as [vq|] eqn:Hvq; [|discriminate].
  unfold listNodeFind at 1. cbn [List.find]. rewrite lookup_insert_eq.
  destruct (listEqualRdpConn c' key) eqn:Hnew.
  - pose proof (listEqualRdpConn_trans vq c' key Htest Hnew) as Hboth.
    rewrite (Hold q vq Hq Hvq) in Hboth. discriminate.
  - fold (listNodeFind (<[cp := c']> heap) (conns s) key).
    rewrite listNodeFind_insert by exact Hcp. exact Hfind.
Qed.

Lemma rdpConnInit_registry_witness :
  exists (s' : rdpSocket) (c' : rdpConn) (rest : list Z),
    rdpConnInit (w_heap ex_receiver) (w_sock ex_receiver) 5%nat
      (rdpConnCreate 7) ex_peer 16 1 0 0 1 [0; 4464; 9]
    = Done (s', c', rest) /\
    recvId c' = 4464 /\
    conns s' = 5%nat :: conns (w_sock ex_receiver) /\
    registryUnique (<[5%nat := c']> (w_heap ex_receiver)) (conns s') /\
    findRdpConnInRdpSocket (<[5%nat := c']> (w_heap ex_receiver)) s' ex_peer
      16 (recvId c') = Some 5%nat /\
    (forall (key : rdpConn) (q : nat),
       listNodeFind (w_heap ex_receiver) (conns (w_sock ex_receiver)) key
       = Some q ->
       listNodeFind (<[5%nat := c']> (w_heap ex_receiver)) (conns s') key
       = Some q).
Proof.
  eexists. eexists. eexists. split; [vm_compute; reflexivity|].
  split; [reflexivity|].
  apply (rdpConnInit_registry (w_heap ex_receiver) (w_sock ex_receiver)
           5%nat (rdpConnCreate 7) ex_peer 16 1 0 0 1 [0; 4464; 9] _ _ [9]).
  - split; [repeat constructor; intros []|].
    intros q1 q2 v1 v2 [<-|[]] [<-|[]] Hne. contradiction.
  - intros [H|[]]. discriminate.
  - vm_compute. lia.
  - reflexivity.
  - discriminate.
  - vm_compute. reflexivity.
Defined.

(** ** rdpContextAck: the acknowledgements owed *)

Lemma owingAck_insert (heap : gmap nat rdpConn) (l : list nat) (cp : nat)
    (c : rdpConn) :
  ~ In cp l -> owingAck (<[cp := c]> heap) l = owingAck heap l.
Proof.
  intros Hcp. unfold owingAck. apply List.filter_ext_in. intros q Hq.
  rewrite lookup_insert_ne; [reflexivity|]. intros ->. contradiction.
Qed.

Lemma Forall2_impl_in {A B : Type} (P Q : A -> B -> Prop) (l : list A)
    (k : list B) :
  Forall2 P l k ->
  (forall (x : A) (y : B), In y k -> P x y -> Q x y) ->
  Forall2 Q l k.
Proof.
  induction 1 as [|x y l k Hxy _ IH]; intros Himp; constructor.
  - apply Himp; [left; reflexivity|exact Hxy].
  - apply IH. intros x' y' Hy'. apply Himp. right. exact Hy'.
Qed.

Lemma rdpContextAckLoop_flushes (s : rdpSocket) (l : list nat) :
  forall heap : gmap nat rdpConn,
    List.NoDup l ->
    (forall cp : nat, In cp l ->
       exists c : rdpConn,
         heap !! cp = Some c /\ (needSendAck c = true -> ackReady c)) ->
    exists (heap' : gmap nat rdpConn) (out : list datagram),
      rdpContextAckLoop s heap l = Done (heap', out) /\
      (forall (cp : nat) (c : rdpConn),
         In cp l -> heap !! cp = Some c ->
         heap' !! cp = Some (ackedConn s c)) /\
      (forall cp : nat, ~ In cp l -> heap' !! cp = heap !! cp) /\
      Forall2 (fun d cp => exists c : rdpConn,
                 heap !! cp = Some c /\ ackOf c d)
        out (owingAck heap l).
Proof.
  induction l as [|cp l IH]; intros heap Hnodup Hall.
  { exists heap, []. split; [reflexivity|]. split; [intros ? ? []|].
    split; [reflexivity|]. constructor. }
  inversion Hnodup as [|? ? Hcp Hnodup']; subst.
  destruct (Hall cp ltac:(left; reflexivity)) as (c & Hc & Hready).
  cbn [rdpContextAckLoop]. rewrite Hc.
  unfold owingAck. cbn [List.filter]. rewrite Hc. fold (owingAck heap l).
  destruct (needSendAck c) eqn:Hneed.
  - destruct (sendAck_done s c (Hready eq_refl)) as
      (dg & Hack & _ & Hty & Hcid & Hackn & Hseq & _).
    rewrite Hack. cbn [mbind outcome_bind].
    set (c1 := set_needSendAck (set_lastSentPacket c (mstime s)) false).
    destruct (IH (<[cp := c1]> heap) Hnodup') as
      (heap' & out & Hrun & Hin & Hout & Hacks).
    { intros q Hq. destruct (Hall q ltac:(right; exact Hq)) as (v & Hv & Hr).
      exists v. split; [|exact Hr].
      rewrite lookup_insert_ne; [exact Hv|]. intros ->. contradiction. }
    rewrite Hrun. cbn [mbind outcome_bind mret outcome_ret].
    exists heap', ([dg] ++ out). split; [reflexivity|]. split.
    { intros q v [<-|Hq] Hv.
      - rewrite Hout by exact Hcp. rewrite lookup_insert_eq.
        rewrite Hc in Hv. injection Hv as <-. unfold ackedConn.
        rewrite Hneed. reflexivity.
      - apply Hin; [exact Hq|].
        rewrite lookup_insert_ne; [exact Hv|]. intros ->. contradiction. }
    split.
    { intros q Hq. rewrite Hout by (intros H; apply Hq; right; exact H).
      apply lookup_insert_ne. intros ->. apply Hq. left. reflexivity. }
    cbn [app]. constructor.
    { exists c. split; [exact Hc|]. repeat split; assumption. }
    rewrite owingAck_insert in Hacks by exact Hcp.
    eapply Forall2_impl_in; [exact Hacks|].
    intros d q Hq (v & Hv & Hof). exists v. split; [|exact Hof].
    apply List.filter_In in Hq as [Hq _].
    rewrite lookup_insert_ne in Hv; [exact Hv|]. intros ->. contradiction.
  - destruct (IH heap Hnodup') as (heap' & out & Hrun & Hin & Hout & Hacks).
    { intros q Hq. apply Hall. right. exact Hq. }
    exists heap', out. split; [exact Hrun|]. split.
    { intros q v [<-|Hq] Hv.
      - rewrite Hout by exact Hcp. rewrite Hv. rewrite Hc in Hv.
        injection Hv as <-. unfold ackedConn. rewrite Hneed. reflexivity.
      - apply Hin; assumption. }
    split.
    { intros q Hq. apply Hout. intros H. apply Hq. right. exact H. }
    exact Hacks.
Qed.

Lemma sendAck_no_fuel (s : rdpSocket) (c : rdpConn) :
  sendAck s c <> OutOfFuel.
Proof.
  unfold sendAck, sendData.
  destruct (negb (outOfOrderCnt c =? 0)
            && negb (connState_eqb (state c) CS_SYN_RECV)
            && negb (receivedFinCompleted c)); [|discriminate].
  unfold assert.
  destruct (rbufferGet (inbuf c) (acknr c + 1)); discriminate.
Qed.

(** rdpContextAck aborts when it comes to a connection whose
    acknowledgement sendAck cannot write. *)
Lemma rdpContextAckLoop_aborts (s : rdpSocket) (l : list nat) :
  forall heap : gmap nat rdpConn,
    List.NoDup l ->
    (exists (cp : nat) (c : rdpConn),
       In cp l /\ heap !! cp = Some c /\
       needSendAck c && ackBlocked c = true) ->
    rdpContextAckLoop s heap l = AssertFailed.
Proof.
  induction l as [|cp0 l IH]; intros heap Hnodup (cp & c & Hin & Hc & Hb);
    [destruct Hin|].
  inversion Hnodup as [|? ? Hcp0 Hnodup']; subst.
  apply andb_true_iff in Hb as [Hn Hb].
  cbn [rdpContextAckLoop].
  destruct (heap !! cp0) as [c0|] eqn:Hc0; [|reflexivity].
  destruct Hin as [<-|Hin].
  { rewrite Hc in Hc0. injection Hc0 as <-.
    rewrite Hn, (sendAck_blocked s c Hb). reflexivity. }
  assert (Hne : cp0 <> cp) by (intros ->; contradiction).
  destruct (needSendAck c0).
  - destruct (sendAck s c0) as [[c1 out]| |] eqn:Hack;
      cbn [mbind outcome_bind]; [|reflexivity|].
    + rewrite (IH (<[cp0 := c1]> heap) Hnodup'); [reflexivity|].
      exists cp, c. split; [exact Hin|]. split.
      * rewrite lookup_insert_ne by exact Hne. exact Hc.
      * rewrite Hn, Hb. reflexivity.
    + destruct (sendAck_no_fuel s c0 Hack).
  - apply (IH heap Hnodup'). exists cp, c. rewrite Hn, Hb. auto.
Qed.

(** X21: rdpContextAck on a socket whose list names each connection once,
    each of them allocated.  When one of them owes an acknowledgement
    that sendAck cannot write (needSendAck is set, packets are held out
    of order, the state is not CS_SYN_RECV, the FIN is not completed and
    the slot of acknr + 1 holds a packet), rdpContextAck aborts at the
    assertion of sendAck.  When none does, it returns; it sends one STATE
    packet for every connection with needSendAck set, in the order of the
    list, carrying that connection's sendId, acknr and seqnr; those
    connections get needSendAck cleared and lastSentPacket stamped, and
    nothing else changes: afterwards no registered connection owes an
    acknowledgement. *)
Theorem rdpContextAck_flushes (w : world) :
  List.NoDup (conns (w_sock w)) ->
  (forall cp : nat, In cp (conns (w_sock w)) ->
     exists c : rdpConn, w_heap w !! cp = Some c) ->
  ((exists (cp : nat) (c : rdpConn),
      In cp (conns (w_sock w)) /\ w_heap w !! cp = Some c /\
      needSendAck c && ackBlocked c = true) ->
   rdpContextAck (Some w) = AssertFailed) /\
  ((forall (cp : nat) (c : rdpConn),
      In cp (conns (w_sock w)) -> w_heap w !! cp = Some c ->
      needSendAck c && ackBlocked c = false) ->
   exists (heap' : gmap nat rdpConn) (out : list datagram),
     rdpContextAck (Some w) = Done (Some (mkWorld (w_sock w) heap'), out) /\
     (forall (cp : nat) (c : rdpConn),
        In cp (conns (w_sock w)) -> w_heap w !! cp = Some c ->
        heap' !! cp = Some (ackedConn (w_sock w) c)) /\
     (forall cp : nat,
        ~ In cp (conns (w_sock w)) -> heap' !! cp = w_heap w !! cp) /\
     Forall2 (fun d cp => exists c : rdpConn,
                w_heap w !! cp = Some c /\ ackOf c d)
       out (owingAck (w_heap w) (conns (w_sock w))) /\
     owingAck heap' (conns (w_sock w)) = []).
Proof.
  intros Hnodup Halloc. split.
  { intros Hbad. unfold rdpContextAck.
    rewrite (rdpContextAckLoop_aborts (w_sock w) (conns (w_sock w))
               (w_heap w) Hnodup Hbad). reflexivity. }
  intros Hfit.
  assert (Hall : forall cp : nat, In cp (conns (w_sock w)) ->
            exists c : rdpConn,
              w_heap w !! cp = Some c /\
              (needSendAck c = true -> ackReady c)).
  { intros cp Hcp. destruct (Halloc cp Hcp) as (c & Hc). exists c.
    split; [exact Hc|]. intros Hn. apply ackBlocked_ready.
    pose proof (Hfit cp c Hcp Hc) as Hb. rewrite Hn in Hb. exact Hb. }
  destruct (rdpContextAckLoop_flushes (w_sock w) (conns (w_sock w))
              (w_heap w) Hnodup Hall) as
    (heap' & out & Hrun & Hin & Hout & Hacks).
  exists heap', out. unfold rdpContextAck. rewrite Hrun.
  split; [reflexivity|]. split; [exact Hin|]. split; [exact Hout|].
  split; [exact Hacks|].
  unfold owingAck.
  assert (Hnone : forall cp : nat, In cp (conns (w_sock w)) ->
            match heap' !! cp with
            | Some c => needSendAck c
            | None => false
            end = false).
  { intros cp Hcp. destruct (Hall cp Hcp) as (c & Hc & _).
    rewrite (Hin cp c Hcp Hc). unfold ackedConn.
    destruct (needSendAck c) eqn:Hn; [destruct c; reflexivity|exact Hn]. }
  clear -Hnone. revert Hnone.
  induction (conns (w_sock w)) as [|cp l IH]; intros Hnone; [reflexivity|].
  cbn [List.filter]. rewrite (Hnone cp) by (left; reflexivity).
  apply IH. intros q Hq. apply Hnone. right. exact Hq.
Qed.

Lemma rdpContextAck_flushes_witness :
  (exists (heap' : gmap nat rdpConn) (out : list datagram),
     rdpContextAck (Some ex_two)
     = Done (Some (mkWorld (w_sock ex_two) heap'), out) /\
     (forall (cp : nat) (c : rdpConn),
        In cp (conns (w_sock ex_two)) -> w_heap ex_two !! cp = Some c ->
        heap' !! cp = Some (ackedConn (w_sock ex_two) c)) /\
     (forall cp : nat,
        ~ In cp (conns (w_sock ex_two)) ->
        heap' !! cp = w_heap ex_two !! cp) /\
     Forall2 (fun d cp => exists c : rdpConn,
                w_heap ex_two !! cp = Some c /\ ackOf c d)
       out (owingAck (w_heap ex_two) (conns (w_sock ex_two))) /\
     owingAck heap' (conns (w_sock ex_two)) = []) /\
  rdpContextAck (Some ex_two_blocked) = AssertFailed.
Proof.
  split.
  - apply (proj2 (rdpContextAck_flushes ex_two
                    ltac:(repeat constructor; cbn; intuition discriminate)
                    ltac:(intros cp [<-|[<-|[]]]; eexists;
                          vm_compute; reflexivity))).
    intros cp c [<-|[<-|[]]] Hc; vm_compute in Hc; injection Hc as <-;
      vm_compute; reflexivity.
  - apply (proj1 (rdpContextAck_flushes ex_two_blocked
                    ltac:(repeat constructor; cbn; intuition discriminate)
                    ltac:(intros cp [<-|[<-|[]]]; eexists;
                          vm_compute; reflexivity))).
    exists 1%nat, ex_blocked. split; [right; left; reflexivity|].
    split; vm_compute; reflexivity.
Defined.
